(** * SmartScheduling: the scheduling / conflict engine

    A shallow embedding of the backend's interval arithmetic
    ([utils/time.js]), of the session controller
    ([controllers/sessionController.js]: [bookSession],
    [checkRescheduleSession], [rescheduleSession]), of the
    public slot listing ([controllers/publicController.js]) and of the
    suggestion service ([services/schedulingService.js]).

    Conventions of the embedding.
    - A JavaScript [Date] is its [getTime()] value: an integer number of
      milliseconds since the epoch, in [Z].  A number that a caller chooses
      freely and the code computes with ([sessionMinutes]) is a rational
      in [Q]; the rounding of doubles is not modelled.
    - A Mongo collection is the list of its documents in natural order;
      [findOne] returns the first match, [create] appends, [save] replaces
      the document that has the same [_id].
    - A stored "HH:mm" string is the pair of its two numeric fields; the
      strings are taken to be zero-padded ("09:00"), on which the three
      ways the source reads them ([split(":")], [slice] with [parseInt],
      [setHours]) agree.
    - A reference ([ObjectId] with [ref]) is the id it holds.  [populate]
      replaces it by the profile of that id, or by [null] when the store
      has no such profile; a query for the reference [null] matches no
      document, the schemas requiring the reference.
    - A handler returns its HTTP response together with the database it
      leaves behind. *)

From Stdlib Require Import QArith Qround Lqa.
From Stdlib Require Import ZArith List Bool Lia String Ascii.
From Stdlib Require Import Sorted Permutation.
Import ListNotations.
Open Scope Z_scope.

(* ================================================================== *)
(** * Values that cross the HTTP boundary *)

(** A JSON body field as the handlers inspect it: absent or [null]
    (the test [v == null]), a string, or a number. *)
Inductive JsVal : Type :=
| JNull
| JStr (s : string)
| JNum (n : Z).

Module Js.

(** White space removed by [String.prototype.trim] (ASCII range). *)
Definition isSpace (c : ascii) : bool :=
  let n := nat_of_ascii c in
  ((9 <=? n)%nat && (n <=? 13)%nat) || (n =? 32)%nat.

Fixpoint trimStart (s : string) : string :=
  match s with
  | EmptyString => EmptyString
  | String c r => if isSpace c then trimStart r else s
  end.

(** [trimEnd] keeps a character when something other than white space
    follows it or when it is itself not white space. *)
Fixpoint trimEnd (s : string) : string :=
  match s with
  | EmptyString => EmptyString
  | String c r =>
      match trimEnd r with
      | EmptyString => if isSpace c then EmptyString else String c EmptyString
      | r' => String c r'
      end
  end.

Definition trim (s : string) : string := trimEnd (trimStart s).

(** Truthiness of a string: [!s] holds exactly for the empty string. *)
Definition isEmpty (s : string) : bool :=
  match s with EmptyString => true | _ => false end.

Definition isHex (c : ascii) : bool :=
  let n := nat_of_ascii c in
  ((48 <=? n)%nat && (n <=? 57)%nat)
  || ((65 <=? n)%nat && (n <=? 70)%nat)
  || ((97 <=? n)%nat && (n <=? 102)%nat).

Fixpoint allChars (p : ascii -> bool) (s : string) : bool :=
  match s with
  | EmptyString => true
  | String c r => p c && allChars p r
  end.

End Js.

(* ================================================================== *)
(** * Dates *)

Module DateTime.

Definition MS_PER_MINUTE : Z := 60000.
Definition MS_PER_HOUR : Z := 3600000.
Definition MS_PER_DAY : Z := 86400000.

(** [d.getUTCDay()]: 0 is Sunday; the epoch fell on a Thursday. *)
Definition getUTCDay (d : Z) : Z := (d / MS_PER_DAY + 4) mod 7.

Definition getUTCHours (d : Z) : Z := (d mod MS_PER_DAY) / MS_PER_HOUR.

Definition getUTCMinutes (d : Z) : Z := (d mod MS_PER_HOUR) / MS_PER_MINUTE.

(** The local-time accessors of [schedulingService.js] depend on the
    server's time zone; [tz] is its offset from UTC in milliseconds,
    taken as constant (no daylight-saving change inside a request). *)
Definition getDay (tz d : Z) : Z := getUTCDay (d + tz).

(** [x = new Date(d); x.setHours(h, m, 0, 0)]: local midnight of [d]'s
    day plus [h] hours and [m] minutes; out-of-range fields carry over. *)
Definition setHours (tz d h m : Z) : Z :=
  (d + tz) - (d + tz) mod MS_PER_DAY + h * MS_PER_HOUR + m * MS_PER_MINUTE - tz.

(** [d.setDate(d.getDate() + 1)]. *)
Definition nextDay (d : Z) : Z := d + MS_PER_DAY.

(** [d.getMinutes()], a whole number from 0 to 59. *)
Definition getMinutes (tz d : Z) : Z := ((d + tz) mod MS_PER_HOUR) / MS_PER_MINUTE.

(** ToIntegerOrInfinity of ECMAScript on a finite number: the fraction is
    dropped, towards zero. *)
Definition toInteger (x : Q) : Z := if Qle_bool 0 x then Qfloor x else Qceiling x.

(** [d.setMinutes(min)]: MakeTime takes the integer part of [min] for the
    minutes field and keeps hour, seconds and milliseconds; a field out of
    range carries over. *)
Definition setMinutes (tz d : Z) (min : Q) : Z :=
  d + (toInteger min - getMinutes tz d) * MS_PER_MINUTE.

(** [new Date(time)] on a number: TimeClip takes its integer part. *)
Definition ofNumber (time : Q) : Z := toInteger time.

End DateTime.

(** Zero-padded "HH:mm" wall-clock strings, by their fields. *)
Module HHmm.
Record t : Type := mk { hh : Z; mm : Z }.

(** [timeToMinutes]: [const [h, m] = t.split(":").map(Number); h * 60 + m]. *)
Definition timeToMinutes (x : t) : Z := hh x * 60 + mm x.

(** [minutesToTime]: [floor(m / 60)] and [m % 60]. *)
Definition minutesToTime (m : Z) : t := mk (m / 60) (m mod 60).
End HHmm.

(* ================================================================== *)
(** * IntervalMath: utils/time.js and the two overlap tests *)

Module Interval.
Record t : Type := mk { start : Z; end_ : Z }.
End Interval.

Module IntervalMath.

(** [overlapInterval(a, b)] of utils/time.js; [None] is [null]. *)
Definition overlapInterval (a b : Interval.t) : option Interval.t :=
  let start := Z.max (Interval.start a) (Interval.start b) in
  let end_ := Z.min (Interval.end_ a) (Interval.end_ b) in
  if start >=? end_ then None else Some (Interval.mk start end_).

(** [overlapQuery(start, end)] builds the Mongo filter
    [{ start: { $lt: end }, end: { $gt: start } }]; this is the filter
    applied to a stored document with fields [start], [end]. *)
Definition overlapQuery (start end_ : Z) (existing : Interval.t) : bool :=
  (Interval.start existing <? end_) && (Interval.end_ existing >? start).

(** [timesOverlap(start1, end1, start2, end2)] of the availability
    controller. *)
Definition timesOverlap (start1 end1 start2 end2 : HHmm.t) : bool :=
  let s1 := HHmm.timeToMinutes start1 in
  let e1 := HHmm.timeToMinutes end1 in
  let s2 := HHmm.timeToMinutes start2 in
  let e2 := HHmm.timeToMinutes end2 in
  (s1 <? e2) && (e1 >? s2).

(** The spec's [overlaps(a, b)]: [a.start < b.end && a.end > b.start]. *)
Definition overlaps (a b : Interval.t) : bool :=
  (Interval.start a <? Interval.end_ b) && (Interval.end_ a >? Interval.start b).

(** The spec's [contains(outer, inner)]. *)
Definition contains (outer inner : Interval.t) : bool :=
  (Interval.start inner >=? Interval.start outer)
  && (Interval.end_ inner <=? Interval.end_ outer).

End IntervalMath.

(* ================================================================== *)
(** * Data model: models/Session.js, Therapist.js, Client.js, Availability.js *)

(** A Mongo ObjectId is twelve bytes; it is held as the number its 24 hex
    digits denote, so that ids compare as Mongo compares them. *)
Module Oid.
Definition t := N.

Definition eqb (a b : t) : bool := N.eqb a b.

(** [isValidObjectIdString(str)]: [/^[a-fA-F0-9]{24}$/.test(str.trim())]. *)
Definition isValidObjectIdString (str : string) : bool :=
  let s := Js.trim str in
  (String.length s =? 24)%nat && Js.allChars Js.isHex s.

Definition hexDigit (c : ascii) : N :=
  let n := N_of_ascii c in
  (if n <=? 57 then n - 48 else if n <=? 70 then n - 55 else n - 87)%N.

Fixpoint hexValue (acc : N) (s : string) : N :=
  match s with
  | EmptyString => acc
  | String c r => hexValue (acc * 16 + hexDigit c)%N r
  end.

(** Mongoose's cast of a 24-hex string to an ObjectId. *)
Definition cast (s : string) : t := hexValue 0%N s.
End Oid.

Inductive Status : Type := scheduled | cancelled | completed.

Definition Status_eqb (a b : Status) : bool :=
  match a, b with
  | scheduled, scheduled | cancelled, cancelled | completed, completed => true
  | _, _ => false
  end.

Inductive Day : Type :=
  SUNDAY | MONDAY | TUESDAY | WEDNESDAY | THURSDAY | FRIDAY | SATURDAY.

Definition Day_eqb (a b : Day) : bool :=
  match a, b with
  | SUNDAY, SUNDAY | MONDAY, MONDAY | TUESDAY, TUESDAY | WEDNESDAY, WEDNESDAY
  | THURSDAY, THURSDAY | FRIDAY, FRIDAY | SATURDAY, SATURDAY => true
  | _, _ => false
  end.

Definition DAYS_ENUM : list Day :=
  [SUNDAY; MONDAY; TUESDAY; WEDNESDAY; THURSDAY; FRIDAY; SATURDAY].

Module Session.
Record t : Type := mk {
  _id : Oid.t;
  therapist : Oid.t;
  client : Oid.t;
  start : Z;
  end_ : Z;
  status : Status;
  notes : option string
}.

Definition interval (s : t) : Interval.t := Interval.mk (start s) (end_ s).

(** The filter [{ status: { $ne: "cancelled" } }]. *)
Definition active (s : t) : bool := negb (Status_eqb (status s) cancelled).

(** The unique index [{ therapist, start, end, status }] with
    [partialFilterExpression: { status: "scheduled" }]: do two documents
    hold the same key inside the index? *)
Definition sameIndexKey (a b : t) : bool :=
  Status_eqb (status a) scheduled && Status_eqb (status b) scheduled
  && Oid.eqb (therapist a) (therapist b)
  && (start a =? start b) && (end_ a =? end_ b).
End Session.

(** An Availability document whose two times are zero-padded "HH:mm"
    texts, held as hour and minute.  The documents with their times as
    text, zero-padded or not, are [AvailabilityDoc.t]. *)
Module Availability.
Record t : Type := mk {
  therapist : Oid.t;
  dayOfWeek : Day;
  startTime : HHmm.t;
  endTime : HHmm.t
}.
End Availability.

Module Therapist.
Record TimeBlock : Type := mkBlock {
  dayOfWeek : Z;
  startTime : HHmm.t;
  endTime : HHmm.t
}.

Record TimeOff : Type := mkOff { start : Z; end_ : Z }.

Definition offInterval (o : TimeOff) : Interval.t := Interval.mk (start o) (end_ o).

Record t : Type := mk {
  _id : Oid.t;
  name : string;
  weeklyAvailability : list TimeBlock;
  timeOff : list TimeOff
}.
End Therapist.

Module Client.
Record TimeRange : Type := mkRange { startTime : HHmm.t; endTime : HHmm.t }.

(** An absent or empty string is [None]: both are falsy in
    [if (noEarlyThan)]. *)
Record HardConstraints : Type := mkHard {
  noEarlyThan : option HHmm.t;
  noLaterThan : option HHmm.t
}.

Record Preferences : Type := mkPrefs {
  preferredDaysOfWeek : list Z;
  preferredTimeRanges : list TimeRange;
  preferredTherapistIds : list Oid.t;
  hardConstraints : option HardConstraints
}.

(** [client.preferences || {}]. *)
Definition noPreferences : Preferences := mkPrefs [] [] [] None.

Record t : Type := mk {
  _id : Oid.t;
  email : option string;
  preferences : option Preferences
}.
End Client.

(** The four collections the engine reads and writes. *)
Record Db : Type := mkDb {
  sessions : list Session.t;
  therapists : list Therapist.t;
  clients : list Client.t;
  availability : list Availability.t
}.

Definition withSessions (db : Db) (l : list Session.t) : Db :=
  mkDb l (therapists db) (clients db) (availability db).

(** Errors a Mongoose call throws in the modelled paths. *)
Inductive Thrown : Type :=
| CastError
| DuplicateKey.

Module Mongo.

Definition findSessionById (id : Oid.t) (l : list Session.t) : option Session.t :=
  find (fun s => Oid.eqb (Session._id s) id) l.

Definition findTherapistById (id : Oid.t) (l : list Therapist.t) : option Therapist.t :=
  find (fun t => Oid.eqb (Therapist._id t) id) l.

Definition findClientById (id : Oid.t) (l : list Client.t) : option Client.t :=
  find (fun c => Oid.eqb (Client._id c) id) l.

(** The [_id] Mongo gives a new document: one no stored document has. *)
Definition freshId (l : list Session.t) : Oid.t :=
  (1 + fold_right N.max 0 (map Session._id l))%N.

(** Would writing [s] break the unique index, given the other documents? *)
Definition violatesIndex (s : Session.t) (l : list Session.t) : bool :=
  existsb (fun x => negb (Oid.eqb (Session._id x) (Session._id s))
                    && Session.sameIndexKey x s) l.

(** [Session.create([doc])]: E11000 or the stored document. *)
Definition create (therapist client : Oid.t) (start end_ : Z) (notes : option string)
           (l : list Session.t) : Thrown + (Session.t * list Session.t) :=
  let created := Session.mk (freshId l) therapist client start end_ scheduled notes in
  if violatesIndex created l then inl DuplicateKey
  else inr (created, l ++ [created]).

(** [doc.save()] of a document read with [findById]. *)
Definition save (doc : Session.t) (l : list Session.t) : Thrown + list Session.t :=
  if violatesIndex doc l then inl DuplicateKey
  else inr (map (fun s => if Oid.eqb (Session._id s) (Session._id doc) then doc else s) l).

End Mongo.

(* ================================================================== *)
(** * The request environment and the replies *)

(** What a handler reads besides the database: [process.env.NODE_ENV ===
    "production"], the clock ([new Date()]) and the platform's
    [new Date(string).getTime()] ([None] for an invalid date). *)
Record Env : Type := mkEnv {
  production : bool;
  now : Z;
  newDate : string -> option Z
}.

(** [user.role]: "admin", "client" or "therapist". *)
Inductive Role : Type := role_admin | role_client | role_therapist.

(** The value of [resolveActorIds(req)]; identification of the caller is
    the auth layer's business. *)
Record ActorIds : Type := mkActor {
  role : option Role;
  clientId : option Oid.t;
  therapistId : option Oid.t
}.

Inductive Reason : Type :=
| INVALID_TIME | PAST | NOT_FOUND | FORBIDDEN | INVALID_STATUS
| NOT_IN_AVAILABILITY | CONFLICT | SERVER_ERROR.

(** [res.status(code).json(...)], by the shape of the body. *)
Inductive Reply : Type :=
| SessionReply (code : Z) (s : Session.t)
| MessageReply (code : Z) (message : string)
| ThrownReply (code : Z) (err : Thrown)
| CheckReply (code : Z) (canReschedule : bool) (reason : option Reason)
             (message : option string)
| CheckThrownReply (code : Z) (err : Thrown).

Definition statusCode (r : Reply) : Z :=
  match r with
  | SessionReply c _ | MessageReply c _ | ThrownReply c _
  | CheckReply c _ _ _ | CheckThrownReply c _ => c
  end.

(** Early [return res....] inside a handler: [inl] is the reply already
    sent, [inr] the value the handler goes on with. *)
Definition Handler (A : Type) : Type := (Reply + A)%type.

Definition ret {A} (a : A) : Handler A := inr a.

Definition bind {A B} (m : Handler A) (k : A -> Handler B) : Handler B :=
  match m with
  | inl r => inl r
  | inr a => k a
  end.

(** [if (c) return r;] *)
Definition returnIf (c : bool) (r : Reply) : Handler unit :=
  if c then inl r else inr tt.

Notation "x <- m ;; k" := (bind m (fun x => k))
  (at level 61, m at next level, right associativity).
Notation "m ;;; k" := (bind m (fun _ => k))
  (at level 61, right associativity).

(* ================================================================== *)
(** * controllers/sessionController.js *)

Module SessionController.

Import DateTime.

(** [toDate(value)]. *)
Definition toDate (env : Env) (value : JsVal) : option Z :=
  match value with
  | JNull => None
  | JStr s => if Js.isEmpty s then None else newDate env s
  | JNum n => if Z.abs n <=? 8640000000000000 then Some n else None
  end.

(** [dateToDayOfWeekUTC(d)]: [DAYS_ENUM[d.getUTCDay()] ?? "MONDAY"]. *)
Definition dateToDayOfWeekUTC (d : Z) : Day :=
  nth (Z.to_nat (getUTCDay d)) DAYS_ENUM MONDAY.

(** [dateToHHmmUTC(d)]. *)
Definition dateToHHmmUTC (d : Z) : HHmm.t :=
  HHmm.mk (getUTCHours d) (getUTCMinutes d).

(** [parseInt(s.slice(0, 2), 10) * 60 + parseInt(s.slice(3), 10)], on a
    zero-padded string; on the text itself, zero-padded or not, this is
    [TimeText.sliceMinutes]. *)
Definition minutesOf (s : HHmm.t) : Z := HHmm.hh s * 60 + HHmm.mm s.

(** A filter [{ field: id }] on a reference, for an [id] that may be
    [null]: the references of the schemas are required, so that [null]
    matches no stored document. *)
Definition refIs (field : Oid.t) (id : option Oid.t) : bool :=
  match id with
  | Some i => Oid.eqb field i
  | None => false
  end.

(** [isWithinAvailability(therapistId, start, end)], over zero-padded
    Availability documents; [AvailabilityDoc.isWithinAvailability] is the
    same function over the stored texts. *)
Definition isWithinAvailability (db : Db) (therapistId : option Oid.t) (start end_ : Z)
  : bool :=
  let dayOfWeek := dateToDayOfWeekUTC start in
  let startStr := dateToHHmmUTC start in
  let endStr := dateToHHmmUTC end_ in
  let slots := filter (fun a => refIs (Availability.therapist a) therapistId
                                && Day_eqb (Availability.dayOfWeek a) dayOfWeek)
                      (availability db) in
  match slots with
  | [] => false
  | _ =>
      let startMin := minutesOf startStr in
      let endMin := minutesOf endStr in
      existsb (fun s =>
                 let sMin := minutesOf (Availability.startTime s) in
                 let eMin := minutesOf (Availability.endTime s) in
                 (startMin >=? sMin) && (endMin <=? eMin)) slots
  end.

(** A session read with
    [.populate("therapist", "name").populate("client", "name email")]: each
    reference is replaced by the profile it names, or by [null] when that
    profile is gone.  Of a populated profile the handlers read the [_id]
    only; [p_therapist] is [existing.therapist?._id ?? existing.therapist]
    and [p_client] is [existing.client?._id ?? existing.client]. *)
Record Populated : Type := mkPopulated {
  doc : Session.t;
  p_therapist : option Oid.t;
  p_client : option Oid.t
}.

Definition populate (db : Db) (s : Session.t) : Populated :=
  mkPopulated s
    (option_map Therapist._id
                (Mongo.findTherapistById (Session.therapist s) (therapists db)))
    (option_map Client._id
                (Mongo.findClientById (Session.client s) (clients db))).

(** [String(x?._id || x) === String(id)]: never for a reference that
    populated to [null]. *)
Definition sameId (populated : option Oid.t) (id : Oid.t) : bool :=
  match populated with
  | Some x => Oid.eqb x id
  | None => false
  end.

(** [canAccessSessionStrict(actorIds, sessionDoc)]. *)
Definition canAccessSessionStrict (actorIds : ActorIds) (sessionDoc : Populated) : bool :=
  match role actorIds with
  | None => false
  | Some role_admin => true
  | Some role_client =>
      match clientId actorIds with
      | None => false
      | Some c => sameId (p_client sessionDoc) c
      end
  | Some role_therapist =>
      match therapistId actorIds with
      | None => false
      | Some t => sameId (p_therapist sessionDoc) t
      end
  end.

(** [Session.findOne({ therapist, status: { $ne: "cancelled" },
    ...overlapQuery(start, end) })], with [_id: { $ne: exclude }] when
    [exclude] is given. *)
Definition notExcluded (exclude : option Oid.t) (s : Session.t) : bool :=
  match exclude with
  | None => true
  | Some id => negb (Oid.eqb (Session._id s) id)
  end.

Definition findTherapistConflict (exclude : option Oid.t) (therapistId : option Oid.t)
           (start end_ : Z) (l : list Session.t) : option Session.t :=
  find (fun s => notExcluded exclude s
                 && refIs (Session.therapist s) therapistId
                 && Session.active s
                 && IntervalMath.overlapQuery start end_ (Session.interval s)) l.

Definition findClientConflict (exclude : option Oid.t) (clientId : option Oid.t)
           (start end_ : Z) (l : list Session.t) : option Session.t :=
  find (fun s => notExcluded exclude s
                 && refIs (Session.client s) clientId
                 && Session.active s
                 && IntervalMath.overlapQuery start end_ (Session.interval s)) l.

(** ** POST /api/sessions *)

Record BookBody : Type := mkBookBody {
  b_therapistId : JsVal;
  b_startAt : JsVal;
  b_endAt : JsVal;
  b_notes : option string
}.

Record BookRequest : Type := mkBookRequest {
  book_actor : ActorIds;
  book_body : BookBody
}.

Definition validationFailure (message : string) : Reply := MessageReply 400 message.

Definition msgNotWithin : string :=
  "Requested time is not within the therapist's availability for that day.".

(** Lines 268-306: the caller's client id and the body fields. *)
Definition bookParse (env : Env) (req : BookRequest) : Handler (Oid.t * string * Z * Z) :=
  match clientId (book_actor req) with
  | None => inl (MessageReply 403 "Not authorized to book as a client")
  | Some clientId =>
      therapistIdStr <-
        match b_therapistId (book_body req) with
        | JStr therapistId =>
            let therapistIdStr := Js.trim therapistId in
            returnIf (Js.isEmpty therapistIdStr)
                     (validationFailure "therapistId is required") ;;;
            returnIf (negb (Oid.isValidObjectIdString therapistIdStr))
                     (validationFailure "therapistId must be a valid therapist ID (24 hex characters). Use IDs from the therapist list or Book a session.") ;;;
            ret therapistIdStr
        | _ => inl (validationFailure "therapistId is required")
        end ;;
      startDate <-
        match b_startAt (book_body req) with
        | JStr startAt =>
            match toDate env (JStr (Js.trim startAt)) with
            | None => inl (validationFailure "startAt must be a valid ISO 8601 date (e.g. 2026-02-09T09:00:00.000Z)")
            | Some d => ret d
            end
        | _ => inl (validationFailure "startAt is required")
        end ;;
      endDate <-
        match b_endAt (book_body req) with
        | JStr endAt =>
            match toDate env (JStr (Js.trim endAt)) with
            | None => inl (validationFailure "endAt must be a valid ISO 8601 date (e.g. 2026-02-09T09:30:00.000Z)")
            | Some d => ret d
            end
        | _ => inl (validationFailure "endAt is required")
        end ;;
      returnIf (endDate <=? startDate) (validationFailure "endAt must be after startAt") ;;;
      ret (clientId, therapistIdStr, startDate, endDate)
  end.

(** Lines 308-327: the two lookups and the availability test. *)
Definition bookLookups (db : Db) (clientId : Oid.t) (therapistIdStr : string)
           (startDate endDate : Z) : Handler unit :=
  match Mongo.findTherapistById (Oid.cast therapistIdStr) (therapists db) with
  | None => inl (MessageReply 404 "Therapist not found")
  | Some _ =>
      match Mongo.findClientById clientId (clients db) with
      | None => inl (MessageReply 403 "Client profile not found")
      | Some _ =>
          returnIf (negb (isWithinAvailability db (Some (Oid.cast therapistIdStr))
                                               startDate endDate))
                   (validationFailure msgNotWithin)
      end
  end.

(** Lines 336-373, the body of [withTransaction], with the handling of
    what it throws (lines 374-378 and 447-449). *)
Definition bookInTransaction (db : Db) (clientId therapistId : Oid.t)
           (startDate endDate : Z) (notes : option string) : Reply * Db :=
  match findTherapistConflict None (Some therapistId) startDate endDate (sessions db) with
  | Some _ => (MessageReply 409 "Slot already booked", db)
  | None =>
      match findClientConflict None (Some clientId) startDate endDate (sessions db) with
      | Some _ => (MessageReply 409 "You already have a session at that time.", db)
      | None =>
          match Mongo.create therapistId clientId startDate endDate notes (sessions db) with
          | inl DuplicateKey => (MessageReply 409 "Slot already booked", db)
          | inl e => (ThrownReply 400 e, db)
          | inr (created, l) => (SessionReply 201 created, withSessions db l)
          end
      end
  end.

(** Lines 383-425, the branch without a transaction. *)
Definition bookDirect (db : Db) (clientId therapistId : Oid.t)
           (startDate endDate : Z) (notes : option string) : Reply * Db :=
  match findTherapistConflict None (Some therapistId) startDate endDate (sessions db) with
  | Some _ => (MessageReply 409 "Slot already booked", db)
  | None =>
      match findClientConflict None (Some clientId) startDate endDate (sessions db) with
      | Some _ => (MessageReply 409 "You already have a session at that time.", db)
      | None =>
          match Mongo.create therapistId clientId startDate endDate notes (sessions db) with
          | inl DuplicateKey => (MessageReply 409 "Slot already booked", db)
          | inl e => (ThrownReply 400 e, db)
          | inr (created, l) => (SessionReply 201 created, withSessions db l)
          end
      end
  end.

(** [bookSession(req, res)]. *)
Definition bookSession (env : Env) (req : BookRequest) (db : Db) : Reply * Db :=
  match bookParse env req with
  | inl r => (r, db)
  | inr (clientId, therapistIdStr, startDate, endDate) =>
      match bookLookups db clientId therapistIdStr startDate endDate with
      | inl r => (r, db)
      | inr _ =>
          let useTransactions := production env in
          if useTransactions
          then bookInTransaction db clientId (Oid.cast therapistIdStr)
                                 startDate endDate (b_notes (book_body req))
          else bookDirect db clientId (Oid.cast therapistIdStr)
                          startDate endDate (b_notes (book_body req))
      end
  end.

(** ** POST /api/sessions/:id/reschedule-check and
       PATCH /api/sessions/:id/reschedule *)

Record RescheduleBody : Type := mkRescheduleBody {
  r_startAt : JsVal;
  r_newStart : JsVal;
  r_start : JsVal;
  r_endAt : JsVal;
  r_newEnd : JsVal;
  r_end : JsVal
}.

(** [params_id] is [req.params.id] cast to an ObjectId, [None] when the
    cast fails (then [Session.findById] throws a CastError). *)
Record RescheduleRequest : Type := mkRescheduleRequest {
  params_id : option Oid.t;
  resched_actor : ActorIds;
  resched_body : RescheduleBody
}.

(** [a ?? b]. *)
Definition nullish (a b : JsVal) : JsVal :=
  match a with
  | JNull => b
  | _ => a
  end.

(** [raw == null || (typeof raw === "string" && !raw.trim())]. *)
Definition isMissing (raw : JsVal) : bool :=
  match raw with
  | JNull => true
  | JStr s => Js.isEmpty (Js.trim s)
  | JNum _ => false
  end.

(** [typeof raw === "string" ? raw.trim() : raw]. *)
Definition trimmed (raw : JsVal) : JsVal :=
  match raw with
  | JStr s => JStr (Js.trim s)
  | _ => raw
  end.

Definition makeResult (canReschedule : bool) (reason : option Reason)
           (message : option string) : Reply :=
  CheckReply 200 canReschedule reason message.

Definition failCheck (reason : Reason) (message : string) : Reply :=
  makeResult false (Some reason) (Some message).

(** [Session.findById(req.params.id).populate(...).populate(...)]. *)
Definition findExisting (req : RescheduleRequest) (db : Db) : Thrown + option Populated :=
  match params_id req with
  | None => inl CastError
  | Some id => inr (option_map (populate db) (Mongo.findSessionById id (sessions db)))
  end.

(** Lines 533-591 of [checkRescheduleSession]: the two instants, read
    from [startAt] and [endAt] only, and the test against the clock. *)
Definition checkParse (env : Env) (req : RescheduleRequest) : Handler (Z * Z) :=
  let startAtRaw := r_startAt (resched_body req) in
  let endAtRaw := r_endAt (resched_body req) in
  returnIf (isMissing startAtRaw) (failCheck INVALID_TIME "startAt is required") ;;;
  match toDate env (trimmed startAtRaw) with
  | None => inl (failCheck INVALID_TIME "startAt must be a valid ISO 8601 date (e.g. 2026-02-09T09:00:00.000Z)")
  | Some start =>
      returnIf (isMissing endAtRaw) (failCheck INVALID_TIME "endAt is required") ;;;
      match toDate env (trimmed endAtRaw) with
      | None => inl (failCheck INVALID_TIME "endAt must be a valid ISO 8601 date (e.g. 2026-02-09T09:30:00.000Z)")
      | Some end_ =>
          returnIf (end_ <=? start) (failCheck INVALID_TIME "endAt must be after startAt") ;;;
          returnIf (start <=? now env)
                   (failCheck PAST "Cannot reschedule to a time in the past") ;;;
          ret (start, end_)
      end
  end.

(** [checkRescheduleSession(req, res)]; it writes nothing. *)
Definition checkRescheduleSession (env : Env) (req : RescheduleRequest) (db : Db) : Reply :=
  match checkParse env req with
  | inl r => r
  | inr (start, end_) =>
  match findExisting req db with
  | inl e => CheckThrownReply 500 e
  | inr None => failCheck NOT_FOUND "Session not found"
  | inr (Some existing) =>
  if Status_eqb (Session.status (doc existing)) cancelled
     || negb (Status_eqb (Session.status (doc existing)) scheduled)
  then failCheck INVALID_STATUS
         (if Status_eqb (Session.status (doc existing)) cancelled
          then "Cancelled sessions cannot be rescheduled"
          else "Only scheduled sessions can be rescheduled")
  else
  if negb (canAccessSessionStrict (resched_actor req) existing)
  then failCheck FORBIDDEN "You do not have permission to reschedule this session" else
  let therapistId := p_therapist existing in
  let clientId := p_client existing in
  if negb (isWithinAvailability db therapistId start end_)
  then failCheck NOT_IN_AVAILABILITY "New time is not within the therapist's availability for that day." else
  match findTherapistConflict (Some (Session._id (doc existing))) therapistId start end_
                              (sessions db) with
  | Some _ => failCheck CONFLICT "Therapist already has a session at that time."
  | None =>
  match findClientConflict (Some (Session._id (doc existing))) clientId start end_
                           (sessions db) with
  | Some _ => failCheck CONFLICT "You already have a session at that time."
  | None => makeResult true None None
  end end end end.

(** [existing.start = newStart; existing.end = newEnd]; [save] writes the
    two instants and leaves the references as they are stored. *)
Definition movedTo (existing : Session.t) (newStart newEnd : Z) : Session.t :=
  Session.mk (Session._id existing) (Session.therapist existing)
             (Session.client existing) newStart newEnd
             (Session.status existing) (Session.notes existing).

(** Lines 693-713 of [rescheduleSession]: the two instants, read from
    [startAt ?? newStart ?? start] and [endAt ?? newEnd ?? end]. *)
Definition rescheduleParse (env : Env) (req : RescheduleRequest) : Handler (Z * Z) :=
  let body := resched_body req in
  let startAtRaw := nullish (nullish (r_startAt body) (r_newStart body)) (r_start body) in
  let endAtRaw := nullish (nullish (r_endAt body) (r_newEnd body)) (r_end body) in
  returnIf (isMissing startAtRaw) (validationFailure "startAt is required") ;;;
  match toDate env (trimmed startAtRaw) with
  | None => inl (validationFailure "startAt must be a valid ISO 8601 date (e.g. 2026-02-09T09:00:00.000Z)")
  | Some newStart =>
      returnIf (isMissing endAtRaw) (validationFailure "endAt is required") ;;;
      match toDate env (trimmed endAtRaw) with
      | None => inl (validationFailure "endAt must be a valid ISO 8601 date (e.g. 2026-02-09T09:30:00.000Z)")
      | Some newEnd =>
          returnIf (newEnd <=? newStart) (validationFailure "endAt must be after startAt") ;;;
          ret (newStart, newEnd)
      end
  end.

(** [rescheduleSession(req, res)]. *)
Definition rescheduleSession (env : Env) (req : RescheduleRequest) (db : Db) : Reply * Db :=
  match rescheduleParse env req with
  | inl r => (r, db)
  | inr (newStart, newEnd) =>
  match findExisting req db with
  | inl e => (ThrownReply 400 e, db)
  | inr None => (MessageReply 404 "Session not found", db)
  | inr (Some existing) =>
  if Status_eqb (Session.status (doc existing)) cancelled
  then (MessageReply 400 "Cancelled sessions cannot be rescheduled", db) else
  if negb (Status_eqb (Session.status (doc existing)) scheduled)
  then (MessageReply 400 "Only scheduled sessions can be rescheduled", db) else
  if negb (canAccessSessionStrict (resched_actor req) existing)
  then (MessageReply 403 "You do not have permission to reschedule this session", db) else
  let therapistId := p_therapist existing in
  let clientId := p_client existing in
  if negb (isWithinAvailability db therapistId newStart newEnd)
  then (validationFailure "New time is not within the therapist's availability for that day.", db) else
  match findTherapistConflict (Some (Session._id (doc existing))) therapistId newStart newEnd
                              (sessions db) with
  | Some _ => (MessageReply 409 "Therapist already has a session at that time.", db)
  | None =>
  match findClientConflict (Some (Session._id (doc existing))) clientId newStart newEnd
                           (sessions db) with
  | Some _ => (MessageReply 409 "You already have a session at that time.", db)
  | None =>
      let moved := movedTo (doc existing) newStart newEnd in
      match Mongo.save moved (sessions db) with
      | inl e => (ThrownReply 400 e, db)
      | inr l => (SessionReply 200 moved, withSessions db l)
      end
  end end end end.

End SessionController.

(* ================================================================== *)
(** * controllers/publicController.js *)

(** A [while] loop is run with a bound [fuel] on the number of times its
    test is evaluated; [None] means the bound was reached before the test
    failed.  A loop terminates when some bound gives [Some]. *)

Module PublicController.

Import DateTime.

(** [q_date] is [req.query.date]; [q_durationMinutes] is
    [Number(req.query.durationMinutes)], [None] standing for [NaN] (the
    parameter is absent or not numeric) and [Some n] for a whole number. *)
Record Query : Type := mkQuery {
  q_date : option string;
  q_durationMinutes : option Z
}.

Record TherapistSlots : Type := mkTherapistSlots {
  ts_therapistId : Oid.t;
  ts_therapistName : string;
  ts_slots : list HHmm.t
}.

Inductive SlotsReply : Type :=
| SlotsJson (result : list TherapistSlots)
| SlotsError (code : Z) (message : string).

(** [Math.max(5, Math.min(120, Number(q) || 30))]. *)
Definition durationMinutes (q : option Z) : Z :=
  let n := match q with
           | None => 30
           | Some 0 => 30
           | Some k => k
           end in
  Z.max 5 (Z.min 120 n).

Definition isDigit (c : ascii) : bool :=
  let n := nat_of_ascii c in ((48 <=? n)%nat && (n <=? 57)%nat).

Definition isDash (c : ascii) : bool := (nat_of_ascii c =? 45)%nat.

(** [/^\d{4}-\d{2}-\d{2}$/.test(dateStr)]. *)
Definition isDateString (dateStr : string) : bool :=
  match list_ascii_of_string dateStr with
  | [y1; y2; y3; y4; d1; m1; m2; d2; a1; a2] =>
      isDigit y1 && isDigit y2 && isDigit y3 && isDigit y4 && isDash d1
      && isDigit m1 && isDigit m2 && isDash d2 && isDigit a1 && isDigit a2
  | _ => false
  end.

(** [byTherapist.get(tid).push(range)], creating the entry when absent;
    a [Map] keeps its keys in order of first insertion. *)
Fixpoint pushRange (tid : Oid.t) (range : HHmm.t * HHmm.t)
         (byTherapist : list (Oid.t * list (HHmm.t * HHmm.t)))
  : list (Oid.t * list (HHmm.t * HHmm.t)) :=
  match byTherapist with
  | [] => [(tid, [range])]
  | (k, ranges) :: rest =>
      if Oid.eqb k tid then (k, ranges ++ [range]) :: rest
      else (k, ranges) :: pushRange tid range rest
  end.

Definition groupByTherapist (docs : list Availability.t)
  : list (Oid.t * list (HHmm.t * HHmm.t)) :=
  fold_left (fun m a => pushRange (Availability.therapist a)
                                  (Availability.startTime a, Availability.endTime a) m)
            docs [].

Definition HHmm_eqb (a b : HHmm.t) : bool :=
  (HHmm.hh a =? HHmm.hh b) && (HHmm.mm a =? HHmm.mm b).

(** Order of the zero-padded strings. *)
Definition HHmm_leb (a b : HHmm.t) : bool :=
  (HHmm.hh a <? HHmm.hh b) || ((HHmm.hh a =? HHmm.hh b) && (HHmm.mm a <=? HHmm.mm b)).

(** [set.add(x)]. *)
Definition setAdd (x : HHmm.t) (set : list HHmm.t) : list HHmm.t :=
  if existsb (HHmm_eqb x) set then set else set ++ [x].

Fixpoint insertSorted (x : HHmm.t) (l : list HHmm.t) : list HHmm.t :=
  match l with
  | [] => [x]
  | y :: r => if HHmm_leb x y then x :: l else y :: insertSorted x r
  end.

(** [[...xs].sort()]. *)
Definition sort (l : list HHmm.t) : list HHmm.t := fold_right insertSorted [] l.

(** The loop [while (m + durationMin <= endM) { set.add(...); m += durationMin; }]. *)
Fixpoint sliceRange (fuel : nat) (durationMin endM m : Z) (set : list HHmm.t)
  : option (list HHmm.t) :=
  match fuel with
  | O => None
  | S fuel' =>
      if m + durationMin <=? endM
      then sliceRange fuel' durationMin endM (m + durationMin)
                      (setAdd (HHmm.minutesToTime m) set)
      else Some set
  end.

Fixpoint sliceRanges (fuel : nat) (ranges : list (HHmm.t * HHmm.t)) (durationMin : Z)
         (set : list HHmm.t) : option (list HHmm.t) :=
  match ranges with
  | [] => Some set
  | (startTime, endTime) :: rest =>
      match sliceRange fuel durationMin (HHmm.timeToMinutes endTime)
                       (HHmm.timeToMinutes startTime) set with
      | None => None
      | Some set' => sliceRanges fuel rest durationMin set'
      end
  end.

(** [generateSlotTimes(ranges, durationMin)]. *)
Definition generateSlotTimes (fuel : nat) (ranges : list (HHmm.t * HHmm.t))
           (durationMin : Z) : option (list HHmm.t) :=
  match sliceRanges fuel ranges durationMin [] with
  | None => None
  | Some set => Some (sort set)
  end.

(** [new Date(`${dateStr}T${timeStr}:00.000Z`)], given
    [dateObj = new Date(dateStr + "T12:00:00.000Z")]: midnight of the date
    plus the minutes of [timeStr], a time of the day. *)
Definition slotStart (dateObj : Z) (timeStr : HHmm.t) : Z :=
  dateObj - 12 * MS_PER_HOUR + HHmm.timeToMinutes timeStr * MS_PER_MINUTE.

Definition slotEnd (dateObj : Z) (timeStr : HHmm.t) (durationMin : Z) : Z :=
  slotStart dateObj timeStr + durationMin * 60 * 1000.

(** [Session.findOne({ therapist, status: { $ne: "cancelled" },
    start: { $lt: endAt }, end: { $gt: startAt } })]. *)
Definition findOverlapping (therapistId : Oid.t) (startAt endAt : Z)
           (l : list Session.t) : option Session.t :=
  find (fun s => Oid.eqb (Session.therapist s) therapistId
                 && Session.active s
                 && (Session.start s <? endAt) && (Session.end_ s >? startAt)) l.

Definition freeSlotsOf (db : Db) (therapistId : Oid.t) (dateObj durationMin : Z)
           (allSlots : list HHmm.t) : list HHmm.t :=
  filter (fun timeStr =>
            match findOverlapping therapistId (slotStart dateObj timeStr)
                                  (slotEnd dateObj timeStr durationMin) (sessions db) with
            | Some _ => false
            | None => true
            end) allSlots.

(** [nameById.get(therapistId) ?? "Therapist"], with [t.name || "Therapist"]. *)
Definition therapistName (db : Db) (therapistId : Oid.t) : string :=
  match Mongo.findTherapistById therapistId (therapists db) with
  | Some t => if Js.isEmpty (Therapist.name t) then "Therapist" else Therapist.name t
  | None => "Therapist"
  end.

(** The loop [for (const therapistId of therapistIds)]. *)
Fixpoint collect (fuel : nat) (db : Db) (dateObj durationMin : Z)
         (byTherapist : list (Oid.t * list (HHmm.t * HHmm.t)))
  : option (list TherapistSlots) :=
  match byTherapist with
  | [] => Some []
  | (therapistId, ranges) :: rest =>
      match generateSlotTimes fuel ranges durationMin with
      | None => None
      | Some allSlots =>
          match collect fuel db dateObj durationMin rest with
          | None => None
          | Some result =>
              match allSlots with
              | [] => Some result
              | _ =>
                  let freeSlots := freeSlotsOf db therapistId dateObj durationMin allSlots in
                  match freeSlots with
                  | [] => Some result
                  | _ => Some (mkTherapistSlots therapistId (therapistName db therapistId)
                                               (sort freeSlots) :: result)
                  end
              end
          end
      end
  end.

(** [getAvailableSlots(req, res)]. *)
Definition getAvailableSlots (fuel : nat) (env : Env) (query : Query) (db : Db)
  : option SlotsReply :=
  let durationMinutes := durationMinutes (q_durationMinutes query) in
  match q_date query with
  | None => Some (SlotsError 400 "date is required and must be YYYY-MM-DD")
  | Some dateStr =>
      if negb (isDateString dateStr)
      then Some (SlotsError 400 "date is required and must be YYYY-MM-DD")
      else
        match newDate env (dateStr ++ "T12:00:00.000Z") with
        | None => Some (SlotsError 400 "Invalid date")
        | Some dateObj =>
            let dayOfWeek := nth (Z.to_nat (getUTCDay dateObj)) DAYS_ENUM MONDAY in
            let availabilityDocs :=
              filter (fun a => Day_eqb (Availability.dayOfWeek a) dayOfWeek)
                     (availability db) in
            let byTherapist := groupByTherapist availabilityDocs in
            match collect fuel db dateObj durationMinutes byTherapist with
            | None => None
            | Some result => Some (SlotsJson result)
            end
        end
  end.

End PublicController.

(* ================================================================== *)
(** * services/schedulingService.js *)

Module Slot.
Record t : Type := mk { therapist : Oid.t; start : Z; end_ : Z }.

Definition interval (s : t) : Interval.t := Interval.mk (start s) (end_ s).
End Slot.

Module SchedulingService.

Import DateTime.

(** [day.setHours(h, m, 0, 0)] for the fields of an "HH:mm" string. *)
Definition atTime (tz day : Z) (t : HHmm.t) : Z :=
  setHours tz day (HHmm.hh t) (HHmm.mm t).

(** [applyHardConstraints(day, interval, hardConstraints)]. *)
Definition applyHardConstraints (tz day : Z) (interval : Interval.t)
           (hardConstraints : option Client.HardConstraints) : option Interval.t :=
  match hardConstraints with
  | None => Some interval
  | Some hc =>
      let start := Interval.start interval in
      let end_ := Interval.end_ interval in
      let start :=
        match Client.noEarlyThan hc with
        | Some t => let minStart := atTime tz day t in
                    if start <? minStart then minStart else start
        | None => start
        end in
      let end_ :=
        match Client.noLaterThan hc with
        | Some t => let maxEnd := atTime tz day t in
                    if end_ >? maxEnd then maxEnd else end_
        | None => end_
        end in
      if start >=? end_ then None else Some (Interval.mk start end_)
  end.

(** The test of the two exclusion loops:
    [x = overlapInterval(interval, other);
     x && x.start <= interval.start && x.end >= interval.end]. *)
Definition fullyBlocked (interval other : Interval.t) : bool :=
  match IntervalMath.overlapInterval interval other with
  | Some x => (Interval.start x <=? Interval.start interval)
              && (Interval.end_ x >=? Interval.end_ interval)
  | None => false
  end.

(** The slicing loop of lines 110-115; [slots] collects what is pushed.
    The test and [slotEnd] compute with [sessionMinutes * 60000]; the
    cursor moves by [cur.setMinutes(cur.getMinutes() + sessionMinutes)]. *)
Fixpoint slice (fuel : nat) (tz : Z) (therapistId : Oid.t) (sessionMinutes : Q)
         (interval : Interval.t) (cur : Z) (slots : list Slot.t) : option (list Slot.t) :=
  match fuel with
  | O => None
  | S fuel' =>
      if Qle_bool (inject_Z cur + sessionMinutes * 60000)%Q
                  (inject_Z (Interval.end_ interval))
      then
        let slotEnd := ofNumber (inject_Z cur + sessionMinutes * 60000)%Q in
        slice fuel' tz therapistId sessionMinutes interval
              (setMinutes tz cur (inject_Z (getMinutes tz cur) + sessionMinutes)%Q)
              (slots ++ [Slot.mk therapistId cur slotEnd])
      else Some slots
  end.

(** The window left of a block for one preferred time range, lines 73-107;
    [None] is [continue]. *)
Definition window (tz day : Z) (pref : Client.Preferences) (timeOff : list Therapist.TimeOff)
           (sessions : list Session.t) (blockStart blockEnd : Z) (tr : Client.TimeRange)
  : option Interval.t :=
  let prefStart := atTime tz day (Client.startTime tr) in
  let prefEnd := atTime tz day (Client.endTime tr) in
  match IntervalMath.overlapInterval (Interval.mk blockStart blockEnd)
                                     (Interval.mk prefStart prefEnd) with
  | None => None
  | Some interval =>
      match applyHardConstraints tz day interval (Client.hardConstraints pref) with
      | None => None
      | Some interval =>
          if existsb (fun off => fullyBlocked interval (Therapist.offInterval off)) timeOff
          then None
          else if existsb (fun s => fullyBlocked interval (Session.interval s)) sessions
          then None
          else Some interval
      end
  end.

(** The loop [for (const tr of timeRanges)]. *)
Fixpoint overRanges (fuel : nat) (tz day : Z) (therapistId : Oid.t) (sessionMinutes : Q)
         (pref : Client.Preferences) (timeOff : list Therapist.TimeOff)
         (sessions : list Session.t) (blockStart blockEnd : Z)
         (timeRanges : list Client.TimeRange) (slots : list Slot.t)
  : option (list Slot.t) :=
  match timeRanges with
  | [] => Some slots
  | tr :: rest =>
      match window tz day pref timeOff sessions blockStart blockEnd tr with
      | None =>
          overRanges fuel tz day therapistId sessionMinutes pref timeOff sessions
                     blockStart blockEnd rest slots
      | Some interval =>
          match slice fuel tz therapistId sessionMinutes interval
                      (Interval.start interval) slots with
          | None => None
          | Some slots' =>
              overRanges fuel tz day therapistId sessionMinutes pref timeOff sessions
                         blockStart blockEnd rest slots'
          end
      end
  end.

(** [pref.preferredTimeRanges?.length ? pref.preferredTimeRanges
     : [{ startTime: block.startTime, endTime: block.endTime }]]. *)
Definition timeRangesFor (pref : Client.Preferences) (block : Therapist.TimeBlock)
  : list Client.TimeRange :=
  match Client.preferredTimeRanges pref with
  | [] => [Client.mkRange (Therapist.startTime block) (Therapist.endTime block)]
  | l => l
  end.

(** The loop [for (const block of availBlocks)]. *)
Fixpoint overBlocks (fuel : nat) (tz day : Z) (therapistId : Oid.t) (sessionMinutes : Q)
         (pref : Client.Preferences) (timeOff : list Therapist.TimeOff)
         (sessions : list Session.t) (availBlocks : list Therapist.TimeBlock)
         (slots : list Slot.t) : option (list Slot.t) :=
  match availBlocks with
  | [] => Some slots
  | block :: rest =>
      let blockStart := atTime tz day (Therapist.startTime block) in
      let blockEnd := atTime tz day (Therapist.endTime block) in
      match overRanges fuel tz day therapistId sessionMinutes pref timeOff sessions
                       blockStart blockEnd (timeRangesFor pref block) slots with
      | None => None
      | Some slots' =>
          overBlocks fuel tz day therapistId sessionMinutes pref timeOff sessions rest slots'
      end
  end.

(** [pref.preferredDaysOfWeek?.length && !pref.preferredDaysOfWeek.includes(dow)]. *)
Definition skipDay (pref : Client.Preferences) (dow : Z) : bool :=
  match Client.preferredDaysOfWeek pref with
  | [] => false
  | l => negb (existsb (Z.eqb dow) l)
  end.

(** The loop [while (day < to)]. *)
Fixpoint overDays (fuel dayFuel : nat) (tz : Z) (therapist : Therapist.t)
         (therapistId : Oid.t) (sessionMinutes : Q)
         (pref : Client.Preferences) (sessions : list Session.t) (to day : Z)
         (slots : list Slot.t) : option (list Slot.t) :=
  match dayFuel with
  | O => None
  | S dayFuel' =>
      if day <? to then
        let dow := getDay tz day in
        if skipDay pref dow
        then overDays fuel dayFuel' tz therapist therapistId sessionMinutes pref sessions
                      to (nextDay day) slots
        else
          let availBlocks :=
            filter (fun b => Therapist.dayOfWeek b =? dow)
                   (Therapist.weeklyAvailability therapist) in
          match overBlocks fuel tz day therapistId sessionMinutes pref
                           (Therapist.timeOff therapist) sessions availBlocks slots with
          | None => None
          | Some slots' =>
              overDays fuel dayFuel' tz therapist therapistId sessionMinutes pref sessions
                       to (nextDay day) slots'
          end
      else Some slots
  end.

Record Args : Type := mkArgs {
  a_clientId : Oid.t;
  a_therapistId : Oid.t;
  a_from : Z;
  a_to : Z;
  a_sessionMinutes : Q
}.

Inductive Found : Type :=
| NotFound                       (* throw new Error("Client or therapist not found") *)
| Slots (client : Client.t) (therapist : Therapist.t) (slots : list Slot.t).

(** [Session.find({ therapist, status: "scheduled", start: { $lt: to },
    end: { $gt: from } })]. *)
Definition sessionsInRange (therapistId : Oid.t) (from to : Z) (l : list Session.t)
  : list Session.t :=
  filter (fun s => Oid.eqb (Session.therapist s) therapistId
                   && Status_eqb (Session.status s) scheduled
                   && (Session.start s <? to) && (Session.end_ s >? from)) l.

(** [findSlots({ clientId, therapistId, from, to, sessionMinutes })]. *)
Definition findSlots (fuel : nat) (tz : Z) (args : Args) (db : Db) : option Found :=
  match Mongo.findClientById (a_clientId args) (clients db),
        Mongo.findTherapistById (a_therapistId args) (therapists db) with
  | Some client, Some therapist =>
      let sessions := sessionsInRange (a_therapistId args) (a_from args) (a_to args)
                                      (sessions db) in
      let pref := match Client.preferences client with
                  | Some p => p
                  | None => Client.noPreferences
                  end in
      match overDays fuel fuel tz therapist (a_therapistId args) (a_sessionMinutes args)
                     pref sessions (a_to args) (a_from args) [] with
      | None => None
      | Some slots => Some (Slots client therapist slots)
      end
  | _, _ => Some NotFound
  end.

End SchedulingService.

(* ================================================================== *)
(** * Concurrent bookings outside production *)

(** Node runs a handler without interruption between two [await]s; at an
    [await] another handler may run.  In the branch of [bookSession] taken
    when [NODE_ENV] is not "production", the therapist query, the client
    query and [Session.create] are three awaited calls.  A handler in
    flight is the point it has reached; the reads that come before the
    first query touch no collection a booking writes, so they are run in
    the same step as that query. *)
Module Race.

Import SessionController.

Inductive Task : Type :=
| Start (req : BookRequest)
| AtClientQuery (clientId therapistId : Oid.t) (startDate endDate : Z)
                (notes : option string)
| AtCreate (clientId therapistId : Oid.t) (startDate endDate : Z)
           (notes : option string)
| Done (r : Reply).

(** One awaited call of the non-transactional branch. *)
Definition step (env : Env) (t : Task) (db : Db) : Task * Db :=
  match t with
  | Start req =>
      match bookParse env req with
      | inl r => (Done r, db)
      | inr (clientId, therapistIdStr, startDate, endDate) =>
          match bookLookups db clientId therapistIdStr startDate endDate with
          | inl r => (Done r, db)
          | inr _ =>
              match findTherapistConflict None (Some (Oid.cast therapistIdStr))
                                          startDate endDate (sessions db) with
              | Some _ => (Done (MessageReply 409 "Slot already booked"), db)
              | None => (AtClientQuery clientId (Oid.cast therapistIdStr)
                                       startDate endDate (b_notes (book_body req)), db)
              end
          end
      end
  | AtClientQuery clientId therapistId startDate endDate notes =>
      match findClientConflict None (Some clientId) startDate endDate (sessions db) with
      | Some _ => (Done (MessageReply 409 "You already have a session at that time."), db)
      | None => (AtCreate clientId therapistId startDate endDate notes, db)
      end
  | AtCreate clientId therapistId startDate endDate notes =>
      match Mongo.create therapistId clientId startDate endDate notes (sessions db) with
      | inl DuplicateKey => (Done (MessageReply 409 "Slot already booked"), db)
      | inl e => (Done (ThrownReply 400 e), db)
      | inr (created, l) => (Done (SessionReply 201 created), withSessions db l)
      end
  | Done r => (Done r, db)
  end.

(** Two handlers in flight over one database; the schedule says which of
    them runs its next step ([true]: the first). *)
Fixpoint run (env : Env) (schedule : list bool) (t1 t2 : Task) (db : Db)
  : Task * Task * Db :=
  match schedule with
  | [] => (t1, t2, db)
  | true :: rest =>
      let '(t1', db') := step env t1 db in run env rest t1' t2 db'
  | false :: rest =>
      let '(t2', db') := step env t2 db in run env rest t1 t2' db'
  end.

(** Every order in which a handler with [n] steps left and one with [m]
    steps left can take turns. *)
Fixpoint interleavings (n m : nat) : list (list bool) :=
  match n with
  | O => [repeat false m]
  | S n' =>
      (fix withSecond (m : nat) : list (list bool) :=
         match m with
         | O => [repeat true n]
         | S m' => map (cons true) (interleavings n' m)
                   ++ map (cons false) (withSecond m')
         end) m
  end.

Definition isCreated (t : Task) : bool :=
  match t with
  | Done (SessionReply 201 _) => true
  | _ => false
  end.

Definition isConflict (t : Task) : bool :=
  match t with
  | Done (MessageReply 409 _) => true
  | _ => false
  end.

(** One handler was answered 201, the other 409, and one session is
    stored. *)
Definition exactlyOneBooked (outcome : Task * Task * Db) : bool :=
  let '(t1, t2, db) := outcome in
  ((isCreated t1 && isConflict t2) || (isConflict t1 && isCreated t2))
  && (List.length (sessions db) =? 1)%nat.

End Race.

(* ================================================================== *)
(** * Properties of a stored state *)

Module Invariant.

(** Is [id] the [_id] of a therapist, of a client, of the store? *)
Definition therapistStored (db : Db) (id : Oid.t) : bool :=
  match Mongo.findTherapistById id (therapists db) with
  | Some _ => true
  | None => false
  end.

Definition clientStored (db : Db) (id : Oid.t) : bool :=
  match Mongo.findClientById id (clients db) with
  | Some _ => true
  | None => false
  end.

(** [a] and [b] are sessions of one therapist of the store, or of one
    client of the store. *)
Definition sameParty (db : Db) (a b : Session.t) : bool :=
  (Oid.eqb (Session.therapist a) (Session.therapist b)
   && therapistStored db (Session.therapist a))
  || (Oid.eqb (Session.client a) (Session.client b)
      && clientStored db (Session.client a)).

(** Two sessions that may not both be stored: both active, of one
    therapist or of one client, and overlapping on [[start, end)]. *)
Definition conflicting (db : Db) (a b : Session.t) : bool :=
  Session.active a && Session.active b && sameParty db a b
  && IntervalMath.overlaps (Session.interval a) (Session.interval b).

(** The core invariant of the data model. *)
Definition coreInvariant (db : Db) : Prop :=
  forall a b, In a (sessions db) -> In b (sessions db) ->
              Session._id a <> Session._id b ->
              conflicting db a b = false.

(** What a write that touches one session [y] must show of the others. *)
Definition apartFrom (db : Db) (y : Session.t) : Prop :=
  forall x, In x (sessions db) -> Session._id x <> Session._id y ->
            conflicting db x y = false.

(** The same invariant read on the instants themselves: some instant lies
    in both [[start, end)]. *)
Definition shareInstant (a b : Session.t) : Prop :=
  exists t, Session.start a <= t < Session.end_ a
            /\ Session.start b <= t < Session.end_ b.

(** Two distinct sessions, neither cancelled, of one therapist or of one
    client. *)
Definition rivals (db : Db) (a b : Session.t) : Prop :=
  Session._id a <> Session._id b
  /\ Session.status a <> cancelled
  /\ Session.status b <> cancelled
  /\ sameParty db a b = true.

Definition disjointInvariant (db : Db) : Prop :=
  forall a b, In a (sessions db) -> In b (sessions db) ->
              rivals db a b -> ~ shareInstant a b.

(** Every stored session names a therapist and a client of the store. *)
Definition refsResolve (db : Db) : Prop :=
  forall s, In s (sessions db) ->
            therapistStored db (Session.therapist s) = true
            /\ clientStored db (Session.client s) = true.

(** The invariant over the references as they are stored, whether or not
    the profiles they name are still there. *)
Definition sameReference (a b : Session.t) : bool :=
  Oid.eqb (Session.therapist a) (Session.therapist b)
  || Oid.eqb (Session.client a) (Session.client b).

Definition referenceInvariant (l : list Session.t) : Prop :=
  forall a b, In a l -> In b l -> Session._id a <> Session._id b ->
              (Session.active a && Session.active b && sameReference a b
               && IntervalMath.overlaps (Session.interval a) (Session.interval b)) = false.

(** Mongo's index on [_id]. *)
Definition uniqueIds (l : list Session.t) : Prop := NoDup (map Session._id l).

(** A write from [db] to [db'] leaves the profiles alone and keeps each of
    the four properties. *)
Definition preserves (db db' : Db) : Prop :=
  (therapists db' = therapists db /\ clients db' = clients db)
  /\ (uniqueIds (sessions db) -> uniqueIds (sessions db'))
  /\ (coreInvariant db -> coreInvariant db')
  /\ (disjointInvariant db -> disjointInvariant db')
  /\ (refsResolve db -> refsResolve db').

(** A write request to the engine. *)
Inductive Call : Type :=
| BookSession (env : Env) (req : SessionController.BookRequest)
| ApplyReschedule (env : Env) (req : SessionController.RescheduleRequest).

Definition perform (c : Call) (db : Db) : Reply * Db :=
  match c with
  | BookSession env req => SessionController.bookSession env req db
  | ApplyReschedule env req => SessionController.rescheduleSession env req db
  end.

(** The database after each call of a sequence, in order. *)
Fixpoint states (calls : list Call) (db : Db) : list Db :=
  match calls with
  | [] => []
  | c :: rest => let db' := snd (perform c db) in db' :: states rest db'
  end.

End Invariant.

(* ================================================================== *)
(** * Reference definitions the theorems compare the code with *)

Module Reference.

Import DateTime SessionController.

(** Midnight (UTC) of the day of [d]. *)
Definition utcMidnight (d : Z) : Z := d - d mod MS_PER_DAY.

(** An Availability record laid on the UTC day of [d]. *)
Definition recordInterval (d : Z) (a : Availability.t) : Interval.t :=
  Interval.mk (utcMidnight d + minutesOf (Availability.startTime a) * MS_PER_MINUTE)
              (utcMidnight d + minutesOf (Availability.endTime a) * MS_PER_MINUTE).

(** The therapist's availability records for the UTC weekday of [d]. *)
Definition dayRecords (db : Db) (therapistId : Oid.t) (d : Z) : list Availability.t :=
  filter (fun a => Oid.eqb (Availability.therapist a) therapistId
                   && Day_eqb (Availability.dayOfWeek a) (dateToDayOfWeekUTC d))
         (availability db).

(** Availability of the day without regard to time off: is [[start, end)]
    inside one of the day's records? *)
Definition withinDayRecords (db : Db) (therapistId : Oid.t) (start end_ : Z) : bool :=
  existsb (fun a => IntervalMath.contains (recordInterval start a) (Interval.mk start end_))
          (dayRecords db therapistId start).

(** The spec's resolved availability (section 4.2): the day's blocks, a
    block being dropped when a time-off interval of the therapist fully
    contains it. *)
Definition resolvedAvailability (db : Db) (therapistId : Oid.t) (d : Z) : list Interval.t :=
  let offs := match Mongo.findTherapistById therapistId (therapists db) with
              | Some t => Therapist.timeOff t
              | None => []
              end in
  filter (fun b => negb (existsb (fun off => IntervalMath.contains (Therapist.offInterval off) b)
                                 offs))
         (map (recordInterval d) (dayRecords db therapistId d)).

Definition withinResolved (db : Db) (therapistId : Oid.t) (start end_ : Z) : bool :=
  existsb (fun b => IntervalMath.contains b (Interval.mk start end_))
          (resolvedAvailability db therapistId start).

(** ** The order of the checks of [bookSession] *)

Definition isString (v : JsVal) : bool :=
  match v with JStr _ => true | _ => false end.

Definition stringOf (v : JsVal) : string :=
  match v with JStr s => s | _ => EmptyString end.

Definition isSome {A} (o : option A) : bool :=
  match o with Some _ => true | None => false end.

Definition therapistIdOf (req : BookRequest) : Oid.t :=
  Oid.cast (Js.trim (stringOf (b_therapistId (book_body req)))).

Definition startOf (env : Env) (req : BookRequest) : option Z :=
  toDate env (JStr (Js.trim (stringOf (b_startAt (book_body req))))).

Definition endOf (env : Env) (req : BookRequest) : option Z :=
  toDate env (JStr (Js.trim (stringOf (b_endAt (book_body req))))).

(** A test on both instants; it passes when one of them is missing, which
    an earlier entry of the list reports. *)
Definition onInterval (env : Env) (req : BookRequest) (p : Z -> Z -> bool) : bool :=
  match startOf env req, endOf env req with
  | Some s, Some e => p s e
  | _, _ => true
  end.

Definition onClient (req : BookRequest) (p : Oid.t -> bool) : bool :=
  match clientId (book_actor req) with
  | Some c => p c
  | None => true
  end.

(** Each precondition with the reply sent when it fails, in the order in
    which the handler tests them. *)
Definition preconditions (env : Env) (req : BookRequest) (db : Db) : list (bool * Reply) :=
  let body := book_body req in
  [ (isSome (clientId (book_actor req)),
     MessageReply 403 "Not authorized to book as a client");
    (isString (b_therapistId body)
     && negb (Js.isEmpty (Js.trim (stringOf (b_therapistId body)))),
     MessageReply 400 "therapistId is required");
    (Oid.isValidObjectIdString (Js.trim (stringOf (b_therapistId body))),
     MessageReply 400 "therapistId must be a valid therapist ID (24 hex characters). Use IDs from the therapist list or Book a session.");
    (isString (b_startAt body),
     MessageReply 400 "startAt is required");
    (isSome (startOf env req),
     MessageReply 400 "startAt must be a valid ISO 8601 date (e.g. 2026-02-09T09:00:00.000Z)");
    (isString (b_endAt body),
     MessageReply 400 "endAt is required");
    (isSome (endOf env req),
     MessageReply 400 "endAt must be a valid ISO 8601 date (e.g. 2026-02-09T09:30:00.000Z)");
    (onInterval env req (fun s e => e >? s),
     MessageReply 400 "endAt must be after startAt");
    (isSome (Mongo.findTherapistById (therapistIdOf req) (therapists db)),
     MessageReply 404 "Therapist not found");
    (onClient req (fun c => isSome (Mongo.findClientById c (clients db))),
     MessageReply 403 "Client profile not found");
    (onInterval env req (isWithinAvailability db (Some (therapistIdOf req))),
     MessageReply 400 msgNotWithin);
    (onInterval env req (fun s e =>
       negb (isSome (findTherapistConflict None (Some (therapistIdOf req)) s e
                                           (sessions db)))),
     MessageReply 409 "Slot already booked");
    (onClient req (fun c => onInterval env req (fun s e =>
       negb (isSome (findClientConflict None (Some c) s e (sessions db))))),
     MessageReply 409 "You already have a session at that time.") ].

(** The reply of the first entry whose test fails. *)
Fixpoint firstFailure (l : list (bool * Reply)) : option Reply :=
  match l with
  | [] => None
  | (ok, r) :: rest => if ok then firstFailure rest else Some r
  end.

(** The order the spec gives (section 4.6): therapist exists; client
    profile exists; [end > start]; within availability; no therapist
    conflict; no client conflict.  Each entry carries the handler's reply
    for that failure. *)
Definition specOrder (env : Env) (req : BookRequest) (db : Db) : list (bool * Reply) :=
  [ (isSome (Mongo.findTherapistById (therapistIdOf req) (therapists db)),
     MessageReply 404 "Therapist not found");
    (onClient req (fun c => isSome (Mongo.findClientById c (clients db))),
     MessageReply 403 "Client profile not found");
    (onInterval env req (fun s e => e >? s),
     MessageReply 400 "endAt must be after startAt");
    (onInterval env req (isWithinAvailability db (Some (therapistIdOf req))),
     MessageReply 400 msgNotWithin);
    (onInterval env req (fun s e =>
       negb (isSome (findTherapistConflict None (Some (therapistIdOf req)) s e
                                           (sessions db)))),
     MessageReply 409 "Slot already booked");
    (onClient req (fun c => onInterval env req (fun s e =>
       negb (isSome (findClientConflict None (Some c) s e (sessions db))))),
     MessageReply 409 "You already have a session at that time.") ].

(** ** Where a generated slot comes from *)

(** [slot] is one of the pieces of length [sessionMinutes] cut from the
    window [w]. *)
Definition slicedFrom (sessionMinutes : Q) (w : Interval.t) (slot : Slot.t) : Prop :=
  Interval.start w <= Slot.start slot
  /\ Slot.end_ slot <= Interval.end_ w
  /\ Slot.end_ slot
     = DateTime.ofNumber (inject_Z (Slot.start slot) + sessionMinutes * 60000)%Q.

(** A window that [findSlots] slices: not empty, and neither a time-off
    interval nor a session of the query covers it whole. *)
Definition openWindow (timeOff : list Therapist.TimeOff) (sessions : list Session.t)
           (w : Interval.t) : Prop :=
  Interval.start w < Interval.end_ w
  /\ (forall off, In off timeOff ->
                  IntervalMath.contains (Therapist.offInterval off) w = false)
  /\ (forall s, In s sessions ->
                IntervalMath.contains (Session.interval s) w = false).



(** A slot of [d] minutes that starts at [x] fits inside [range]. *)
Definition fitsRange (d : Z) (range : HHmm.t * HHmm.t) (x : HHmm.t) : Prop :=
  HHmm.timeToMinutes (fst range) <= HHmm.timeToMinutes x
  /\ HHmm.timeToMinutes x + d <= HHmm.timeToMinutes (snd range).


End Reference.

(* ================================================================== *)
(** * A small practice: one therapist, Mondays 09:00-12:00 *)

Module Scenario.

Import SessionController.

Definition isoTable : list (string * Z) :=
  [ ("2026-02-02T09:00:00.000Z", 1770022800000);
    ("2026-02-02T09:30:00.000Z", 1770024600000);
    ("2026-02-09T08:00:00.000Z", 1770624000000);
    ("2026-02-09T09:00:00.000Z", 1770627600000);
    ("2026-02-09T09:30:00.000Z", 1770629400000);
    ("2026-02-09T10:00:00.000Z", 1770631200000);
    ("2026-02-09T12:00:00.000Z", 1770638400000);
    ("2026-02-10T09:30:00.000Z", 1770715800000) ]%string.

(** [new Date(s).getTime()] on the ISO strings the examples use. *)
Definition parseIso (s : string) : option Z :=
  match find (fun p => String.eqb (fst p) s) isoTable with
  | Some p => Some (snd p)
  | None => None
  end.

(** The clock stands at 2026-02-05T00:00:00Z, outside production. *)
Definition env : Env := mkEnv false 1770249600000 parseIso.

Definition therapistA : string := "0000000000000000000000a1".
Definition clientC1 : Oid.t := 193%N.
Definition clientC2 : Oid.t := 194%N.

Definition mondayMorning : Availability.t :=
  Availability.mk (Oid.cast therapistA) MONDAY (HHmm.mk 9 0) (HHmm.mk 12 0).

Definition db0 : Db :=
  mkDb []
       [ Therapist.mk (Oid.cast therapistA) "Dr A"
                      [Therapist.mkBlock 1 (HHmm.mk 9 0) (HHmm.mk 12 0)] [] ]
       [ Client.mk clientC1 None None; Client.mk clientC2 None None ]
       [ mondayMorning ].

Definition asClient (c : Oid.t) : ActorIds := mkActor (Some role_client) (Some c) None.

Definition book (c : Oid.t) (tid startAt endAt : string) : BookRequest :=
  mkBookRequest (asClient c) (mkBookBody (JStr tid) (JStr startAt) (JStr endAt) None).

Definition move (c : Oid.t) (id : Oid.t) (startAt endAt : string) : RescheduleRequest :=
  mkRescheduleRequest (Some id) (asClient c)
    (mkRescheduleBody (JStr startAt) JNull JNull (JStr endAt) JNull JNull).

(** The database after client C1 booked Monday 2026-02-09 09:00-10:00. *)
Definition db1 : Db :=
  snd (bookSession env (book clientC1 therapistA "2026-02-09T09:00:00.000Z"
                             "2026-02-09T10:00:00.000Z") db0).

(** C1 asks to move that session to Monday 2026-02-02 09:00-09:30, which
    lies before the clock of [env]. *)
Definition intoPast : RescheduleRequest :=
  move clientC1 1%N "2026-02-02T09:00:00.000Z" "2026-02-02T09:30:00.000Z".

(** C2 names a therapist that does not exist and an inverted interval. *)
Definition invertedForUnknownTherapist : BookRequest :=
  book clientC2 "0000000000000000000000ff"
       "2026-02-09T10:00:00.000Z" "2026-02-09T09:00:00.000Z".

(** The practice with the therapist off for the whole of Monday
    2026-02-09 (00:00 to 24:00 UTC). *)
Definition dbDayOff : Db :=
  mkDb []
       [ Therapist.mk (Oid.cast therapistA) "Dr A"
                      [Therapist.mkBlock 1 (HHmm.mk 9 0) (HHmm.mk 12 0)]
                      [Therapist.mkOff 1770595200000 1770681600000] ]
       [ Client.mk clientC1 None None; Client.mk clientC2 None None ]
       [ mondayMorning ].

Definition halfHourAtNine : BookRequest :=
  book clientC1 therapistA "2026-02-09T09:00:00.000Z" "2026-02-09T09:30:00.000Z".

(** Suggestions for C2 with the therapist over Monday 2026-02-09
    (00:00 to 24:00), in sessions of 60 minutes; the server runs in UTC. *)
Definition mondayArgs : SchedulingService.Args :=
  SchedulingService.mkArgs clientC2 (Oid.cast therapistA)
                           1770595200000 1770681600000 60%Q.

(** The same request with [sessionMinutes: 0.5]. *)
Definition halfMinuteArgs : SchedulingService.Args :=
  SchedulingService.mkArgs clientC2 (Oid.cast therapistA)
                           1770595200000 1770681600000 0.5%Q.

(** [GET /api/public/available-slots?date=2026-02-09&durationMinutes=60]. *)
Definition mondayQuery : PublicController.Query :=
  PublicController.mkQuery (Some "2026-02-09"%string) (Some 60).

Definition nineToTen : Slot.t := Slot.mk (Oid.cast therapistA) 1770627600000 1770631200000.

Definition tenToEleven : Slot.t := Slot.mk (Oid.cast therapistA) 1770631200000 1770634800000.

(** Two bookings of the same therapist that arrive together: C1 asks for
    09:00-10:00 and C2 for 09:00-09:30 of Monday 2026-02-09. *)
Definition hourAtNine : BookRequest :=
  book clientC1 therapistA "2026-02-09T09:00:00.000Z" "2026-02-09T10:00:00.000Z".

Definition halfHourAtNineC2 : BookRequest :=
  book clientC2 therapistA "2026-02-09T09:00:00.000Z" "2026-02-09T09:30:00.000Z".

Definition hourAtNineC2 : BookRequest :=
  book clientC2 therapistA "2026-02-09T09:00:00.000Z" "2026-02-09T10:00:00.000Z".

(** A practice with a second therapist, in which the profile of a client
    (id 195) was deleted while two scheduled sessions still name it:
    09:00-10:00 with therapist A and 10:00-11:00 with therapist B, both on
    Monday 2026-02-09. *)
Definition therapistB : string := "0000000000000000000000a2".
Definition orphan : Oid.t := 195%N.

Definition dbOrphaned : Db :=
  mkDb [ Session.mk 1%N (Oid.cast therapistA) orphan 1770627600000 1770631200000
                    scheduled None;
         Session.mk 2%N (Oid.cast therapistB) orphan 1770631200000 1770634800000
                    scheduled None ]
       [ Therapist.mk (Oid.cast therapistA) "Dr A"
                      [Therapist.mkBlock 1 (HHmm.mk 9 0) (HHmm.mk 12 0)] [];
         Therapist.mk (Oid.cast therapistB) "Dr B"
                      [Therapist.mkBlock 1 (HHmm.mk 9 0) (HHmm.mk 12 0)] [] ]
       [ Client.mk clientC1 None None; Client.mk clientC2 None None ]
       [ mondayMorning;
         Availability.mk (Oid.cast therapistB) MONDAY (HHmm.mk 9 0) (HHmm.mk 12 0) ].

(** An admin moves the second of these sessions onto 09:00-10:00. *)
Definition adminMove : RescheduleRequest :=
  mkRescheduleRequest (Some 2%N) (mkActor (Some role_admin) None None)
    (mkRescheduleBody (JStr "2026-02-09T09:00:00.000Z") JNull JNull
                      (JStr "2026-02-09T10:00:00.000Z") JNull JNull).

(** Both handlers run their queries before either inserts. *)
Definition interleaved : list bool := [true; false; true; false; true; false].

(** The first handler finishes before the second starts. *)
Definition oneAfterTheOther : list bool := [true; true; true; false; false; false].

End Scenario.

(* ================================================================== *)
(** * controllers/sessionController.js: reading, cancelling, status, deleting *)

Module SessionLifecycle.

Import SessionController.

(** A request that names a session: [req.params.id] cast to an ObjectId
    ([None] when the cast fails) and the caller. *)
Record IdRequest : Type := mkIdRequest {
  id_params : option Oid.t;
  id_actor : ActorIds
}.

(** What these handlers answer: [res.status(code).json(existing)] with the
    populated document, [res.json(sessions)], a message, the message of
    what was thrown ([safeMsg(err)]), or [res.status(204).send()]. *)
Inductive Answer : Type :=
| Document (code : Z) (d : Populated)
| Documents (l : list Populated)
| Message (code : Z) (message : string)
| Failure (code : Z) (err : Thrown)
| NoContent (code : Z).

Definition answerCode (a : Answer) : Z :=
  match a with
  | Document c _ | Message c _ | Failure c _ | NoContent c => c
  | Documents _ => 200
  end.

(** [Session.findById(req.params.id).populate(...).populate(...)]. *)
Definition findPopulated (id : option Oid.t) (db : Db) : Thrown + option Populated :=
  match id with
  | None => inl CastError
  | Some id => inr (option_map (populate db) (Mongo.findSessionById id (sessions db)))
  end.

(** [existing.status = status]: the other fields stay. *)
Definition withStatus (s : Session.t) (status : Status) : Session.t :=
  Session.mk (Session._id s) (Session.therapist s) (Session.client s)
             (Session.start s) (Session.end_ s) status (Session.notes s).

(** The collection after [save] of [s] with the status [st]. *)
Definition restatused (s : Session.t) (st : Status) (l : list Session.t) : list Session.t :=
  map (fun x => if Oid.eqb (Session._id x) (Session._id s) then withStatus s st else x) l.

(** [getSession(req, res)]. *)
Definition getSession (req : IdRequest) (db : Db) : Answer :=
  match findPopulated (id_params req) db with
  | inl e => Failure 500 e
  | inr None => Message 404 "Session not found"
  | inr (Some existing) =>
      if negb (canAccessSessionStrict (id_actor req) existing)
      then Message 403 "You do not have access to this session"
      else Document 200 existing
  end.

(** [cancelSession(req, res)]. *)
Definition cancelSession (req : IdRequest) (db : Db) : Answer * Db :=
  match findPopulated (id_params req) db with
  | inl e => (Failure 400 e, db)
  | inr None => (Message 404 "Session not found", db)
  | inr (Some existing) =>
      if negb (canAccessSessionStrict (id_actor req) existing)
      then (Message 403 "Forbidden", db) else
      if Status_eqb (Session.status (doc existing)) cancelled
      then (Document 200 existing, db) else
      let updated := withStatus (doc existing) cancelled in
      match Mongo.save updated (sessions db) with
      | inl e => (Failure 400 e, db)
      | inr l => (Document 200 (mkPopulated updated (p_therapist existing)
                                            (p_client existing)),
                  withSessions db l)
      end
  end.

(** ** PATCH /api/sessions/:id/status *)

Definition ALLOWED_STATUSES : list Status := [scheduled; cancelled; completed].

Definition statusName (s : Status) : string :=
  match s with
  | scheduled => "scheduled"
  | cancelled => "cancelled"
  | completed => "completed"
  end.

(** [status && ALLOWED_STATUSES.includes(status)], with the status that
    the string names. *)
Definition allowedStatus (v : JsVal) : option Status :=
  match v with
  | JStr s => find (fun st => String.eqb (statusName st) s) ALLOWED_STATUSES
  | _ => None
  end.

Record StatusRequest : Type := mkStatusRequest {
  st_params : option Oid.t;
  st_actor : ActorIds;
  st_status : JsVal
}.

(** [actorIds.role === r]. *)
Definition hasRole (actorIds : ActorIds) (r : Role) : bool :=
  match role actorIds, r with
  | Some role_admin, role_admin
  | Some role_client, role_client
  | Some role_therapist, role_therapist => true
  | _, _ => false
  end.

(** [updateSessionStatus(req, res)].  With the status it already has, the
    document has no modified path and [save] writes nothing. *)
Definition updateSessionStatus (req : StatusRequest) (db : Db) : Answer * Db :=
  match allowedStatus (st_status req) with
  | None => (Message 400 "status must be one of: scheduled, cancelled, completed", db)
  | Some status =>
  match findPopulated (st_params req) db with
  | inl e => (Failure 400 e, db)
  | inr None => (Message 404 "Session not found", db)
  | inr (Some existing) =>
      let actorIds := st_actor req in
      if negb (canAccessSessionStrict actorIds existing)
      then (Message 403 "You do not have access to this session", db) else
      if hasRole actorIds role_client && negb (Status_eqb status cancelled)
      then (Message 403 ("Clients can only cancel their session, not change to "
                         ++ statusName status), db) else
      if hasRole actorIds role_therapist && Status_eqb status scheduled
         && negb (Status_eqb (Session.status (doc existing)) scheduled)
      then (Message 400 "Therapist cannot set status back to scheduled", db) else
      if Status_eqb (Session.status (doc existing)) status
      then (Document 200 existing, db) else
      let updated := withStatus (doc existing) status in
      match Mongo.save updated (sessions db) with
      | inl e => (Failure 400 e, db)
      | inr l => (Document 200 (mkPopulated updated (p_therapist existing)
                                            (p_client existing)),
                  withSessions db l)
      end
  end end.

(** ** DELETE session *)

(** [Session.findByIdAndDelete(id)]: the first document with that [_id]
    goes. *)
Fixpoint findByIdAndDelete (id : Oid.t) (l : list Session.t) : list Session.t :=
  match l with
  | [] => []
  | s :: rest =>
      if Oid.eqb (Session._id s) id then rest else s :: findByIdAndDelete id rest
  end.

(** [deleteSession(req, res)]. *)
Definition deleteSession (req : IdRequest) (db : Db) : Answer * Db :=
  match id_params req with
  | None => (Failure 400 CastError, db)
  | Some id =>
      match Mongo.findSessionById id (sessions db) with
      | None => (Message 404 "Session not found", db)
      | Some _ => (NoContent 204, withSessions db (findByIdAndDelete id (sessions db)))
      end
  end.

(** ** GET /api/sessions *)

(** [l_status] is [req.query.status]. *)
Record ListRequest : Type := mkListRequest {
  l_actor : ActorIds;
  l_status : option string
}.

(** [if (req.query.status) filter.status = req.query.status]: a string
    that names no status matches no document. *)
Definition statusFilter (q : option string) (s : Session.t) : bool :=
  match q with
  | None => true
  | Some str =>
      if Js.isEmpty str then true else String.eqb (statusName (Session.status s)) str
  end.

(** [.sort({ start: -1 })]; documents with the same [start] are kept in
    their natural order, an order Mongo leaves open. *)
Fixpoint insertByStart (x : Session.t) (l : list Session.t) : list Session.t :=
  match l with
  | [] => [x]
  | y :: rest =>
      if Session.start y <? Session.start x then x :: l else y :: insertByStart x rest
  end.

Definition sortByStartDesc (l : list Session.t) : list Session.t :=
  fold_right insertByStart [] l.

(** [Session.find(filter).sort({ start: -1 }).populate(...).populate(...)]
    for the filter on [who] and the status. *)
Definition findSessions (db : Db) (who : Session.t -> bool) (q : option string)
  : list Populated :=
  map (populate db)
      (sortByStartDesc (filter (fun s => who s && statusFilter q s) (sessions db))).

(** [listSessions(req, res)]. *)
Definition listSessions (req : ListRequest) (db : Db) : Answer :=
  let user := l_actor req in
  if hasRole user role_client then
    match clientId user with
    | None => Documents []
    | Some c => Documents (findSessions db (fun s => Oid.eqb (Session.client s) c)
                                        (l_status req))
    end
  else if hasRole user role_therapist then
    match therapistId user with
    | None => Documents []
    | Some t => Documents (findSessions db (fun s => Oid.eqb (Session.therapist s) t)
                                        (l_status req))
    end
  else Documents (findSessions db (fun _ => true) (l_status req)).

End SessionLifecycle.

(** The five handlers that write sessions, as calls on the store. *)
Module Operations.

Import SessionController SessionLifecycle.

Inductive Call : Type :=
| Book (env : Env) (req : BookRequest)
| Reschedule (env : Env) (req : RescheduleRequest)
| Cancel (req : IdRequest)
| SetStatus (req : StatusRequest)
| Delete (req : IdRequest).

Definition perform (c : Call) (db : Db) : Db :=
  match c with
  | Book env req => snd (bookSession env req db)
  | Reschedule env req => snd (rescheduleSession env req db)
  | Cancel req => snd (cancelSession req db)
  | SetStatus req => snd (updateSessionStatus req db)
  | Delete req => snd (deleteSession req db)
  end.

(** The states after each call of a sequence. *)
Fixpoint states (calls : list Call) (db : Db) : list Db :=
  match calls with
  | [] => []
  | c :: rest => perform c db :: states rest (perform c db)
  end.

(** A status update that could bring a cancelled session back: one that
    asks for "scheduled" or "completed" and does not come from a client. *)
Definition mayReinstate (c : Call) : bool :=
  match c with
  | SetStatus req =>
      negb (hasRole (st_actor req) role_client)
      && match allowedStatus (st_status req) with
         | Some scheduled | Some completed => true
         | _ => false
         end
  | _ => false
  end.

End Operations.

(* ================================================================== *)
(** * services/schedulingService.js: rankSlots; suggestSlots *)

Module SlotRanker.

(** A slot with the [score] that [rankSlots] adds to it. *)
Record Ranked : Type := mkRanked { r_slot : Slot.t; r_score : Q }.

(** [client.preferences?.preferredTherapistIds?.some(
      id => id.toString() === slot.therapist.toString())]. *)
Definition prefersTherapist (client : Client.t) (slot : Slot.t) : bool :=
  match Client.preferences client with
  | Some p => existsb (fun id => Oid.eqb id (Slot.therapist slot))
                      (Client.preferredTherapistIds p)
  | None => false
  end.

(** [(slot.start.getTime() - Date.now()) / (1000 * 60 * 60 * 24)]. *)
Definition daysAway (now : Z) (slot : Slot.t) : Q :=
  (inject_Z (Slot.start slot - now) / inject_Z (1000 * 60 * 60 * 24))%Q.

(** [Math.max(0, x)]. *)
Definition max0 (x : Q) : Q := if Qle_bool 0 x then x else 0%Q.

(** The score of one slot; the clock is read once for the whole call. *)
Definition scoreOf (now : Z) (client : Client.t) (slot : Slot.t) : Q :=
  ((if prefersTherapist client slot then 50 else 0) + max0 (30 - daysAway now slot))%Q.

(** [ranked.sort((a, b) => b.score - a.score)]: by decreasing score,
    slots of equal score in the order they had ([Array.prototype.sort]
    is stable). *)
Fixpoint insertByScore (x : Ranked) (l : list Ranked) : list Ranked :=
  match l with
  | [] => [x]
  | y :: rest =>
      if Qle_bool (r_score y) (r_score x) then x :: l else y :: insertByScore x rest
  end.

(** [rankSlots(slots, { client })]. *)
Definition rankSlots (now : Z) (slots : list Slot.t) (client : Client.t) : list Ranked :=
  fold_right insertByScore []
             (map (fun slot => mkRanked slot (scoreOf now client slot)) slots).

(** The body of [POST suggest] as the handler and Mongoose read it:
    [b_clientId] and [b_therapistId] are the ids that [clientId] and
    [therapistId] cast to, [None] when the cast throws (an id left out is
    looked up as [null] and finds no profile, as an id outside the store
    does); [b_from] and
    [b_to] are [new Date(from)] and [new Date(to)], [None] for an Invalid
    Date, which the filter of [Session.find] refuses to cast;
    [b_sessionMinutes] is a number or absent. *)
Record Body : Type := mkBody {
  b_clientId : option Oid.t;
  b_therapistId : option Oid.t;
  b_from : option Z;
  b_to : option Z;
  b_sessionMinutes : option Q
}.

(** [res.json({ total, rankedSlots })], or what the [catch] answers:
    [err.message] with status 400, for the error [findSlots] throws itself
    and for what Mongoose throws. *)
Inductive Reply : Type :=
| Suggested (total : nat) (rankedSlots : list Ranked)
| Failed (code : Z) (message : string)
| Caught (code : Z) (e : Thrown).

Definition replyCode (r : Reply) : Z :=
  match r with
  | Suggested _ _ => 200
  | Failed code _ => code
  | Caught code _ => code
  end.

(** [sessionMinutes || 60]. *)
Definition sessionMinutesOr60 (v : option Q) : Q :=
  match v with
  | Some q => if Qeq_bool q 0 then 60%Q else q
  | None => 60%Q
  end.

(** [suggestSlots(req, res)]; [None] when a loop of [findSlots] does not
    end within [fuel] rounds.  The two [findById] come first and throw
    when an id does not cast; then [findSlots] throws when a profile is
    missing; then [Session.find] throws on an Invalid Date.  Stored
    preferences and blocks carry their times, as the records of [Client]
    and [Therapist] have them. *)
Definition suggestSlots (fuel : nat) (tz : Z) (env : Env) (body : Body) (db : Db)
  : option Reply :=
  match b_clientId body, b_therapistId body with
  | Some clientId, Some therapistId =>
      match b_from body, b_to body with
      | Some from, Some to =>
          match SchedulingService.findSlots
                  fuel tz
                  (SchedulingService.mkArgs clientId therapistId from to
                                            (sessionMinutesOr60 (b_sessionMinutes body)))
                  db with
          | None => None
          | Some SchedulingService.NotFound =>
              Some (Failed 400 "Client or therapist not found")
          | Some (SchedulingService.Slots client _ slots) =>
              let ranked := rankSlots (now env) slots client in
              Some (Suggested (List.length ranked) (firstn 20 ranked))
          end
      | _, _ =>
          match Mongo.findClientById clientId (clients db),
                Mongo.findTherapistById therapistId (therapists db) with
          | Some _, Some _ => Some (Caught 400 CastError)
          | _, _ => Some (Failed 400 "Client or therapist not found")
          end
      end
  | _, _ => Some (Caught 400 CastError)
  end.

End SlotRanker.

(* ================================================================== *)
(** * "HH:mm" as text *)

(** The strings themselves, for the two ways the backend reads a time of
    the day: the availability controller validates with [HHMM_REGEX] and
    reads with [split(":").map(Number)]; [isWithinAvailability] of the
    session controller reads with [slice] and [parseInt].  Text is ASCII,
    as in [Js]. *)
Module TimeText.

Definition isDigit (c : ascii) : bool := PublicController.isDigit c.

Definition isColon (c : ascii) : bool := (nat_of_ascii c =? 58)%nat.

(** A character class [[lo-hi]], by character codes. *)
Definition inClass (lo hi : nat) (c : ascii) : bool :=
  let n := nat_of_ascii c in ((lo <=? n)%nat && (n <=? hi)%nat).

Definition digitValue (c : ascii) : Z := Z.of_nat (nat_of_ascii c) - 48.

(** [HHMM_REGEX.test(s)] for [/^([01]?[0-9]|2[0-3]):[0-5][0-9]$/]. *)
Definition matchesHHMM (s : string) : bool :=
  match list_ascii_of_string s with
  | [h; c; m1; m2] =>
      isDigit h && isColon c && inClass 48 53 m1 && isDigit m2
  | [h1; h2; c; m1; m2] =>
      ((inClass 48 49 h1 && isDigit h2) || (inClass 50 50 h1 && inClass 48 51 h2))
      && isColon c && inClass 48 53 m1 && isDigit m2
  | _ => false
  end.

(** [isValidTime(str)]. *)
Definition isValidTime (str : JsVal) : bool :=
  match str with
  | JStr s => matchesHHMM (Js.trim s)
  | _ => false
  end.

(** The value of a string of decimal digits read from the left. *)
Fixpoint decimal (acc : Z) (l : list ascii) : option Z :=
  match l with
  | [] => Some acc
  | c :: rest => if isDigit c then decimal (acc * 10 + digitValue c) rest else None
  end.

(** [Number(s)] where [s] is a non-empty string of decimal digits; no
    other string reaches [Number] once [isValidTime] has passed, and
    [None] stands for all of them. *)
Definition numberOfDigits (l : list ascii) : option Z :=
  match l with
  | [] => None
  | _ => decimal 0 l
  end.

(** [s.split(":")]. *)
Fixpoint splitColon (cur : list ascii) (l : list ascii) : list (list ascii) :=
  match l with
  | [] => [rev cur]
  | c :: rest => if isColon c then rev cur :: splitColon [] rest
                 else splitColon (c :: cur) rest
  end.

(** [const [h, m] = str.trim().split(":").map(Number)] as the pair of the
    two numbers. *)
Definition fields (str : string) : option HHmm.t :=
  match splitColon [] (list_ascii_of_string (Js.trim str)) with
  | hs :: ms :: _ =>
      match numberOfDigits hs, numberOfDigits ms with
      | Some h, Some m => Some (HHmm.mk h m)
      | _, _ => None
      end
  | _ => None
  end.

(** [timeToMinutes(str)] of the availability controller. *)
Definition timeToMinutes (str : string) : option Z :=
  option_map HHmm.timeToMinutes (fields str).

Definition isSpace (c : ascii) : bool := Js.isSpace c.

Fixpoint skipSpaces (l : list ascii) : list ascii :=
  match l with
  | c :: rest => if isSpace c then skipSpaces rest else l
  | [] => []
  end.

(** The longest prefix of digits, read in base 10; [None] when there is
    none. *)
Fixpoint digitsPrefix (acc : option Z) (l : list ascii) : option Z :=
  match l with
  | c :: rest =>
      if isDigit c
      then digitsPrefix (Some (match acc with Some a => a | None => 0 end * 10
                               + digitValue c)) rest
      else acc
  | [] => acc
  end.

(** [parseInt(s, 10)]: leading white space is skipped, a sign is read,
    then the longest prefix of digits; [None] is NaN. *)
Definition parseInt10 (l : list ascii) : option Z :=
  match skipSpaces l with
  | c :: rest =>
      if (nat_of_ascii c =? 45)%nat then option_map Z.opp (digitsPrefix None rest)
      else if (nat_of_ascii c =? 43)%nat then digitsPrefix None rest
      else digitsPrefix None (c :: rest)
  | [] => None
  end.

(** [parseInt(s.slice(0, 2), 10) * 60 + parseInt(s.slice(3), 10)], the
    reading of [isWithinAvailability]; [None] is NaN. *)
Definition sliceMinutes (s : string) : option Z :=
  let l := list_ascii_of_string s in
  match parseInt10 (firstn 2 l), parseInt10 (skipn 3 l) with
  | Some h, Some m => Some (h * 60 + m)
  | _, _ => None
  end.

(** Is the text zero-padded ("09:00", five characters)? *)
Definition isPadded (s : string) : bool := (String.length s =? 5)%nat.

End TimeText.

(* ================================================================== *)
(** * models/Availability.js: the documents as they are stored *)

(** [Db] holds the Availability collection by the fields of its times,
    which is what the documents are when their times are zero-padded.
    Here are the documents themselves, with the text of the two times,
    and the two ways the backend reads them. *)
Module AvailabilityDoc.

Record t : Type := mk {
  therapist : Oid.t;
  dayOfWeek : Day;
  startTime : string;
  endTime : string
}.

(** The validators of the schema on the two times, [match: HHMM_REGEX]:
    every stored document passes them. *)
Definition valid (d : t) : bool :=
  TimeText.matchesHHMM (startTime d) && TimeText.matchesHHMM (endTime d).

(** Both times are written with two digits for the hour. *)
Definition zeroPadded (d : t) : bool :=
  TimeText.isPadded (startTime d) && TimeText.isPadded (endTime d).

(** The document as a handler sees it that reads the times with
    [split(":").map(Number)]; both times of a stored document read. *)
Definition record (d : t) : option Availability.t :=
  match TimeText.fields (startTime d), TimeText.fields (endTime d) with
  | Some s, Some e => Some (Availability.mk (therapist d) (dayOfWeek d) s e)
  | _, _ => None
  end.

Fixpoint records (docs : list t) : list Availability.t :=
  match docs with
  | [] => []
  | d :: rest =>
      match record d with
      | Some a => a :: records rest
      | None => records rest
      end
  end.

(** A comparison of two numbers that may be NaN ([None]): false as soon
    as one is. *)
Definition compareNumbers (test : Z -> Z -> bool) (a b : option Z) : bool :=
  match a, b with
  | Some x, Some y => test x y
  | _, _ => false
  end.

(** [isWithinAvailability(therapistId, start, end)] of the session
    controller, on the documents: the stored times are read with [slice]
    and [parseInt]; [startStr] and [endStr] are the zero-padded strings the
    function builds itself. *)
Definition isWithinAvailability (docs : list t) (therapistId : option Oid.t)
           (start end_ : Z) : bool :=
  let dayOfWeek_ := SessionController.dateToDayOfWeekUTC start in
  let startStr := SessionController.dateToHHmmUTC start in
  let endStr := SessionController.dateToHHmmUTC end_ in
  let slots := filter (fun a => SessionController.refIs (therapist a) therapistId
                                && Day_eqb (dayOfWeek a) dayOfWeek_) docs in
  match slots with
  | [] => false
  | _ =>
      let startMin := Some (SessionController.minutesOf startStr) in
      let endMin := Some (SessionController.minutesOf endStr) in
      existsb (fun s =>
                 let sMin := TimeText.sliceMinutes (startTime s) in
                 let eMin := TimeText.sliceMinutes (endTime s) in
                 compareNumbers Z.geb startMin sMin && compareNumbers Z.leb endMin eMin)
              slots
  end.

End AvailabilityDoc.

(* ================================================================== *)
(** * controllers/availabilityController.js: createAvailability *)

Module AvailabilityController.

Import TimeText.

(** [req.user]: the role and [req.user.therapist], the therapist profile
    [requireAuth] read from the User document. *)
Record User : Type := mkUser {
  u_role : option Role;
  u_therapist : option Oid.t
}.

Record CreateBody : Type := mkCreateBody {
  c_therapistId : JsVal;
  c_dayOfWeek : JsVal;
  c_startTime : JsVal;
  c_endTime : JsVal
}.

(** [res.status(201).json(payload)], a message, or the 500 of [catch]. *)
Inductive Reply : Type :=
| Created (code : Z) (doc : AvailabilityDoc.t)
| Message (code : Z) (message : string)
| Thrown (code : Z).

Definition dayName (d : Day) : string :=
  match d with
  | SUNDAY => "SUNDAY" | MONDAY => "MONDAY" | TUESDAY => "TUESDAY"
  | WEDNESDAY => "WEDNESDAY" | THURSDAY => "THURSDAY" | FRIDAY => "FRIDAY"
  | SATURDAY => "SATURDAY"
  end.

(** [String.prototype.toUpperCase] (ASCII range). *)
Definition upper (c : ascii) : ascii :=
  let n := nat_of_ascii c in
  if ((97 <=? n)%nat && (n <=? 122)%nat) then ascii_of_nat (n - 32) else c.

Fixpoint toUpperCase (s : string) : string :=
  match s with
  | EmptyString => EmptyString
  | String c rest => String (upper c) (toUpperCase rest)
  end.

(** [normalizeDayOfWeek(value)]. *)
Definition normalizeDayOfWeek (value : JsVal) : option Day :=
  match value with
  | JStr s =>
      let u := toUpperCase (Js.trim s) in
      find (fun d => String.eqb (dayName d) u) DAYS_ENUM
  | JNum n =>
      if (0 <=? n) && (n <=? 6) then Some (nth (Z.to_nat n) DAYS_ENUM SUNDAY) else None
  | JNull => None
  end.

(** [getTherapistIdForUser(req)]. *)
Definition getTherapistIdForUser (user : User) : option Oid.t :=
  match u_role user with
  | Some role_therapist => u_therapist user
  | _ => None
  end.

(** [timesOverlap(start1, end1, start2, end2)] on the texts, each read
    with [timeToMinutes]. *)
Definition timesOverlap (start1 end1 start2 end2 : string) : bool :=
  let s1 := timeToMinutes start1 in
  let e1 := timeToMinutes end1 in
  let s2 := timeToMinutes start2 in
  let e2 := timeToMinutes end2 in
  AvailabilityDoc.compareNumbers Z.ltb s1 e2 && AvailabilityDoc.compareNumbers Z.gtb e1 s2.

(** [findOverlappingSlots(therapistId, dayOfWeek, startTime, endTime)],
    without [excludeId]. *)
Definition findOverlappingSlots (therapistId : Oid.t) (dayOfWeek : Day)
           (startTime endTime : string) (docs : list AvailabilityDoc.t)
  : list AvailabilityDoc.t :=
  filter (fun s => timesOverlap (AvailabilityDoc.startTime s) (AvailabilityDoc.endTime s)
                                startTime endTime)
         (filter (fun s => Oid.eqb (AvailabilityDoc.therapist s) therapistId
                           && Day_eqb (AvailabilityDoc.dayOfWeek s) dayOfWeek) docs).

(** [!therapistId || String(therapistId).trim() === ""]. *)
Definition blank (v : JsVal) : bool :=
  match v with
  | JNull => true
  | JStr s => Js.isEmpty (Js.trim s)
  | JNum n => n =? 0
  end.

(** Lines 986-1003: whose slot it is.  [castId] is
    [new mongoose.Types.ObjectId(String(therapistId).trim())], [None] when
    it throws. *)
Definition therapistFor (castId : JsVal -> option Oid.t) (user : User) (body : CreateBody)
           (db : Db) : Reply + Oid.t :=
  match u_role user with
  | Some role_therapist =>
      match getTherapistIdForUser user with
      | None => inl (Message 403 "Therapist profile not found for this user")
      | Some myId => inr myId
      end
  | Some role_admin =>
      if blank (c_therapistId body)
      then inl (Message 400 "therapistId is required for admin")
      else match castId (c_therapistId body) with
           | None => inl (Thrown 500)
           | Some therapistObjectId =>
               match Mongo.findTherapistById therapistObjectId (therapists db) with
               | None => inl (Message 404 "Therapist not found")
               | Some _ => inr therapistObjectId
               end
           end
  | _ => inl (Message 403 "Forbidden")
  end.

(** [createAvailability(req, res)] over the Availability documents
    [docs]; [db] is read for the therapist profile only.  The document
    stores the trimmed texts, which pass the validators of the schema.
    A time that is no string does not pass [isValidTime]; were it to reach
    [timeToMinutes], [str.trim] would throw.  The fields [recurringWeekly]
    and [createdBy] are outside the store; [req.user.sub] is absent or
    the id of the user, as [requireAuth] leaves it, so that its cast does
    not throw. *)
Definition createAvailability (castId : JsVal -> option Oid.t) (user : User)
           (body : CreateBody) (db : Db) (docs : list AvailabilityDoc.t)
  : Reply * list AvailabilityDoc.t :=
  match therapistFor castId user body db with
  | inl r => (r, docs)
  | inr therapistObjectId =>
  match normalizeDayOfWeek (c_dayOfWeek body) with
  | None => (Message 400 "dayOfWeek must be 0-6 or a day name (e.g. MONDAY)", docs)
  | Some day =>
  if negb (isValidTime (c_startTime body))
  then (Message 400 "startTime must be HH:mm (e.g. 09:00)", docs) else
  if negb (isValidTime (c_endTime body))
  then (Message 400 "endTime must be HH:mm (e.g. 17:00)", docs) else
  match c_startTime body, c_endTime body with
  | JStr startTime, JStr endTime =>
      let startMin := timeToMinutes startTime in
      let endMin := timeToMinutes endTime in
      if AvailabilityDoc.compareNumbers Z.leb endMin startMin
      then (Message 400 "endTime must be after startTime", docs) else
      match findOverlappingSlots therapistObjectId day
                                 (Js.trim startTime) (Js.trim endTime) docs with
      | _ :: _ =>
          (Message 409 "This slot overlaps with an existing slot for the same day", docs)
      | [] =>
          let doc := AvailabilityDoc.mk therapistObjectId day
                                        (Js.trim startTime) (Js.trim endTime) in
          (Created 201 doc, docs ++ [doc])
      end
  | _, _ => (Thrown 500, docs)
  end end end.



End AvailabilityController.

(* ================================================================== *)
(** * controllers/therapistController.js *)

Module TherapistController.

Definition withTherapists (db : Db) (l : list Therapist.t) : Db :=
  mkDb (sessions db) l (clients db) (availability db).

(** [t_params] is [req.params.id] cast to an ObjectId, [None] when the
    cast fails; [t_start] and [t_end] are the body's [start] and [end] as
    the schema casts them to a Date, [None] when the field is absent or
    is no date (both are required).  [reason] is outside the store. *)
Record TimeOffRequest : Type := mkTimeOffRequest {
  t_params : option Oid.t;
  t_start : option Z;
  t_end : option Z
}.

(** [res.json(therapist)], a message, or [err.message] of what the
    [catch] caught. *)
Inductive Reply : Type :=
| Profile (code : Z) (therapist : Therapist.t)
| Message (code : Z) (message : string)
| Thrown (code : Z).

(** [therapist.save()]: the stored document of that [_id] is replaced. *)
Fixpoint saveTherapist (t : Therapist.t) (l : list Therapist.t) : list Therapist.t :=
  match l with
  | [] => []
  | x :: rest =>
      if Oid.eqb (Therapist._id x) (Therapist._id t) then t :: rest
      else x :: saveTherapist t rest
  end.

(** [therapist.timeOff.push({ start, end, reason })]. *)
Definition pushTimeOff (therapist : Therapist.t) (start end_ : Z) : Therapist.t :=
  Therapist.mk (Therapist._id therapist) (Therapist.name therapist)
               (Therapist.weeklyAvailability therapist)
               (Therapist.timeOff therapist ++ [Therapist.mkOff start end_]).

(** [addTimeOff(req, res)].  The stored profile passes the validation of
    its schema, so that [save] fails on the new entry only. *)
Definition addTimeOff (req : TimeOffRequest) (db : Db) : Reply * Db :=
  match t_params req with
  | None => (Thrown 400, db)
  | Some id =>
      match Mongo.findTherapistById id (therapists db) with
      | None => (Message 404 "Therapist not found", db)
      | Some therapist =>
          match t_start req, t_end req with
          | Some start, Some end_ =>
              let therapist := pushTimeOff therapist start end_ in
              (Profile 200 therapist,
               withTherapists db (saveTherapist therapist (therapists db)))
          | _, _ => (Thrown 400, db)
          end
      end
  end.

End TherapistController.

(* ================================================================== *)
(** * controllers/adminController.js: deleting a profile *)

Module AdminController.

(** Of a [User] document, the [_id] and the two links to a profile. *)
Record UserDoc : Type := mkUserDoc {
  _id : Oid.t;
  client : option Oid.t;
  therapist : option Oid.t
}.

(** [d_params] is [req.params.id] cast to an ObjectId, [None] when the
    cast fails; the two query parameters are strings or absent. *)
Record DeleteRequest : Type := mkDeleteRequest {
  d_params : option Oid.t;
  d_deleteUser : option string;
  d_cancelSessions : option string
}.

Inductive Reply : Type :=
| Deleted (message : string) (deletedId : Oid.t) (userDeleted sessionsCancelled : bool)
| Message (code : Z) (message : string)
| Thrown (code : Z).

(** [String(q || dflt) === "true"]. *)
Definition flag (q : option string) (dflt : string) : bool :=
  String.eqb (match q with
              | Some s => if Js.isEmpty s then dflt else s
              | None => dflt
              end) "true".

(** [Session.updateMany({ <field>: id, status: "scheduled" },
    { $set: { status: "cancelled" } })], for the sessions [mine]
    selects. *)
Definition cancelScheduled (mine : Session.t -> bool) (l : list Session.t)
  : list Session.t :=
  map (fun s => if mine s && Status_eqb (Session.status s) scheduled
                then SessionLifecycle.withStatus s cancelled else s) l.

(** [Model.deleteOne(filter)]: the first document that matches goes. *)
Fixpoint deleteOne {A : Type} (matches : A -> bool) (l : list A) : list A :=
  match l with
  | [] => []
  | x :: rest => if matches x then rest else x :: deleteOne matches rest
  end.

Definition linksTo (field : option Oid.t) (id : Oid.t) : bool :=
  match field with
  | Some x => Oid.eqb x id
  | None => false
  end.

(** [if (user) { <unlink>; await user.save();
                 if (deleteUser) await User.deleteOne({ _id: user._id }); }]. *)
Definition unlink (user : option UserDoc) (unlinked : UserDoc -> UserDoc)
           (deleteUser : bool) (users : list UserDoc) : list UserDoc :=
  match user with
  | None => users
  | Some user =>
      let saved := map (fun u => if Oid.eqb (_id u) (_id user) then unlinked user else u)
                       users in
      if deleteUser then deleteOne (fun u => Oid.eqb (_id u) (_id user)) saved else saved
  end.

Definition isSome {A : Type} (o : option A) : bool :=
  match o with Some _ => true | None => false end.

(** [deleteClientProfile(req, res)] over the users and the store.  The
    stored user passes the validation of its schema, so that [save] does
    not fail. *)
Definition deleteClientProfile (req : DeleteRequest) (users : list UserDoc) (db : Db)
  : Reply * list UserDoc * Db :=
  match d_params req with
  | None => (Thrown 500, users, db)
  | Some id =>
      let deleteUser := flag (d_deleteUser req) "false" in
      let cancelSessions := flag (d_cancelSessions req) "true" in
      match Mongo.findClientById id (clients db) with
      | None => (Message 404 "Client not found", users, db)
      | Some client_ =>
          let cid := Client._id client_ in
          let sessions' :=
            if cancelSessions
            then cancelScheduled (fun s => Oid.eqb (Session.client s) cid) (sessions db)
            else sessions db in
          let user := find (fun u => linksTo (client u) cid) users in
          let users' :=
            unlink user (fun u => mkUserDoc (_id u) None (therapist u)) deleteUser users in
          (Deleted "Client profile deleted" cid (isSome user && deleteUser) cancelSessions,
           users',
           mkDb sessions' (therapists db)
                (deleteOne (fun c => Oid.eqb (Client._id c) cid) (clients db))
                (availability db))
      end
  end.

(** [deleteTherapistProfile(req, res)].  The profiles of the store do not
    carry the field [user]; [userOf] gives it for the profile found. *)
Definition deleteTherapistProfile (userOf : Therapist.t -> option Oid.t)
           (req : DeleteRequest) (users : list UserDoc) (db : Db)
  : Reply * list UserDoc * Db :=
  match d_params req with
  | None => (Thrown 500, users, db)
  | Some id =>
      let deleteUser := flag (d_deleteUser req) "false" in
      let cancelSessions := flag (d_cancelSessions req) "true" in
      match Mongo.findTherapistById id (therapists db) with
      | None => (Message 404 "Therapist not found", users, db)
      | Some therapist_ =>
          let tid := Therapist._id therapist_ in
          let sessions' :=
            if cancelSessions
            then cancelScheduled (fun s => Oid.eqb (Session.therapist s) tid) (sessions db)
            else sessions db in
          let byLink :=
            match userOf therapist_ with
            | Some uid => find (fun u => Oid.eqb (_id u) uid) users
            | None => None
            end in
          let user :=
            match byLink with
            | Some u => Some u
            | None => find (fun u => linksTo (therapist u) tid) users
            end in
          let users' :=
            unlink user (fun u => mkUserDoc (_id u) (client u) None) deleteUser users in
          (Deleted "Therapist profile deleted" tid (isSome user && deleteUser) cancelSessions,
           users',
           mkDb sessions' (deleteOne (fun t => Oid.eqb (Therapist._id t) tid) (therapists db))
                (clients db) (availability db))
      end
  end.

(** No scheduled session names a profile that is gone. *)
Definition scheduledResolve (db : Db) : Prop :=
  forall s, In s (sessions db) -> Session.status s = scheduled ->
            Invariant.therapistStored db (Session.therapist s) = true
            /\ Invariant.clientStored db (Session.client s) = true.

End AdminController.

(** Requests and states the examples below use. *)
Module Examples.

Import SessionController SessionLifecycle.

(** C1 cancels the session booked in [Scenario.db1]; C2 tries the same. *)
Definition ownerCancels : IdRequest := mkIdRequest (Some 1%N) (Scenario.asClient Scenario.clientC1).

Definition strangerCancels : IdRequest :=
  mkIdRequest (Some 1%N) (Scenario.asClient Scenario.clientC2).

Definition ownerReads : IdRequest := ownerCancels.

Definition adminDeletes : IdRequest :=
  mkIdRequest (Some 1%N) (mkActor (Some role_admin) None None).

Definition ownerSetsCancelled : StatusRequest :=
  mkStatusRequest (Some 1%N) (Scenario.asClient Scenario.clientC1) (JStr "cancelled").

(** A morning of the practice: C1 books 09:00-10:00 and cancels, C2 books
    the hour, C1 cancels again through the status route, an admin deletes
    C1's session. *)
Definition morning : list Operations.Call :=
  [ Operations.Book Scenario.env Scenario.hourAtNine;
    Operations.Cancel ownerCancels;
    Operations.Book Scenario.env Scenario.hourAtNineC2;
    Operations.SetStatus ownerSetsCancelled;
    Operations.Delete adminDeletes ].

(** C1's cancelled 09:00-10:00 next to C2's scheduled booking of the same
    hour with the same therapist. *)
Definition dbRebooked : Db :=
  mkDb [ Session.mk 1%N (Oid.cast Scenario.therapistA) Scenario.clientC1
                    1770627600000 1770631200000 cancelled None;
         Session.mk 2%N (Oid.cast Scenario.therapistA) Scenario.clientC2
                    1770627600000 1770631200000 scheduled None ]
       (therapists Scenario.db0) (clients Scenario.db0) (availability Scenario.db0).

(** C1 moves the booking of [Scenario.db1] to 09:30-10:00, and the session
    as it is stored afterwards. *)
Definition toHalfPastNine : RescheduleRequest :=
  Scenario.move Scenario.clientC1 1%N "2026-02-09T09:30:00.000Z" "2026-02-09T10:00:00.000Z".

Definition atHalfPastNine : Session.t :=
  Session.mk 1%N (Oid.cast Scenario.therapistA) Scenario.clientC1
             1770629400000 1770631200000 scheduled None.

(** The therapist marks the cancelled session as completed. *)
Definition therapistCompletes : StatusRequest :=
  mkStatusRequest (Some 1%N)
                  (mkActor (Some role_therapist) None (Some (Oid.cast Scenario.therapistA)))
                  (JStr "completed").

(** A client who wants Mondays, between 10:00 and 12:00, not before
    09:00 and not after 11:00. *)
Definition pickyPreferences : Client.Preferences :=
  Client.mkPrefs [1] [Client.mkRange (HHmm.mk 10 0) (HHmm.mk 12 0)] []
                 (Some (Client.mkHard (Some (HHmm.mk 9 0)) (Some (HHmm.mk 11 0)))).

Definition picky : Client.t := Client.mk 196%N None (Some pickyPreferences).

Definition dbPicky : Db :=
  mkDb [] (therapists Scenario.db0) [picky] (availability Scenario.db0).

(** Suggestions for that client with therapist A over Monday 2026-02-09,
    in sessions of 60 minutes. *)
Definition pickyArgs : SchedulingService.Args :=
  SchedulingService.mkArgs 196%N (Oid.cast Scenario.therapistA)
                           1770595200000 1770681600000 60%Q.

(** [POST suggest] for C2 with therapist A over Monday 2026-02-09, without
    [sessionMinutes], and the three slots it finds. *)
Definition mondayBody : SlotRanker.Body :=
  SlotRanker.mkBody (Some Scenario.clientC2) (Some (Oid.cast Scenario.therapistA))
                    (Some 1770595200000) (Some 1770681600000) None.

Definition mondaySlots : list Slot.t :=
  [ Scenario.nineToTen; Scenario.tenToEleven;
    Slot.mk (Oid.cast Scenario.therapistA) 1770634800000 1770638400000 ].

(** [new mongoose.Types.ObjectId(v)] on the values the examples send: a
    string of 24 hexadecimal digits. *)
Definition hexId (v : JsVal) : option Oid.t :=
  match v with
  | JStr s => if Oid.isValidObjectIdString s then Some (Oid.cast (Js.trim s)) else None
  | _ => None
  end.

(** Therapist A signed in. *)
Definition userA : AvailabilityController.User :=
  AvailabilityController.mkUser (Some role_therapist) (Some (Oid.cast Scenario.therapistA)).

(** Therapist A opens Monday 13:00-15:00. *)
Definition mondayAfternoon : AvailabilityController.CreateBody :=
  AvailabilityController.mkCreateBody JNull (JStr " monday ") (JStr "13:00") (JStr " 15:00").

(** The Availability documents behind [Scenario.db0], and the document of
    the afternoon. *)
Definition docs0 : list AvailabilityDoc.t :=
  [ AvailabilityDoc.mk (Oid.cast Scenario.therapistA) MONDAY "09:00" "12:00" ].

Definition afternoonSlot : AvailabilityDoc.t :=
  AvailabilityDoc.mk (Oid.cast Scenario.therapistA) MONDAY "13:00" "15:00".

(** Therapist B writes the hour without its zero: Monday 9:00-9:30. *)
Definition earlyBody : AvailabilityController.CreateBody :=
  AvailabilityController.mkCreateBody JNull (JNum 1) (JStr "9:00") (JStr "9:30").

Definition userB : AvailabilityController.User :=
  AvailabilityController.mkUser (Some role_therapist) (Some (Oid.cast Scenario.therapistB)).

Definition earlySlot : AvailabilityDoc.t :=
  AvailabilityDoc.mk (Oid.cast Scenario.therapistB) MONDAY "9:00" "9:30".

(** Therapist A is away on Monday 2026-02-09 from 09:00 to 10:00 (UTC). *)
Definition nineOff : TherapistController.TimeOffRequest :=
  TherapistController.mkTimeOffRequest (Some (Oid.cast Scenario.therapistA))
                                       (Some 1770627600000) (Some 1770631200000).

(** The accounts of client C1 and of therapist A. *)
Definition accounts : list AdminController.UserDoc :=
  [ AdminController.mkUserDoc 11%N (Some Scenario.clientC1) None;
    AdminController.mkUserDoc 12%N None (Some (Oid.cast Scenario.therapistA)) ].

(** An admin deletes the profile of C1, then that of therapist A together
    with the account, both without [cancelSessions] in the query. *)
Definition deleteC1 : AdminController.DeleteRequest :=
  AdminController.mkDeleteRequest (Some Scenario.clientC1) None None.

Definition deleteA : AdminController.DeleteRequest :=
  AdminController.mkDeleteRequest (Some (Oid.cast Scenario.therapistA)) (Some "true"%string) None.

(** Profiles written before the field [user] existed. *)
Definition noUserField (t : Therapist.t) : option Oid.t := None.

(** The practice of [Scenario.dbOrphaned] before the deletion: client 195
    still has a profile, and holds 09:00-10:00 with therapist A and
    10:00-11:00 with therapist B. *)
Definition dbBeforeDeletion : Db :=
  mkDb (sessions Scenario.dbOrphaned) (therapists Scenario.dbOrphaned)
       (clients Scenario.dbOrphaned ++ [Client.mk Scenario.orphan None None])
       (availability Scenario.dbOrphaned).

(** [DELETE /api/admin/clients/<id of 195>?cancelSessions=false]. *)
Definition keepSessions : AdminController.DeleteRequest :=
  AdminController.mkDeleteRequest (Some Scenario.orphan) None (Some "false"%string).

Definition orphanAtNine : Session.t :=
  Session.mk 1%N (Oid.cast Scenario.therapistA) Scenario.orphan
             1770627600000 1770631200000 scheduled None.

Definition orphanAtTen : Session.t :=
  Session.mk 2%N (Oid.cast Scenario.therapistB) Scenario.orphan
             1770631200000 1770634800000 scheduled None.

(** The second session once it is moved onto 09:00-10:00. *)
Definition orphanMoved : Session.t :=
  Session.mk 2%N (Oid.cast Scenario.therapistB) Scenario.orphan
             1770627600000 1770631200000 scheduled None.

(** Client 195 asks for 10:00-12:00 with therapist A. *)
Definition orphanBooks : BookRequest :=
  Scenario.book Scenario.orphan Scenario.therapistA
                "2026-02-09T10:00:00.000Z" "2026-02-09T12:00:00.000Z".

(** A search of Monday 2026-02-09 from 00:00 to 08:00, while C1 holds the
    whole morning 09:00-12:00 with therapist A. *)
Definition earlyArgs : SchedulingService.Args :=
  SchedulingService.mkArgs Scenario.clientC2 (Oid.cast Scenario.therapistA)
                           1770595200000 1770624000000 180%Q.

Definition wholeMorning : Session.t :=
  Session.mk 1%N (Oid.cast Scenario.therapistA) Scenario.clientC1
             1770627600000 1770638400000 scheduled None.

Definition dbMorningTaken : Db := withSessions Scenario.db0 [wholeMorning].

End Examples.

(* ================================================================== *)
(** * Theorems *)

(** ** IntervalMath *)

Section IntervalFacts.

Import IntervalMath.

Lemma overlapQuery_iff start end_ existing :
  overlapQuery start end_ existing = true
  <-> Interval.start existing < end_ /\ Interval.end_ existing > start.
Proof.
  unfold overlapQuery.
  rewrite andb_true_iff, Z.ltb_lt, Z.gtb_ltb, Z.ltb_lt. lia.
Qed.

Lemma overlaps_iff a b :
  overlaps a b = true
  <-> Interval.start a < Interval.end_ b /\ Interval.end_ a > Interval.start b.
Proof.
  unfold overlaps.
  rewrite andb_true_iff, Z.ltb_lt, Z.gtb_ltb, Z.ltb_lt. lia.
Qed.

Lemma overlaps_sym a b : overlaps a b = overlaps b a.
Proof.
  apply eq_true_iff_eq. rewrite !overlaps_iff. lia.
Qed.

(** The Mongo filter built by [overlapQuery] is [overlaps] with the stored
    document on the left. *)
Lemma overlapQuery_overlaps start end_ existing :
  overlapQuery start end_ existing = overlaps existing (Interval.mk start end_).
Proof. reflexivity. Qed.

Lemma overlapInterval_None a b :
  overlapInterval a b = None
  <-> Z.max (Interval.start a) (Interval.start b)
      >= Z.min (Interval.end_ a) (Interval.end_ b).
Proof.
  unfold overlapInterval.
  destruct (Z.geb_spec (Z.max (Interval.start a) (Interval.start b))
                       (Z.min (Interval.end_ a) (Interval.end_ b))) as [H | H].
  - split; [lia | reflexivity].
  - split; [discriminate | lia].
Qed.

Lemma overlapInterval_Some a b x :
  overlapInterval a b = Some x ->
  Interval.start x = Z.max (Interval.start a) (Interval.start b)
  /\ Interval.end_ x = Z.min (Interval.end_ a) (Interval.end_ b)
  /\ Interval.start x < Interval.end_ x.
Proof.
  unfold overlapInterval.
  destruct (Z.geb_spec (Z.max (Interval.start a) (Interval.start b))
                       (Z.min (Interval.end_ a) (Interval.end_ b))) as [H | H];
    [discriminate |].
  intros E. injection E as <-. simpl. lia.
Qed.

End IntervalFacts.



(** ** The session store *)

Section StoreFacts.

Import Invariant SessionController.

Lemma Oid_eqb_eq a b : Oid.eqb a b = true <-> a = b.
Proof. apply N.eqb_eq. Qed.

Lemma Oid_eqb_neq a b : Oid.eqb a b = false <-> a <> b.
Proof. apply N.eqb_neq. Qed.

Lemma Oid_eqb_sym a b : Oid.eqb a b = Oid.eqb b a.
Proof. apply N.eqb_sym. Qed.

Lemma active_iff s : Session.active s = true <-> Session.status s <> cancelled.
Proof.
  unfold Session.active. destruct (Session.status s); simpl; split;
    congruence.
Qed.

Lemma Status_eqb_eq a b : Status_eqb a b = true <-> a = b.
Proof. destruct a, b; simpl; split; congruence. Qed.

(** Rivals that share an instant are caught by the overlap test. *)
Lemma rivals_sharing_conflict db a b :
  rivals db a b -> shareInstant a b -> conflicting db a b = true.
Proof.
  intros (_ & Ha & Hb & Hsame) (t & Hta & Htb). unfold conflicting.
  apply active_iff in Ha. apply active_iff in Hb. rewrite Ha, Hb, Hsame. simpl.
  apply overlaps_iff. simpl. lia.
Qed.

Lemma sameParty_sym db a b : sameParty db a b = sameParty db b a.
Proof.
  unfold sameParty.
  rewrite (Oid_eqb_sym (Session.therapist a)), (Oid_eqb_sym (Session.client a)).
  destruct (Oid.eqb (Session.therapist b) (Session.therapist a)) eqn:Et;
    destruct (Oid.eqb (Session.client b) (Session.client a)) eqn:Ec;
    try apply Oid_eqb_eq in Et; try apply Oid_eqb_eq in Ec;
    try rewrite Et; try rewrite Ec; reflexivity.
Qed.

Lemma rivals_sym db a b : rivals db a b -> rivals db b a.
Proof.
  intros (Hne & Ha & Hb & Hsame). repeat split; auto.
  rewrite sameParty_sym. exact Hsame.
Qed.

Lemma shareInstant_sym a b : shareInstant a b -> shareInstant b a.
Proof. intros (t & Ha & Hb). exists t. tauto. Qed.

(** On sessions that are not empty the overlap test says that an instant
    is shared. *)
Lemma overlaps_iff_shareInstant a b :
  Session.start a < Session.end_ a ->
  Session.start b < Session.end_ b ->
  (IntervalMath.overlaps (Session.interval a) (Session.interval b) = true
   <-> shareInstant a b).
Proof.
  intros Ha Hb. rewrite overlaps_iff. simpl. split.
  - intros [H1 H2]. exists (Z.max (Session.start a) (Session.start b)). lia.
  - intros (t & Hta & Htb). lia.
Qed.

Lemma conflicting_sym db a b : conflicting db a b = conflicting db b a.
Proof.
  unfold conflicting.
  rewrite (overlaps_sym (Session.interval a)), (sameParty_sym db a b).
  destruct (Session.active a), (Session.active b); reflexivity.
Qed.

(** Where every reference resolves, a shared reference is a shared party
    and the invariant is the one over the references. *)
Lemma sameParty_sameReference db a b :
  therapistStored db (Session.therapist a) = true ->
  clientStored db (Session.client a) = true ->
  sameParty db a b = sameReference a b.
Proof.
  intros Ht Hc. unfold sameParty, sameReference. rewrite Ht, Hc, !andb_true_r.
  reflexivity.
Qed.

Lemma coreInvariant_referenceInvariant db :
  refsResolve db -> (coreInvariant db <-> referenceInvariant (sessions db)).
Proof.
  intros Hrefs. unfold coreInvariant, referenceInvariant, conflicting.
  split; intros H a b Ha Hb Hne; specialize (H a b Ha Hb Hne);
    destruct (Hrefs a Ha) as [Ht Hc];
    rewrite (sameParty_sameReference db a b Ht Hc) in *; exact H.
Qed.

Lemma le_fold_max (ids : list N) x :
  In x ids -> (x <= fold_right N.max 0 ids)%N.
Proof.
  induction ids as [| y ids IH]; cbn [In fold_right]; [tauto |].
  intros [<- | H]; [lia |].
  specialize (IH H). lia.
Qed.

Lemma ids_below_fresh l x :
  In x (map Session._id l) -> (x < Mongo.freshId l)%N.
Proof.
  intros H. apply le_fold_max in H. unfold Mongo.freshId. lia.
Qed.

Lemma freshId_fresh l : ~ In (Mongo.freshId l) (map Session._id l).
Proof.
  intros H. apply ids_below_fresh in H. lia.
Qed.

(** A stored session [x] that the two conflict queries both pass over does
    not conflict with a session [y] on the queried interval, when the ids
    the queries were given are those of [y]'s therapist and client as far
    as these are in the store. *)
Lemma queries_miss_no_conflict db exclude therapistId clientId x y :
  notExcluded exclude x = true ->
  (therapistStored db (Session.therapist y) = true ->
   therapistId = Some (Session.therapist y)) ->
  (clientStored db (Session.client y) = true ->
   clientId = Some (Session.client y)) ->
  (notExcluded exclude x
   && refIs (Session.therapist x) therapistId
   && Session.active x
   && IntervalMath.overlapQuery (Session.start y) (Session.end_ y) (Session.interval x)) = false ->
  (notExcluded exclude x
   && refIs (Session.client x) clientId
   && Session.active x
   && IntervalMath.overlapQuery (Session.start y) (Session.end_ y) (Session.interval x)) = false ->
  conflicting db x y = false.
Proof.
  intros -> HT HC Ht Hc. unfold conflicting.
  rewrite overlapQuery_overlaps in Ht, Hc.
  replace (Interval.mk (Session.start y) (Session.end_ y)) with (Session.interval y)
    in Ht, Hc by reflexivity.
  destruct (Session.active x); simpl in *; [| reflexivity].
  destruct (Session.active y); simpl; [| reflexivity].
  destruct (IntervalMath.overlaps (Session.interval x) (Session.interval y));
    [| apply andb_false_r].
  rewrite andb_true_r in *. unfold sameParty.
  apply orb_false_iff. split.
  - destruct (Oid.eqb (Session.therapist x) (Session.therapist y)) eqn:E; [| reflexivity].
    apply Oid_eqb_eq in E. rewrite E. simpl.
    destruct (therapistStored db (Session.therapist y)) eqn:Es; [| reflexivity].
    rewrite (HT eq_refl) in Ht. simpl in Ht. rewrite E in Ht.
    unfold Oid.eqb in Ht. rewrite N.eqb_refl in Ht. discriminate.
  - destruct (Oid.eqb (Session.client x) (Session.client y)) eqn:E; [| reflexivity].
    apply Oid_eqb_eq in E. rewrite E. simpl.
    destruct (clientStored db (Session.client y)) eqn:Es; [| reflexivity].
    rewrite (HC eq_refl) in Hc. simpl in Hc. rewrite E in Hc.
    unfold Oid.eqb in Hc. rewrite N.eqb_refl in Hc. discriminate.
Qed.

Lemma create_inr therapist client start end_ notes l created l' :
  Mongo.create therapist client start end_ notes l = inr (created, l') ->
  created = Session.mk (Mongo.freshId l) therapist client start end_ scheduled notes
  /\ l' = l ++ [created].
Proof.
  unfold Mongo.create.
  destruct (Mongo.violatesIndex _ l); [discriminate |].
  intros E. injection E as <- <-. split; reflexivity.
Qed.

Lemma preserves_refl db : preserves db db.
Proof. unfold preserves. tauto. Qed.

(** Appending a session that both queries found no rival for. *)
Lemma insert_preserves db clientId therapistId startDate endDate notes created l :
  therapistStored db therapistId = true ->
  clientStored db clientId = true ->
  findTherapistConflict None (Some therapistId) startDate endDate (sessions db) = None ->
  findClientConflict None (Some clientId) startDate endDate (sessions db) = None ->
  Mongo.create therapistId clientId startDate endDate notes (sessions db) = inr (created, l) ->
  preserves db (withSessions db l).
Proof.
  intros Hst Hsc Ht Hc Hcreate.
  apply create_inr in Hcreate. destruct Hcreate as [Hcreated ->].
  assert (Hnew : forall x, In x (sessions db) -> conflicting db x created = false).
  { intros x Hx.
    apply (queries_miss_no_conflict db None (Some therapistId) (Some clientId));
      [reflexivity | | | |].
    - intros _. rewrite Hcreated. reflexivity.
    - intros _. rewrite Hcreated. reflexivity.
    - rewrite Hcreated. exact (find_none _ _ Ht x Hx).
    - rewrite Hcreated. exact (find_none _ _ Hc x Hx). }
  split; [split; reflexivity |].
  split; [| split; [| split]]; cbn [sessions withSessions].
  - intros Hids. unfold uniqueIds. rewrite map_app. apply NoDup_app; [exact Hids | |].
    + simpl. constructor; [simpl; tauto | constructor].
    + intros a Ha [<- | []]. rewrite Hcreated in Ha. simpl in Ha.
      exact (freshId_fresh _ Ha).
  - intros Hinv a b Ha Hb Hne. cbn [sessions withSessions] in Ha, Hb.
    change (conflicting db a b = false).
    apply in_app_or in Ha. apply in_app_or in Hb. simpl in Ha, Hb.
    destruct Ha as [Ha | [<- | []]], Hb as [Hb | [<- | []]].
    + apply Hinv; assumption.
    + apply Hnew; assumption.
    + rewrite conflicting_sym. apply Hnew; assumption.
    + congruence.
  - intros Hdis a b Ha Hb Hriv Hshare. cbn [sessions withSessions] in Ha, Hb.
    change (rivals db a b) in Hriv.
    apply in_app_or in Ha. apply in_app_or in Hb. simpl in Ha, Hb.
    destruct Ha as [Ha | [<- | []]], Hb as [Hb | [<- | []]].
    + exact (Hdis a b Ha Hb Hriv Hshare).
    + pose proof (rivals_sharing_conflict _ _ _ Hriv Hshare) as Hc1.
      rewrite (Hnew a Ha) in Hc1. discriminate.
    + pose proof (rivals_sharing_conflict _ _ _ (rivals_sym _ _ _ Hriv)
                                          (shareInstant_sym _ _ Hshare)) as Hc1.
      rewrite (Hnew b Hb) in Hc1. discriminate.
    + destruct Hriv as [Hne _]. congruence.
  - intros Hrefs s Hs. cbn [sessions withSessions] in Hs.
    change (therapistStored db (Session.therapist s) = true
            /\ clientStored db (Session.client s) = true).
    apply in_app_or in Hs. destruct Hs as [Hs | [<- | []]]; [exact (Hrefs s Hs) |].
    rewrite Hcreated. simpl. split; assumption.
Qed.

Lemma bookInTransaction_bookDirect db clientId therapistId startDate endDate notes :
  bookInTransaction db clientId therapistId startDate endDate notes
  = bookDirect db clientId therapistId startDate endDate notes.
Proof. reflexivity. Qed.

Lemma bookDirect_preserves db clientId therapistId startDate endDate notes :
  therapistStored db therapistId = true ->
  clientStored db clientId = true ->
  preserves db (snd (bookDirect db clientId therapistId startDate endDate notes)).
Proof.
  intros Hst Hsc. unfold bookDirect.
  destruct (findTherapistConflict None (Some therapistId) startDate endDate (sessions db))
    eqn:Ht; [apply preserves_refl |].
  destruct (findClientConflict None (Some clientId) startDate endDate (sessions db))
    eqn:Hc; [apply preserves_refl |].
  destruct (Mongo.create therapistId clientId startDate endDate notes (sessions db))
    as [[] | [created l]] eqn:Hcreate; cbn [snd]; try apply preserves_refl.
  eapply insert_preserves; eassumption.
Qed.

Lemma bookLookups_stored db c t s e u :
  bookLookups db c t s e = inr u ->
  therapistStored db (Oid.cast t) = true
  /\ clientStored db c = true
  /\ isWithinAvailability db (Some (Oid.cast t)) s e = true.
Proof.
  unfold bookLookups, therapistStored, clientStored.
  destruct (Mongo.findTherapistById _ _) as [th |]; [| discriminate].
  destruct (Mongo.findClientById _ _) as [cl |]; [| discriminate].
  destruct (isWithinAvailability db (Some (Oid.cast t)) s e); [| discriminate].
  intros _. repeat split.
Qed.

Lemma bookSession_preserves env req db :
  preserves db (snd (bookSession env req db)).
Proof.
  unfold bookSession.
  destruct (bookParse env req) as [r | [[[c t] s] e]]; [apply preserves_refl |].
  destruct (bookLookups db c t s e) eqn:Hlook; [apply preserves_refl |].
  apply bookLookups_stored in Hlook. destruct Hlook as (Hst & Hsc & _).
  rewrite bookInTransaction_bookDirect.
  destruct (production env); apply bookDirect_preserves; assumption.
Qed.

End StoreFacts.

(** ** Rescheduling *)

Section RescheduleFacts.

Import Invariant SessionController.

Lemma rescheduleParse_ordered env req newStart newEnd :
  rescheduleParse env req = inr (newStart, newEnd) -> newStart < newEnd.
Proof.
  unfold rescheduleParse. cbv zeta.
  destruct (isMissing _); [discriminate |]. cbn [returnIf bind].
  destruct (toDate env _) as [s |]; [| discriminate].
  destruct (isMissing _); [discriminate |]. cbn [returnIf bind].
  destruct (toDate env _) as [e |]; [| discriminate].
  destruct (Z.leb_spec e s) as [Hle | Hlt]; [discriminate |].
  cbn [returnIf bind ret]. intros E. injection E as <- <-. exact Hlt.
Qed.

Lemma rescheduleParse_rejects env req r :
  rescheduleParse env req = inl r -> statusCode r = 400.
Proof.
  unfold rescheduleParse. cbv zeta.
  destruct (isMissing _); [intros E; injection E as <-; reflexivity |].
  cbn [returnIf bind].
  destruct (toDate env _) as [s |]; [| intros E; injection E as <-; reflexivity].
  destruct (isMissing _); [intros E; injection E as <-; reflexivity |].
  cbn [returnIf bind].
  destruct (toDate env _) as [e |]; [| intros E; injection E as <-; reflexivity].
  destruct (e <=? s); [intros E; injection E as <-; reflexivity |].
  discriminate.
Qed.

(** The instants of a request that parses: what [toDate] reads from
    [startAt ?? newStart ?? start] and from [endAt ?? newEnd ?? end]. *)
Lemma rescheduleParse_reads env req newStart newEnd :
  rescheduleParse env req = inr (newStart, newEnd) ->
  toDate env (trimmed (nullish (nullish (r_startAt (resched_body req))
                                        (r_newStart (resched_body req)))
                               (r_start (resched_body req))))
  = Some newStart
  /\ toDate env (trimmed (nullish (nullish (r_endAt (resched_body req))
                                           (r_newEnd (resched_body req)))
                                  (r_end (resched_body req))))
     = Some newEnd.
Proof.
  unfold rescheduleParse. cbv zeta.
  destruct (isMissing _); [discriminate |]. cbn [returnIf bind].
  destruct (toDate env _) as [s |]; [| discriminate].
  destruct (isMissing _); [discriminate |]. cbn [returnIf bind].
  destruct (toDate env _) as [e |]; [| discriminate].
  destruct (e <=? s); [discriminate |].
  cbn [returnIf bind ret]. intros E. injection E as <- <-. split; reflexivity.
Qed.

(** What [populate] leaves of a reference: the id itself when the profile
    is in the store, [null] when it is not. *)
Lemma populate_therapist db s :
  p_therapist (populate db s)
  = if therapistStored db (Session.therapist s) then Some (Session.therapist s) else None.
Proof.
  unfold populate, therapistStored, Mongo.findTherapistById. cbn [p_therapist].
  destruct (find _ (therapists db)) as [t |] eqn:E; [| reflexivity].
  apply find_some in E. destruct E as [_ E]. apply Oid_eqb_eq in E.
  simpl. congruence.
Qed.

Lemma populate_client db s :
  p_client (populate db s)
  = if clientStored db (Session.client s) then Some (Session.client s) else None.
Proof.
  unfold populate, clientStored, Mongo.findClientById. cbn [p_client].
  destruct (find _ (clients db)) as [c |] eqn:E; [| reflexivity].
  apply find_some in E. destruct E as [_ E]. apply Oid_eqb_eq in E.
  simpl. congruence.
Qed.

Lemma findExisting_stored req db existing :
  findExisting req db = inr (Some existing) ->
  exists s, In s (sessions db) /\ existing = populate db s.
Proof.
  unfold findExisting. destruct (params_id req) as [id |]; [| discriminate].
  unfold Mongo.findSessionById.
  destruct (find _ (sessions db)) as [s |] eqn:E; [| discriminate].
  intros H. injection H as <-. exists s. split; [| reflexivity].
  exact (proj1 (find_some _ _ E)).
Qed.

(** No session lies within the availability of a therapist that
    [populate] did not find. *)
Lemma isWithinAvailability_null db start end_ :
  isWithinAvailability db None start end_ = false.
Proof.
  unfold isWithinAvailability.
  replace (filter _ (availability db)) with (@nil Availability.t); [reflexivity |].
  symmetry. induction (availability db) as [| a l IH]; [reflexivity |].
  cbn [filter refIs andb]. exact IH.
Qed.

(** Either the handler rejects and the database is the one it was given,
    or every test passed and the session was saved with the new
    instants. *)
Lemma rescheduleSession_cases env req db :
  (snd (rescheduleSession env req db) = db
   /\ statusCode (fst (rescheduleSession env req db)) <> 200)
  \/ exists s newStart newEnd l,
      rescheduleParse env req = inr (newStart, newEnd)
      /\ In s (sessions db)
      /\ findExisting req db = inr (Some (populate db s))
      /\ Session.status s = scheduled
      /\ canAccessSessionStrict (resched_actor req) (populate db s) = true
      /\ isWithinAvailability db (p_therapist (populate db s)) newStart newEnd = true
      /\ findTherapistConflict (Some (Session._id s)) (p_therapist (populate db s))
                               newStart newEnd (sessions db) = None
      /\ findClientConflict (Some (Session._id s)) (p_client (populate db s))
                            newStart newEnd (sessions db) = None
      /\ Mongo.save (movedTo s newStart newEnd) (sessions db) = inr l
      /\ rescheduleSession env req db
         = (SessionReply 200 (movedTo s newStart newEnd), withSessions db l).
Proof.
  unfold rescheduleSession.
  destruct (rescheduleParse env req) as [r | [newStart newEnd]] eqn:Hparse.
  { left. split; [reflexivity |]. simpl.
    rewrite (rescheduleParse_rejects _ _ _ Hparse). discriminate. }
  destruct (findExisting req db) as [e | [existing |]] eqn:Hfind;
    [left; split; [reflexivity | discriminate] | |
     left; split; [reflexivity | discriminate]].
  destruct (findExisting_stored _ _ _ Hfind) as (s & Hin & ->).
  change (doc (populate db s)) with s.
  destruct (Session.status s) eqn:Hstatus; simpl;
    try (left; split; [reflexivity | discriminate]).
  destruct (canAccessSessionStrict (resched_actor req) (populate db s)) eqn:Hacc; simpl;
    [| left; split; [reflexivity | discriminate]].
  destruct (isWithinAvailability db _ newStart newEnd) eqn:Hwithin;
    simpl; [| left; split; [reflexivity | discriminate]].
  destruct (findTherapistConflict _ _ newStart newEnd (sessions db)) eqn:Ht;
    [left; split; [reflexivity | discriminate] |].
  destruct (findClientConflict _ _ newStart newEnd (sessions db)) eqn:Hc;
    [left; split; [reflexivity | discriminate] |].
  destruct (Mongo.save (movedTo s newStart newEnd) (sessions db)) as [e | l] eqn:Hsave;
    [left; split; [reflexivity | discriminate] |].
  right. exists s, newStart, newEnd, l.
  repeat split; try assumption; reflexivity.
Qed.

Lemma save_inr doc l l' :
  Mongo.save doc l = inr l' ->
  l' = map (fun s => if Oid.eqb (Session._id s) (Session._id doc) then doc else s) l.
Proof.
  unfold Mongo.save. destruct (Mongo.violatesIndex doc l); [discriminate |].
  intros E. injection E as <-. reflexivity.
Qed.

Lemma save_ids doc l :
  map Session._id
      (map (fun s => if Oid.eqb (Session._id s) (Session._id doc) then doc else s) l)
  = map Session._id l.
Proof.
  rewrite map_map. apply map_ext. intros s.
  destruct (Oid.eqb (Session._id s) (Session._id doc)) eqn:E; [| reflexivity].
  apply Oid_eqb_eq in E. congruence.
Qed.

(** The moved session is apart from every other stored session, once both
    queries, its own id excluded, have found no rival for it. *)
Lemma moved_apart db s newStart newEnd :
  findTherapistConflict (Some (Session._id s)) (p_therapist (populate db s))
                        newStart newEnd (sessions db) = None ->
  findClientConflict (Some (Session._id s)) (p_client (populate db s))
                     newStart newEnd (sessions db) = None ->
  apartFrom db (movedTo s newStart newEnd).
Proof.
  intros Ht Hc x Hx Hne.
  assert (Hex : notExcluded (Some (Session._id s)) x = true).
  { simpl. apply negb_true_iff, Oid_eqb_neq. exact Hne. }
  apply (queries_miss_no_conflict db (Some (Session._id s))
                                  (p_therapist (populate db s)) (p_client (populate db s)));
    [exact Hex | | | |].
  - cbn [movedTo Session.therapist]. intros Hst. rewrite populate_therapist, Hst. reflexivity.
  - cbn [movedTo Session.client]. intros Hsc. rewrite populate_client, Hsc. reflexivity.
  - exact (find_none _ _ Ht x Hx).
  - exact (find_none _ _ Hc x Hx).
Qed.

(** Saving a moved session that both queries, its own id excluded, found
    no rival for. *)
Lemma move_preserves db s newStart newEnd l :
  In s (sessions db) ->
  findTherapistConflict (Some (Session._id s)) (p_therapist (populate db s))
                        newStart newEnd (sessions db) = None ->
  findClientConflict (Some (Session._id s)) (p_client (populate db s))
                     newStart newEnd (sessions db) = None ->
  Mongo.save (movedTo s newStart newEnd) (sessions db) = inr l ->
  preserves db (withSessions db l).
Proof.
  intros Hin Ht Hc Hsave.
  apply save_inr in Hsave. subst l.
  pose proof (moved_apart db s newStart newEnd Ht Hc) as Hother.
  set (moved := movedTo s newStart newEnd) in *.
  split; [split; reflexivity |].
  split; [| split; [| split]]; cbn [sessions withSessions].
  - intros Hids. unfold uniqueIds. rewrite save_ids. exact Hids.
  - intros Hinv a b Ha Hb Hne. cbn [sessions withSessions] in Ha, Hb.
    change (conflicting db a b = false).
    apply in_map_iff in Ha. destruct Ha as [a0 [Ea Ha]].
    apply in_map_iff in Hb. destruct Hb as [b0 [Eb Hb]].
    destruct (Oid.eqb (Session._id a0) (Session._id moved)) eqn:Eqa;
      destruct (Oid.eqb (Session._id b0) (Session._id moved)) eqn:Eqb;
      subst a b.
    + congruence.
    + rewrite conflicting_sym. apply Hother; [exact Hb |].
      apply Oid_eqb_neq. exact Eqb.
    + apply Hother; [exact Ha |]. apply Oid_eqb_neq. exact Eqa.
    + apply Hinv; assumption.
  - intros Hdis a b Ha Hb Hriv Hshare. cbn [sessions withSessions] in Ha, Hb.
    change (rivals db a b) in Hriv.
    apply in_map_iff in Ha. destruct Ha as [a0 [Ea Ha]].
    apply in_map_iff in Hb. destruct Hb as [b0 [Eb Hb]].
    destruct (Oid.eqb (Session._id a0) (Session._id moved)) eqn:Eqa;
      destruct (Oid.eqb (Session._id b0) (Session._id moved)) eqn:Eqb;
      subst a b.
    + destruct Hriv as [Hne _]. congruence.
    + apply Oid_eqb_neq in Eqb.
      pose proof (rivals_sharing_conflict _ _ _ (rivals_sym _ _ _ Hriv)
                                          (shareInstant_sym _ _ Hshare)) as Hc1.
      rewrite (Hother b0 Hb Eqb) in Hc1. discriminate.
    + apply Oid_eqb_neq in Eqa.
      pose proof (rivals_sharing_conflict _ _ _ Hriv Hshare) as Hc1.
      rewrite (Hother a0 Ha Eqa) in Hc1. discriminate.
    + exact (Hdis a0 b0 Ha Hb Hriv Hshare).
  - intros Hrefs x Hx. cbn [sessions withSessions] in Hx.
    change (therapistStored db (Session.therapist x) = true
            /\ clientStored db (Session.client x) = true).
    apply in_map_iff in Hx. destruct Hx as [x0 [Ex Hx]].
    destruct (Oid.eqb (Session._id x0) (Session._id moved)); subst x.
    + exact (Hrefs s Hin).
    + exact (Hrefs x0 Hx).
Qed.

Lemma rescheduleSession_preserves env req db :
  preserves db (snd (rescheduleSession env req db)).
Proof.
  destruct (rescheduleSession_cases env req db)
    as [[-> _] | (s & newStart & newEnd & l & _ & Hin & _ & _ & _ & _ & Ht & Hc & Hsave & ->)];
    [apply preserves_refl |].
  cbn [snd]. eapply move_preserves; eassumption.
Qed.

Lemma perform_preserves c db : preserves db (snd (perform c db)).
Proof.
  destruct c; simpl; [apply bookSession_preserves | apply rescheduleSession_preserves].
Qed.

(** Mongo's unique [_id]s stay unique along any sequence of calls. *)
Lemma unique_ids_preserved calls :
  forall db, uniqueIds (sessions db) ->
             Forall (fun db' => uniqueIds (sessions db')) (states calls db).
Proof.
  induction calls as [| c calls IH]; intros db Hids; simpl; constructor.
  - exact (proj1 (proj2 (perform_preserves c db)) Hids).
  - apply IH. exact (proj1 (proj2 (perform_preserves c db)) Hids).
Qed.

(** Why the invariant speaks of the therapists and clients of the store.
    For a session whose client profile is gone, [populate] leaves [null]
    and the client query of [rescheduleSession] looks for sessions of
    client [null]: it finds none, and the move is saved onto another
    session that names the same deleted client. *)
Lemma deleted_client_escapes_client_query :
  referenceInvariant (sessions Scenario.dbOrphaned)
  /\ statusCode (fst (rescheduleSession Scenario.env Scenario.adminMove
                                        Scenario.dbOrphaned)) = 200
  /\ ~ referenceInvariant
       (sessions (snd (rescheduleSession Scenario.env Scenario.adminMove
                                         Scenario.dbOrphaned)))
  /\ ~ refsResolve Scenario.dbOrphaned.
Proof.
  split; [| split; [vm_compute; reflexivity | split]].
  - intros a b [<- | [<- | []]] [<- | [<- | []]] Hne;
      try (exfalso; apply Hne; reflexivity); vm_compute; reflexivity.
  - intros H.
    pose proof (H (Session.mk 1%N 161%N 195%N 1770627600000 1770631200000 scheduled None)
                  (Session.mk 2%N 162%N 195%N 1770627600000 1770631200000 scheduled None))
      as E.
    assert (E' : true = false).
    { apply E; [vm_compute; left; reflexivity | vm_compute; right; left; reflexivity
                | discriminate]. }
    discriminate.
  - intros H. destruct (H _ (or_introl eq_refl)) as [_ Hc]. vm_compute in Hc. discriminate.
Qed.

(** A property that each write keeps holds after every call of a
    sequence. *)
Lemma along_calls (P : Db -> Prop) :
  (forall c db, P db -> P (snd (perform c db))) ->
  forall calls db, P db -> Forall P (states calls db).
Proof.
  intros Hstep calls. induction calls as [| c calls IH]; intros db HP; simpl; constructor.
  - apply Hstep. exact HP.
  - apply IH. apply Hstep. exact HP.
Qed.

End RescheduleFacts.

(** What the calls keep.  From a state that satisfies the core invariant,
    after every call of any sequence of [bookSession] and
    [rescheduleSession] calls the sessions that are not cancelled and share
    a therapist of the store, or share a client of the store, are pairwise
    non-overlapping on [[start, end)].  Calls that are rejected leave the
    state as it was, so the sequence need not consist of successful calls
    only.  This holds with "overlapping" read as the conflict test of the
    code ([coreInvariant]) and with it read as sharing an instant
    ([disjointInvariant]).  Where every session names a therapist and a
    client of the store ([refsResolve]), which the calls keep true as
    well, this is the invariant over the references as they are stored
    ([referenceInvariant]). *)
Theorem invariant_preserved (calls : list Invariant.Call) (db : Db) :
  (Invariant.coreInvariant db ->
   Forall Invariant.coreInvariant (Invariant.states calls db))
  /\ (Invariant.disjointInvariant db ->
      Forall Invariant.disjointInvariant (Invariant.states calls db))
  /\ (Invariant.refsResolve db ->
      Invariant.referenceInvariant (sessions db) ->
      Forall (fun db' => Invariant.refsResolve db'
                         /\ Invariant.referenceInvariant (sessions db'))
             (Invariant.states calls db)).
Proof.
  split; [| split].
  - apply along_calls. intros c db0.
    exact (proj1 (proj2 (proj2 (perform_preserves c db0)))).
  - apply along_calls. intros c db0.
    exact (proj1 (proj2 (proj2 (proj2 (perform_preserves c db0))))).
  - intros Hrefs Hinv.
    apply (along_calls (fun db' => Invariant.refsResolve db'
                                   /\ Invariant.referenceInvariant (sessions db'))).
    + intros c db0 [Hr Hi].
      pose proof (perform_preserves c db0) as (_ & _ & Hcore & _ & Hkeep).
      specialize (Hkeep Hr). split; [exact Hkeep |].
      apply (coreInvariant_referenceInvariant _ Hkeep), Hcore.
      apply (coreInvariant_referenceInvariant _ Hr). exact Hi.
    + split; assumption.
Qed.

(** [invariant_preserved] on a morning of the practice: C1 books
    09:00-10:00 and C2 books 10:00-12:00 with the same therapist; a move of
    the first session onto 09:30-12:00 collides with the second, and a
    move onto 09:30-10:00 is saved beside it. *)
Lemma invariant_preserved_witness :
  Forall Invariant.coreInvariant
         (Invariant.states
            [ Invariant.BookSession Scenario.env
                (Scenario.book Scenario.clientC1 Scenario.therapistA
                               "2026-02-09T09:00:00.000Z" "2026-02-09T10:00:00.000Z");
              Invariant.BookSession Scenario.env
                (Scenario.book Scenario.clientC2 Scenario.therapistA
                               "2026-02-09T10:00:00.000Z" "2026-02-09T12:00:00.000Z");
              Invariant.ApplyReschedule Scenario.env
                (Scenario.move Scenario.clientC1 1%N
                               "2026-02-09T09:30:00.000Z" "2026-02-09T12:00:00.000Z");
              Invariant.ApplyReschedule Scenario.env
                (Scenario.move Scenario.clientC1 1%N
                               "2026-02-09T09:30:00.000Z" "2026-02-09T10:00:00.000Z") ]
            Scenario.db0).
Proof.
  apply (proj1 (invariant_preserved _ Scenario.db0)).
  intros a b [].
Defined.

(** The states of that morning: after the two bookings the store holds two
    sessions, the colliding move changes nothing, and the last move is
    saved. *)
Lemma morning_states :
  map (fun db => map (fun s => (Session._id s, Session.start s, Session.end_ s))
                     (sessions db))
      (Invariant.states
         [ Invariant.BookSession Scenario.env
             (Scenario.book Scenario.clientC1 Scenario.therapistA
                            "2026-02-09T09:00:00.000Z" "2026-02-09T10:00:00.000Z");
           Invariant.BookSession Scenario.env
             (Scenario.book Scenario.clientC2 Scenario.therapistA
                            "2026-02-09T10:00:00.000Z" "2026-02-09T12:00:00.000Z");
           Invariant.ApplyReschedule Scenario.env
             (Scenario.move Scenario.clientC1 1%N
                            "2026-02-09T09:30:00.000Z" "2026-02-09T12:00:00.000Z");
           Invariant.ApplyReschedule Scenario.env
             (Scenario.move Scenario.clientC1 1%N
                            "2026-02-09T09:30:00.000Z" "2026-02-09T10:00:00.000Z") ]
         Scenario.db0)
  = [ [(1%N, 1770627600000, 1770631200000)];
      [(1%N, 1770627600000, 1770631200000); (2%N, 1770631200000, 1770638400000)];
      [(1%N, 1770627600000, 1770631200000); (2%N, 1770631200000, 1770638400000)];
      [(1%N, 1770629400000, 1770631200000); (2%N, 1770631200000, 1770638400000)] ].
Proof. vm_compute. reflexivity. Qed.

(** C1, at the input where [rescheduleSession] breaks it.  An admin deletes
    the profile of client 195 with [cancelSessions=false], which leaves
    the client's two scheduled sessions as they are: 09:00-10:00 with
    therapist A and 10:00-11:00 with therapist B.  The store satisfies the
    invariant, over the stored profiles and over the references as they
    are stored.  The admin then moves the second session onto
    09:00-10:00.  [populate] finds no profile, so that
    [existing.client?._id ?? existing.client] is [null] and the client
    query looks for sessions of client [null]: the call succeeds with 200,
    and the store holds two scheduled sessions of client 195 on the same
    hour. *)
Theorem reschedule_double_books_deleted_client :
  Invariant.refsResolve Examples.dbBeforeDeletion
  /\ Invariant.referenceInvariant (sessions Examples.dbBeforeDeletion)
  /\ AdminController.deleteClientProfile Examples.keepSessions [] Examples.dbBeforeDeletion
     = (AdminController.Deleted "Client profile deleted" Scenario.orphan false false,
        [], Scenario.dbOrphaned)
  /\ Invariant.coreInvariant Scenario.dbOrphaned
  /\ Invariant.referenceInvariant (sessions Scenario.dbOrphaned)
  /\ Invariant.perform (Invariant.ApplyReschedule Scenario.env Scenario.adminMove)
                       Scenario.dbOrphaned
     = (SessionReply 200 Examples.orphanMoved,
        withSessions Scenario.dbOrphaned [Examples.orphanAtNine; Examples.orphanMoved])
  /\ Invariant.states [Invariant.ApplyReschedule Scenario.env Scenario.adminMove]
                      Scenario.dbOrphaned
     = [withSessions Scenario.dbOrphaned [Examples.orphanAtNine; Examples.orphanMoved]]
  /\ Session._id Examples.orphanAtNine <> Session._id Examples.orphanMoved
  /\ Session.status Examples.orphanAtNine <> cancelled
  /\ Session.status Examples.orphanMoved <> cancelled
  /\ Session.client Examples.orphanAtNine = Session.client Examples.orphanMoved
  /\ IntervalMath.overlaps (Session.interval Examples.orphanAtNine)
                           (Session.interval Examples.orphanMoved) = true
  /\ ~ Invariant.referenceInvariant [Examples.orphanAtNine; Examples.orphanMoved].
Proof.
  assert (Hinv : Invariant.referenceInvariant (sessions Scenario.dbOrphaned)).
  { intros a b [<- | [<- | []]] [<- | [<- | []]] Hne;
      try (exfalso; apply Hne; reflexivity); vm_compute; reflexivity. }
  split.
  { intros x [<- | [<- | []]]; split; vm_compute; reflexivity. }
  split; [exact Hinv |].
  split; [vm_compute; reflexivity |].
  split.
  { intros a b [<- | [<- | []]] [<- | [<- | []]] Hne;
      try (exfalso; apply Hne; reflexivity); vm_compute; reflexivity. }
  split; [exact Hinv |].
  split; [vm_compute; reflexivity |].
  split; [vm_compute; reflexivity |].
  split; [discriminate |].
  split; [discriminate |].
  split; [discriminate |].
  split; [reflexivity |].
  split; [vm_compute; reflexivity |].
  intros H.
  assert (E : true = false).
  { apply (H Examples.orphanAtNine Examples.orphanMoved);
      [left; reflexivity | right; left; reflexivity | discriminate]. }
  discriminate E.
Qed.

(** C7. When [rescheduleSession] answers with anything but its success
    reply (status 200), whatever the reason, the database it leaves is the
    database it was given: no field of any session has changed. *)
Theorem rejected_reschedule_changes_nothing env req db :
  statusCode (fst (SessionController.rescheduleSession env req db)) <> 200 ->
  snd (SessionController.rescheduleSession env req db) = db.
Proof.
  intros Hrej.
  destruct (rescheduleSession_cases env req db)
    as [[Hsame _] | (s & newStart & newEnd & l & _ & _ & _ & _ & _ & _ & _ & _ & _ & E)].
  - exact Hsame.
  - rewrite E in Hrej. simpl in Hrej. congruence.
Qed.

(** [rejected_reschedule_changes_nothing] on a move of C1's session onto a
    time before the therapist's hours, which is refused. *)
Lemma rejected_reschedule_changes_nothing_witness :
  snd (SessionController.rescheduleSession Scenario.env
         (Scenario.move Scenario.clientC1 1%N
                        "2026-02-09T08:00:00.000Z" "2026-02-09T09:00:00.000Z")
         Scenario.db1)
  = Scenario.db1.
Proof.
  apply rejected_reschedule_changes_nothing.
  vm_compute. discriminate.
Defined.

(** ** The unique index never fires after the conflict queries *)

Section IndexFacts.

Import SessionController.

(** When the therapist query, whatever it excludes, finds no rival for a
    non-empty interval, no other stored document holds the same key of
    the unique index. *)
Lemma no_conflict_no_violation exclude doc l :
  Session.start doc < Session.end_ doc ->
  (forall x, Session._id x <> Session._id doc -> notExcluded exclude x = true) ->
  findTherapistConflict exclude (Some (Session.therapist doc))
                        (Session.start doc) (Session.end_ doc) l = None ->
  Mongo.violatesIndex doc l = false.
Proof.
  intros Hlt Hexcl Hnone.
  apply not_true_is_false. intros Hviol.
  apply existsb_exists in Hviol. destruct Hviol as [x [Hx Hkey]].
  apply andb_true_iff in Hkey. destruct Hkey as [Hne Hkey].
  apply negb_true_iff, Oid_eqb_neq in Hne.
  unfold Session.sameIndexKey in Hkey.
  repeat (apply andb_true_iff in Hkey; destruct Hkey as [Hkey ?]).
  apply Status_eqb_eq in Hkey.
  pose proof (find_none _ _ Hnone x Hx) as Hmiss. cbv beta in Hmiss.
  cbn [refIs] in Hmiss.
  rewrite (Hexcl x Hne) in Hmiss.
  match goal with H : Oid.eqb _ _ = true |- _ => rewrite H in Hmiss end.
  assert (Hact : Session.active x = true) by (apply active_iff; congruence).
  rewrite Hact in Hmiss. simpl in Hmiss.
  apply not_true_iff_false in Hmiss. apply Hmiss.
  apply overlapQuery_iff. simpl.
  match goal with H : (Session.start x =? _) = true |- _ => apply Z.eqb_eq in H end.
  match goal with H : (Session.end_ x =? _) = true |- _ => apply Z.eqb_eq in H end.
  lia.
Qed.

End IndexFacts.

(** ** Conflict detection *)

Section ConflictFacts.

Import SessionController.

Lemma find_is_Some {A} (f : A -> bool) l :
  (exists y, find f l = Some y) <-> exists x, In x l /\ f x = true.
Proof.
  split.
  - intros [y Hy]. exists y. exact (find_some _ _ Hy).
  - intros [x [Hx Hfx]]. destruct (find f l) as [y |] eqn:E; [eauto |].
    rewrite (find_none _ _ E x Hx) in Hfx. discriminate.
Qed.

Lemma notExcluded_iff exclude x :
  notExcluded exclude x = true
  <-> match exclude with
      | None => True
      | Some id => Session._id x <> id
      end.
Proof.
  destruct exclude as [id |]; simpl; [| tauto].
  rewrite negb_true_iff. apply Oid_eqb_neq.
Qed.

Lemma refIs_iff field id :
  refIs field id = true <-> id = Some field.
Proof.
  destruct id as [i |]; simpl; [| split; discriminate].
  rewrite Oid_eqb_eq. split; congruence.
Qed.

(** What [findTherapistConflict] looks for. *)
Lemma therapistConflict_found exclude therapistId start end_ l :
  (exists y, findTherapistConflict exclude therapistId start end_ l = Some y)
  <-> exists s, In s l
                /\ notExcluded exclude s = true
                /\ therapistId = Some (Session.therapist s)
                /\ Session.status s <> cancelled
                /\ Session.start s < end_ /\ Session.end_ s > start.
Proof.
  unfold findTherapistConflict. rewrite find_is_Some.
  split; intros [s [Hs H]]; exists s; (split; [exact Hs |]).
  - rewrite !andb_true_iff in H. destruct H as [[[He Ht] Ha] Ho].
    apply refIs_iff in Ht. apply active_iff in Ha. apply overlapQuery_iff in Ho.
    simpl in Ho. tauto.
  - destruct H as (He & Ht & Ha & Ho).
    rewrite !andb_true_iff, refIs_iff, active_iff, overlapQuery_iff. simpl. tauto.
Qed.

(** What [findClientConflict] looks for. *)
Lemma clientConflict_found exclude clientId start end_ l :
  (exists y, findClientConflict exclude clientId start end_ l = Some y)
  <-> exists s, In s l
                /\ notExcluded exclude s = true
                /\ clientId = Some (Session.client s)
                /\ Session.status s <> cancelled
                /\ Session.start s < end_ /\ Session.end_ s > start.
Proof.
  unfold findClientConflict. rewrite find_is_Some.
  split; intros [s [Hs H]]; exists s; (split; [exact Hs |]).
  - rewrite !andb_true_iff in H. destruct H as [[[He Ht] Ha] Ho].
    apply refIs_iff in Ht. apply active_iff in Ha. apply overlapQuery_iff in Ho.
    simpl in Ho. tauto.
  - destruct H as (He & Ht & Ha & Ho).
    rewrite !andb_true_iff, refIs_iff, active_iff, overlapQuery_iff. simpl. tauto.
Qed.

(** What a request that passes lines 268-306 looks like. *)
Lemma bookParse_inr env req c t s e :
  bookParse env req = inr (c, t, s, e) ->
  clientId (book_actor req) = Some c
  /\ (exists raw, b_therapistId (book_body req) = JStr raw /\ t = Js.trim raw
                  /\ Js.isEmpty t = false /\ Oid.isValidObjectIdString t = true)
  /\ (exists raw, b_startAt (book_body req) = JStr raw
                  /\ toDate env (JStr (Js.trim raw)) = Some s)
  /\ (exists raw, b_endAt (book_body req) = JStr raw
                  /\ toDate env (JStr (Js.trim raw)) = Some e)
  /\ s < e.
Proof.
  unfold bookParse.
  destruct (clientId (book_actor req)) as [c' |]; [| discriminate].
  destruct (b_therapistId (book_body req)) as [| rawT |]; try discriminate.
  destruct (Js.isEmpty (Js.trim rawT)) eqn:HemptyT; [discriminate |].
  destruct (Oid.isValidObjectIdString (Js.trim rawT)) eqn:HvalidT; [| discriminate].
  cbn [returnIf bind negb ret].
  destruct (b_startAt (book_body req)) as [| rawS |]; try discriminate.
  destruct (toDate env (JStr (Js.trim rawS))) as [s' |] eqn:Hs; [| discriminate].
  cbn [bind ret].
  destruct (b_endAt (book_body req)) as [| rawE |]; try discriminate.
  destruct (toDate env (JStr (Js.trim rawE))) as [e' |] eqn:He; [| discriminate].
  cbn [bind ret].
  destruct (Z.leb_spec e' s') as [Hle | Hlt]; [discriminate |].
  cbn [returnIf bind ret].
  intros E. injection E as <- <- <- <-.
  repeat split; eauto.
Qed.

Lemma bookLookups_inr db c t s e u :
  bookLookups db c t s e = inr u ->
  (exists th, Mongo.findTherapistById (Oid.cast t) (therapists db) = Some th)
  /\ (exists cl, Mongo.findClientById c (clients db) = Some cl)
  /\ isWithinAvailability db (Some (Oid.cast t)) s e = true.
Proof.
  unfold bookLookups.
  destruct (Mongo.findTherapistById _ _) as [th |]; [| discriminate].
  destruct (Mongo.findClientById _ _) as [cl |]; [| discriminate].
  destruct (isWithinAvailability db (Some (Oid.cast t)) s e); [| discriminate].
  intros _. eauto.
Qed.

(** The reply of the conflict checks and the insert, by what the two
    queries find. *)
Lemma bookDirect_409 db c t s e notes :
  s < e ->
  (statusCode (fst (bookDirect db c t s e notes)) = 409
   <-> (exists y, findTherapistConflict None (Some t) s e (sessions db) = Some y)
       \/ (exists y, findClientConflict None (Some c) s e (sessions db) = Some y)).
Proof.
  intros Hlt. unfold bookDirect.
  destruct (findTherapistConflict None (Some t) s e (sessions db)) as [y |] eqn:Ht.
  { simpl. split; [eauto | reflexivity]. }
  destruct (findClientConflict None (Some c) s e (sessions db)) as [y |] eqn:Hc.
  { simpl. split; [eauto | reflexivity]. }
  unfold Mongo.create.
  rewrite (no_conflict_no_violation None); [| exact Hlt | reflexivity | exact Ht].
  simpl. split; [discriminate |].
  intros [[y Hy] | [y Hy]]; discriminate.
Qed.

(** The reply of [rescheduleSession] once the session is found, scheduled,
    the caller's own, and the new interval within availability. *)
Lemma reschedule_409 env req db s0 newStart newEnd :
  rescheduleParse env req = inr (newStart, newEnd) ->
  findExisting req db = inr (Some (populate db s0)) ->
  Session.status s0 = scheduled ->
  canAccessSessionStrict (resched_actor req) (populate db s0) = true ->
  isWithinAvailability db (p_therapist (populate db s0)) newStart newEnd = true ->
  (statusCode (fst (rescheduleSession env req db)) = 409
   <-> (exists y, findTherapistConflict (Some (Session._id s0)) (p_therapist (populate db s0))
                                        newStart newEnd (sessions db) = Some y)
       \/ (exists y, findClientConflict (Some (Session._id s0)) (p_client (populate db s0))
                                        newStart newEnd (sessions db) = Some y)).
Proof.
  intros Hparse Hfind Hstatus Hacc Hwithin.
  unfold rescheduleSession. rewrite Hparse, Hfind.
  change (doc (populate db s0)) with s0.
  rewrite Hstatus, Hacc. cbv zeta. rewrite Hwithin. cbn [Status_eqb negb].
  destruct (findTherapistConflict _ _ newStart newEnd (sessions db)) as [y |] eqn:Ht.
  { simpl. split; [eauto | reflexivity]. }
  destruct (findClientConflict _ _ newStart newEnd (sessions db)) as [y |] eqn:Hc.
  { simpl. split; [eauto | reflexivity]. }
  split.
  - destruct (Mongo.save _ _); simpl; discriminate.
  - intros [[y Hy] | [y Hy]]; discriminate.
Qed.

(** A therapist within whose availability an interval lies is in the
    store. *)
Lemma within_therapist_stored db s0 start end_ :
  isWithinAvailability db (p_therapist (populate db s0)) start end_ = true ->
  p_therapist (populate db s0) = Some (Session.therapist s0).
Proof.
  rewrite populate_therapist.
  destruct (Invariant.therapistStored db (Session.therapist s0)); [reflexivity |].
  rewrite isWithinAvailability_null. discriminate.
Qed.

End ConflictFacts.

(** When a request is answered 409.  Once the earlier preconditions of
    [bookSession] hold (the request parses with [end > start], the
    therapist and the client profile exist, the interval is within
    availability), the reply is a 409 exactly when some stored session that
    is not cancelled, of the same therapist or of the same client,
    satisfies [existing.start < end && existing.end > start].
    [rescheduleSession] runs the same test on the session's own therapist
    and client and leaves the session's own [_id] out; the client is the
    one [populate] found for the session, so the client half of the test
    needs the client profile to be in the store. *)
Theorem conflict_iff_overlapping_active_session :
  (forall env req db clientId therapistIdStr startDate endDate,
      SessionController.bookParse env req
      = inr (clientId, therapistIdStr, startDate, endDate) ->
      SessionController.bookLookups db clientId therapistIdStr startDate endDate = inr tt ->
      (statusCode (fst (SessionController.bookSession env req db)) = 409
       <-> exists s, In s (sessions db)
                     /\ Session.status s <> cancelled
                     /\ (Session.therapist s = Oid.cast therapistIdStr
                         \/ Session.client s = clientId)
                     /\ Session.start s < endDate /\ Session.end_ s > startDate))
  /\ (forall env req db existing newStart newEnd,
         SessionController.rescheduleParse env req = inr (newStart, newEnd) ->
         SessionController.findExisting req db = inr (Some existing) ->
         Session.status (SessionController.doc existing) = scheduled ->
         SessionController.canAccessSessionStrict
           (SessionController.resched_actor req) existing = true ->
         SessionController.isWithinAvailability
           db (SessionController.p_therapist existing) newStart newEnd = true ->
         (statusCode (fst (SessionController.rescheduleSession env req db)) = 409
          <-> exists s, In s (sessions db)
                        /\ Session._id s <> Session._id (SessionController.doc existing)
                        /\ Session.status s <> cancelled
                        /\ (Session.therapist s
                            = Session.therapist (SessionController.doc existing)
                            \/ (Session.client s
                                = Session.client (SessionController.doc existing)
                                /\ Invariant.clientStored
                                     db (Session.client (SessionController.doc existing))
                                   = true))
                        /\ Session.start s < newEnd /\ Session.end_ s > newStart)).
Proof.
  split.
  - intros env req db c t s e Hparse Hlook.
    pose proof (bookParse_inr _ _ _ _ _ _ Hparse) as (_ & _ & _ & _ & Hlt).
    unfold SessionController.bookSession. rewrite Hparse, Hlook.
    rewrite bookInTransaction_bookDirect.
    assert (Hsame : (if production env
                     then SessionController.bookDirect db c (Oid.cast t) s e
                            (SessionController.b_notes (SessionController.book_body req))
                     else SessionController.bookDirect db c (Oid.cast t) s e
                            (SessionController.b_notes (SessionController.book_body req)))
                    = SessionController.bookDirect db c (Oid.cast t) s e
                        (SessionController.b_notes (SessionController.book_body req)))
      by (destruct (production env); reflexivity).
    cbv zeta. rewrite Hsame. rewrite (bookDirect_409 _ _ _ _ _ _ Hlt).
    rewrite therapistConflict_found, clientConflict_found.
    split.
    + intros [[x (Hx & _ & Ht & Ha & Ho)] | [x (Hx & _ & Hc & Ha & Ho)]];
        exists x; (split; [exact Hx | split; [exact Ha | split; [| exact Ho]]]);
        [left | right]; congruence.
    + intros [x (Hx & Ha & [Ht | Hc] & Ho)]; [left | right]; exists x;
        (split; [exact Hx | split; [reflexivity | split; [congruence | tauto]]]).
  - intros env req db existing newStart newEnd Hparse Hfind Hstatus Hacc Hwithin.
    destruct (findExisting_stored _ _ _ Hfind) as (s0 & Hin & ->).
    change (SessionController.doc (SessionController.populate db s0)) with s0 in *.
    rewrite (reschedule_409 _ _ _ _ _ _ Hparse Hfind Hstatus Hacc Hwithin).
    rewrite therapistConflict_found, clientConflict_found.
    rewrite (within_therapist_stored _ _ _ _ Hwithin), populate_client.
    split.
    + intros [[x (Hx & He & Ht & Ha & Ho)] | [x (Hx & He & Hc & Ha & Ho)]];
        apply notExcluded_iff in He; exists x;
        (split; [exact Hx | split; [exact He | split; [exact Ha | split; [| exact Ho]]]]).
      * left. congruence.
      * right. destruct (Invariant.clientStored db (Session.client s0));
          [split; congruence | discriminate].
    + intros [x (Hx & Hne & Ha & [Ht | [Hc Hsc]] & Ho)]; [left | right]; exists x;
        (split; [exact Hx | split; [apply notExcluded_iff; exact Hne |]]).
      * split; [congruence | tauto].
      * rewrite Hsc. split; [congruence | tauto].
Qed.

(** [conflict_iff_overlapping_active_session] on the second scenario of the
    practice: C1 holds Monday 09:00-10:00 and C2 asks for 09:30-10:00 with
    the same therapist. *)
Lemma conflict_iff_overlapping_active_session_witness :
  statusCode (fst (SessionController.bookSession Scenario.env
                     (Scenario.book Scenario.clientC2 Scenario.therapistA
                                    "2026-02-09T09:30:00.000Z" "2026-02-09T10:00:00.000Z")
                     Scenario.db1)) = 409
  <-> exists s, In s (sessions Scenario.db1)
                /\ Session.status s <> cancelled
                /\ (Session.therapist s = Oid.cast Scenario.therapistA
                    \/ Session.client s = Scenario.clientC2)
                /\ Session.start s < 1770631200000 /\ Session.end_ s > 1770629400000.
Proof.
  apply (proj1 conflict_iff_overlapping_active_session Scenario.env
               (Scenario.book Scenario.clientC2 Scenario.therapistA
                              "2026-02-09T09:30:00.000Z" "2026-02-09T10:00:00.000Z")
               Scenario.db1 Scenario.clientC2 Scenario.therapistA
               1770629400000 1770631200000).
  - vm_compute. reflexivity.
  - vm_compute. reflexivity.
Defined.

(** C2, at the input where the reschedule half fails.  Session 2 of
    client 195, whose profile an admin deleted, is moved onto 09:00-10:00.
    The request parses, the session is found and is scheduled, the admin
    may reach it, and the hour lies within the availability of its
    therapist.  Session 1 has another [_id], is scheduled, names the same
    client and satisfies [existing.start < end && existing.end > start];
    yet the reply is 200, not 409: [populate] left [null] for the client,
    and the client query ran on [null].  While the profile was stored the
    same request was answered 409, and [bookSession] answers 403 to a
    client without a profile before it runs any query. *)
Theorem reschedule_skips_client_test_of_deleted_client :
  SessionController.rescheduleParse Scenario.env Scenario.adminMove
  = inr (1770627600000, 1770631200000)
  /\ SessionController.findExisting Scenario.adminMove Scenario.dbOrphaned
     = inr (Some (SessionController.populate Scenario.dbOrphaned Examples.orphanAtTen))
  /\ SessionController.p_client
       (SessionController.populate Scenario.dbOrphaned Examples.orphanAtTen) = None
  /\ SessionController.canAccessSessionStrict
       (SessionController.resched_actor Scenario.adminMove)
       (SessionController.populate Scenario.dbOrphaned Examples.orphanAtTen) = true
  /\ SessionController.isWithinAvailability
       Scenario.dbOrphaned
       (SessionController.p_therapist
          (SessionController.populate Scenario.dbOrphaned Examples.orphanAtTen))
       1770627600000 1770631200000 = true
  /\ (exists s, In s (sessions Scenario.dbOrphaned)
                /\ Session._id s <> Session._id Examples.orphanAtTen
                /\ Session.status s <> cancelled
                /\ Session.client s = Session.client Examples.orphanAtTen
                /\ Session.start s < 1770631200000 /\ Session.end_ s > 1770627600000)
  /\ fst (SessionController.rescheduleSession Scenario.env Scenario.adminMove
                                              Scenario.dbOrphaned)
     = SessionReply 200 Examples.orphanMoved
  /\ SessionController.rescheduleSession Scenario.env Scenario.adminMove
                                         Examples.dbBeforeDeletion
     = (MessageReply 409 "You already have a session at that time.",
        Examples.dbBeforeDeletion)
  /\ SessionController.bookSession Scenario.env Examples.orphanBooks Scenario.dbOrphaned
     = (MessageReply 403 "Client profile not found", Scenario.dbOrphaned).
Proof.
  split; [vm_compute; reflexivity |].
  split; [vm_compute; reflexivity |].
  split; [vm_compute; reflexivity |].
  split; [vm_compute; reflexivity |].
  split; [vm_compute; reflexivity |].
  split.
  { exists Examples.orphanAtNine.
    split; [left; reflexivity |].
    split; [discriminate |].
    split; [discriminate |].
    split; [reflexivity |].
    split; reflexivity. }
  split; [vm_compute; reflexivity |].
  split; vm_compute; reflexivity.
Qed.

(** ** Check against apply *)

Section CheckApplyFacts.

Import SessionController.

Lemma nullish_present a b : isMissing a = false -> nullish a b = a.
Proof. destruct a; simpl; [discriminate | reflexivity | reflexivity]. Qed.

(** A body that passes the parsing of the check passes the parsing of the
    apply, with the same instants. *)
Lemma checkParse_rescheduleParse env req start end_ :
  checkParse env req = inr (start, end_) ->
  rescheduleParse env req = inr (start, end_) /\ now env < start.
Proof.
  unfold checkParse, rescheduleParse. cbv zeta.
  destruct (isMissing (r_startAt (resched_body req))) eqn:Hs; [discriminate |].
  rewrite !(nullish_present _ _ Hs), Hs. cbn [returnIf bind].
  destruct (toDate env (trimmed (r_startAt (resched_body req)))) as [s |]; [| discriminate].
  destruct (isMissing (r_endAt (resched_body req))) eqn:He; [discriminate |].
  rewrite !(nullish_present _ _ He), He. cbn [returnIf bind].
  destruct (toDate env (trimmed (r_endAt (resched_body req)))) as [e |]; [| discriminate].
  destruct (e <=? s); [discriminate |]. cbn [returnIf bind].
  destruct (Z.leb_spec s (now env)) as [Hle | Hlt]; [discriminate |].
  cbn [returnIf bind ret]. intros E. injection E as <- <-. split; [reflexivity | exact Hlt].
Qed.

(** X9. The sound half of the check: what it allows, the apply performs. *)
Lemma check_allowed_apply_succeeds env req db :
  checkRescheduleSession env req db = makeResult true None None ->
  statusCode (fst (rescheduleSession env req db)) = 200.
Proof.
  unfold checkRescheduleSession, rescheduleSession.
  destruct (checkParse env req) as [r | [start end_]] eqn:Hcheck.
  { intros ->. unfold checkParse in Hcheck. cbv zeta in Hcheck.
    destruct (isMissing _) in Hcheck; [discriminate |]. cbn [returnIf bind] in Hcheck.
    destruct (toDate env _) in Hcheck; [| discriminate].
    destruct (isMissing _) in Hcheck; [discriminate |]. cbn [returnIf bind] in Hcheck.
    destruct (toDate env _) in Hcheck; [| discriminate].
    destruct (_ <=? _) in Hcheck; [discriminate |]. cbn [returnIf bind] in Hcheck.
    destruct (_ <=? _) in Hcheck; discriminate. }
  apply checkParse_rescheduleParse in Hcheck. destruct Hcheck as [Hparse _].
  rewrite Hparse.
  pose proof (rescheduleParse_ordered _ _ _ _ Hparse) as Hlt.
  destruct (findExisting req db) as [e | [existing |]] eqn:Hfind; try discriminate.
  destruct (findExisting_stored _ _ _ Hfind) as (s0 & Hin & ->).
  change (doc (populate db s0)) with s0.
  destruct (Session.status s0) eqn:Hstatus; cbn [Status_eqb orb negb];
    try (unfold failCheck, makeResult; discriminate).
  destruct (canAccessSessionStrict (resched_actor req) (populate db s0)); cbn [negb];
    [| unfold failCheck, makeResult; discriminate].
  cbv zeta.
  destruct (isWithinAvailability db (p_therapist (populate db s0)) start end_) eqn:Hwithin;
    cbn [negb]; [| unfold failCheck, makeResult; discriminate].
  rewrite (within_therapist_stored _ _ _ _ Hwithin).
  destruct (findTherapistConflict _ _ start end_ (sessions db)) eqn:Ht; [discriminate |].
  destruct (findClientConflict _ _ start end_ (sessions db)); [discriminate |].
  intros _. unfold Mongo.save.
  rewrite (no_conflict_no_violation (Some (Session._id s0))); [reflexivity | | |].
  - exact Hlt.
  - intros x Hne. apply notExcluded_iff. exact Hne.
  - exact Ht.
Qed.

End CheckApplyFacts.

(** C4, at the input where the two handlers part.  The clock stands at
    2026-02-05; C1 holds Monday 2026-02-09 09:00-10:00 and asks to move it
    to Monday 2026-02-02 09:00-09:30, a week in the past.  The check
    answers [canReschedule: false] with reason PAST; the apply, against the
    same state and clock, answers 200 and stores the session at the past
    instants. *)
Theorem apply_accepts_past_start_that_check_refuses :
  SessionController.checkRescheduleSession Scenario.env Scenario.intoPast Scenario.db1
  = CheckReply 200 false (Some PAST) (Some "Cannot reschedule to a time in the past"%string)
  /\ exists moved,
      SessionController.rescheduleSession Scenario.env Scenario.intoPast Scenario.db1
      = (SessionReply 200 moved, withSessions Scenario.db1 [moved])
      /\ Session.start moved = 1770022800000
      /\ Session.start moved < now Scenario.env.
Proof.
  split; [vm_compute; reflexivity |].
  eexists. split; [vm_compute; reflexivity |].
  split; [reflexivity | vm_compute; reflexivity].
Qed.

(** ** The order of the checks of [bookSession] *)

Section OrderFacts.

Import SessionController Reference.

Lemma bookDirect_no_conflict db c t s e notes :
  s < e ->
  findTherapistConflict None (Some t) s e (sessions db) = None ->
  findClientConflict None (Some c) s e (sessions db) = None ->
  exists created,
    bookDirect db c t s e notes
    = (SessionReply 201 created, withSessions db (sessions db ++ [created])).
Proof.
  intros Hlt Ht Hc. unfold bookDirect, Mongo.create. rewrite Ht, Hc.
  rewrite (no_conflict_no_violation None); [| exact Hlt | reflexivity | exact Ht].
  eexists. reflexivity.
Qed.

Lemma production_irrelevant env db c t s e notes :
  (if production env
   then bookInTransaction db c t s e notes
   else bookDirect db c t s e notes)
  = bookDirect db c t s e notes.
Proof. destruct (production env); reflexivity. Qed.

End OrderFacts.

(** C5, as the handler has it.  [bookSession] tests, in this order and
    answering with the reply of the first test that fails: the caller
    resolves to a client id (403); [therapistId] is a non-empty string of
    24 hex digits, [startAt] and [endAt] are strings that parse as dates
    (400); [end > start] (400); the therapist exists (404); the client
    profile exists (403); the interval is within availability (400); no
    therapist conflict (409); no client conflict (409).  When every test
    passes a session is created (201).  A rejected request leaves the
    database as it was. *)
Theorem book_first_failure_wins env req db :
  match Reference.firstFailure (Reference.preconditions env req db) with
  | Some r => SessionController.bookSession env req db = (r, db)
  | None => exists created,
      SessionController.bookSession env req db
      = (SessionReply 201 created, withSessions db (sessions db ++ [created]))
  end.
Proof.
  unfold SessionController.bookSession, SessionController.bookParse,
    Reference.preconditions, Reference.onClient, Reference.onInterval,
    Reference.startOf, Reference.endOf, Reference.therapistIdOf.
  cbv zeta.
  destruct (clientId (SessionController.book_actor req)) as [c |]; [| reflexivity].
  destruct (SessionController.b_therapistId (SessionController.book_body req))
    as [| rawT |]; try reflexivity.
  cbn [Reference.isSome Reference.isString Reference.stringOf Reference.firstFailure andb].
  destruct (Js.isEmpty (Js.trim rawT)); [reflexivity |].
  cbn [negb Reference.firstFailure returnIf bind].
  destruct (Oid.isValidObjectIdString (Js.trim rawT)); [| reflexivity].
  cbn [negb Reference.firstFailure returnIf bind ret].
  destruct (SessionController.b_startAt (SessionController.book_body req))
    as [| rawS |]; try reflexivity.
  cbn [Reference.isString Reference.stringOf Reference.firstFailure].
  destruct (SessionController.toDate env (JStr (Js.trim rawS))) as [s |]; [| reflexivity].
  cbn [Reference.isSome Reference.firstFailure bind ret].
  destruct (SessionController.b_endAt (SessionController.book_body req))
    as [| rawE |]; try reflexivity.
  cbn [Reference.isString Reference.stringOf Reference.firstFailure].
  destruct (SessionController.toDate env (JStr (Js.trim rawE))) as [e |]; [| reflexivity].
  cbn [Reference.isSome Reference.firstFailure bind ret].
  rewrite Z.gtb_ltb, Z.ltb_antisym.
  destruct (Z.leb_spec e s) as [Hle | Hlt]; [reflexivity |].
  cbn [negb Reference.firstFailure returnIf bind ret].
  unfold SessionController.bookLookups.
  destruct (Mongo.findTherapistById (Oid.cast (Js.trim rawT)) (therapists db));
    [| reflexivity].
  cbn [Reference.isSome Reference.firstFailure].
  destruct (Mongo.findClientById c (clients db)); [| reflexivity].
  cbn [Reference.isSome Reference.firstFailure].
  destruct (SessionController.isWithinAvailability db (Some (Oid.cast (Js.trim rawT))) s e);
    [| reflexivity].
  cbn [negb Reference.firstFailure returnIf].
  rewrite production_irrelevant.
  destruct (SessionController.findTherapistConflict None (Some (Oid.cast (Js.trim rawT))) s e
                                                    (sessions db)) eqn:Ht.
  { unfold SessionController.bookDirect. rewrite Ht. reflexivity. }
  cbn [Reference.isSome negb Reference.firstFailure].
  destruct (SessionController.findClientConflict None (Some c) s e (sessions db)) eqn:Hc.
  { unfold SessionController.bookDirect. rewrite Ht, Hc. reflexivity. }
  cbn [Reference.isSome negb Reference.firstFailure].
  apply bookDirect_no_conflict; assumption.
Qed.

(** C5, as the spec orders the checks: the reply is not always that of the
    first failing entry of the spec's list.  C2 asks for a therapist that
    does not exist, with [endAt] an hour before [startAt]; the spec's
    order gives 404 "Therapist not found", the handler answers 400 "endAt
    must be after startAt". *)
Lemma book_inverted_interval_before_therapist_lookup :
  Mongo.findTherapistById (Reference.therapistIdOf Scenario.invertedForUnknownTherapist)
                          (therapists Scenario.db1)
  = None
  /\ Reference.firstFailure
       (Reference.specOrder Scenario.env Scenario.invertedForUnknownTherapist Scenario.db1)
     = Some (MessageReply 404 "Therapist not found")
  /\ fst (SessionController.bookSession Scenario.env Scenario.invertedForUnknownTherapist
                                        Scenario.db1)
     = MessageReply 400 "endAt must be after startAt"
  /\ statusCode (fst (SessionController.bookSession
                        Scenario.env Scenario.invertedForUnknownTherapist Scenario.db1))
     <> 404.
Proof.
  repeat split; try (vm_compute; reflexivity).
  vm_compute. discriminate.
Qed.

(** ** The availability test of a booking *)

Section AvailabilityFacts.

Import DateTime SessionController Reference.

(** Hours and minutes of the UTC clock, put together again, are the
    minute of the day. *)
Lemma minutesOf_dateToHHmmUTC d :
  minutesOf (dateToHHmmUTC d) = (d mod MS_PER_DAY) / MS_PER_MINUTE.
Proof.
  unfold minutesOf, dateToHHmmUTC, getUTCHours, getUTCMinutes,
    MS_PER_DAY, MS_PER_HOUR, MS_PER_MINUTE. simpl.
  Z.to_euclidean_division_equations; lia.
Qed.

(** On one UTC day and for an end on a whole minute, the comparison of
    minutes of [isWithinAvailability] is containment of instants. *)
Lemma minutes_test_is_containment a start end_ :
  start / MS_PER_DAY = end_ / MS_PER_DAY ->
  end_ mod MS_PER_MINUTE = 0 ->
  ((minutesOf (dateToHHmmUTC start) >=? minutesOf (Availability.startTime a))
   && (minutesOf (dateToHHmmUTC end_) <=? minutesOf (Availability.endTime a)))
  = IntervalMath.contains (recordInterval start a) (Interval.mk start end_).
Proof.
  intros Hday Hmin.
  rewrite !minutesOf_dateToHHmmUTC.
  unfold IntervalMath.contains, recordInterval, utcMidnight. simpl.
  unfold MS_PER_DAY, MS_PER_MINUTE in *.
  apply eq_true_iff_eq.
  rewrite !andb_true_iff, !Z.geb_le, !Z.leb_le.
  Z.to_euclidean_division_equations; lia.
Qed.

Lemma isWithinAvailability_existsb db therapistId start end_ :
  isWithinAvailability db (Some therapistId) start end_
  = existsb (fun s => (minutesOf (dateToHHmmUTC start) >=? minutesOf (Availability.startTime s))
                      && (minutesOf (dateToHHmmUTC end_) <=? minutesOf (Availability.endTime s)))
            (dayRecords db therapistId start).
Proof.
  unfold isWithinAvailability, dayRecords. cbv zeta. cbn [refIs].
  destruct (filter _ (availability db)); reflexivity.
Qed.

Lemma isWithinAvailability_withinDayRecords db therapistId start end_ :
  start / MS_PER_DAY = end_ / MS_PER_DAY ->
  end_ mod MS_PER_MINUTE = 0 ->
  isWithinAvailability db (Some therapistId) start end_
  = withinDayRecords db therapistId start end_.
Proof.
  intros Hday Hmin. rewrite isWithinAvailability_existsb. unfold withinDayRecords.
  induction (dayRecords db therapistId start) as [| a l IH]; [reflexivity |].
  simpl. rewrite IH. f_equal. apply minutes_test_is_containment; assumption.
Qed.

Lemma bookDirect_not_availability_reply db c t s e notes :
  fst (bookDirect db c t s e notes) <> MessageReply 400 msgNotWithin.
Proof.
  unfold bookDirect.
  destruct (findTherapistConflict None (Some t) s e (sessions db)); [discriminate |].
  destruct (findClientConflict None (Some c) s e (sessions db)); [discriminate |].
  destruct (Mongo.create t c s e notes (sessions db)) as [[] | [created l]]; discriminate.
Qed.

End AvailabilityFacts.

(** C3, as the handler has it.  For a booking that parses with
    [end > start], names an existing therapist and comes from an existing
    client, with start and end on one UTC day and the end on a whole
    minute, [bookSession] answers "not within the therapist's
    availability" exactly when no Availability record of that therapist
    for the UTC weekday of the start contains [[start, end)].  Time off is
    not read. *)
Theorem availability_rejection_iff_outside_day_records
        env req db clientId therapistIdStr startDate endDate :
  SessionController.bookParse env req = inr (clientId, therapistIdStr, startDate, endDate) ->
  Mongo.findTherapistById (Oid.cast therapistIdStr) (therapists db) <> None ->
  Mongo.findClientById clientId (clients db) <> None ->
  startDate / DateTime.MS_PER_DAY = endDate / DateTime.MS_PER_DAY ->
  endDate mod DateTime.MS_PER_MINUTE = 0 ->
  (fst (SessionController.bookSession env req db)
   = MessageReply 400 SessionController.msgNotWithin
   <-> Reference.withinDayRecords db (Oid.cast therapistIdStr) startDate endDate = false).
Proof.
  intros Hparse Hth Hcl Hday Hmin.
  unfold SessionController.bookSession, SessionController.bookLookups.
  rewrite Hparse.
  destruct (Mongo.findTherapistById (Oid.cast therapistIdStr) (therapists db));
    [| congruence].
  destruct (Mongo.findClientById clientId (clients db)); [| congruence].
  rewrite (isWithinAvailability_withinDayRecords _ _ _ _ Hday Hmin).
  destruct (Reference.withinDayRecords db (Oid.cast therapistIdStr) startDate endDate).
  - cbn [negb returnIf]. cbv zeta. rewrite production_irrelevant.
    split; [| discriminate].
    intros H. exfalso. exact (bookDirect_not_availability_reply _ _ _ _ _ _ H).
  - cbn [negb returnIf fst]. split; reflexivity.
Qed.

(** [availability_rejection_iff_outside_day_records] on the third scenario
    of the practice: 08:00-09:00 on a Monday whose hours start at 09:00. *)
Lemma availability_rejection_iff_outside_day_records_witness :
  fst (SessionController.bookSession Scenario.env
         (Scenario.book Scenario.clientC2 Scenario.therapistA
                        "2026-02-09T08:00:00.000Z" "2026-02-09T09:00:00.000Z")
         Scenario.db1)
  = MessageReply 400 SessionController.msgNotWithin
  <-> Reference.withinDayRecords Scenario.db1 (Oid.cast Scenario.therapistA)
                                 1770624000000 1770627600000 = false.
Proof.
  apply (availability_rejection_iff_outside_day_records
           Scenario.env _ Scenario.db1 Scenario.clientC2 Scenario.therapistA).
  - vm_compute. reflexivity.
  - vm_compute. discriminate.
  - vm_compute. discriminate.
  - vm_compute. reflexivity.
  - vm_compute. reflexivity.
Defined.

(** C3, as the spec has it: rejection exactly when the interval is not
    inside the resolved availability, time off subtracted.  The therapist
    is off for the whole Monday, so that nothing of the day is resolved
    availability, and the booking of 09:00-09:30 is accepted all the same. *)
Lemma book_accepts_inside_time_off :
  Reference.withinResolved Scenario.dbDayOff (Oid.cast Scenario.therapistA)
                           1770627600000 1770629400000 = false
  /\ statusCode (fst (SessionController.bookSession Scenario.env Scenario.halfHourAtNine
                                                    Scenario.dbDayOff)) = 201
  /\ fst (SessionController.bookSession Scenario.env Scenario.halfHourAtNine
                                        Scenario.dbDayOff)
     <> MessageReply 400 SessionController.msgNotWithin.
Proof.
  repeat split; try (vm_compute; reflexivity).
  vm_compute. discriminate.
Qed.

(** ** Termination of the slicing loops *)

Section PublicTermination.

Import PublicController.

Lemma durationMinutes_bounds q : 5 <= durationMinutes q <= 120.
Proof.
  unfold durationMinutes. destruct q as [[| p | p] |]; lia.
Qed.

(** More fuel does not change the outcome of a loop that ended. *)
Lemma sliceRange_more_fuel fuel fuel' d endM m set r :
  (fuel <= fuel')%nat ->
  sliceRange fuel d endM m set = Some r ->
  sliceRange fuel' d endM m set = Some r.
Proof.
  revert fuel' m set.
  induction fuel as [| fuel IH]; intros fuel' m set Hle; [discriminate |].
  destruct fuel' as [| fuel']; [lia |].
  simpl. destruct (m + d <=? endM); [| tauto].
  apply IH. lia.
Qed.

(** With a positive step, [n] further rounds are enough as soon as
    [n] steps overshoot the end. *)
Lemma sliceRange_enough_fuel d endM :
  0 < d ->
  forall n m set, endM - m < Z.of_nat n * d ->
                  exists r, sliceRange (S n) d endM m set = Some r.
Proof.
  intros Hd. induction n as [| n IH]; intros m set Hn.
  - simpl. destruct (Z.leb_spec (m + d) endM); [lia | eauto].
  - cbn [sliceRange]. destruct (Z.leb_spec (m + d) endM) as [Hgo | Hstop]; [| eauto].
    apply IH. lia.
Qed.

Lemma sliceRange_terminates d endM m set :
  0 < d -> exists fuel r, sliceRange fuel d endM m set = Some r.
Proof.
  intros Hd.
  exists (S (Z.to_nat (Z.max 0 (endM - m + 1)))).
  apply sliceRange_enough_fuel; [exact Hd |]. nia.
Qed.

Lemma sliceRanges_more_fuel fuel fuel' ranges d :
  (fuel <= fuel')%nat ->
  forall set r, sliceRanges fuel ranges d set = Some r ->
                sliceRanges fuel' ranges d set = Some r.
Proof.
  intros Hle. induction ranges as [| [startTime endTime] rest IH]; intros set r;
    [tauto |].
  simpl.
  destruct (sliceRange fuel d _ _ set) as [set' |] eqn:E; [| discriminate].
  rewrite (sliceRange_more_fuel _ _ _ _ _ _ _ Hle E). apply IH.
Qed.

Lemma sliceRanges_terminates ranges d :
  0 < d -> forall set, exists fuel r, sliceRanges fuel ranges d set = Some r.
Proof.
  intros Hd. induction ranges as [| [startTime endTime] rest IH]; intros set.
  - exists O. simpl. eauto.
  - destruct (sliceRange_terminates d (HHmm.timeToMinutes endTime)
                                    (HHmm.timeToMinutes startTime) set Hd)
      as (f1 & set' & H1).
    destruct (IH set') as (f2 & r & H2).
    exists (Nat.max f1 f2), r. simpl.
    rewrite (sliceRange_more_fuel f1 (Nat.max f1 f2) _ _ _ _ _ (Nat.le_max_l _ _) H1).
    exact (sliceRanges_more_fuel f2 _ _ _ (Nat.le_max_r _ _) _ _ H2).
Qed.

Lemma generateSlotTimes_more_fuel fuel fuel' ranges d r :
  (fuel <= fuel')%nat ->
  generateSlotTimes fuel ranges d = Some r ->
  generateSlotTimes fuel' ranges d = Some r.
Proof.
  intros Hle. unfold generateSlotTimes.
  destruct (sliceRanges fuel ranges d []) as [set |] eqn:E; [| discriminate].
  rewrite (sliceRanges_more_fuel _ _ _ _ Hle _ _ E). tauto.
Qed.

Lemma generateSlotTimes_terminates ranges d :
  0 < d -> exists fuel r, generateSlotTimes fuel ranges d = Some r.
Proof.
  intros Hd. destruct (sliceRanges_terminates ranges d Hd []) as (fuel & set & H).
  exists fuel, (sort set). unfold generateSlotTimes. rewrite H. reflexivity.
Qed.

Lemma collect_more_fuel fuel fuel' db dateObj d byTherapist :
  (fuel <= fuel')%nat ->
  forall r, collect fuel db dateObj d byTherapist = Some r ->
            collect fuel' db dateObj d byTherapist = Some r.
Proof.
  intros Hle. induction byTherapist as [| [tid ranges] rest IH]; intros r; [tauto |].
  simpl.
  destruct (generateSlotTimes fuel ranges d) as [allSlots |] eqn:E; [| discriminate].
  rewrite (generateSlotTimes_more_fuel _ _ _ _ _ Hle E).
  destruct (collect fuel db dateObj d rest) as [result |]; [| discriminate].
  rewrite (IH result eq_refl). tauto.
Qed.

Lemma collect_terminates db dateObj d byTherapist :
  0 < d -> exists fuel r, collect fuel db dateObj d byTherapist = Some r.
Proof.
  intros Hd. induction byTherapist as [| [tid ranges] rest IH].
  - exists O. simpl. eauto.
  - destruct (generateSlotTimes_terminates ranges d Hd) as (f1 & allSlots & H1).
    destruct IH as (f2 & result & H2).
    exists (Nat.max f1 f2). simpl.
    rewrite (generateSlotTimes_more_fuel f1 _ _ _ _ (Nat.le_max_l _ _) H1).
    rewrite (collect_more_fuel f2 _ _ _ _ _ (Nat.le_max_r _ _) _ H2).
    destruct allSlots; [eauto |].
    destruct (freeSlotsOf db tid dateObj d _); eauto.
Qed.

(** The public listing always answers. *)
Lemma getAvailableSlots_terminates env query db :
  exists fuel reply, getAvailableSlots fuel env query db = Some reply.
Proof.
  unfold getAvailableSlots. cbv zeta.
  destruct (q_date query) as [dateStr |]; [| exists O; eauto].
  destruct (isDateString dateStr); [| exists O; simpl; eauto].
  destruct (newDate env _) as [dateObj |]; [| exists O; simpl; eauto].
  pose proof (durationMinutes_bounds (q_durationMinutes query)) as Hd.
  match goal with
  | |- context [collect _ db dateObj ?d ?g] =>
      destruct (collect_terminates db dateObj d g ltac:(lia)) as (fuel & r & H)
  end.
  exists fuel. cbn [negb]. rewrite H. eauto.
Qed.

End PublicTermination.

Section ServiceTermination.

Import DateTime SchedulingService.

Lemma toInteger_lower n x : (inject_Z n <= x)%Q -> n <= toInteger x.
Proof.
  intros H. unfold toInteger. destruct (Qle_bool 0 x).
  - rewrite <- (Qfloor_Z n). apply Qfloor_resp_le. exact H.
  - rewrite Zle_Qle. eapply Qle_trans; [exact H | apply Qle_ceiling].
Qed.

Lemma toInteger_upper n x : (x <= inject_Z n)%Q -> toInteger x <= n.
Proof.
  intros H. unfold toInteger. destruct (Qle_bool 0 x).
  - rewrite Zle_Qle. eapply Qle_trans; [apply Qfloor_le | exact H].
  - rewrite <- (Qceiling_Z n). apply Qceiling_resp_le. exact H.
Qed.

Lemma toInteger_below n x : 0 <= n -> (x < inject_Z (n + 1))%Q -> toInteger x <= n.
Proof.
  intros Hn H. unfold toInteger. destruct (Qle_bool 0 x) eqn:E.
  - assert (Hlt : Qfloor x < n + 1).
    { rewrite Zlt_Qlt. eapply Qle_lt_trans; [apply Qfloor_le | exact H]. }
    lia.
  - assert (Hneg : ~ (0 <= x)%Q) by (rewrite <- Qle_bool_iff; congruence).
    assert (Hc : Qceiling x - 1 < 0).
    { rewrite Zlt_Qlt. eapply Qlt_trans; [apply Qceiling_lt |].
      apply Qnot_le_lt. exact Hneg. }
    lia.
Qed.

Lemma getMinutes_nonneg tz d : 0 <= getMinutes tz d.
Proof.
  unfold getMinutes, MS_PER_HOUR, MS_PER_MINUTE.
  Z.to_euclidean_division_equations; lia.
Qed.

(** A session of a minute or more moves the cursor by a minute at least. *)
Lemma cursor_advances tz cur sm :
  (1 <= sm)%Q ->
  cur + 60000 <= setMinutes tz cur (inject_Z (getMinutes tz cur) + sm)%Q.
Proof.
  intros H. unfold setMinutes, MS_PER_MINUTE.
  assert (getMinutes tz cur + 1 <= toInteger (inject_Z (getMinutes tz cur) + sm)).
  { apply toInteger_lower. rewrite inject_Z_plus.
    generalize (inject_Z (getMinutes tz cur)). intros g.
    change (inject_Z 1) with 1%Q. lra. }
  lia.
Qed.

(** A session shorter than a minute does not move it forward: the
    fraction added to the minutes is dropped by [setMinutes]. *)
Lemma cursor_stays tz cur sm :
  (sm < 1)%Q ->
  setMinutes tz cur (inject_Z (getMinutes tz cur) + sm)%Q <= cur.
Proof.
  intros H. unfold setMinutes, MS_PER_MINUTE.
  assert (toInteger (inject_Z (getMinutes tz cur) + sm) <= getMinutes tz cur).
  { apply toInteger_below; [apply getMinutes_nonneg |]. rewrite inject_Z_plus.
    generalize (inject_Z (getMinutes tz cur)). intros g.
    change (inject_Z 1) with 1%Q. lra. }
  lia.
Qed.

Lemma cursor_not_back tz cur sm :
  (0 <= sm)%Q ->
  cur <= setMinutes tz cur (inject_Z (getMinutes tz cur) + sm)%Q.
Proof.
  intros H. unfold setMinutes, MS_PER_MINUTE.
  assert (getMinutes tz cur <= toInteger (inject_Z (getMinutes tz cur) + sm)).
  { apply toInteger_lower.
    generalize (inject_Z (getMinutes tz cur)). intros g. lra. }
  lia.
Qed.

Lemma test_passes_room cur sm end_ :
  (1 <= sm)%Q ->
  (inject_Z cur + sm * 60000 <= inject_Z end_)%Q ->
  cur + 60000 <= end_.
Proof.
  intros H1 H2. rewrite Zle_Qle, inject_Z_plus. change (inject_Z 60000) with 60000%Q.
  revert H2. generalize (inject_Z cur) (inject_Z end_). intros a b H2. lra.
Qed.

Lemma test_fails_past_end cur sm end_ :
  (0 < sm)%Q -> end_ < cur ->
  ~ (inject_Z cur + sm * 60000 <= inject_Z end_)%Q.
Proof.
  intros H1 H2 H3. rewrite Zlt_Qlt in H2. revert H2 H3.
  generalize (inject_Z cur) (inject_Z end_). intros a b H2 H3. lra.
Qed.

Lemma slice_more_fuel fuel fuel' tz tid sm interval cur slots r :
  (fuel <= fuel')%nat ->
  slice fuel tz tid sm interval cur slots = Some r ->
  slice fuel' tz tid sm interval cur slots = Some r.
Proof.
  revert fuel' cur slots.
  induction fuel as [| fuel IH]; intros fuel' cur slots Hle; [discriminate |].
  destruct fuel' as [| fuel']; [lia |].
  simpl. destruct (Qle_bool _ _); [| tauto].
  apply IH. lia.
Qed.

Lemma slice_enough_fuel tz tid sm interval :
  (1 <= sm)%Q ->
  forall n cur slots,
    Interval.end_ interval - cur < Z.of_nat n * 60000 ->
    exists r, slice (S n) tz tid sm interval cur slots = Some r.
Proof.
  intros Hsm. induction n as [| n IH]; intros cur slots Hn.
  - simpl. destruct (Qle_bool _ _) eqn:E; [| eauto].
    apply Qle_bool_iff in E. exfalso.
    apply (test_fails_past_end cur sm (Interval.end_ interval)); [lra | lia | exact E].
  - cbn [slice]. destruct (Qle_bool _ _) eqn:E; [| eauto].
    apply Qle_bool_iff in E. apply IH.
    pose proof (cursor_advances tz cur sm Hsm). lia.
Qed.

(** With [sessionMinutes >= 1] the slicing loop ends. *)
Lemma slice_terminates tz tid sm interval cur slots :
  (1 <= sm)%Q -> exists fuel r, slice fuel tz tid sm interval cur slots = Some r.
Proof.
  intros Hsm.
  exists (S (Z.to_nat (Z.max 0 (Interval.end_ interval - cur + 1)))).
  apply slice_enough_fuel; [exact Hsm |]. lia.
Qed.

(** With [sessionMinutes < 1] it does not, once its test has passed: the
    cursor never moves forward, so the test passes again. *)
Lemma slice_diverges tz tid sm interval :
  (sm < 1)%Q ->
  forall fuel cur slots,
    (inject_Z cur + sm * 60000 <= inject_Z (Interval.end_ interval))%Q ->
    slice fuel tz tid sm interval cur slots = None.
Proof.
  intros Hsm. induction fuel as [| fuel IH]; intros cur slots Hgo; [reflexivity |].
  simpl. rewrite (proj2 (Qle_bool_iff _ _) Hgo).
  apply IH.
  pose proof (cursor_stays tz cur sm Hsm) as Hstay. rewrite Zle_Qle in Hstay.
  revert Hgo Hstay.
  generalize (inject_Z cur) (inject_Z (Interval.end_ interval))
             (inject_Z (setMinutes tz cur (inject_Z (getMinutes tz cur) + sm))).
  intros a b c Hgo Hstay. lra.
Qed.

Lemma overRanges_more_fuel fuel fuel' tz day tid sm pref timeOff sessions bs be ranges :
  (fuel <= fuel')%nat ->
  forall slots r,
    overRanges fuel tz day tid sm pref timeOff sessions bs be ranges slots = Some r ->
    overRanges fuel' tz day tid sm pref timeOff sessions bs be ranges slots = Some r.
Proof.
  intros Hle. induction ranges as [| tr rest IH]; intros slots r; [tauto |].
  simpl. destruct (window tz day pref timeOff sessions bs be tr) as [interval |];
    [| apply IH].
  destruct (slice fuel tz tid sm interval _ slots) as [slots' |] eqn:E; [| discriminate].
  rewrite (slice_more_fuel _ _ _ _ _ _ _ _ _ Hle E). apply IH.
Qed.

Lemma overRanges_terminates tz day tid sm pref timeOff sessions bs be ranges :
  (1 <= sm)%Q ->
  forall slots, exists fuel r,
    overRanges fuel tz day tid sm pref timeOff sessions bs be ranges slots = Some r.
Proof.
  intros Hsm. induction ranges as [| tr rest IH]; intros slots.
  - exists O. simpl. eauto.
  - simpl. destruct (window tz day pref timeOff sessions bs be tr) as [interval |];
      [| apply IH].
    destruct (slice_terminates tz tid sm interval (Interval.start interval) slots Hsm)
      as (f1 & slots' & H1).
    destruct (IH slots') as (f2 & r & H2).
    exists (Nat.max f1 f2), r.
    rewrite (slice_more_fuel f1 _ _ _ _ _ _ _ _ (Nat.le_max_l _ _) H1).
    exact (overRanges_more_fuel f2 _ _ _ _ _ _ _ _ _ _ _ (Nat.le_max_r _ _) _ _ H2).
Qed.

Lemma overBlocks_more_fuel fuel fuel' tz day tid sm pref timeOff sessions blocks :
  (fuel <= fuel')%nat ->
  forall slots r,
    overBlocks fuel tz day tid sm pref timeOff sessions blocks slots = Some r ->
    overBlocks fuel' tz day tid sm pref timeOff sessions blocks slots = Some r.
Proof.
  intros Hle. induction blocks as [| block rest IH]; intros slots r; [tauto |].
  simpl.
  destruct (overRanges fuel tz day tid sm pref timeOff sessions _ _ _ slots)
    as [slots' |] eqn:E; [| discriminate].
  rewrite (overRanges_more_fuel _ _ _ _ _ _ _ _ _ _ _ _ Hle _ _ E). apply IH.
Qed.

Lemma overBlocks_terminates tz day tid sm pref timeOff sessions blocks :
  (1 <= sm)%Q ->
  forall slots, exists fuel r,
    overBlocks fuel tz day tid sm pref timeOff sessions blocks slots = Some r.
Proof.
  intros Hsm. induction blocks as [| block rest IH]; intros slots.
  - exists O. simpl. eauto.
  - simpl.
    destruct (overRanges_terminates tz day tid sm pref timeOff sessions
                (atTime tz day (Therapist.startTime block))
                (atTime tz day (Therapist.endTime block))
                (timeRangesFor pref block) Hsm slots) as (f1 & slots' & H1).
    destruct (IH slots') as (f2 & r & H2).
    exists (Nat.max f1 f2), r.
    rewrite (overRanges_more_fuel f1 _ _ _ _ _ _ _ _ _ _ _ (Nat.le_max_l _ _) _ _ H1).
    exact (overBlocks_more_fuel f2 _ _ _ _ _ _ _ _ _ (Nat.le_max_r _ _) _ _ H2).
Qed.

Lemma overDays_more_fuel fuel fuel' tz th tid sm pref sessions to :
  (fuel <= fuel')%nat ->
  forall dayFuel dayFuel' day slots r,
    (dayFuel <= dayFuel')%nat ->
    overDays fuel dayFuel tz th tid sm pref sessions to day slots = Some r ->
    overDays fuel' dayFuel' tz th tid sm pref sessions to day slots = Some r.
Proof.
  intros Hle. induction dayFuel as [| dayFuel IH]; intros dayFuel' day slots r Hd;
    [discriminate |].
  destruct dayFuel' as [| dayFuel']; [lia |].
  simpl. destruct (day <? to); [| tauto].
  destruct (skipDay pref (getDay tz day)); [apply IH; lia |].
  destruct (overBlocks fuel tz day tid sm pref _ sessions _ slots) as [slots' |] eqn:E;
    [| discriminate].
  rewrite (overBlocks_more_fuel _ _ _ _ _ _ _ _ _ _ Hle _ _ E). apply IH. lia.
Qed.

Lemma overDays_terminates tz th tid sm pref sessions to :
  (1 <= sm)%Q ->
  forall n day slots,
    to - day <= Z.of_nat n * MS_PER_DAY ->
    exists fuel r,
      overDays fuel (S n) tz th tid sm pref sessions to day slots = Some r.
Proof.
  intros Hsm. induction n as [| n IH]; intros day slots Hn.
  - exists O. simpl. destruct (Z.ltb_spec day to); [lia | eauto].
  - cbn [overDays]. destruct (Z.ltb_spec day to) as [Hgo | Hstop];
      [| exists O; eauto].
    assert (Hnext : to - nextDay day <= Z.of_nat n * MS_PER_DAY)
      by (unfold nextDay, MS_PER_DAY in *; lia).
    destruct (skipDay pref (getDay tz day)); [apply IH; exact Hnext |].
    destruct (overBlocks_terminates tz day tid sm pref (Therapist.timeOff th) sessions
                (filter (fun b => Therapist.dayOfWeek b =? getDay tz day)
                        (Therapist.weeklyAvailability th)) Hsm slots)
      as (f1 & slots' & H1).
    destruct (IH (nextDay day) slots' Hnext) as (f2 & r & H2).
    exists (Nat.max f1 f2), r.
    rewrite (overBlocks_more_fuel f1 _ _ _ _ _ _ _ _ _ (Nat.le_max_l _ _) _ _ H1).
    exact (overDays_more_fuel f2 _ _ _ _ _ _ _ _ (Nat.le_max_r _ _) _ _ _ _ _
                              (Nat.le_refl _) H2).
Qed.

(** X10. With a session of a minute or more [findSlots] always returns. *)
Lemma findSlots_terminates tz args db :
  (1 <= a_sessionMinutes args)%Q ->
  exists fuel found, findSlots fuel tz args db = Some found.
Proof.
  intros Hsm. unfold findSlots.
  destruct (Mongo.findClientById _ _) as [client |]; [| exists O; eauto].
  destruct (Mongo.findTherapistById _ _) as [th |]; [| exists O; eauto].
  set (n := Z.to_nat (Z.max 0 (a_to args - a_from args))).
  match goal with
  | |- context [overDays _ _ tz th ?tid ?sm ?pref ?ss ?to ?day ?slots] =>
      destruct (overDays_terminates tz th tid sm pref ss to Hsm n day slots)
        as (fuel & r & H)
  end.
  { unfold MS_PER_DAY. subst n. nia. }
  exists (Nat.max fuel (S n)).
  match goal with
  | |- context [overDays _ _ tz th ?tid ?sm ?pref ?ss ?to ?day ?slots] =>
      rewrite (overDays_more_fuel fuel (Nat.max fuel (S n)) tz th tid sm pref ss to
                 (Nat.le_max_l _ _) (S n) (Nat.max fuel (S n)) day slots r
                 (Nat.le_max_r _ _) H)
  end.
  eauto.
Qed.

(** Once a window is sliced with [sessionMinutes < 1], nothing comes out of
    the loops around the slicing loop either. *)
Lemma overRanges_diverges fuel tz day tid sm pref timeOff sessions bs be tr rest slots w :
  (sm < 1)%Q ->
  window tz day pref timeOff sessions bs be tr = Some w ->
  (inject_Z (Interval.start w) + sm * 60000 <= inject_Z (Interval.end_ w))%Q ->
  overRanges fuel tz day tid sm pref timeOff sessions bs be (tr :: rest) slots = None.
Proof.
  intros Hsm Hw Hgo. simpl. rewrite Hw.
  rewrite (slice_diverges tz tid sm w Hsm fuel _ slots Hgo). reflexivity.
Qed.

End ServiceTermination.

(** X11. The public listing's half of C10: the duration is
    [max(5, min(120, Number(q) || 30))], it lies in [5, 120] whatever the
    query holds, it is 30 when the value is missing or not a number, and
    with it the slicing loop of [generateSlotTimes] ends on every range,
    so that the handler answers. *)
Lemma public_slicing_terminates :
  (forall q, 5 <= PublicController.durationMinutes q <= 120)
  /\ PublicController.durationMinutes None = 30
  /\ (forall q endM m set,
         exists fuel r,
           PublicController.sliceRange fuel (PublicController.durationMinutes q)
                                       endM m set = Some r)
  /\ (forall q ranges,
         exists fuel r,
           PublicController.generateSlotTimes fuel ranges
                                              (PublicController.durationMinutes q) = Some r)
  /\ (forall env query db,
         exists fuel reply, PublicController.getAvailableSlots fuel env query db = Some reply).
Proof.
  split; [exact durationMinutes_bounds |].
  split; [reflexivity |].
  split.
  { intros q endM m set. apply sliceRange_terminates.
    pose proof (durationMinutes_bounds q). lia. }
  split.
  { intros q ranges. apply generateSlotTimes_terminates.
    pose proof (durationMinutes_bounds q). lia. }
  exact getAvailableSlots_terminates.
Qed.

(** C10, at the input where [findSlots] leaves it.  The precondition
    [sessionMinutes > 0] holds for [sessionMinutes = 0.5], yet on the
    request for Monday 2026-02-09 with the therapist of the practice
    (hours 09:00-12:00, nothing booked) the slicing loop never ends: its
    test adds [0.5 * 60000] milliseconds and passes, while
    [cur.setMinutes(cur.getMinutes() + 0.5)] drops the fraction and leaves
    the cursor at 09:00.  No bound on the number of rounds gives a
    result. *)
Theorem findSlots_hangs_on_half_minute :
  (0 < SchedulingService.a_sessionMinutes Scenario.halfMinuteArgs)%Q
  /\ forall fuel,
      SchedulingService.findSlots fuel 0 Scenario.halfMinuteArgs Scenario.db0 = None.
Proof.
  split; [reflexivity |].
  intros [| fuel]; [reflexivity |].
  unfold SchedulingService.findSlots.
  cbn -[SchedulingService.slice].
  match goal with
  | |- context [SchedulingService.slice ?f ?tz ?tid ?sm ?w ?cur ?sl] =>
      rewrite (slice_diverges tz tid sm w (eq_refl : (sm < 1)%Q) f cur sl)
  end.
  - reflexivity.
  - vm_compute. discriminate.
Qed.

(** ** Where the slots of [findSlots] come from *)

Section ServiceSlots.

Import DateTime SchedulingService Reference.

Lemma contains_iff outer inner :
  IntervalMath.contains outer inner = true
  <-> Interval.start outer <= Interval.start inner
      /\ Interval.end_ inner <= Interval.end_ outer.
Proof.
  unfold IntervalMath.contains. rewrite andb_true_iff, Z.geb_le, Z.leb_le. tauto.
Qed.

(** The test of the exclusion loops is: [other] covers the whole of a
    non-empty [interval]. *)
Lemma fullyBlocked_contains interval other :
  Interval.start interval < Interval.end_ interval ->
  fullyBlocked interval other = IntervalMath.contains other interval.
Proof.
  intros Hne. unfold fullyBlocked.
  destruct (IntervalMath.overlapInterval interval other) as [x |] eqn:E.
  - apply overlapInterval_Some in E. destruct E as (Hs & He & _).
    unfold IntervalMath.contains. rewrite Hs, He.
    apply eq_true_iff_eq. rewrite !andb_true_iff, Z.geb_le, !Z.leb_le. lia.
  - apply overlapInterval_None in E. symmetry. apply not_true_is_false.
    rewrite contains_iff. lia.
Qed.

Lemma applyHardConstraints_inside tz day interval hc r :
  applyHardConstraints tz day interval hc = Some r ->
  Interval.start interval < Interval.end_ interval ->
  IntervalMath.contains interval r = true /\ Interval.start r < Interval.end_ r.
Proof.
  unfold applyHardConstraints. destruct hc as [hc |].
  - cbv zeta.
    set (s := match Client.noEarlyThan hc with Some _ => _ | None => _ end).
    set (e := match Client.noLaterThan hc with Some _ => _ | None => _ end).
    assert (Hs : Interval.start interval <= s).
    { subst s. destruct (Client.noEarlyThan hc); [| lia].
      destruct (Z.ltb_spec (Interval.start interval) (atTime tz day t)); lia. }
    assert (He : e <= Interval.end_ interval).
    { subst e. destruct (Client.noLaterThan hc); [| lia].
      rewrite Z.gtb_ltb.
      destruct (Z.ltb_spec (atTime tz day t) (Interval.end_ interval)); lia. }
    destruct (Z.geb_spec s e); [discriminate |].
    intros E _. injection E as <-. rewrite contains_iff. simpl. lia.
  - intros E Hne. injection E as <-. rewrite contains_iff. lia.
Qed.

(** What [window] hands to the slicing loop. *)
Lemma window_open tz day pref timeOff sessions blockStart blockEnd tr w :
  window tz day pref timeOff sessions blockStart blockEnd tr = Some w ->
  IntervalMath.contains (Interval.mk blockStart blockEnd) w = true
  /\ openWindow timeOff sessions w.
Proof.
  unfold window. cbv zeta.
  destruct (IntervalMath.overlapInterval _ _) as [i |] eqn:Ei; [| discriminate].
  apply overlapInterval_Some in Ei. simpl in Ei. destruct Ei as (His & Hie & Hine).
  destruct (applyHardConstraints tz day i (Client.hardConstraints pref)) as [r |] eqn:Er;
    [| discriminate].
  apply applyHardConstraints_inside in Er; [| exact Hine].
  destruct Er as [Hin Hne]. apply contains_iff in Hin.
  destruct (existsb _ timeOff) eqn:Eoff; [discriminate |].
  destruct (existsb _ sessions) eqn:Eses; [discriminate |].
  intros E. injection E as <-.
  split; [rewrite contains_iff; simpl; lia |].
  split; [exact Hne |]. split.
  - intros off Hoff. rewrite <- (fullyBlocked_contains _ _ Hne).
    destruct (fullyBlocked r (Therapist.offInterval off)) eqn:Eb; [| reflexivity].
    assert (Hex : existsb (fun off => fullyBlocked r (Therapist.offInterval off)) timeOff
                  = true) by (apply existsb_exists; eauto).
    congruence.
  - intros s Hs. rewrite <- (fullyBlocked_contains _ _ Hne).
    destruct (fullyBlocked r (Session.interval s)) eqn:Eb; [| reflexivity].
    assert (Hex : existsb (fun s => fullyBlocked r (Session.interval s)) sessions = true)
      by (apply existsb_exists; eauto).
    congruence.
Qed.

(** The slicing loop only adds pieces that lie between [cur] and the end
    of the interval. *)
Lemma slice_adds fuel tz tid sm interval :
  (0 <= sm)%Q ->
  forall cur slots r,
    slice fuel tz tid sm interval cur slots = Some r ->
    forall x, In x r ->
              In x slots
              \/ (cur <= Slot.start x
                  /\ Slot.end_ x <= Interval.end_ interval
                  /\ Slot.end_ x = ofNumber (inject_Z (Slot.start x) + sm * 60000)%Q
                  /\ Slot.therapist x = tid).
Proof.
  intros Hsm. induction fuel as [| fuel IH]; intros cur slots r; [discriminate |].
  simpl. destruct (Qle_bool _ _) eqn:Etest.
  - apply Qle_bool_iff in Etest.
    intros H x Hx. destruct (IH _ _ _ H x Hx) as [Hin | (H1 & H2 & H3 & H4)].
    + apply in_app_or in Hin. destruct Hin as [Hin | [<- | []]]; [left; exact Hin |].
      right. simpl. split; [lia |]. split; [| split; reflexivity].
      unfold ofNumber. apply toInteger_upper. exact Etest.
    + right. pose proof (cursor_not_back tz cur sm Hsm).
      repeat split; try assumption. lia.
  - intros E x Hx. injection E as <-. left. exact Hx.
Qed.





End ServiceSlots.

(** ** Where the start times of the public listing come from *)

Section PublicSlots.

Import DateTime PublicController Reference.

Lemma timeToMinutes_minutesToTime m : HHmm.timeToMinutes (HHmm.minutesToTime m) = m.
Proof.
  unfold HHmm.timeToMinutes, HHmm.minutesToTime. simpl.
  Z.to_euclidean_division_equations; lia.
Qed.

Lemma setAdd_In x y set : In x (setAdd y set) -> In x set \/ x = y.
Proof.
  unfold setAdd. destruct (existsb (HHmm_eqb y) set); [tauto |].
  intros H. apply in_app_or in H. simpl in H. intuition congruence.
Qed.

Lemma insertSorted_In x y l : In x (insertSorted y l) <-> x = y \/ In x l.
Proof.
  induction l as [| z l IH]; simpl; [intuition congruence |].
  destruct (HHmm_leb y z); simpl; [intuition congruence |].
  rewrite IH. intuition congruence.
Qed.

Lemma sort_In x l : In x (sort l) <-> In x l.
Proof.
  unfold sort. induction l as [| y l IH]; simpl; [tauto |].
  rewrite insertSorted_In, IH. intuition congruence.
Qed.

(** A time the loop adds is the time of a minute [m'] from which a whole
    slot fits before [endM]. *)
Lemma sliceRange_adds fuel d endM :
  0 < d ->
  forall m set r,
    sliceRange fuel d endM m set = Some r ->
    forall x, In x r ->
              In x set
              \/ exists m', m <= m' /\ m' + d <= endM /\ x = HHmm.minutesToTime m'.
Proof.
  intros Hd. induction fuel as [| fuel IH]; intros m set r; [discriminate |].
  simpl. destruct (Z.leb_spec (m + d) endM) as [Hgo | Hstop].
  - intros H x Hx. destruct (IH _ _ _ H x Hx) as [Hin | (m' & H1 & H2 & H3)].
    + apply setAdd_In in Hin. destruct Hin as [Hin | ->]; [left; exact Hin |].
      right. exists m. repeat split; lia.
    + right. exists m'. repeat split; try assumption. lia.
  - intros E x Hx. injection E as <-. left. exact Hx.
Qed.

Lemma sliceRanges_adds fuel d :
  0 < d ->
  forall ranges set r,
    sliceRanges fuel ranges d set = Some r ->
    forall x, In x r ->
              In x set \/ exists range, In range ranges /\ fitsRange d range x.
Proof.
  intros Hd. induction ranges as [| [startTime endTime] rest IH]; intros set r.
  - simpl. intros E x Hx. injection E as <-. left. exact Hx.
  - simpl. destruct (sliceRange fuel d _ _ set) as [set' |] eqn:E1; [| discriminate].
    intros H x Hx. destruct (IH _ _ H x Hx) as [Hin | (range & Hr & Hfit)].
    + destruct (sliceRange_adds _ _ _ Hd _ _ _ E1 x Hin) as [Hold | (m' & H1 & H2 & ->)];
        [left; exact Hold |].
      right. exists (startTime, endTime). split; [left; reflexivity |].
      unfold fitsRange. rewrite timeToMinutes_minutesToTime. simpl. lia.
    + right. exists range. split; [right; exact Hr | exact Hfit].
Qed.

Lemma generateSlotTimes_fits fuel ranges d r :
  0 < d ->
  generateSlotTimes fuel ranges d = Some r ->
  forall x, In x r -> exists range, In range ranges /\ fitsRange d range x.
Proof.
  intros Hd. unfold generateSlotTimes.
  destruct (sliceRanges fuel ranges d []) as [set |] eqn:E; [| discriminate].
  intros H x Hx. injection H as <-. apply (proj1 (sort_In _ _)) in Hx.
  destruct (sliceRanges_adds _ _ Hd _ _ _ E x Hx) as [[] | H]. exact H.
Qed.

(** An entry of the grouped map holds ranges of records of its key. *)
Lemma pushRange_In tid range m tid' ranges' rg :
  In (tid', ranges') (pushRange tid range m) ->
  In rg ranges' ->
  (tid' = tid /\ rg = range) \/ exists old, In (tid', old) m /\ In rg old.
Proof.
  induction m as [| [k ranges] rest IH]; simpl.
  - intros [E | []] Hrg. injection E as <- <-. destruct Hrg as [<- | []]. left. tauto.
  - destruct (Oid.eqb k tid) eqn:Ek; simpl.
    + apply Oid_eqb_eq in Ek. subst k.
      intros [E | Hin] Hrg.
      * injection E as <- <-. apply in_app_or in Hrg. destruct Hrg as [Hrg | [<- | []]].
        -- right. exists ranges. tauto.
        -- left. tauto.
      * right. exists ranges'. tauto.
    + intros [E | Hin] Hrg.
      * injection E as <- <-. right. exists ranges. tauto.
      * destruct (IH Hin Hrg) as [H | (old & Hold & Hrgold)]; [left; exact H |].
        right. exists old. tauto.
Qed.

Lemma fold_pushRange_In docs :
  forall m tid ranges rg,
    In (tid, ranges)
       (fold_left (fun m a => pushRange (Availability.therapist a)
                                        (Availability.startTime a, Availability.endTime a) m)
                  docs m) ->
    In rg ranges ->
    (exists old, In (tid, old) m /\ In rg old)
    \/ exists a, In a docs /\ Availability.therapist a = tid
                 /\ (Availability.startTime a, Availability.endTime a) = rg.
Proof.
  induction docs as [| a docs IH]; intros m tid ranges rg; simpl.
  - intros Hin Hrg. left. exists ranges. tauto.
  - intros Hin Hrg.
    destruct (IH _ _ _ _ Hin Hrg) as [(old & Hold & Hrgold) | (b & Hb & Hrest)].
    + destruct (pushRange_In _ _ _ _ _ _ Hold Hrgold) as [[-> ->] | H].
      * right. exists a. tauto.
      * left. exact H.
    + right. exists b. tauto.
Qed.

Lemma groupByTherapist_In docs tid ranges rg :
  In (tid, ranges) (groupByTherapist docs) ->
  In rg ranges ->
  exists a, In a docs /\ Availability.therapist a = tid
            /\ (Availability.startTime a, Availability.endTime a) = rg.
Proof.
  intros Hin Hrg. unfold groupByTherapist in Hin.
  destruct (fold_pushRange_In _ _ _ _ _ Hin Hrg) as [(old & [] & _) | H]. exact H.
Qed.


Lemma freeSlotsOf_In db therapistId dateObj d allSlots x :
  In x (freeSlotsOf db therapistId dateObj d allSlots) ->
  In x allSlots
  /\ findOverlapping therapistId (slotStart dateObj x) (slotEnd dateObj x d) (sessions db)
     = None.
Proof.
  unfold freeSlotsOf. intros H. apply filter_In in H. destruct H as [Hin Hfree].
  split; [exact Hin |].
  destruct (findOverlapping _ _ _ _); [discriminate | reflexivity].
Qed.

Lemma collect_In fuel db dateObj d :
  0 < d ->
  forall byTherapist result,
    collect fuel db dateObj d byTherapist = Some result ->
    forall ts, In ts result ->
      exists ranges,
        In (ts_therapistId ts, ranges) byTherapist
        /\ forall x, In x (ts_slots ts) ->
             (exists range, In range ranges /\ fitsRange d range x)
             /\ findOverlapping (ts_therapistId ts) (slotStart dateObj x)
                                (slotEnd dateObj x d) (sessions db) = None.
Proof.
  intros Hd. induction byTherapist as [| [tid ranges] rest IH]; intros result.
  - simpl. intros E ts Hts. injection E as <-. destruct Hts.
  - simpl.
    destruct (generateSlotTimes fuel ranges d) as [allSlots |] eqn:Eg; [| discriminate].
    destruct (collect fuel db dateObj d rest) as [res |] eqn:Ec; [| discriminate].
    assert (Hrest : forall ts, In ts res ->
              exists ranges0,
                In (ts_therapistId ts, ranges0) ((tid, ranges) :: rest)
                /\ forall x, In x (ts_slots ts) ->
                     (exists range, In range ranges0 /\ fitsRange d range x)
                     /\ findOverlapping (ts_therapistId ts) (slotStart dateObj x)
                                        (slotEnd dateObj x d) (sessions db) = None).
    { intros ts Hts. destruct (IH _ eq_refl ts Hts) as (r0 & Hin & H).
      exists r0. split; [right; exact Hin | exact H]. }
    destruct allSlots as [| t0 allSlots'].
    { intros E. injection E as <-. exact Hrest. }
    set (allSlots := t0 :: allSlots') in *.
    destruct (freeSlotsOf db tid dateObj d allSlots) as [| f0 free'] eqn:Ef.
    { intros E. injection E as <-. exact Hrest. }
    intros E. injection E as <-. intros ts [<- | Hts]; [| exact (Hrest ts Hts)].
    exists ranges. split; [left; reflexivity |]. cbn [ts_slots ts_therapistId].
    intros x Hx. change (In x (sort (f0 :: free'))) in Hx.
    apply (proj1 (sort_In _ _)) in Hx. rewrite <- Ef in Hx.
    apply freeSlotsOf_In in Hx. destruct Hx as [Hall Hfree].
    split; [| exact Hfree].
    exact (generateSlotTimes_fits _ _ _ _ Hd Eg x Hall).
Qed.

End PublicSlots.

(** The sessions [findSlots] reads: those of the therapist that are
    scheduled and meet [[from, to)]. *)
Lemma sessionsInRange_In therapistId from to l s :
  In s (SchedulingService.sessionsInRange therapistId from to l)
  <-> In s l /\ Session.therapist s = therapistId /\ Session.status s = scheduled
      /\ Session.start s < to /\ Session.end_ s > from.
Proof.
  unfold SchedulingService.sessionsInRange. rewrite filter_In, !andb_true_iff.
  rewrite Z.ltb_lt, Z.gtb_lt. unfold Oid.eqb. rewrite N.eqb_eq.
  destruct (Session.status s); simpl; intuition (try discriminate; try lia).
Qed.

(** A session that begins after [to] is not read: searching Monday from
    00:00 to 08:00, [findSlots] offers 09:00-12:00 while a scheduled
    session of the therapist holds exactly those hours. *)
Lemma findSlots_reads_sessions_of_the_range_only :
  exists client therapist,
    SchedulingService.findSlots 4 0 Examples.earlyArgs Examples.dbMorningTaken
    = Some (SchedulingService.Slots
              client therapist
              [Slot.mk (Oid.cast Scenario.therapistA) 1770627600000 1770638400000])
    /\ In Examples.wholeMorning (sessions Examples.dbMorningTaken)
    /\ Session.status Examples.wholeMorning = scheduled
    /\ Session.therapist Examples.wholeMorning = Oid.cast Scenario.therapistA
    /\ Session.start Examples.wholeMorning = 1770627600000
    /\ Session.end_ Examples.wholeMorning = 1770638400000.
Proof.
  do 2 eexists. split; [vm_compute; reflexivity |].
  split; [left; reflexivity |]. repeat split.
Qed.




(** ** Two bookings in flight *)

Section RaceFacts.

Import SessionController Race.

(** A handler that runs its three awaited calls with nothing in between
    does what [bookSession] does outside production. *)
Lemma handler_alone_is_bookSession env req t2 db :
  production env = false ->
  run env [true; true; true] (Start req) t2 db
  = (Done (fst (bookSession env req db)), t2, snd (bookSession env req db)).
Proof.
  intros Hprod. unfold bookSession. cbn [run step].
  destruct (bookParse env req) as [r | [[[c t] s] e]]; [reflexivity |].
  destruct (bookLookups db c t s e) as [r | u]; [reflexivity |].
  cbv zeta. rewrite Hprod. unfold bookDirect.
  destruct (findTherapistConflict None (Some (Oid.cast t)) s e (sessions db));
    [reflexivity |].
  cbn [step].
  destruct (findClientConflict None (Some c) s e (sessions db)); [reflexivity |].
  cbn [step].
  destruct (Mongo.create _ _ _ _ _ _) as [[] | [created l]]; reflexivity.
Qed.

(** One after the other, the second of the two bookings is refused. *)
Lemma serial_bookings_second_refused :
  exists s1,
    run Scenario.env Scenario.oneAfterTheOther
        (Start Scenario.hourAtNine) (Start Scenario.halfHourAtNineC2) Scenario.db0
    = (Done (SessionReply 201 s1), Done (MessageReply 409 "Slot already booked"),
       withSessions Scenario.db0 [s1]).
Proof. eexists. vm_compute. reflexivity. Qed.

(** With byte-identical intervals the unique index of models/Session.js
    refuses the second insert even when both handlers ran their queries
    first. *)
Lemma identical_intervals_caught_by_index :
  exists s1,
    run Scenario.env Scenario.interleaved
        (Start Scenario.hourAtNine) (Start Scenario.hourAtNineC2) Scenario.db0
    = (Done (SessionReply 201 s1), Done (MessageReply 409 "Slot already booked"),
       withSessions Scenario.db0 [s1]).
Proof. eexists. vm_compute. reflexivity. Qed.

(** And so in every order of the six steps: with identical intervals one
    booking is made and the other is refused. *)
Lemma identical_intervals_every_interleaving :
  forallb (fun schedule =>
             exactlyOneBooked (run Scenario.env schedule (Start Scenario.hourAtNine)
                                   (Start Scenario.hourAtNineC2) Scenario.db0))
          (interleavings 3 3) = true.
Proof. vm_compute. reflexivity. Qed.

End RaceFacts.

(** C9, at the input where the code leaves it.  Outside production the
    conflict queries and the insert of [bookSession] are separate awaited
    calls.  C1 asks for Monday 09:00-10:00 and C2 for 09:00-09:30 with the
    same therapist; when both handlers run their queries before either
    inserts, both are answered 201 and the store holds two scheduled
    sessions of one therapist that overlap: the core invariant is lost. *)
Theorem interleaved_bookings_both_succeed :
  exists s1 s2 db',
    Race.run Scenario.env Scenario.interleaved
             (Race.Start Scenario.hourAtNine) (Race.Start Scenario.halfHourAtNineC2)
             Scenario.db0
    = (Race.Done (SessionReply 201 s1), Race.Done (SessionReply 201 s2), db')
    /\ production Scenario.env = false
    /\ sessions db' = [s1; s2]
    /\ Session.therapist s1 = Session.therapist s2
    /\ Session.status s1 = scheduled
    /\ Session.status s2 = scheduled
    /\ IntervalMath.overlaps (Session.interval s1) (Session.interval s2) = true
    /\ Invariant.coreInvariant Scenario.db0
    /\ ~ Invariant.coreInvariant db'.
Proof.
  do 3 eexists. split; [vm_compute; reflexivity |].
  repeat split.
  - intros a b [].
  - intros H.
    pose proof (H (Session.mk 1%N 161%N 193%N 1770627600000 1770631200000 scheduled None)
                  (Session.mk 2%N 161%N 194%N 1770627600000 1770629400000 scheduled None)
                  (or_introl eq_refl) (or_intror (or_introl eq_refl))) as E.
    assert (E' : true = false) by (apply E; discriminate). discriminate.
Qed.

(* ================================================================== *)
(** * The other handlers of the session controller *)

Section LifecycleFacts.

Import Invariant SessionController SessionLifecycle.

Lemma findPopulated_stored id db existing :
  findPopulated id db = inr (Some existing) ->
  exists s, id = Some (Session._id s)
            /\ Mongo.findSessionById (Session._id s) (sessions db) = Some s
            /\ In s (sessions db)
            /\ existing = populate db s.
Proof.
  unfold findPopulated. destruct id as [i |]; [| discriminate].
  unfold Mongo.findSessionById.
  destruct (find _ (sessions db)) as [s |] eqn:E; [| discriminate].
  intros H. injection H as <-. exists s.
  pose proof (find_some _ _ E) as [Hin Hid]. apply Oid_eqb_eq in Hid. subst i.
  repeat split; assumption.
Qed.

(** A document that is not "scheduled" is outside the unique index. *)
Lemma violatesIndex_unscheduled doc l :
  Session.status doc <> scheduled -> Mongo.violatesIndex doc l = false.
Proof.
  intros Hst. unfold Mongo.violatesIndex.
  apply not_true_is_false. intros H. apply existsb_exists in H.
  destruct H as [x [_ H]]. apply andb_true_iff in H. destruct H as [_ H].
  unfold Session.sameIndexKey in H.
  rewrite !andb_true_iff in H. destruct H as [[[[_ H] _] _] _].
  apply Status_eqb_eq in H. contradiction.
Qed.

End LifecycleFacts.

Section LifecycleFacts2.

Import Invariant SessionController SessionLifecycle.

Lemma save_restatused s st l l' :
  Mongo.save (withStatus s st) l = inr l' -> l' = restatused s st l.
Proof. intros H. apply save_inr in H. exact H. Qed.

Lemma save_unscheduled s st l :
  st <> scheduled -> Mongo.save (withStatus s st) l = inr (restatused s st l).
Proof.
  intros Hst. unfold Mongo.save.
  rewrite violatesIndex_unscheduled; [reflexivity | exact Hst].
Qed.

Lemma withStatus_same s : withStatus s (Session.status s) = s.
Proof. destruct s; reflexivity. Qed.

Lemma find_restatused s st l :
  Mongo.findSessionById (Session._id s) l = Some s ->
  Mongo.findSessionById (Session._id s) (restatused s st l) = Some (withStatus s st).
Proof.
  unfold Mongo.findSessionById, restatused.
  induction l as [| x l IH]; [discriminate |].
  cbn [find map].
  destruct (Oid.eqb (Session._id x) (Session._id s)) eqn:E.
  - intros _. cbn [withStatus Session._id]. unfold Oid.eqb. rewrite N.eqb_refl. reflexivity.
  - rewrite E. exact IH.
Qed.

Lemma restatused_In s st l x :
  In x (restatused s st l) -> In x l \/ x = withStatus s st.
Proof.
  unfold restatused. intros H. apply in_map_iff in H. destruct H as [y [E Hy]].
  destruct (Oid.eqb (Session._id y) (Session._id s)); subst x; auto.
Qed.

(** A change of status that does not bring a cancelled session back
    cannot create a conflict. *)
Lemma conflicting_withStatus db x s st :
  Session.status s <> cancelled \/ st = cancelled ->
  conflicting db x s = false ->
  conflicting db x (withStatus s st) = false.
Proof.
  intros Hsafe H. unfold conflicting in *.
  change (sameParty db x (withStatus s st)) with (sameParty db x s).
  change (Session.interval (withStatus s st)) with (Session.interval s).
  destruct Hsafe as [Hact | ->].
  - apply active_iff in Hact. rewrite Hact in H.
    destruct (Session.active x); [| reflexivity]. simpl in *.
    destruct (Session.active (withStatus s st)); [exact H | reflexivity].
  - unfold Session.active at 2. cbn [withStatus Session.status Status_eqb negb].
    rewrite andb_false_r. reflexivity.
Qed.

Lemma restatused_preserves db s st :
  In s (sessions db) ->
  Session.status s <> cancelled \/ st = cancelled ->
  preserves db (withSessions db (restatused s st (sessions db))).
Proof.
  intros Hin Hsafe.
  set (updated := withStatus s st).
  assert (Hother : forall x, In x (sessions db) -> Session._id x <> Session._id s ->
                             coreInvariant db -> conflicting db x updated = false).
  { intros x Hx Hne Hinv. apply conflicting_withStatus; [exact Hsafe |].
    apply Hinv; assumption. }
  split; [split; reflexivity |].
  split; [| split; [| split]]; cbn [sessions withSessions].
  - intros Hids. unfold uniqueIds, restatused.
    change (Session._id s) with (Session._id updated).
    rewrite save_ids. exact Hids.
  - intros Hinv a b Ha Hb Hne. cbn [sessions withSessions] in Ha, Hb.
    change (conflicting db a b = false).
    apply in_map_iff in Ha. destruct Ha as [a0 [Ea Ha]].
    apply in_map_iff in Hb. destruct Hb as [b0 [Eb Hb]].
    destruct (Oid.eqb (Session._id a0) (Session._id s)) eqn:Eqa;
      destruct (Oid.eqb (Session._id b0) (Session._id s)) eqn:Eqb;
      subst a b.
    + exfalso. apply Hne. reflexivity.
    + rewrite conflicting_sym. apply Hother; [exact Hb | | exact Hinv].
      apply Oid_eqb_neq. exact Eqb.
    + apply Hother; [exact Ha | | exact Hinv]. apply Oid_eqb_neq. exact Eqa.
    + apply Hinv; assumption.
  - intros Hdis a b Ha Hb Hriv Hshare. cbn [sessions withSessions] in Ha, Hb.
    change (rivals db a b) in Hriv.
    assert (Hback : forall y, rivals db updated y -> rivals db s y).
    { intros y (Hne & Hu & Hy & Hsame). repeat split; try assumption.
      destruct Hsafe as [Hact | ->]; [exact Hact |].
      exfalso. apply Hu. reflexivity. }
    apply in_map_iff in Ha. destruct Ha as [a0 [Ea Ha]].
    apply in_map_iff in Hb. destruct Hb as [b0 [Eb Hb]].
    destruct (Oid.eqb (Session._id a0) (Session._id s)) eqn:Eqa;
      destruct (Oid.eqb (Session._id b0) (Session._id s)) eqn:Eqb;
      subst a b.
    + destruct Hriv as [Hne _]. apply Hne. reflexivity.
    + exact (Hdis s b0 Hin Hb (Hback _ Hriv) Hshare).
    + apply rivals_sym in Hriv. apply shareInstant_sym in Hshare.
      exact (Hdis s a0 Hin Ha (Hback _ Hriv) Hshare).
    + exact (Hdis a0 b0 Ha Hb Hriv Hshare).
  - intros Hrefs x Hx. cbn [sessions withSessions] in Hx.
    change (therapistStored db (Session.therapist x) = true
            /\ clientStored db (Session.client x) = true).
    apply restatused_In in Hx. destruct Hx as [Hx | ->]; [exact (Hrefs x Hx) |].
    exact (Hrefs s Hin).
Qed.

End LifecycleFacts2.

Section LifecycleFacts3.

Import Invariant SessionController SessionLifecycle.

(** The cases of [cancelSession]. *)
Lemma cancelSession_cases req db :
  (snd (cancelSession req db) = db
   /\ answerCode (fst (cancelSession req db)) <> 200)
  \/ (exists s, findPopulated (id_params req) db = inr (Some (populate db s))
                /\ canAccessSessionStrict (id_actor req) (populate db s) = true
                /\ Session.status s = cancelled
                /\ cancelSession req db = (Document 200 (populate db s), db))
  \/ (exists s, findPopulated (id_params req) db = inr (Some (populate db s))
                /\ canAccessSessionStrict (id_actor req) (populate db s) = true
                /\ Session.status s <> cancelled
                /\ cancelSession req db
                   = (Document 200 (mkPopulated (withStatus s cancelled)
                                                (p_therapist (populate db s))
                                                (p_client (populate db s))),
                      withSessions db (restatused s cancelled (sessions db)))).
Proof.
  unfold cancelSession.
  destruct (findPopulated (id_params req) db) as [e | [existing |]] eqn:Hfind;
    [left; split; [reflexivity | discriminate] | |
     left; split; [reflexivity | discriminate]].
  destruct (findPopulated_stored _ _ _ Hfind) as (s & _ & _ & _ & ->).
  change (doc (populate db s)) with s.
  destruct (canAccessSessionStrict (id_actor req) (populate db s)) eqn:Hacc;
    cbn [negb]; [| left; split; [reflexivity | discriminate]].
  destruct (Status_eqb (Session.status s) cancelled) eqn:Hst.
  - right. left. exists s. apply Status_eqb_eq in Hst. auto.
  - right. right. exists s. cbv zeta.
    rewrite save_unscheduled by discriminate.
    repeat split; try assumption.
    intros E. rewrite E in Hst. discriminate.
Qed.

Lemma cancelSession_preserves req db :
  preserves db (snd (cancelSession req db)).
Proof.
  destruct (cancelSession_cases req db)
    as [[-> _] | [(s & _ & _ & _ & ->) | (s & Hfind & _ & _ & ->)]];
    try apply preserves_refl.
  cbn [snd]. apply restatused_preserves; [| right; reflexivity].
  destruct (findPopulated_stored _ _ _ Hfind) as (s' & _ & _ & Hin & E).
  assert (s = s') by (apply (f_equal doc) in E; exact E). subst s'. exact Hin.
Qed.

(** The cases of [updateSessionStatus]. *)
Lemma updateSessionStatus_cases req db :
  snd (updateSessionStatus req db) = db
  \/ exists s st l,
      allowedStatus (st_status req) = Some st
      /\ findPopulated (st_params req) db = inr (Some (populate db s))
      /\ canAccessSessionStrict (st_actor req) (populate db s) = true
      /\ (hasRole (st_actor req) role_client = true -> st = cancelled)
      /\ (hasRole (st_actor req) role_therapist = true -> st <> scheduled)
      /\ Session.status s <> st
      /\ Mongo.save (withStatus s st) (sessions db) = inr l
      /\ updateSessionStatus req db
         = (Document 200 (mkPopulated (withStatus s st)
                                      (p_therapist (populate db s))
                                      (p_client (populate db s))),
            withSessions db l).
Proof.
  unfold updateSessionStatus.
  destruct (allowedStatus (st_status req)) as [st |] eqn:Hst; [| left; reflexivity].
  destruct (findPopulated (st_params req) db) as [e | [existing |]] eqn:Hfind;
    [left; reflexivity | | left; reflexivity].
  destruct (findPopulated_stored _ _ _ Hfind) as (s & _ & _ & _ & ->).
  change (doc (populate db s)) with s. cbv zeta.
  destruct (canAccessSessionStrict (st_actor req) (populate db s)) eqn:Hacc;
    cbn [negb]; [| left; reflexivity].
  destruct (hasRole (st_actor req) role_client && negb (Status_eqb st cancelled)) eqn:Hc;
    [left; reflexivity |].
  destruct (hasRole (st_actor req) role_therapist && Status_eqb st scheduled
            && negb (Status_eqb (Session.status s) scheduled)) eqn:Ht;
    [left; reflexivity |].
  destruct (Status_eqb (Session.status s) st) eqn:Esame; [left; reflexivity |].
  destruct (Mongo.save (withStatus s st) (sessions db)) as [e | l] eqn:Hsave;
    [left; reflexivity |].
  right. exists s, st, l.
  assert (Hne : Session.status s <> st).
  { intros E. apply Status_eqb_eq in E. congruence. }
  repeat split; try assumption.
  - intros Hrole. rewrite Hrole in Hc. simpl in Hc.
    apply negb_false_iff, Status_eqb_eq in Hc. exact Hc.
  - intros Hrole ->. rewrite Hrole in Ht. simpl in Ht.
    apply negb_false_iff, Status_eqb_eq in Ht. congruence.
Qed.

(** A status update that is not a reinstatement keeps the invariants. *)
Lemma updateSessionStatus_preserves req db :
  Operations.mayReinstate (Operations.SetStatus req) = false ->
  preserves db (snd (updateSessionStatus req db)).
Proof.
  intros Hsafe.
  destruct (updateSessionStatus_cases req db)
    as [-> | (s & st & l & Hst & Hfind & _ & Hclient & _ & _ & Hsave & ->)];
    [apply preserves_refl |].
  cbn [snd]. apply save_restatused in Hsave. subst l.
  destruct (findPopulated_stored _ _ _ Hfind) as (s' & _ & _ & Hin & E).
  assert (s = s') by (apply (f_equal doc) in E; exact E). subst s'.
  apply restatused_preserves; [exact Hin |]. right.
  cbn [Operations.mayReinstate] in Hsafe. rewrite Hst in Hsafe.
  destruct (hasRole (st_actor req) role_client) eqn:Hrole; [exact (Hclient eq_refl) |].
  destruct st; simpl in Hsafe; [discriminate | reflexivity | discriminate].
Qed.

Lemma findByIdAndDelete_In id l x :
  In x (findByIdAndDelete id l) -> In x l.
Proof.
  induction l as [| y l IH]; [tauto |]. cbn [findByIdAndDelete].
  destruct (Oid.eqb (Session._id y) id); cbn [In]; tauto.
Qed.

Lemma findByIdAndDelete_ids id l :
  uniqueIds l -> uniqueIds (findByIdAndDelete id l).
Proof.
  unfold uniqueIds. induction l as [| y l IH]; [tauto |]. cbn [findByIdAndDelete map].
  intros H. inversion H as [| ? ? Hnot Hrest]; subst.
  destruct (Oid.eqb (Session._id y) id); [exact Hrest |].
  cbn [map]. constructor; [| exact (IH Hrest)].
  intros Hy. apply Hnot. apply in_map_iff in Hy. destruct Hy as [z [Ez Hz]].
  apply in_map_iff. exists z. split; [exact Ez |].
  exact (findByIdAndDelete_In _ _ _ Hz).
Qed.

(** With unique ids, what is left is what has another id. *)
Lemma findByIdAndDelete_unique id l x :
  uniqueIds l ->
  (In x (findByIdAndDelete id l) <-> In x l /\ Session._id x <> id).
Proof.
  unfold uniqueIds. induction l as [| y l IH]; [cbn; tauto |].
  cbn [findByIdAndDelete map]. intros H. inversion H as [| ? ? Hnot Hrest]; subst.
  destruct (Oid.eqb (Session._id y) id) eqn:E.
  - apply Oid_eqb_eq in E. subst id. cbn [In]. split.
    + intros Hx. split; [right; exact Hx |]. intros Eid. apply Hnot.
      rewrite <- Eid. apply in_map. exact Hx.
    + intros [[-> | Hx] Hne]; [contradiction | exact Hx].
  - apply Oid_eqb_neq in E. cbn [In]. rewrite (IH Hrest). split.
    + intros [-> | [Hx Hne]]; auto.
    + intros [[-> | Hx] Hne]; auto.
Qed.

Lemma subset_preserves db l :
  (forall x, In x l -> In x (sessions db)) ->
  (uniqueIds (sessions db) -> uniqueIds l) ->
  preserves db (withSessions db l).
Proof.
  intros Hsub Hids.
  split; [split; reflexivity |].
  split; [exact Hids |].
  split; [| split]; cbn [sessions withSessions].
  - intros Hinv a b Ha Hb. exact (Hinv a b (Hsub a Ha) (Hsub b Hb)).
  - intros Hdis a b Ha Hb. exact (Hdis a b (Hsub a Ha) (Hsub b Hb)).
  - intros Hrefs x Hx. exact (Hrefs x (Hsub x Hx)).
Qed.

Lemma deleteSession_preserves req db :
  preserves db (snd (deleteSession req db)).
Proof.
  unfold deleteSession.
  destruct (id_params req) as [id |]; [| apply preserves_refl].
  destruct (Mongo.findSessionById id (sessions db)); [| apply preserves_refl].
  cbn [snd]. apply subset_preserves.
  - apply findByIdAndDelete_In.
  - apply findByIdAndDelete_ids.
Qed.

Lemma operation_preserves c db :
  Operations.mayReinstate c = false ->
  preserves db (Operations.perform c db).
Proof.
  destruct c; cbn [Operations.perform]; intros Hsafe.
  - apply bookSession_preserves.
  - apply rescheduleSession_preserves.
  - apply cancelSession_preserves.
  - apply updateSessionStatus_preserves. exact Hsafe.
  - apply deleteSession_preserves.
Qed.

Lemma along_operations (P : Db -> Prop) :
  (forall c db, Operations.mayReinstate c = false -> P db -> P (Operations.perform c db)) ->
  forall calls db,
    Forall (fun c => Operations.mayReinstate c = false) calls ->
    P db -> Forall P (Operations.states calls db).
Proof.
  intros Hstep calls.
  induction calls as [| c calls IH]; intros db Hsafe HP; simpl; constructor.
  - apply Hstep; [| exact HP]. inversion Hsafe; assumption.
  - inversion Hsafe; subst. apply IH; [assumption |]. apply Hstep; assumption.
Qed.

End LifecycleFacts3.

(** X1. Calls that cannot bring a cancelled session back keep the core
    invariant: along any sequence of bookings, reschedules,
    cancellations, deletions and status updates in which every status
    update comes from a client or asks for "cancelled" (or is refused for
    its status), the invariant holds after every call, in both of its
    readings, ids stay unique and references that resolve keep resolving. *)
Theorem lifecycle_calls_keep_invariant (calls : list Operations.Call) (db : Db) :
  Forall (fun c => Operations.mayReinstate c = false) calls ->
  (Invariant.coreInvariant db ->
   Forall Invariant.coreInvariant (Operations.states calls db))
  /\ (Invariant.disjointInvariant db ->
      Forall Invariant.disjointInvariant (Operations.states calls db))
  /\ (Invariant.uniqueIds (sessions db) ->
      Forall (fun db' => Invariant.uniqueIds (sessions db')) (Operations.states calls db))
  /\ (Invariant.refsResolve db ->
      Forall Invariant.refsResolve (Operations.states calls db)).
Proof.
  intros Hsafe. repeat split; intros H.
  - apply along_operations; [| exact Hsafe | exact H]. intros c db0 Hc.
    exact (proj1 (proj2 (proj2 (operation_preserves c db0 Hc)))).
  - apply along_operations; [| exact Hsafe | exact H]. intros c db0 Hc.
    exact (proj1 (proj2 (proj2 (proj2 (operation_preserves c db0 Hc))))).
  - apply (along_operations (fun db' => Invariant.uniqueIds (sessions db')));
      [| exact Hsafe | exact H].
    intros c db0 Hc. exact (proj1 (proj2 (operation_preserves c db0 Hc))).
  - apply along_operations; [| exact Hsafe | exact H]. intros c db0 Hc.
    exact (proj2 (proj2 (proj2 (proj2 (operation_preserves c db0 Hc))))).
Qed.

Section LifecycleFacts4.

Import Invariant SessionController SessionLifecycle.

Lemma found_same db a b :
  @inr Thrown _ (Some (populate db a)) = inr (Some (populate db b)) -> a = b.
Proof. intros H. injection H as H _ _. exact H. Qed.

Lemma populate_withSessions db l s :
  populate (withSessions db l) s = populate db s.
Proof. reflexivity. Qed.

Lemma findPopulated_restatused db s st :
  findPopulated (Some (Session._id s)) db = inr (Some (populate db s)) ->
  findPopulated (Some (Session._id s)) (withSessions db (restatused s st (sessions db)))
  = inr (Some (mkPopulated (withStatus s st) (p_therapist (populate db s))
                           (p_client (populate db s)))).
Proof.
  unfold findPopulated. cbn [sessions withSessions].
  intros H.
  destruct (Mongo.findSessionById (Session._id s) (sessions db)) as [s' |] eqn:E;
    [| discriminate].
  assert (s' = s) by (apply (found_same db); exact H).
  subst s'. rewrite (find_restatused _ st _ E). reflexivity.
Qed.

Lemma findPopulated_id id db s :
  findPopulated id db = inr (Some (populate db s)) -> id = Some (Session._id s).
Proof.
  intros H. destruct (findPopulated_stored _ _ _ H) as (s' & -> & _ & _ & E).
  apply (f_equal doc) in E. cbn in E. subst s'. reflexivity.
Qed.

Lemma canAccess_refs actor d d' :
  p_therapist d = p_therapist d' -> p_client d = p_client d' ->
  canAccessSessionStrict actor d = canAccessSessionStrict actor d'.
Proof.
  intros Ht Hc. unfold canAccessSessionStrict. rewrite Ht, Hc. reflexivity.
Qed.

End LifecycleFacts4.

Section CancelStore.

Import SessionLifecycle.

Lemma restatused_ids s st l : map Session._id (restatused s st l) = map Session._id l.
Proof.
  unfold restatused. rewrite map_map. apply map_ext_in. intros x _.
  destruct (Oid.eqb (Session._id x) (Session._id s)) eqn:E; [| reflexivity].
  apply Oid_eqb_eq in E. rewrite E. reflexivity.
Qed.

Lemma restatused_keeps s st l x :
  In x l -> Session._id x <> Session._id s -> In x (restatused s st l).
Proof.
  intros Hin Hne. unfold restatused. apply in_map_iff. exists x. split; [| exact Hin].
  destruct (Oid.eqb (Session._id x) (Session._id s)) eqn:E; [| reflexivity].
  apply Oid_eqb_eq in E. contradiction.
Qed.

End CancelStore.

(** X2. [cancelSession] answers 200 exactly when the session is found and the
    caller may access it; otherwise it leaves the database as it was.
    After a 200 the store is the old one with that session cancelled (the
    old one itself when the session was cancelled already): the session
    is stored as cancelled with its other fields as they were, every
    session with another id is still there, none is added, the ids are
    the same in the same order, and therapists, clients and availability
    are untouched. *)
Theorem cancelSession_cancels req db :
  (SessionLifecycle.answerCode (fst (SessionLifecycle.cancelSession req db)) = 200
   <-> exists s,
        SessionLifecycle.findPopulated (SessionLifecycle.id_params req) db
        = inr (Some (SessionController.populate db s))
        /\ SessionController.canAccessSessionStrict
             (SessionLifecycle.id_actor req) (SessionController.populate db s) = true)
  /\ (SessionLifecycle.answerCode (fst (SessionLifecycle.cancelSession req db)) <> 200 ->
      snd (SessionLifecycle.cancelSession req db) = db)
  /\ (forall s,
         SessionLifecycle.findPopulated (SessionLifecycle.id_params req) db
         = inr (Some (SessionController.populate db s)) ->
         SessionLifecycle.answerCode (fst (SessionLifecycle.cancelSession req db)) = 200 ->
         ((Session.status s = cancelled
           /\ snd (SessionLifecycle.cancelSession req db) = db)
          \/ snd (SessionLifecycle.cancelSession req db)
             = withSessions db (SessionLifecycle.restatused s cancelled (sessions db)))
         /\ Mongo.findSessionById (Session._id s)
                                  (sessions (snd (SessionLifecycle.cancelSession req db)))
            = Some (SessionLifecycle.withStatus s cancelled)
         /\ map Session._id (sessions (snd (SessionLifecycle.cancelSession req db)))
            = map Session._id (sessions db)
         /\ (forall x, In x (sessions db) -> Session._id x <> Session._id s ->
                       In x (sessions (snd (SessionLifecycle.cancelSession req db))))
         /\ (forall x, In x (sessions (snd (SessionLifecycle.cancelSession req db))) ->
                       In x (sessions db) \/ x = SessionLifecycle.withStatus s cancelled)
         /\ therapists (snd (SessionLifecycle.cancelSession req db)) = therapists db
         /\ clients (snd (SessionLifecycle.cancelSession req db)) = clients db
         /\ availability (snd (SessionLifecycle.cancelSession req db)) = availability db).
Proof.
  destruct (cancelSession_cases req db)
    as [[Hdb Hcode] | [(s & Hfind & Hacc & Hst & E) | (s & Hfind & Hacc & Hst & E)]].
  - split; [split; [intros H; contradiction |] | split; [intros _; exact Hdb |]].
    + intros (s & Hfind & Hacc). exfalso. apply Hcode.
      unfold SessionLifecycle.cancelSession. rewrite Hfind, Hacc. cbn [negb].
      change (SessionController.doc (SessionController.populate db s)) with s.
      destruct (Status_eqb (Session.status s) cancelled); [reflexivity |].
      cbv zeta. rewrite save_unscheduled by discriminate. reflexivity.
    + intros s _ H. contradiction.
  - rewrite E. cbn [fst snd SessionLifecycle.answerCode].
    split; [split; [intros _; exists s; auto | reflexivity] |].
    split; [intros H; exfalso; apply H; reflexivity |].
    intros s' Hfind' _. rewrite Hfind in Hfind'. apply found_same in Hfind'. subst s'.
    split; [left; split; [exact Hst | reflexivity] |].
    rewrite <- Hst, withStatus_same.
    split.
    { destruct (findPopulated_stored _ _ _ Hfind) as (s' & _ & Hf & _ & Es).
      apply (f_equal SessionController.doc) in Es. cbn in Es. subst s'. exact Hf. }
    repeat split; auto.
  - rewrite E. cbn [fst snd SessionLifecycle.answerCode sessions withSessions].
    split; [split; [intros _; exists s; auto | reflexivity] |].
    split; [intros H; exfalso; apply H; reflexivity |].
    intros s' Hfind' _. rewrite Hfind in Hfind'. apply found_same in Hfind'. subst s'.
    split; [right; reflexivity |].
    split.
    { apply find_restatused.
      destruct (findPopulated_stored _ _ _ Hfind) as (s' & _ & Hf & _ & Es).
      apply (f_equal SessionController.doc) in Es. cbn in Es. subst s'. exact Hf. }
    split; [apply restatused_ids |].
    split; [intros x Hx Hne; apply restatused_keeps; assumption |].
    split; [apply restatused_In |].
    repeat split.
Qed.

(** X3. Cancelling twice is cancelling once: the second call answers with
    the same status code and leaves the database of the first. *)
Theorem cancelSession_idempotent req db :
  snd (SessionLifecycle.cancelSession req (snd (SessionLifecycle.cancelSession req db)))
  = snd (SessionLifecycle.cancelSession req db)
  /\ SessionLifecycle.answerCode
       (fst (SessionLifecycle.cancelSession req (snd (SessionLifecycle.cancelSession req db))))
     = SessionLifecycle.answerCode (fst (SessionLifecycle.cancelSession req db)).
Proof.
  destruct (cancelSession_cases req db)
    as [[Hdb Hcode] | [(s & Hfind & Hacc & Hst & E) | (s & Hfind & Hacc & Hst & E)]].
  - rewrite !Hdb. split; reflexivity.
  - rewrite E. cbn [snd]. rewrite E. split; reflexivity.
  - rewrite E. cbn [snd fst SessionLifecycle.answerCode].
    pose proof (findPopulated_id _ _ _ Hfind) as Hid.
    unfold SessionLifecycle.cancelSession. rewrite Hid.
    rewrite (findPopulated_restatused db s cancelled) by (rewrite <- Hid; exact Hfind).
    rewrite (canAccess_refs _ _ (SessionController.populate db s)) by reflexivity.
    rewrite Hacc. cbn. split; reflexivity.
Qed.

(** X4. A cancelled session cannot be moved: once [cancelSession] has
    answered 200 for a session, every reschedule request for it is
    answered 400 and changes nothing, and the check answers
    [canReschedule: false]. *)
Theorem cancelled_session_cannot_be_rescheduled env req move db :
  SessionLifecycle.answerCode (fst (SessionLifecycle.cancelSession req db)) = 200 ->
  SessionController.params_id move = SessionLifecycle.id_params req ->
  let db' := snd (SessionLifecycle.cancelSession req db) in
  statusCode (fst (SessionController.rescheduleSession env move db')) = 400
  /\ snd (SessionController.rescheduleSession env move db') = db'
  /\ exists reason message,
      SessionController.checkRescheduleSession env move db'
      = CheckReply 200 false (Some reason) (Some message).
Proof.
  intros Hcode Hid db'.
  assert (Hfound : exists d, SessionController.findExisting move db' = inr (Some d)
                             /\ Session.status (SessionController.doc d) = cancelled).
  { unfold SessionController.findExisting. rewrite Hid. subst db'.
    destruct (cancelSession_cases req db)
      as [[_ Hc] | [(s & Hfind & Hacc & Hst & E) | (s & Hfind & Hacc & Hst & E)]];
      [contradiction | |].
    - rewrite E. cbn [snd]. exists (SessionController.populate db s).
      split; [exact Hfind | exact Hst].
    - rewrite E. cbn [snd].
      pose proof (findPopulated_id _ _ _ Hfind) as Hi. rewrite Hi in *.
      eexists. split; [exact (findPopulated_restatused db s cancelled Hfind) |].
      reflexivity. }
  destruct Hfound as (d & Hfind & Hst).
  split; [| split].
  - unfold SessionController.rescheduleSession.
    destruct (SessionController.rescheduleParse env move) as [r | [newStart newEnd]] eqn:Hp.
    + cbn [fst]. exact (rescheduleParse_rejects _ _ _ Hp).
    + rewrite Hfind, Hst. reflexivity.
  - unfold SessionController.rescheduleSession.
    destruct (SessionController.rescheduleParse env move) as [r | [newStart newEnd]];
      [reflexivity |].
    rewrite Hfind, Hst. reflexivity.
  - unfold SessionController.checkRescheduleSession.
    destruct (SessionController.checkParse env move) as [r | [start end_]] eqn:Hp.
    + unfold SessionController.checkParse in Hp. cbv zeta in Hp.
      unfold SessionController.failCheck, SessionController.makeResult in *.
      destruct (SessionController.isMissing _) in Hp;
        [injection Hp as <-; do 2 eexists; reflexivity |]. cbn [returnIf bind] in Hp.
      destruct (SessionController.toDate env _) in Hp;
        [| injection Hp as <-; do 2 eexists; reflexivity].
      destruct (SessionController.isMissing _) in Hp;
        [injection Hp as <-; do 2 eexists; reflexivity |]. cbn [returnIf bind] in Hp.
      destruct (SessionController.toDate env _) in Hp;
        [| injection Hp as <-; do 2 eexists; reflexivity].
      destruct (_ <=? _) in Hp; [injection Hp as <-; do 2 eexists; reflexivity |].
      cbn [returnIf bind] in Hp.
      destruct (_ <=? _) in Hp; [injection Hp as <-; do 2 eexists; reflexivity | discriminate].
    + rewrite Hfind, Hst. cbn. do 2 eexists; reflexivity.
Qed.

(** X5. Who may set which status.  A status update either leaves the database
    as it was, or it stores the requested status on the one session it
    names, which the caller may access and which had another status; a
    client can only have asked for "cancelled" and a therapist cannot
    have asked for "scheduled".  No other field and no other session
    changes. *)
Theorem status_update_permissions req db :
  snd (SessionLifecycle.updateSessionStatus req db) = db
  \/ exists s st,
      SessionLifecycle.allowedStatus (SessionLifecycle.st_status req) = Some st
      /\ In s (sessions db)
      /\ SessionLifecycle.st_params req = Some (Session._id s)
      /\ SessionController.canAccessSessionStrict
           (SessionLifecycle.st_actor req) (SessionController.populate db s) = true
      /\ (SessionLifecycle.hasRole (SessionLifecycle.st_actor req) role_client = true ->
          st = cancelled)
      /\ (SessionLifecycle.hasRole (SessionLifecycle.st_actor req) role_therapist = true ->
          st <> scheduled)
      /\ Session.status s <> st
      /\ snd (SessionLifecycle.updateSessionStatus req db)
         = withSessions db (SessionLifecycle.restatused s st (sessions db)).
Proof.
  destruct (updateSessionStatus_cases req db)
    as [Hdb | (s & st & l & Hst & Hfind & Hacc & Hclient & Hther & Hne & Hsave & E)];
    [left; exact Hdb | right].
  exists s, st. rewrite E. cbn [snd].
  apply save_restatused in Hsave. subst l.
  destruct (findPopulated_stored _ _ _ Hfind) as (s' & Hid & _ & Hin & Es).
  apply (f_equal SessionController.doc) in Es. cbn in Es. subst s'.
  repeat split; assumption.
Qed.

(** X6. [deleteSession] answers 204 exactly when a session has the id, and
    404 when the id is well formed and no session has it.  With unique
    ids, after a 204 the sessions left are those with another id, and
    [getSession] for the deleted id answers 404 whoever asks. *)
Theorem deleteSession_removes req db :
  Invariant.uniqueIds (sessions db) ->
  (SessionLifecycle.answerCode (fst (SessionLifecycle.deleteSession req db)) = 204
   <-> exists s, In s (sessions db) /\ SessionLifecycle.id_params req = Some (Session._id s))
  /\ (forall id, SessionLifecycle.id_params req = Some id ->
                 (forall s, In s (sessions db) -> Session._id s <> id) ->
                 SessionLifecycle.deleteSession req db
                 = (SessionLifecycle.Message 404 "Session not found", db))
  /\ (forall id, SessionLifecycle.id_params req = Some id ->
                 SessionLifecycle.answerCode (fst (SessionLifecycle.deleteSession req db)) = 204 ->
                 (forall x, In x (sessions (snd (SessionLifecycle.deleteSession req db)))
                            <-> In x (sessions db) /\ Session._id x <> id)
                 /\ forall actor,
                     SessionLifecycle.getSession
                       (SessionLifecycle.mkIdRequest (Some id) actor)
                       (snd (SessionLifecycle.deleteSession req db))
                     = SessionLifecycle.Message 404 "Session not found").
Proof.
  intros Hids. unfold SessionLifecycle.deleteSession.
  destruct (SessionLifecycle.id_params req) as [id |].
  - unfold Mongo.findSessionById.
    destruct (find _ (sessions db)) as [s |] eqn:E.
    + pose proof (find_some _ _ E) as [Hin Hid]. apply Oid_eqb_eq in Hid.
      cbn [fst snd SessionLifecycle.answerCode sessions withSessions].
      split; [split; [intros _; exists s; split; [exact Hin | congruence] | reflexivity] |].
      split.
      * intros id' Hid' Hnone. injection Hid' as <-. exfalso. exact (Hnone s Hin Hid).
      * intros id' Hid' _. injection Hid' as <-.
        split; [intros x; apply findByIdAndDelete_unique; exact Hids |].
        intros actor. unfold SessionLifecycle.getSession, SessionLifecycle.findPopulated.
        cbn [SessionLifecycle.id_params sessions withSessions].
        unfold Mongo.findSessionById.
        destruct (find _ (SessionLifecycle.findByIdAndDelete id (sessions db)))
          as [x |] eqn:Ex; [| reflexivity].
        pose proof (find_some _ _ Ex) as [Hx Hxid]. apply Oid_eqb_eq in Hxid.
        apply (findByIdAndDelete_unique _ _ _ Hids) in Hx. tauto.
    + cbn [fst snd SessionLifecycle.answerCode].
      split; [split; [discriminate |] | split; [reflexivity | discriminate]].
      intros (s & Hin & Hid). injection Hid as ->.
      pose proof (find_none _ _ E s Hin) as Hn. unfold Oid.eqb in Hn.
      rewrite N.eqb_refl in Hn. discriminate.
  - cbn [fst snd SessionLifecycle.answerCode].
    split; [split; [discriminate | intros (s & _ & H); discriminate] |].
    split; discriminate.
Qed.

(** X7. [getSession] discloses a session only to its client, to its
    therapist, or to an admin: when it answers with a document, the
    document is a stored session with the requested id, and a caller in
    the role of client (of therapist) is the client (the therapist) the
    session names. *)
Theorem getSession_discloses_own_only req db code d :
  SessionLifecycle.getSession req db = SessionLifecycle.Document code d ->
  code = 200
  /\ In (SessionController.doc d) (sessions db)
  /\ d = SessionController.populate db (SessionController.doc d)
  /\ SessionLifecycle.id_params req = Some (Session._id (SessionController.doc d))
  /\ (SessionLifecycle.hasRole (SessionLifecycle.id_actor req) role_client = true ->
      clientId (SessionLifecycle.id_actor req)
      = Some (Session.client (SessionController.doc d)))
  /\ (SessionLifecycle.hasRole (SessionLifecycle.id_actor req) role_therapist = true ->
      therapistId (SessionLifecycle.id_actor req)
      = Some (Session.therapist (SessionController.doc d)))
  /\ role (SessionLifecycle.id_actor req) <> None.
Proof.
  unfold SessionLifecycle.getSession.
  destruct (SessionLifecycle.findPopulated _ db) as [e | [existing |]] eqn:Hfind;
    try discriminate.
  destruct (SessionController.canAccessSessionStrict _ existing) eqn:Hacc;
    cbn [negb]; [| discriminate].
  intros E. injection E as <- <-.
  destruct (findPopulated_stored _ _ _ Hfind) as (s & Hid & _ & Hin & ->).
  change (SessionController.doc (SessionController.populate db s)) with s.
  split; [reflexivity |]. split; [exact Hin |]. split; [reflexivity |].
  split; [exact Hid |].
  unfold SessionController.canAccessSessionStrict in Hacc.
  unfold SessionLifecycle.hasRole.
  destruct (role (SessionLifecycle.id_actor req)) as [[| |] |]; try discriminate.
  - repeat split; discriminate.
  - split; [| split; discriminate]. intros _.
    destruct (clientId (SessionLifecycle.id_actor req)) as [c |]; [| discriminate].
    rewrite populate_client in Hacc.
    destruct (Invariant.clientStored db (Session.client s)); [| discriminate].
    simpl in Hacc. apply Oid_eqb_eq in Hacc. congruence.
  - split; [discriminate | split; [| discriminate]]. intros _.
    destruct (therapistId (SessionLifecycle.id_actor req)) as [t |]; [| discriminate].
    rewrite populate_therapist in Hacc.
    destruct (Invariant.therapistStored db (Session.therapist s)); [| discriminate].
    simpl in Hacc. apply Oid_eqb_eq in Hacc. congruence.
Qed.

Section ListFacts.

Import SessionController SessionLifecycle.

Lemma insertByStart_perm x l : Permutation (x :: l) (insertByStart x l).
Proof.
  induction l as [| y l IH]; [apply Permutation_refl |].
  cbn [insertByStart]. destruct (Session.start y <? Session.start x);
    [apply Permutation_refl |].
  eapply perm_trans; [apply perm_swap |]. apply perm_skip. exact IH.
Qed.

Lemma sortByStartDesc_perm l : Permutation l (sortByStartDesc l).
Proof.
  induction l as [| x l IH]; [apply perm_nil |].
  cbn [sortByStartDesc fold_right].
  eapply perm_trans; [apply perm_skip; exact IH | apply insertByStart_perm].
Qed.

Lemma insertByStart_sorted x l :
  StronglySorted (fun a b => Session.start b <= Session.start a) l ->
  StronglySorted (fun a b => Session.start b <= Session.start a) (insertByStart x l).
Proof.
  induction l as [| y l IH]; intros Hs.
  - repeat constructor.
  - cbn [insertByStart]. inversion Hs as [| ? ? Hrest Hall]; subst.
    destruct (Z.ltb_spec (Session.start y) (Session.start x)) as [Hlt | Hge].
    + constructor; [exact Hs |]. constructor; [lia |].
      eapply Forall_impl; [| exact Hall]. cbv beta. intros z Hz. lia.
    + constructor; [exact (IH Hrest) |].
      apply Forall_forall. intros z Hz.
      apply (Permutation_in _ (Permutation_sym (insertByStart_perm x l))) in Hz.
      destruct Hz as [<- | Hz]; [lia |].
      exact (proj1 (Forall_forall _ _) Hall z Hz).
Qed.

Lemma sortByStartDesc_sorted l :
  StronglySorted (fun a b => Session.start b <= Session.start a) (sortByStartDesc l).
Proof.
  induction l as [| x l IH]; [constructor |].
  cbn [sortByStartDesc fold_right]. apply insertByStart_sorted. exact IH.
Qed.

Lemma map_doc_populate db l : map doc (map (populate db) l) = l.
Proof.
  rewrite map_map. cbn [populate doc]. apply map_id.
Qed.

Lemma findSessions_spec db who q :
  Permutation (map doc (findSessions db who q))
              (filter (fun s => who s && statusFilter q s) (sessions db))
  /\ StronglySorted (fun a b => Session.start b <= Session.start a)
                    (map doc (findSessions db who q))
  /\ forall d, In d (findSessions db who q) -> d = populate db (doc d).
Proof.
  unfold findSessions. rewrite map_doc_populate.
  split; [apply Permutation_sym, sortByStartDesc_perm |].
  split; [apply sortByStartDesc_sorted |].
  intros d Hd. apply in_map_iff in Hd. destruct Hd as [s [<- _]]. reflexivity.
Qed.

End ListFacts.

(** X8. [listSessions] answers with the caller's own sessions, latest first.
    For a caller in the role of client (of therapist) the documents are,
    up to order, the stored sessions whose client (therapist) reference is
    the caller's id and that pass the status filter, and none when the
    caller has no such id; for any other caller they are all sessions that
    pass the filter.  The list is in order of decreasing [start]. *)
Theorem listSessions_own_latest_first req db :
  exists l,
    SessionLifecycle.listSessions req db = SessionLifecycle.Documents l
    /\ StronglySorted (fun a b => Session.start b <= Session.start a)
                      (map SessionController.doc l)
    /\ (forall d, In d l -> d = SessionController.populate db (SessionController.doc d))
    /\ Permutation
         (map SessionController.doc l)
         (filter (fun s =>
                    (if SessionLifecycle.hasRole (SessionLifecycle.l_actor req) role_client
                     then match clientId (SessionLifecycle.l_actor req) with
                          | Some c => Oid.eqb (Session.client s) c
                          | None => false
                          end
                     else if SessionLifecycle.hasRole (SessionLifecycle.l_actor req)
                                                      role_therapist
                     then match therapistId (SessionLifecycle.l_actor req) with
                          | Some t => Oid.eqb (Session.therapist s) t
                          | None => false
                          end
                     else true)
                    && SessionLifecycle.statusFilter (SessionLifecycle.l_status req) s)
                 (sessions db)).
Proof.
  assert (Hnone : forall p : Session.t -> bool,
             filter (fun s => false && p s) (sessions db) = []).
  { intros p. induction (sessions db) as [| x l IH]; [reflexivity | exact IH]. }
  unfold SessionLifecycle.listSessions. cbv zeta.
  destruct (SessionLifecycle.hasRole _ role_client).
  - destruct (clientId _) as [c |].
    + eexists. split; [reflexivity |].
      destruct (findSessions_spec db (fun s => Oid.eqb (Session.client s) c)
                                  (SessionLifecycle.l_status req)) as (Hp & Hs & Hd).
      auto.
    + exists []. rewrite Hnone. repeat split; try constructor. intros d [].
  - destruct (SessionLifecycle.hasRole _ role_therapist).
    + destruct (therapistId _) as [t |].
      * eexists. split; [reflexivity |].
        destruct (findSessions_spec db (fun s => Oid.eqb (Session.therapist s) t)
                                    (SessionLifecycle.l_status req)) as (Hp & Hs & Hd).
        auto.
      * exists []. rewrite Hnone. repeat split; try constructor. intros d [].
    + eexists. split; [reflexivity |].
      destruct (findSessions_spec db (fun _ => true)
                                  (SessionLifecycle.l_status req)) as (Hp & Hs & Hd).
      auto.
Qed.


(** [lifecycle_calls_keep_invariant] on the morning of [Examples.morning]. *)
Lemma lifecycle_calls_keep_invariant_witness :
  Forall Invariant.coreInvariant (Operations.states Examples.morning Scenario.db0).
Proof.
  assert (Hs : Forall (fun c => Operations.mayReinstate c = false) Examples.morning).
  { unfold Examples.morning. repeat (constructor; [vm_compute; reflexivity |]). constructor. }
  apply (proj1 (lifecycle_calls_keep_invariant Examples.morning Scenario.db0 Hs)).
  intros a b [].
Defined.

(** Why reinstatements are set apart: a therapist may mark a cancelled
    session as completed, and then it stands again beside the booking
    that took its hour. *)
Lemma reinstated_session_breaks_invariant :
  Invariant.coreInvariant Examples.dbRebooked
  /\ SessionLifecycle.answerCode
       (fst (SessionLifecycle.updateSessionStatus Examples.therapistCompletes
                                                  Examples.dbRebooked)) = 200
  /\ ~ Invariant.coreInvariant
       (snd (SessionLifecycle.updateSessionStatus Examples.therapistCompletes
                                                  Examples.dbRebooked)).
Proof.
  split; [| split; [vm_compute; reflexivity |]].
  - intros a b [<- | [<- | []]] [<- | [<- | []]] Hne;
      try (exfalso; apply Hne; reflexivity); vm_compute; reflexivity.
  - intros H.
    pose proof (H (Session.mk 1%N 161%N 193%N 1770627600000 1770631200000 completed None)
                  (Session.mk 2%N 161%N 194%N 1770627600000 1770631200000 scheduled None))
      as E.
    assert (E' : true = false).
    { apply E; [vm_compute; left; reflexivity | vm_compute; right; left; reflexivity
                | discriminate]. }
    discriminate.
Qed.


(** [cancelSession_cancels] on a stranger's attempt: C2 may not cancel
    C1's session, and nothing changes. *)
Lemma cancelSession_cancels_witness :
  snd (SessionLifecycle.cancelSession Examples.strangerCancels Scenario.db1) = Scenario.db1.
Proof.
  apply (proj1 (proj2 (cancelSession_cancels Examples.strangerCancels Scenario.db1))).
  vm_compute. discriminate.
Defined.


(** [cancelled_session_cannot_be_rescheduled] on C1's booking: cancelled,
    it can no longer be moved to 09:30-10:00. *)
Lemma cancelled_session_cannot_be_rescheduled_witness :
  statusCode
    (fst (SessionController.rescheduleSession
            Scenario.env
            (Scenario.move Scenario.clientC1 1%N
                           "2026-02-09T09:30:00.000Z" "2026-02-09T10:00:00.000Z")
            (snd (SessionLifecycle.cancelSession Examples.ownerCancels Scenario.db1))))
  = 400.
Proof.
  apply (cancelled_session_cannot_be_rescheduled
           Scenario.env Examples.ownerCancels
           (Scenario.move Scenario.clientC1 1%N
                          "2026-02-09T09:30:00.000Z" "2026-02-09T10:00:00.000Z")
           Scenario.db1).
  - vm_compute. reflexivity.
  - reflexivity.
Defined.


(** [deleteSession_removes] on the one session of [Scenario.db1]. *)
Lemma deleteSession_removes_witness :
  SessionLifecycle.answerCode
    (fst (SessionLifecycle.deleteSession Examples.adminDeletes Scenario.db1)) = 204
  <-> exists s, In s (sessions Scenario.db1)
                /\ SessionLifecycle.id_params Examples.adminDeletes = Some (Session._id s).
Proof.
  refine (proj1 (deleteSession_removes Examples.adminDeletes Scenario.db1 _)).
  vm_compute. constructor; [intros [] | constructor].
Defined.

(** [getSession_discloses_own_only] on C1 reading the session C1 booked. *)
Lemma getSession_discloses_own_only_witness :
  clientId (SessionLifecycle.id_actor Examples.ownerReads) = Some Scenario.clientC1.
Proof.
  refine (proj1 (proj2 (proj2 (proj2 (proj2
            (getSession_discloses_own_only
               Examples.ownerReads Scenario.db1 200
               (SessionController.populate
                  Scenario.db1
                  (Session.mk 1%N (Oid.cast Scenario.therapistA) Scenario.clientC1
                              1770627600000 1770631200000 scheduled None))
               _))))) _).
  - vm_compute. reflexivity.
  - reflexivity.
Defined.

(** X12. [overlapInterval] computes the intersection: when it returns an
    interval, an instant lies in it exactly when it lies in both
    arguments; when it returns [null], no instant lies in both.  The
    order of the arguments does not matter. *)
Theorem overlapInterval_is_intersection a b :
  match IntervalMath.overlapInterval a b with
  | Some x =>
      forall t, Interval.start x <= t < Interval.end_ x
                <-> (Interval.start a <= t < Interval.end_ a
                     /\ Interval.start b <= t < Interval.end_ b)
  | None =>
      forall t, ~ (Interval.start a <= t < Interval.end_ a
                   /\ Interval.start b <= t < Interval.end_ b)
  end
  /\ IntervalMath.overlapInterval a b = IntervalMath.overlapInterval b a.
Proof.
  split.
  - destruct (IntervalMath.overlapInterval a b) as [x |] eqn:E.
    + apply overlapInterval_Some in E. destruct E as (Hs & He & _). intros t. lia.
    + apply overlapInterval_None in E. intros t. lia.
  - unfold IntervalMath.overlapInterval.
    rewrite (Z.max_comm (Interval.start a)), (Z.min_comm (Interval.end_ a)).
    reflexivity.
Qed.

Section WeeklyFacts.

Import DateTime SessionController.

Lemma getUTCDay_week d k : getUTCDay (d + k * (7 * MS_PER_DAY)) = getUTCDay d.
Proof.
  unfold getUTCDay, MS_PER_DAY.
  replace (d + k * (7 * 86400000)) with (d + (7 * k) * 86400000) by lia.
  rewrite Z.div_add by lia.
  replace (d / 86400000 + 7 * k + 4) with (d / 86400000 + 4 + k * 7) by lia.
  apply Z.mod_add. lia.
Qed.

Lemma dateToHHmmUTC_week d k :
  dateToHHmmUTC (d + k * (7 * MS_PER_DAY)) = dateToHHmmUTC d.
Proof.
  unfold dateToHHmmUTC, getUTCHours, getUTCMinutes, MS_PER_DAY, MS_PER_HOUR, MS_PER_MINUTE.
  f_equal.
  - replace (d + k * (7 * 86400000)) with (d + (7 * k) * 86400000) by lia.
    rewrite Z.mod_add by lia. reflexivity.
  - replace (d + k * (7 * 86400000)) with (d + (7 * 24 * k) * 3600000) by lia.
    rewrite Z.mod_add by lia. reflexivity.
Qed.

End WeeklyFacts.

(** X13. Availability is a weekly pattern: moving both ends of an interval by
    a whole number of weeks does not change the verdict of
    [isWithinAvailability]. *)
Theorem availability_test_is_weekly db therapistId start end_ k :
  SessionController.isWithinAvailability
    db therapistId (start + k * (7 * DateTime.MS_PER_DAY))
    (end_ + k * (7 * DateTime.MS_PER_DAY))
  = SessionController.isWithinAvailability db therapistId start end_.
Proof.
  unfold SessionController.isWithinAvailability, SessionController.dateToDayOfWeekUTC.
  rewrite getUTCDay_week, !dateToHHmmUTC_week. reflexivity.
Qed.

Section EffectFacts.

Import Invariant SessionController SessionLifecycle.

Lemma bookDirect_created db c t s e notes code created db' :
  bookDirect db c t s e notes = (SessionReply code created, db') ->
  code = 201
  /\ created = Session.mk (Mongo.freshId (sessions db)) t c s e scheduled notes
  /\ db' = withSessions db (sessions db ++ [created]).
Proof.
  unfold bookDirect.
  destruct (findTherapistConflict _ _ _ _ _); [discriminate |].
  destruct (findClientConflict _ _ _ _ _); [discriminate |].
  destruct (Mongo.create t c s e notes (sessions db)) as [[] | [cr l]] eqn:Hc;
    try discriminate.
  apply create_inr in Hc. destruct Hc as [-> ->].
  intros E. injection E as <- <- <-. repeat split.
Qed.

Lemma find_app_fresh id l x :
  ~ In id (map Session._id l) -> Session._id x = id ->
  Mongo.findSessionById id (l ++ [x]) = Some x.
Proof.
  intros Hfresh Hid. unfold Mongo.findSessionById.
  induction l as [| y l IH]; cbn [app find].
  - rewrite Hid. unfold Oid.eqb. rewrite N.eqb_refl. reflexivity.
  - destruct (Oid.eqb (Session._id y) id) eqn:E.
    + apply Oid_eqb_eq in E. exfalso. apply Hfresh. left. exact E.
    + apply IH. intros H. apply Hfresh. right. exact H.
Qed.

End EffectFacts.

(** X14. What a booking stores.  When [bookSession] answers with a session, the
    code is 201 and the session is new in the store: a fresh id, status
    "scheduled", the caller's client id, the therapist, the two instants
    and the notes of the request, with [start < end], inside the
    therapist's availability, for a therapist and a client of the store.
    Nothing else changes, and the client who booked reads the session back
    with [getSession]. *)
Theorem bookSession_creates env req db code created db' :
  SessionController.bookSession env req db = (SessionReply code created, db') ->
  code = 201
  /\ db' = withSessions db (sessions db ++ [created])
  /\ ~ In (Session._id created) (map Session._id (sessions db))
  /\ Session.status created = scheduled
  /\ clientId (SessionController.book_actor req) = Some (Session.client created)
  /\ (exists raw, SessionController.b_therapistId (SessionController.book_body req) = JStr raw
                  /\ Session.therapist created = Oid.cast (Js.trim raw))
  /\ (exists raw, SessionController.b_startAt (SessionController.book_body req) = JStr raw
                  /\ SessionController.toDate env (JStr (Js.trim raw))
                     = Some (Session.start created))
  /\ (exists raw, SessionController.b_endAt (SessionController.book_body req) = JStr raw
                  /\ SessionController.toDate env (JStr (Js.trim raw))
                     = Some (Session.end_ created))
  /\ Session.notes created = SessionController.b_notes (SessionController.book_body req)
  /\ Session.start created < Session.end_ created
  /\ Invariant.therapistStored db (Session.therapist created) = true
  /\ Invariant.clientStored db (Session.client created) = true
  /\ SessionController.isWithinAvailability
       db (Some (Session.therapist created)) (Session.start created) (Session.end_ created)
     = true
  /\ SessionLifecycle.getSession
       (SessionLifecycle.mkIdRequest
          (Some (Session._id created))
          (mkActor (Some role_client) (Some (Session.client created)) None))
       db'
     = SessionLifecycle.Document 200 (SessionController.populate db' created).
Proof.
  unfold SessionController.bookSession.
  destruct (SessionController.bookParse env req) as [r | [[[c t] s] e]] eqn:Hparse.
  { intros E. injection E as Er _. subst r.
    exfalso. unfold SessionController.bookParse in Hparse.
    destruct (clientId _); [| discriminate].
    destruct (SessionController.b_therapistId _) as [| rawT |]; try discriminate.
    destruct (Js.isEmpty (Js.trim rawT)); [discriminate |].
    destruct (Oid.isValidObjectIdString (Js.trim rawT)); [| discriminate].
    cbn [returnIf bind negb ret] in Hparse.
    destruct (SessionController.b_startAt _) as [| rawS |]; try discriminate.
    destruct (SessionController.toDate env (JStr (Js.trim rawS))); [| discriminate].
    cbn [bind ret] in Hparse.
    destruct (SessionController.b_endAt _) as [| rawE |]; try discriminate.
    destruct (SessionController.toDate env (JStr (Js.trim rawE))); [| discriminate].
    cbn [bind ret] in Hparse.
    destruct (_ <=? _); discriminate. }
  destruct (SessionController.bookLookups db c t s e) as [r | u] eqn:Hlook.
  { intros E. injection E as Er _. subst r. exfalso.
    unfold SessionController.bookLookups in Hlook.
    destruct (Mongo.findTherapistById _ _); [| discriminate].
    destruct (Mongo.findClientById _ _); [| discriminate].
    destruct (SessionController.isWithinAvailability _ _ _ _); discriminate. }
  cbv zeta. rewrite production_irrelevant. intros Hbook.
  apply bookDirect_created in Hbook. destruct Hbook as (-> & Hcreated & ->).
  pose proof (bookParse_inr _ _ _ _ _ _ Hparse)
    as (Hc & (rawT & HrawT & -> & _ & _) & Hs & He & Hlt).
  apply bookLookups_stored in Hlook. destruct Hlook as (Hst & Hsc & Hwithin).
  assert (Hfresh : ~ In (Session._id created) (map Session._id (sessions db))).
  { rewrite Hcreated. exact (freshId_fresh _). }
  rewrite Hcreated in *. cbn [Session._id Session.status Session.client Session.therapist
                              Session.start Session.end_ Session.notes] in *.
  repeat split; try assumption; try (eexists; split; eassumption).
  { exists rawT. split; [exact HrawT | reflexivity]. }
  unfold SessionLifecycle.getSession, SessionLifecycle.findPopulated.
  cbn [SessionLifecycle.id_params SessionLifecycle.id_actor sessions withSessions].
  erewrite find_app_fresh; [| exact Hfresh | reflexivity]. cbn [option_map].
  unfold SessionController.canAccessSessionStrict. cbn [role clientId].
  rewrite populate_client. cbn [Session.client].
  change (Invariant.clientStored (withSessions db _) c) with (Invariant.clientStored db c).
  rewrite Hsc. cbn [SessionController.sameId]. unfold Oid.eqb. rewrite N.eqb_refl.
  reflexivity.
Qed.

(** X15. What a reschedule stores.  When [rescheduleSession] answers with a
    session, the code is 200 and the session is the stored one with the
    requested id, which was "scheduled" and which the caller may access,
    with its two instants replaced by those of the request (what [toDate]
    reads from [startAt ?? newStart ?? start] and [endAt ?? newEnd ?? end],
    trimmed; the start before the end, inside the therapist's
    availability) and every other field as it was; no other document
    changes. *)
Theorem rescheduleSession_moves env req db code moved db' :
  SessionController.rescheduleSession env req db = (SessionReply code moved, db') ->
  code = 200
  /\ exists s,
      In s (sessions db)
      /\ SessionController.params_id req = Some (Session._id s)
      /\ Session.status s = scheduled
      /\ SessionController.canAccessSessionStrict
           (SessionController.resched_actor req) (SessionController.populate db s) = true
      /\ SessionController.toDate
           env
           (SessionController.trimmed
              (SessionController.nullish
                 (SessionController.nullish
                    (SessionController.r_startAt (SessionController.resched_body req))
                    (SessionController.r_newStart (SessionController.resched_body req)))
                 (SessionController.r_start (SessionController.resched_body req))))
         = Some (Session.start moved)
      /\ SessionController.toDate
           env
           (SessionController.trimmed
              (SessionController.nullish
                 (SessionController.nullish
                    (SessionController.r_endAt (SessionController.resched_body req))
                    (SessionController.r_newEnd (SessionController.resched_body req)))
                 (SessionController.r_end (SessionController.resched_body req))))
         = Some (Session.end_ moved)
      /\ moved = SessionController.movedTo s (Session.start moved) (Session.end_ moved)
      /\ Session.start moved < Session.end_ moved
      /\ SessionController.isWithinAvailability
           db (Some (Session.therapist s)) (Session.start moved) (Session.end_ moved) = true
      /\ db' = withSessions
                 db (map (fun x => if Oid.eqb (Session._id x) (Session._id s)
                                   then moved else x) (sessions db)).
Proof.
  intros E.
  destruct (rescheduleSession_cases env req db)
    as [[Hdb Hcode] | (s & newStart & newEnd & l & Hparse & Hin & Hfind & Hst & Hacc
                       & Hwithin & _ & _ & Hsave & Hres)].
  - rewrite E in Hcode, Hdb. cbn [fst snd statusCode] in *.
    unfold SessionController.rescheduleSession in E.
    destruct (SessionController.rescheduleParse env req) as [r | [ns ne]] eqn:Hp.
    { injection E as Er _. subst r.
      unfold SessionController.rescheduleParse in Hp. cbv zeta in Hp.
      unfold SessionController.validationFailure in Hp.
      destruct (SessionController.isMissing _) in Hp; [discriminate |].
      cbn [returnIf bind] in Hp.
      destruct (SessionController.toDate env _) in Hp; [| discriminate].
      destruct (SessionController.isMissing _) in Hp; [discriminate |].
      cbn [returnIf bind] in Hp.
      destruct (SessionController.toDate env _) in Hp; [| discriminate].
      destruct (_ <=? _) in Hp; discriminate. }
    destruct (SessionController.findExisting req db) as [e | [existing |]];
      try discriminate.
    destruct (Status_eqb _ cancelled); [discriminate |].
    destruct (negb (Status_eqb _ scheduled)); [discriminate |].
    destruct (negb (SessionController.canAccessSessionStrict _ _)); [discriminate |].
    cbv zeta in E.
    destruct (negb (SessionController.isWithinAvailability _ _ _ _)); [discriminate |].
    destruct (SessionController.findTherapistConflict _ _ _ _ _); [discriminate |].
    destruct (SessionController.findClientConflict _ _ _ _ _); [discriminate |].
    destruct (Mongo.save _ _); [discriminate |].
    injection E as <- _ _. exfalso. apply Hcode. reflexivity.
  - rewrite Hres in E. injection E as <- <- <-.
    split; [reflexivity |]. exists s.
    apply save_inr in Hsave. subst l.
    pose proof (rescheduleParse_ordered _ _ _ _ Hparse) as Hlt.
    destruct (rescheduleParse_reads _ _ _ _ Hparse) as [Hrs Hre].
    rewrite (within_therapist_stored _ _ _ _ Hwithin) in Hwithin.
    cbn [SessionController.movedTo Session.start Session.end_].
    repeat split; try assumption.
    unfold SessionController.findExisting in Hfind.
    destruct (SessionController.params_id req) as [id |]; [| discriminate].
    unfold Mongo.findSessionById in Hfind.
    destruct (find _ (sessions db)) as [s' |] eqn:Ef; [| discriminate].
    apply found_same in Hfind. subst s'.
    pose proof (find_some _ _ Ef) as [_ Hid]. apply Oid_eqb_eq in Hid. congruence.
Qed.

Section ListedBookable.

Import DateTime SessionController PublicController Reference.

Lemma Day_eqb_eq a b : Day_eqb a b = true -> a = b.
Proof. destruct a, b; simpl; congruence. Qed.

Lemma Day_eqb_refl a : Day_eqb a a = true.
Proof. destruct a; reflexivity. Qed.

(** The instants of a listed start time, for a [dateObj] at noon UTC and a
    time of the day. *)
Lemma slot_instants dateObj x d :
  dateObj mod MS_PER_DAY = 12 * MS_PER_HOUR ->
  0 <= HHmm.timeToMinutes x -> 0 <= d -> HHmm.timeToMinutes x + d < 1440 ->
  getUTCDay (slotStart dateObj x) = getUTCDay dateObj
  /\ (slotStart dateObj x mod MS_PER_DAY) / MS_PER_MINUTE = HHmm.timeToMinutes x
  /\ (slotEnd dateObj x d mod MS_PER_DAY) / MS_PER_MINUTE = HHmm.timeToMinutes x + d.
Proof.
  unfold slotEnd, slotStart, getUTCDay, MS_PER_DAY, MS_PER_HOUR, MS_PER_MINUTE.
  generalize (HHmm.timeToMinutes x). intros m Hnoon Hm Hd Hday.
  pose proof (Z.div_mod dateObj 86400000 ltac:(lia)) as Hq.
  rewrite Hnoon in Hq. set (q := dateObj / 86400000) in *.
  assert (Es : dateObj - 12 * 3600000 + m * 60000 = q * 86400000 + m * 60000) by lia.
  assert (Ee : dateObj - 12 * 3600000 + m * 60000 + d * 60 * 1000
               = q * 86400000 + (m + d) * 60000) by lia.
  rewrite Ee, Es.
  assert (Hsd : (q * 86400000 + m * 60000) / 86400000 = q).
  { symmetry. apply (Z.div_unique _ _ q (m * 60000)); lia. }
  assert (Hsm : (q * 86400000 + m * 60000) mod 86400000 = m * 60000).
  { symmetry. apply (Z.mod_unique _ _ q (m * 60000)); lia. }
  assert (Hem : (q * 86400000 + (m + d) * 60000) mod 86400000 = (m + d) * 60000).
  { symmetry. apply (Z.mod_unique _ _ q ((m + d) * 60000)); lia. }
  rewrite Hsd, Hsm, Hem, !Z.div_mul by lia. repeat split.
Qed.

Lemma findOverlapping_is_therapistConflict tid startAt endAt l :
  findTherapistConflict None (Some tid) startAt endAt l
  = findOverlapping tid startAt endAt l.
Proof.
  unfold findTherapistConflict, findOverlapping.
  induction l as [| s l IH]; [reflexivity |].
  cbn [find]. rewrite IH.
  unfold notExcluded, refIs, IntervalMath.overlapQuery, Session.interval.
  cbn [Interval.start Interval.end_].
  rewrite andb_true_l, andb_assoc. reflexivity.
Qed.

End ListedBookable.

(** A listed slot can be booked, for Availability records that hold times
    of the day: the availability test and the therapist conflict query of
    [bookSession] agree with the listing. *)
Lemma listed_slot_bookable_on_records
        fuel env query db result ts timeStr dateStr dateObj req c therapistIdStr :
  PublicController.getAvailableSlots fuel env query db
  = Some (PublicController.SlotsJson result) ->
  In ts result ->
  In timeStr (PublicController.ts_slots ts) ->
  PublicController.q_date query = Some dateStr ->
  newDate env (dateStr ++ "T12:00:00.000Z") = Some dateObj ->
  dateObj mod DateTime.MS_PER_DAY = 12 * DateTime.MS_PER_HOUR ->
  (forall a, In a (availability db) ->
             0 <= HHmm.timeToMinutes (Availability.startTime a)
             /\ HHmm.timeToMinutes (Availability.endTime a) < 1440) ->
  SessionController.bookParse env req
  = inr (c, therapistIdStr,
         PublicController.slotStart dateObj timeStr,
         PublicController.slotEnd
           dateObj timeStr
           (PublicController.durationMinutes (PublicController.q_durationMinutes query))) ->
  Oid.cast therapistIdStr = PublicController.ts_therapistId ts ->
  Invariant.therapistStored db (PublicController.ts_therapistId ts) = true ->
  Invariant.clientStored db c = true ->
  SessionController.findClientConflict
    None (Some c)
    (PublicController.slotStart dateObj timeStr)
    (PublicController.slotEnd
       dateObj timeStr
       (PublicController.durationMinutes (PublicController.q_durationMinutes query)))
    (sessions db) = None ->
  exists created,
    SessionController.bookSession env req db
    = (SessionReply 201 created, withSessions db (sessions db ++ [created])).
Proof.
  intros Hget Hts Hslot Hq Hdate Hnoon Hvalid Hparse Hcast Hst Hsc Hclient.
  set (d := PublicController.durationMinutes (PublicController.q_durationMinutes query))
    in *.
  assert (Hd : 0 < d).
  { pose proof (durationMinutes_bounds (PublicController.q_durationMinutes query)).
    subst d. lia. }
  unfold PublicController.getAvailableSlots in Hget. cbv zeta in Hget.
  rewrite Hq in Hget.
  destruct (PublicController.isDateString dateStr); [| discriminate].
  cbn [negb] in Hget. rewrite Hdate in Hget.
  destruct (PublicController.collect _ _ _ _ _) as [res |] eqn:Ecollect; [| discriminate].
  injection Hget as <-.
  destruct (collect_In _ _ _ _ Hd _ _ Ecollect ts Hts) as (ranges & Hgroup & Hslots).
  destruct (Hslots timeStr Hslot) as [(range & Hrange & Hfit) Hfree].
  destruct (groupByTherapist_In _ _ _ _ Hgroup Hrange) as (a & Ha & Htid & Hrg).
  apply filter_In in Ha. destruct Ha as [Ha Hday]. apply Day_eqb_eq in Hday.
  subst range. unfold Reference.fitsRange in Hfit. cbn [fst snd] in Hfit.
  destruct (Hvalid a Ha) as [Hlo Hhi].
  destruct (slot_instants dateObj timeStr d Hnoon ltac:(lia) ltac:(lia) ltac:(lia))
    as (Hwd & Hsm & Hem).
  assert (Hwithin : SessionController.isWithinAvailability
                      db (Some (Oid.cast therapistIdStr))
                      (PublicController.slotStart dateObj timeStr)
                      (PublicController.slotEnd dateObj timeStr d) = true).
  { rewrite isWithinAvailability_existsb. apply existsb_exists. exists a. split.
    - unfold Reference.dayRecords. apply filter_In. split; [exact Ha |].
      apply andb_true_iff. split.
      + apply Oid_eqb_eq. congruence.
      + unfold SessionController.dateToDayOfWeekUTC. rewrite Hwd, Hday.
        apply Day_eqb_refl.
    - rewrite !minutesOf_dateToHHmmUTC, Hsm, Hem.
      unfold SessionController.minutesOf. unfold HHmm.timeToMinutes in *.
      apply andb_true_iff. rewrite Z.geb_le, Z.leb_le. lia. }
  unfold SessionController.bookSession, SessionController.bookLookups.
  rewrite Hparse.
  unfold Invariant.therapistStored in Hst. rewrite <- Hcast in Hst.
  destruct (Mongo.findTherapistById (Oid.cast therapistIdStr) (therapists db));
    [| discriminate].
  unfold Invariant.clientStored in Hsc.
  destruct (Mongo.findClientById c (clients db)); [| discriminate].
  rewrite Hwithin. cbn [negb returnIf]. cbv zeta. rewrite production_irrelevant.
  apply bookDirect_no_conflict.
  - unfold PublicController.slotEnd. lia.
  - rewrite findOverlapping_is_therapistConflict, Hcast. exact Hfree.
  - exact Hclient.
Qed.

Section ListingShape.

Import PublicController.

Lemma HHmm_eqb_eq a b : HHmm_eqb a b = true <-> a = b.
Proof.
  unfold HHmm_eqb. rewrite andb_true_iff, !Z.eqb_eq.
  destruct a, b; simpl. split; [intros [-> ->]; reflexivity | intros E; injection E; auto].
Qed.

Lemma HHmm_leb_total a b : HHmm_leb a b = false -> HHmm_leb b a = true.
Proof.
  unfold HHmm_leb. rewrite orb_false_iff, orb_true_iff, andb_false_iff, andb_true_iff.
  rewrite !Z.ltb_lt, !Z.ltb_ge, !Z.eqb_eq, !Z.eqb_neq, Z.leb_le, Z.leb_gt. lia.
Qed.

Lemma HHmm_leb_trans a b c :
  HHmm_leb a b = true -> HHmm_leb b c = true -> HHmm_leb a c = true.
Proof.
  unfold HHmm_leb. rewrite !orb_true_iff, !andb_true_iff.
  rewrite !Z.ltb_lt, !Z.eqb_eq, !Z.leb_le. lia.
Qed.

Lemma insertSorted_perm x l : Permutation (x :: l) (insertSorted x l).
Proof.
  induction l as [| y l IH]; [apply Permutation_refl |].
  cbn [insertSorted]. destruct (HHmm_leb x y); [apply Permutation_refl |].
  eapply perm_trans; [apply perm_swap |]. apply perm_skip. exact IH.
Qed.

Lemma sort_perm l : Permutation l (sort l).
Proof.
  induction l as [| x l IH]; [apply perm_nil |].
  cbn [sort fold_right].
  eapply perm_trans; [apply perm_skip; exact IH | apply insertSorted_perm].
Qed.

Lemma insertSorted_sorted x l :
  StronglySorted (fun a b => HHmm_leb a b = true) l ->
  StronglySorted (fun a b => HHmm_leb a b = true) (insertSorted x l).
Proof.
  induction l as [| y l IH]; intros Hs.
  - repeat constructor.
  - cbn [insertSorted]. inversion Hs as [| ? ? Hrest Hall]; subst.
    destruct (HHmm_leb x y) eqn:E.
    + constructor; [exact Hs |]. constructor; [exact E |].
      eapply Forall_impl; [| exact Hall]. cbv beta. intros z Hz.
      exact (HHmm_leb_trans _ _ _ E Hz).
    + constructor; [exact (IH Hrest) |].
      apply Forall_forall. intros z Hz.
      apply (Permutation_in _ (Permutation_sym (insertSorted_perm x l))) in Hz.
      destruct Hz as [<- | Hz]; [exact (HHmm_leb_total _ _ E) |].
      exact (proj1 (Forall_forall _ _) Hall z Hz).
Qed.

Lemma sort_sorted l : StronglySorted (fun a b => HHmm_leb a b = true) (sort l).
Proof.
  induction l as [| x l IH]; [constructor |].
  cbn [sort fold_right]. apply insertSorted_sorted. exact IH.
Qed.

Lemma setAdd_NoDup x set : NoDup set -> NoDup (setAdd x set).
Proof.
  intros Hnd. unfold setAdd. destruct (existsb (HHmm_eqb x) set) eqn:E; [exact Hnd |].
  apply NoDup_app; [exact Hnd | repeat constructor; intros [] |].
  intros y Hy [E' | []]. subst y.
  assert (Hex : existsb (HHmm_eqb x) set = true).
  { apply existsb_exists. exists x. split; [exact Hy | apply HHmm_eqb_eq; reflexivity]. }
  congruence.
Qed.

Lemma sliceRange_NoDup fuel d endM :
  forall m set r, sliceRange fuel d endM m set = Some r -> NoDup set -> NoDup r.
Proof.
  induction fuel as [| fuel IH]; intros m set r; [discriminate |].
  simpl. destruct (m + d <=? endM).
  - intros H Hnd. exact (IH _ _ _ H (setAdd_NoDup _ _ Hnd)).
  - intros E Hnd. injection E as <-. exact Hnd.
Qed.

Lemma sliceRanges_NoDup fuel d ranges :
  forall set r, sliceRanges fuel ranges d set = Some r -> NoDup set -> NoDup r.
Proof.
  induction ranges as [| [startTime endTime] rest IH]; intros set r.
  - simpl. intros E Hnd. injection E as <-. exact Hnd.
  - simpl. destruct (sliceRange fuel d _ _ set) as [set' |] eqn:E; [| discriminate].
    intros H Hnd. exact (IH _ _ H (sliceRange_NoDup _ _ _ _ _ _ E Hnd)).
Qed.

Lemma generateSlotTimes_NoDup fuel ranges d r :
  generateSlotTimes fuel ranges d = Some r -> NoDup r.
Proof.
  unfold generateSlotTimes.
  destruct (sliceRanges fuel ranges d []) as [set |] eqn:E; [| discriminate].
  intros H. injection H as <-.
  apply (Permutation_NoDup (sort_perm set)).
  exact (sliceRanges_NoDup _ _ _ _ _ E (NoDup_nil _)).
Qed.

Lemma pushRange_keys tid range m :
  NoDup (map fst m) ->
  NoDup (map fst (pushRange tid range m))
  /\ forall k, In k (map fst (pushRange tid range m)) -> k = tid \/ In k (map fst m).
Proof.
  induction m as [| [k ranges] rest IH]; intros Hnd.
  - simpl. split; [repeat constructor; intros [] | intros k [<- | []]; auto].
  - cbn [pushRange]. destruct (Oid.eqb k tid) eqn:E.
    + cbn [map fst] in *. split; [exact Hnd | intros k0 Hk0; right; exact Hk0].
    + cbn [map fst] in *. inversion Hnd as [| ? ? Hnot Hrest]; subst.
      destruct (IH Hrest) as [IHnd IHin]. split.
      * constructor; [| exact IHnd]. intros Hk.
        destruct (IHin _ Hk) as [-> | Hk']; [| contradiction].
        apply Oid_eqb_neq in E. apply E. reflexivity.
      * intros k0 [<- | Hk0]; [right; left; reflexivity |].
        destruct (IHin _ Hk0) as [-> | Hin]; [left; reflexivity | right; right; exact Hin].
Qed.

Lemma groupByTherapist_keys docs : NoDup (map fst (groupByTherapist docs)).
Proof.
  unfold groupByTherapist.
  assert (H : forall m, NoDup (map fst m) ->
                        NoDup (map fst (fold_left
                                 (fun m a => pushRange (Availability.therapist a)
                                               (Availability.startTime a,
                                                Availability.endTime a) m) docs m))).
  { induction docs as [| a docs IH]; intros m Hm; [exact Hm |].
    cbn [fold_left]. apply IH. apply pushRange_keys. exact Hm. }
  apply H. constructor.
Qed.

Lemma sort_nonempty x l : sort (x :: l) <> [].
Proof.
  intros E. pose proof (Permutation_length (sort_perm (x :: l))) as Hlen.
  rewrite E in Hlen. discriminate.
Qed.

(** What [collect] pushes: for keys of the map, in their order, a
    non-empty, sorted list of distinct start times. *)
Lemma collect_shape fuel db dateObj d :
  forall byTherapist result,
    collect fuel db dateObj d byTherapist = Some result ->
    (forall ts, In ts result ->
                In (ts_therapistId ts) (map fst byTherapist)
                /\ ts_therapistName ts = therapistName db (ts_therapistId ts)
                /\ ts_slots ts <> []
                /\ StronglySorted (fun a b => HHmm_leb a b = true) (ts_slots ts)
                /\ NoDup (ts_slots ts))
    /\ (NoDup (map fst byTherapist) -> NoDup (map ts_therapistId result)).
Proof.
  induction byTherapist as [| [tid ranges] rest IH]; intros result.
  - simpl. intros E. injection E as <-. split; [intros ts [] | intros _; constructor].
  - simpl.
    destruct (generateSlotTimes fuel ranges d) as [allSlots |] eqn:Eg; [| discriminate].
    destruct (collect fuel db dateObj d rest) as [res |] eqn:Ec; [| discriminate].
    destruct (IH _ eq_refl) as [IHin IHnd].
    assert (Hkeep : (forall ts, In ts res ->
                       (tid = ts_therapistId ts \/ In (ts_therapistId ts) (map fst rest))
                       /\ ts_therapistName ts = therapistName db (ts_therapistId ts)
                       /\ ts_slots ts <> []
                       /\ StronglySorted (fun a b => HHmm_leb a b = true) (ts_slots ts)
                       /\ NoDup (ts_slots ts))
                    /\ (NoDup (tid :: map fst rest) -> NoDup (map ts_therapistId res))).
    { split.
      - intros ts Hts. destruct (IHin ts Hts) as (H1 & H2). split; [right; exact H1 | exact H2].
      - intros Hnd. inversion Hnd; subst. apply IHnd. assumption. }
    destruct allSlots as [| t0 allSlots']; [intros E; injection E as <-; exact Hkeep |].
    set (allSlots := t0 :: allSlots') in *.
    destruct (freeSlotsOf db tid dateObj d allSlots) as [| f0 free'] eqn:Ef;
      [intros E; injection E as <-; exact Hkeep |].
    intros E. injection E as <-. split.
    + intros ts [<- | Hts]; [| exact (proj1 Hkeep ts Hts)].
      cbn [ts_therapistId ts_therapistName ts_slots].
      split; [left; reflexivity |]. split; [reflexivity |].
      split; [apply (sort_nonempty f0 free') |].
      split; [apply (sort_sorted (f0 :: free')) |].
      apply (Permutation_NoDup (sort_perm (f0 :: free'))). rewrite <- Ef.
      unfold freeSlotsOf. apply NoDup_filter.
      exact (generateSlotTimes_NoDup _ _ _ _ Eg).
    + intros Hnd. cbn [map ts_therapistId]. inversion Hnd as [| ? ? Hnot Hrest]; subst.
      constructor; [| exact (IHnd Hrest)].
      intros Hin. apply in_map_iff in Hin. destruct Hin as [ts [Eid Hts]].
      apply Hnot. rewrite <- Eid. exact (proj1 (IHin ts Hts)).
Qed.

End ListingShape.

(** X17. The shape of the public listing: each therapist appears at most once,
    under the name of the profile (or "Therapist"), with a list of start
    times that is never empty, is in increasing order and holds no time
    twice. *)
Theorem available_slots_shape fuel env query db result :
  PublicController.getAvailableSlots fuel env query db
  = Some (PublicController.SlotsJson result) ->
  NoDup (map PublicController.ts_therapistId result)
  /\ forall ts, In ts result ->
                PublicController.ts_therapistName ts
                = PublicController.therapistName db (PublicController.ts_therapistId ts)
                /\ PublicController.ts_slots ts <> []
                /\ StronglySorted (fun a b => PublicController.HHmm_leb a b = true)
                                  (PublicController.ts_slots ts)
                /\ NoDup (PublicController.ts_slots ts).
Proof.
  unfold PublicController.getAvailableSlots. cbv zeta.
  destruct (PublicController.q_date query) as [dateStr |]; [| discriminate].
  destruct (PublicController.isDateString dateStr); [| discriminate].
  cbn [negb].
  destruct (newDate env _) as [dateObj |]; [| discriminate].
  destruct (PublicController.collect _ _ _ _ _) as [res |] eqn:Ec; [| discriminate].
  intros E. injection E as <-.
  destruct (collect_shape _ _ _ _ _ _ Ec) as [Hin Hnd].
  split; [apply Hnd, groupByTherapist_keys |].
  intros ts Hts. exact (proj2 (Hin ts Hts)).
Qed.

Section PreferenceFacts.

Import DateTime SchedulingService.

(** What the hard constraints leave of an interval starts no earlier than
    [noEarlyThan] and ends no later than [noLaterThan]. *)
Lemma applyHardConstraints_bounds tz day interval hardConstraints r :
  applyHardConstraints tz day interval hardConstraints = Some r ->
  forall hc, hardConstraints = Some hc ->
    (forall t, Client.noEarlyThan hc = Some t -> atTime tz day t <= Interval.start r)
    /\ (forall t, Client.noLaterThan hc = Some t -> Interval.end_ r <= atTime tz day t).
Proof.
  intros H hc ->. unfold applyHardConstraints in H. cbv zeta in H.
  destruct (_ >=? _) in H; [discriminate |]. injection H as <-.
  cbn [Interval.start Interval.end_]. split; intros t Ht; rewrite Ht.
  - destruct (Z.ltb_spec (Interval.start interval) (atTime tz day t)); lia.
  - rewrite Z.gtb_ltb.
    destruct (Z.ltb_spec (atTime tz day t) (Interval.end_ interval)); lia.
Qed.

Lemma window_prefs tz day pref timeOff sessions blockStart blockEnd tr w :
  window tz day pref timeOff sessions blockStart blockEnd tr = Some w ->
  atTime tz day (Client.startTime tr) <= Interval.start w
  /\ Interval.end_ w <= atTime tz day (Client.endTime tr)
  /\ (forall hc t, Client.hardConstraints pref = Some hc ->
                   Client.noEarlyThan hc = Some t -> atTime tz day t <= Interval.start w)
  /\ (forall hc t, Client.hardConstraints pref = Some hc ->
                   Client.noLaterThan hc = Some t -> Interval.end_ w <= atTime tz day t).
Proof.
  unfold window. cbv zeta.
  destruct (IntervalMath.overlapInterval _ _) as [i |] eqn:Ei; [| discriminate].
  apply overlapInterval_Some in Ei. cbn [Interval.start Interval.end_] in Ei.
  destruct Ei as (His & Hie & Hine).
  destruct (applyHardConstraints tz day i (Client.hardConstraints pref)) as [r |] eqn:Er;
    [| discriminate].
  pose proof (applyHardConstraints_inside _ _ _ _ _ Er Hine) as [Hin _].
  apply contains_iff in Hin.
  destruct (existsb _ timeOff); [discriminate |].
  destruct (existsb _ sessions); [discriminate |].
  intros E. injection E as <-.
  split; [lia |]. split; [lia |].
  split; intros hc t Hhc Ht;
    destruct (applyHardConstraints_bounds _ _ _ _ _ Er hc Hhc) as [Hearly Hlate]; auto.
Qed.

(** An instant between two times of the day set on [d] lies on the local
    day of [d]. *)
Lemma between_times_same_day tz d t1 t2 x :
  0 <= HHmm.timeToMinutes t1 -> HHmm.timeToMinutes t2 < 1440 ->
  atTime tz d t1 <= x -> x <= atTime tz d t2 ->
  getDay tz x = getDay tz d.
Proof.
  unfold atTime, setHours, getDay, getUTCDay, HHmm.timeToMinutes,
    MS_PER_DAY, MS_PER_HOUR, MS_PER_MINUTE.
  intros H1 H2 Hlo Hhi. f_equal. f_equal.
  pose proof (Z.div_mod (d + tz) 86400000 ltac:(lia)) as Hdm.
  pose proof (Z.mod_pos_bound (d + tz) 86400000 ltac:(lia)) as Hb.
  symmetry.
  apply (Z.div_unique_pos (x + tz) 86400000 ((d + tz) / 86400000)
                          (x + tz - 86400000 * ((d + tz) / 86400000))); lia.
Qed.

Lemma overRanges_prov fuel tz day tid sm pref timeOff sessions bs be :
  (0 <= sm)%Q ->
  forall ranges slots r,
    overRanges fuel tz day tid sm pref timeOff sessions bs be ranges slots = Some r ->
    forall x, In x r ->
      In x slots
      \/ exists tr w, In tr ranges
                      /\ window tz day pref timeOff sessions bs be tr = Some w
                      /\ Reference.slicedFrom sm w x.
Proof.
  intros Hsm. induction ranges as [| tr rest IH]; intros slots r.
  - simpl. intros E x Hx. injection E as <-. left. exact Hx.
  - simpl.
    destruct (window tz day pref timeOff sessions bs be tr) as [w |] eqn:Ew.
    + destruct (slice fuel tz tid sm w (Interval.start w) slots) as [slots' |] eqn:Es;
        [| discriminate].
      intros H x Hx. destruct (IH _ _ H x Hx) as [Hin | (tr' & w' & Htr & Hrest)].
      * destruct (slice_adds _ _ _ _ _ Hsm _ _ _ Es x Hin) as [Hold | (H1 & H2 & H3 & _)];
          [left; exact Hold |].
        right. exists tr, w. split; [left; reflexivity |].
        split; [exact Ew |]. repeat split; assumption.
      * right. exists tr', w'. split; [right; exact Htr | exact Hrest].
    + intros H x Hx. destruct (IH _ _ H x Hx) as [Hin | (tr' & w' & Htr & Hrest)];
        [left; exact Hin |].
      right. exists tr', w'. split; [right; exact Htr | exact Hrest].
Qed.

Lemma overBlocks_prov fuel tz day tid sm pref timeOff sessions :
  (0 <= sm)%Q ->
  forall blocks slots r,
    overBlocks fuel tz day tid sm pref timeOff sessions blocks slots = Some r ->
    forall x, In x r ->
      In x slots
      \/ exists block tr w,
          In block blocks /\ In tr (timeRangesFor pref block)
          /\ window tz day pref timeOff sessions
                    (atTime tz day (Therapist.startTime block))
                    (atTime tz day (Therapist.endTime block)) tr = Some w
          /\ Reference.slicedFrom sm w x.
Proof.
  intros Hsm. induction blocks as [| block rest IH]; intros slots r.
  - simpl. intros E x Hx. injection E as <-. left. exact Hx.
  - simpl.
    destruct (overRanges fuel tz day tid sm pref timeOff sessions _ _ _ slots)
      as [slots' |] eqn:Er; [| discriminate].
    intros H x Hx. destruct (IH _ _ H x Hx) as [Hin | (b & tr & w & Hb & Hrest)].
    + destruct (overRanges_prov _ _ _ _ _ _ _ _ _ _ Hsm _ _ _ Er x Hin)
        as [Hold | (tr & w & Htr & Hrest)]; [left; exact Hold |].
      right. exists block, tr, w. split; [left; reflexivity |]. auto.
    + right. exists b, tr, w. split; [right; exact Hb | exact Hrest].
Qed.

Lemma overDays_prov fuel tz th tid sm pref sessions to :
  (0 <= sm)%Q ->
  forall dayFuel day slots r,
    overDays fuel dayFuel tz th tid sm pref sessions to day slots = Some r ->
    forall x, In x r ->
      In x slots
      \/ exists d block tr w,
          day <= d < to
          /\ skipDay pref (getDay tz d) = false
          /\ In block (Therapist.weeklyAvailability th)
          /\ Therapist.dayOfWeek block = getDay tz d
          /\ In tr (timeRangesFor pref block)
          /\ window tz d pref (Therapist.timeOff th) sessions
                    (atTime tz d (Therapist.startTime block))
                    (atTime tz d (Therapist.endTime block)) tr = Some w
          /\ Reference.slicedFrom sm w x.
Proof.
  intros Hsm. induction dayFuel as [| dayFuel IH]; intros day slots r; [discriminate |].
  simpl. destruct (Z.ltb_spec day to) as [Hgo | Hstop].
  - assert (Hlater : forall x,
               (exists d block tr w,
                   nextDay day <= d < to
                   /\ skipDay pref (getDay tz d) = false
                   /\ In block (Therapist.weeklyAvailability th)
                   /\ Therapist.dayOfWeek block = getDay tz d
                   /\ In tr (timeRangesFor pref block)
                   /\ window tz d pref (Therapist.timeOff th) sessions
                             (atTime tz d (Therapist.startTime block))
                             (atTime tz d (Therapist.endTime block)) tr = Some w
                   /\ Reference.slicedFrom sm w x) ->
               exists d block tr w,
                 day <= d < to
                 /\ skipDay pref (getDay tz d) = false
                 /\ In block (Therapist.weeklyAvailability th)
                 /\ Therapist.dayOfWeek block = getDay tz d
                 /\ In tr (timeRangesFor pref block)
                 /\ window tz d pref (Therapist.timeOff th) sessions
                           (atTime tz d (Therapist.startTime block))
                           (atTime tz d (Therapist.endTime block)) tr = Some w
                 /\ Reference.slicedFrom sm w x).
    { intros x (d & b & tr & w & Hd & Hrest). exists d, b, tr, w.
      split; [| exact Hrest]. unfold nextDay, MS_PER_DAY in Hd. lia. }
    destruct (skipDay pref (getDay tz day)) eqn:Eskip.
    + intros H x Hx. destruct (IH _ _ _ H x Hx) as [Hin | Hth]; auto.
    + destruct (overBlocks fuel tz day tid sm pref (Therapist.timeOff th) sessions _ slots)
        as [slots' |] eqn:Eb; [| discriminate].
      intros H x Hx. destruct (IH _ _ _ H x Hx) as [Hin | Hth]; [| auto].
      destruct (overBlocks_prov _ _ _ _ _ _ _ _ Hsm _ _ _ Eb x Hin)
        as [Hold | (b & tr & w & Hb & Htr & Hw & Hrest)]; [left; exact Hold |].
      right. apply filter_In in Hb. destruct Hb as [Hb Hdow].
      apply Z.eqb_eq in Hdow.
      exists day, b, tr, w. split; [lia |]. split; [exact Eskip |].
      split; [exact Hb |]. split; [exact Hdow |]. split; [exact Htr |].
      split; [exact Hw | exact Hrest].
  - intros E x Hx. injection E as <-. left. exact Hx.
Qed.

End PreferenceFacts.

(** X18. The client's preferences are hard filters of [findSlots].  Every slot
    returned lies, on a day [day] that the loop visits, inside a weekly
    block of the therapist for the local weekday of that day (so that,
    the block holding times of the day, the slot starts on that local
    day).  On that day: its weekday is one of the preferred days when
    the client names any; the slot lies inside one of the preferred time
    ranges when the client names any; it starts no earlier than
    [noEarlyThan] and ends no later than [noLaterThan] when these are
    set. *)
Theorem suggested_slots_respect_preferences fuel tz args db client therapist slots :
  (0 <= SchedulingService.a_sessionMinutes args)%Q ->
  SchedulingService.findSlots fuel tz args db
  = Some (SchedulingService.Slots client therapist slots) ->
  forall pref,
    pref = match Client.preferences client with
           | Some p => p
           | None => Client.noPreferences
           end ->
    forall slot, In slot slots ->
      exists day block,
        SchedulingService.a_from args <= day < SchedulingService.a_to args
        /\ In block (Therapist.weeklyAvailability therapist)
        /\ Therapist.dayOfWeek block = DateTime.getDay tz day
        /\ SchedulingService.atTime tz day (Therapist.startTime block) <= Slot.start slot
        /\ Slot.start slot <= Slot.end_ slot
        /\ Slot.end_ slot <= SchedulingService.atTime tz day (Therapist.endTime block)
        /\ (0 <= HHmm.timeToMinutes (Therapist.startTime block) ->
            HHmm.timeToMinutes (Therapist.endTime block) < 1440 ->
            DateTime.getDay tz (Slot.start slot) = DateTime.getDay tz day)
        /\ (Client.preferredDaysOfWeek pref <> [] ->
            In (DateTime.getDay tz day) (Client.preferredDaysOfWeek pref))
        /\ (Client.preferredTimeRanges pref <> [] ->
            exists tr, In tr (Client.preferredTimeRanges pref)
                       /\ SchedulingService.atTime tz day (Client.startTime tr)
                          <= Slot.start slot
                       /\ Slot.end_ slot
                          <= SchedulingService.atTime tz day (Client.endTime tr))
        /\ (forall hc t, Client.hardConstraints pref = Some hc ->
                         Client.noEarlyThan hc = Some t ->
                         SchedulingService.atTime tz day t <= Slot.start slot)
        /\ (forall hc t, Client.hardConstraints pref = Some hc ->
                         Client.noLaterThan hc = Some t ->
                         Slot.end_ slot <= SchedulingService.atTime tz day t).
Proof.
  intros Hsm Hfind pref Hpref slot Hslot.
  unfold SchedulingService.findSlots in Hfind.
  destruct (Mongo.findClientById _ _) as [c |]; [| discriminate].
  destruct (Mongo.findTherapistById _ _) as [th |]; [| discriminate].
  destruct (SchedulingService.overDays _ _ _ _ _ _ _ _ _ _ _) as [r |] eqn:E;
    [| discriminate].
  injection Hfind as <- <- <-. rewrite <- Hpref in E.
  destruct (overDays_prov _ _ _ _ _ _ _ _ Hsm _ _ _ _ E slot Hslot)
    as [[] | (d & block & tr & w & Hd & Hskip & Hb & Hdow & Htr & Hw & Hs & He & Hend)].
  pose proof (window_open _ _ _ _ _ _ _ _ _ Hw) as [Hin _].
  apply contains_iff in Hin. cbn [Interval.start Interval.end_] in Hin.
  apply window_prefs in Hw. destruct Hw as (Hws & Hwe & Hearly & Hlate).
  assert (Hle : Slot.start slot <= Slot.end_ slot).
  { rewrite Hend. apply toInteger_lower.
    rewrite <- (Qplus_0_r (inject_Z (Slot.start slot))) at 1.
    apply Qplus_le_r. apply Qmult_le_0_compat; [exact Hsm | discriminate]. }
  exists d, block. split; [exact Hd |]. split; [exact Hb |]. split; [exact Hdow |].
  split; [lia |]. split; [exact Hle |]. split; [lia |].
  split; [| split; [| split; [| split]]].
  - intros H1 H2.
    apply (between_times_same_day tz d (Therapist.startTime block)
                                  (Therapist.endTime block)); [exact H1 | exact H2 | |]; lia.
  - intros Hdays. unfold SchedulingService.skipDay in Hskip.
    destruct (Client.preferredDaysOfWeek pref) as [| d0 l] eqn:El; [contradiction |].
    apply negb_false_iff, existsb_exists in Hskip.
    destruct Hskip as [y [Hy Ey]]. apply Z.eqb_eq in Ey. rewrite Ey. exact Hy.
  - intros Hranges. unfold SchedulingService.timeRangesFor in Htr.
    destruct (Client.preferredTimeRanges pref) as [| t0 l] eqn:El; [contradiction |].
    exists tr. split; [exact Htr |]. lia.
  - intros hc t Hhc Ht. specialize (Hearly hc t Hhc Ht). lia.
  - intros hc t Hhc Ht. specialize (Hlate hc t Hhc Ht). lia.
Qed.

(** [available_slots_shape] on the listing of Monday 2026-02-09. *)
Lemma available_slots_shape_witness :
  NoDup (map PublicController.ts_therapistId
             [PublicController.mkTherapistSlots
                (Oid.cast Scenario.therapistA) "Dr A"
                [HHmm.mk 9 0; HHmm.mk 10 0; HHmm.mk 11 0]]).
Proof.
  refine (proj1 (available_slots_shape 10 Scenario.env Scenario.mondayQuery Scenario.db0
                                       _ _)).
  vm_compute. reflexivity.
Defined.

(** [bookSession_creates] on C1's booking of Monday 09:00-10:00: C1 reads
    the new session back. *)
Lemma bookSession_creates_witness :
  SessionLifecycle.getSession
    (SessionLifecycle.mkIdRequest
       (Some 1%N) (mkActor (Some role_client) (Some Scenario.clientC1) None))
    Scenario.db1
  = SessionLifecycle.Document
      200 (SessionController.populate
             Scenario.db1
             (Session.mk 1%N (Oid.cast Scenario.therapistA) Scenario.clientC1
                         1770627600000 1770631200000 scheduled None)).
Proof.
  refine (proj2 (proj2 (proj2 (proj2 (proj2 (proj2 (proj2 (proj2 (proj2 (proj2 (proj2
            (proj2 (proj2
               (bookSession_creates
                  Scenario.env Scenario.hourAtNine Scenario.db0 201
                  (Session.mk 1%N (Oid.cast Scenario.therapistA) Scenario.clientC1
                              1770627600000 1770631200000 scheduled None)
                  Scenario.db1 _)))))))))))))).
  vm_compute. reflexivity.
Defined.

(** [rescheduleSession_moves] on C1 moving that booking to 09:30-10:00. *)
Lemma rescheduleSession_moves_witness :
  exists s,
    In s (sessions Scenario.db1)
    /\ SessionController.params_id Examples.toHalfPastNine = Some (Session._id s)
    /\ Session.status s = scheduled
    /\ SessionController.canAccessSessionStrict
         (SessionController.resched_actor Examples.toHalfPastNine)
         (SessionController.populate Scenario.db1 s) = true
    /\ SessionController.toDate
         Scenario.env
         (SessionController.trimmed
            (SessionController.nullish
               (SessionController.nullish
                  (SessionController.r_startAt
                     (SessionController.resched_body Examples.toHalfPastNine))
                  (SessionController.r_newStart
                     (SessionController.resched_body Examples.toHalfPastNine)))
               (SessionController.r_start
                  (SessionController.resched_body Examples.toHalfPastNine))))
       = Some (Session.start Examples.atHalfPastNine)
    /\ SessionController.toDate
         Scenario.env
         (SessionController.trimmed
            (SessionController.nullish
               (SessionController.nullish
                  (SessionController.r_endAt
                     (SessionController.resched_body Examples.toHalfPastNine))
                  (SessionController.r_newEnd
                     (SessionController.resched_body Examples.toHalfPastNine)))
               (SessionController.r_end
                  (SessionController.resched_body Examples.toHalfPastNine))))
       = Some (Session.end_ Examples.atHalfPastNine)
    /\ Examples.atHalfPastNine
       = SessionController.movedTo s (Session.start Examples.atHalfPastNine)
                                   (Session.end_ Examples.atHalfPastNine)
    /\ Session.start Examples.atHalfPastNine < Session.end_ Examples.atHalfPastNine
    /\ SessionController.isWithinAvailability
         Scenario.db1 (Some (Session.therapist s))
         (Session.start Examples.atHalfPastNine) (Session.end_ Examples.atHalfPastNine)
       = true
    /\ withSessions Scenario.db1 [Examples.atHalfPastNine]
       = withSessions
           Scenario.db1
           (map (fun x => if Oid.eqb (Session._id x) (Session._id s)
                          then Examples.atHalfPastNine else x) (sessions Scenario.db1)).
Proof.
  refine (proj2 (rescheduleSession_moves
                   Scenario.env Examples.toHalfPastNine Scenario.db1 200
                   Examples.atHalfPastNine
                   (withSessions Scenario.db1 [Examples.atHalfPastNine]) _)).
  vm_compute. reflexivity.
Defined.

(** [check_allowed_apply_succeeds] on the same move. *)
Lemma check_allowed_apply_succeeds_witness :
  statusCode
    (fst (SessionController.rescheduleSession
            Scenario.env
            (Scenario.move Scenario.clientC1 1%N
                           "2026-02-09T09:30:00.000Z" "2026-02-09T10:00:00.000Z")
            Scenario.db1)) = 200.
Proof.
  apply check_allowed_apply_succeeds. vm_compute. reflexivity.
Defined.

(** [findSlots_terminates] on the request for sessions of 60 minutes. *)
Lemma findSlots_terminates_witness :
  exists fuel found,
    SchedulingService.findSlots fuel 0 Scenario.mondayArgs Scenario.db0 = Some found.
Proof.
  apply findSlots_terminates. unfold Qle. simpl. lia.
Defined.

(** [suggested_slots_respect_preferences] on a client who wants Mondays
    between 10:00 and 12:00, not before 09:00 and not after 11:00: the one
    slot found is 10:00-11:00. *)
Lemma suggested_slots_respect_preferences_witness :
  exists day block,
    SchedulingService.a_from Examples.pickyArgs <= day
    < SchedulingService.a_to Examples.pickyArgs
    /\ In block [Therapist.mkBlock 1 (HHmm.mk 9 0) (HHmm.mk 12 0)]
    /\ Therapist.dayOfWeek block = DateTime.getDay 0 day
    /\ SchedulingService.atTime 0 day (Therapist.startTime block)
       <= Slot.start Scenario.tenToEleven
    /\ Slot.start Scenario.tenToEleven <= Slot.end_ Scenario.tenToEleven
    /\ Slot.end_ Scenario.tenToEleven
       <= SchedulingService.atTime 0 day (Therapist.endTime block)
    /\ (0 <= HHmm.timeToMinutes (Therapist.startTime block) ->
        HHmm.timeToMinutes (Therapist.endTime block) < 1440 ->
        DateTime.getDay 0 (Slot.start Scenario.tenToEleven) = DateTime.getDay 0 day)
    /\ (Client.preferredDaysOfWeek Examples.pickyPreferences <> [] ->
        In (DateTime.getDay 0 day) (Client.preferredDaysOfWeek Examples.pickyPreferences))
    /\ (Client.preferredTimeRanges Examples.pickyPreferences <> [] ->
        exists tr, In tr (Client.preferredTimeRanges Examples.pickyPreferences)
                   /\ SchedulingService.atTime 0 day (Client.startTime tr)
                      <= Slot.start Scenario.tenToEleven
                   /\ Slot.end_ Scenario.tenToEleven
                      <= SchedulingService.atTime 0 day (Client.endTime tr))
    /\ (forall hc t, Client.hardConstraints Examples.pickyPreferences = Some hc ->
                     Client.noEarlyThan hc = Some t ->
                     SchedulingService.atTime 0 day t <= Slot.start Scenario.tenToEleven)
    /\ (forall hc t, Client.hardConstraints Examples.pickyPreferences = Some hc ->
                     Client.noLaterThan hc = Some t ->
                     Slot.end_ Scenario.tenToEleven <= SchedulingService.atTime 0 day t).
Proof.
  refine (suggested_slots_respect_preferences
            10 0 Examples.pickyArgs Examples.dbPicky Examples.picky
            (Therapist.mk (Oid.cast Scenario.therapistA) "Dr A"
                          [Therapist.mkBlock 1 (HHmm.mk 9 0) (HHmm.mk 12 0)] [])
            [Scenario.tenToEleven] _ _ Examples.pickyPreferences _
            Scenario.tenToEleven _).
  - unfold Qle. simpl. lia.
  - vm_compute. reflexivity.
  - reflexivity.
  - left. reflexivity.
Defined.

Section RankFacts.

Import SlotRanker.

Lemma insertByScore_perm x l : Permutation (x :: l) (insertByScore x l).
Proof.
  induction l as [| y l IH]; [apply Permutation_refl |].
  cbn [insertByScore]. destruct (Qle_bool (r_score y) (r_score x));
    [apply Permutation_refl |].
  eapply perm_trans; [apply perm_swap |]. apply perm_skip. exact IH.
Qed.

Lemma insertByScore_sorted x l :
  StronglySorted (fun a b => (r_score b <= r_score a)%Q) l ->
  StronglySorted (fun a b => (r_score b <= r_score a)%Q) (insertByScore x l).
Proof.
  induction l as [| y l IH]; intros Hs.
  - repeat constructor.
  - cbn [insertByScore]. inversion Hs as [| ? ? Hrest Hall]; subst.
    destruct (Qle_bool (r_score y) (r_score x)) eqn:E.
    + apply Qle_bool_iff in E.
      constructor; [exact Hs |]. constructor; [exact E |].
      eapply Forall_impl; [| exact Hall]. cbv beta. intros z Hz.
      exact (Qle_trans _ _ _ Hz E).
    + assert (Hlt : (r_score x < r_score y)%Q).
      { apply Qnot_le_lt. intros H. apply Qle_bool_iff in H. congruence. }
      constructor; [exact (IH Hrest) |].
      apply Forall_forall. intros z Hz.
      apply (Permutation_in _ (Permutation_sym (insertByScore_perm x l))) in Hz.
      destruct Hz as [<- | Hz]; [apply Qlt_le_weak; exact Hlt |].
      exact (proj1 (Forall_forall _ _) Hall z Hz).
Qed.


Lemma max0_pos x : (0 < x)%Q -> max0 x = x.
Proof.
  intros H. unfold max0. destruct (Qle_bool 0 x) eqn:E; [reflexivity |].
  exfalso. apply Qlt_le_weak, Qle_bool_iff in H. congruence.
Qed.

Lemma max0_le x y : (0 < x)%Q -> (x <= max0 y)%Q -> (x <= y)%Q.
Proof.
  intros Hx. unfold max0. destruct (Qle_bool 0 y); [tauto |].
  intros H. exfalso. exact (Qlt_not_le _ _ Hx H).
Qed.

Lemma rank_fold now client slots :
  Permutation (map r_slot (rankSlots now slots client)) slots
  /\ (forall r, In r (rankSlots now slots client) ->
                r_score r = scoreOf now client (r_slot r))
  /\ StronglySorted (fun a b => (r_score b <= r_score a)%Q) (rankSlots now slots client).
Proof.
  unfold rankSlots. induction slots as [| s slots (IHp & IHs & IHo)].
  - simpl. repeat split; [constructor | intros r [] | constructor].
  - cbn [map fold_right].
    set (x := mkRanked s (scoreOf now client s)).
    set (l := fold_right insertByScore [] _) in *.
    pose proof (insertByScore_perm x l) as Hperm.
    split; [| split].
    + apply Permutation_sym. eapply perm_trans; [| apply Permutation_map; exact Hperm].
      cbn [map r_slot]. apply perm_skip. apply Permutation_sym. exact IHp.
    + intros r Hr. apply (Permutation_in _ (Permutation_sym Hperm)) in Hr.
      destruct Hr as [<- | Hr]; [reflexivity | exact (IHs r Hr)].
    + apply insertByScore_sorted. exact IHo.
Qed.

(** In a list sorted by decreasing score, what comes first scores at
    least as much as what comes after. *)
Lemma sorted_before l1 (a : Ranked) l2 b l3 :
  StronglySorted (fun a b => (r_score b <= r_score a)%Q) (l1 ++ a :: l2 ++ b :: l3) ->
  (r_score b <= r_score a)%Q.
Proof.
  induction l1 as [| x l1 IH]; cbn [app]; intros H; inversion H as [| ? ? Hrest Hall]; subst.
  - apply (proj1 (Forall_forall _ _) Hall b). apply in_or_app. right. left. reflexivity.
  - exact (IH Hrest).
Qed.

Lemma daysAway_le now a b :
  (daysAway now a <= daysAway now b)%Q <-> Slot.start a <= Slot.start b.
Proof.
  unfold daysAway, Qdiv.
  assert (Hpos : (0 < / inject_Z (1000 * 60 * 60 * 24))%Q) by reflexivity.
  rewrite (Qmult_le_r _ _ _ Hpos), <- Zle_Qle. lia.
Qed.

End RankFacts.


(** X20. Sooner is better: of two ranked slots that are both, or neither, with
    a preferred therapist, and of which the one ranked lower starts less
    than 30 days from now, the one ranked higher starts no later. *)
Theorem sooner_slots_rank_first now slots client l1 a l2 b l3 :
  SlotRanker.rankSlots now slots client = l1 ++ a :: l2 ++ b :: l3 ->
  SlotRanker.prefersTherapist client (SlotRanker.r_slot a)
  = SlotRanker.prefersTherapist client (SlotRanker.r_slot b) ->
  Slot.start (SlotRanker.r_slot b) < now + 30 * DateTime.MS_PER_DAY ->
  Slot.start (SlotRanker.r_slot a) <= Slot.start (SlotRanker.r_slot b).
Proof.
  intros Hrank Hpref Hsoon.
  destruct (rank_fold now client slots) as (_ & Hs & Ho).
  rewrite Hrank in Hs, Ho.
  pose proof (sorted_before _ _ _ _ _ Ho) as Hle.
  rewrite (Hs a), (Hs b) in Hle;
    [| apply in_or_app; right; right; apply in_or_app; right; left; reflexivity
     | apply in_or_app; right; left; reflexivity].
  unfold SlotRanker.scoreOf in Hle. rewrite Hpref in Hle.
  assert (Hb : (0 < 30 - SlotRanker.daysAway now (SlotRanker.r_slot b))%Q).
  { assert (Hd : (SlotRanker.daysAway now (SlotRanker.r_slot b) < 30)%Q).
    { unfold SlotRanker.daysAway. apply Qlt_shift_div_r; [reflexivity |].
      change (30 * inject_Z (1000 * 60 * 60 * 24))%Q
        with (inject_Z 30 * inject_Z (1000 * 60 * 60 * 24))%Q.
      rewrite <- inject_Z_mult, <- Zlt_Qlt.
      unfold DateTime.MS_PER_DAY in Hsoon. lia. }
    lra. }
  rewrite (max0_pos _ Hb) in Hle.
  assert (Hle' : (30 - SlotRanker.daysAway now (SlotRanker.r_slot b)
                  <= SlotRanker.max0 (30 - SlotRanker.daysAway now (SlotRanker.r_slot a)))%Q).
  { destruct (SlotRanker.prefersTherapist client (SlotRanker.r_slot b)); lra. }
  apply (max0_le _ _ Hb) in Hle'.
  apply (daysAway_le now). lra.
Qed.

Section SuggestFacts.

Import SlotRanker.

Lemma sorted_app_le (l1 l2 : list Ranked) :
  StronglySorted (fun a b => (r_score b <= r_score a)%Q) (l1 ++ l2) ->
  forall a b, In a l1 -> In b l2 -> (r_score b <= r_score a)%Q.
Proof.
  induction l1 as [| x l1 IH]; cbn [app]; intros H a b Ha Hb; [destruct Ha |].
  inversion H as [| ? ? Hrest Hall]; subst.
  destruct Ha as [<- | Ha]; [| exact (IH Hrest a b Ha Hb)].
  apply (proj1 (Forall_forall _ _) Hall b). apply in_or_app. right. exact Hb.
Qed.

End SuggestFacts.

(** X21. [suggestSlots] answers with the best twenty.  When it answers with
    suggestions, the ids cast, the dates are valid, and [total] counts
    every slot [findSlots] found (for [sessionMinutes || 60]);
    [rankedSlots] holds the first twenty of the ranking, or all of them
    when there are fewer, each of them a slot that was found, and no slot
    left out scores more than one that is returned.  Every other answer
    has status 400; when the ids cast and the client or the therapist is
    not in the store, it is "Client or therapist not found". *)
Theorem suggestSlots_top_twenty fuel tz env body db :
  (forall total rankedSlots,
      SlotRanker.suggestSlots fuel tz env body db
      = Some (SlotRanker.Suggested total rankedSlots) ->
      exists clientId therapistId from to client therapist slots,
        SlotRanker.b_clientId body = Some clientId
        /\ SlotRanker.b_therapistId body = Some therapistId
        /\ SlotRanker.b_from body = Some from
        /\ SlotRanker.b_to body = Some to
        /\ SchedulingService.findSlots
             fuel tz
             (SchedulingService.mkArgs
                clientId therapistId from to
                (SlotRanker.sessionMinutesOr60 (SlotRanker.b_sessionMinutes body))) db
           = Some (SchedulingService.Slots client therapist slots)
        /\ total = List.length slots
        /\ rankedSlots = firstn 20 (SlotRanker.rankSlots (now env) slots client)
        /\ List.length rankedSlots = Nat.min 20 total
        /\ (forall r, In r rankedSlots -> In (SlotRanker.r_slot r) slots)
        /\ (forall r r', In r rankedSlots ->
                         In r' (skipn 20 (SlotRanker.rankSlots (now env) slots client)) ->
                         (SlotRanker.r_score r' <= SlotRanker.r_score r)%Q))
  /\ (forall r,
         SlotRanker.suggestSlots fuel tz env body db = Some r ->
         (exists total rankedSlots, r = SlotRanker.Suggested total rankedSlots)
         \/ SlotRanker.replyCode r = 400)
  /\ (forall clientId therapistId,
         SlotRanker.b_clientId body = Some clientId ->
         SlotRanker.b_therapistId body = Some therapistId ->
         Mongo.findClientById clientId (clients db) = None
         \/ Mongo.findTherapistById therapistId (therapists db) = None ->
         SlotRanker.suggestSlots fuel tz env body db
         = Some (SlotRanker.Failed 400 "Client or therapist not found")).
Proof.
  unfold SlotRanker.suggestSlots. split; [| split].
  - intros total rankedSlots.
    destruct (SlotRanker.b_clientId body) as [cid |]; [| discriminate].
    destruct (SlotRanker.b_therapistId body) as [tid |]; [| discriminate].
    destruct (SlotRanker.b_from body) as [from |];
      [| destruct (Mongo.findClientById _ _);
         [destruct (Mongo.findTherapistById _ _) |]; discriminate].
    destruct (SlotRanker.b_to body) as [to |];
      [| destruct (Mongo.findClientById _ _);
         [destruct (Mongo.findTherapistById _ _) |]; discriminate].
    destruct (SchedulingService.findSlots _ _ _ _) as [[| client therapist slots] |] eqn:Ef;
      try discriminate.
    cbv zeta. remember (firstn 20 (SlotRanker.rankSlots (now env) slots client)) as top
      eqn:Etop.
    intros E. injection E as <- <-.
    destruct (rank_fold (now env) client slots) as (Hp & Hs & Ho).
    exists cid, tid, from, to, client, therapist, slots.
    do 4 (split; [reflexivity |]). split; [exact Ef |].
    assert (Hlen : List.length (SlotRanker.rankSlots (now env) slots client)
                   = List.length slots).
    { rewrite <- (Permutation_length Hp). symmetry. apply length_map. }
    split; [exact Hlen |]. split; [exact Etop |].
    split; [rewrite Etop, length_firstn, Hlen; reflexivity |]. split.
    + intros r Hr. apply (Permutation_in _ Hp). apply in_map.
      rewrite <- (firstn_skipn 20). apply in_or_app. left. rewrite <- Etop. exact Hr.
    + intros r r' Hr Hr'. rewrite <- (firstn_skipn 20) in Ho. rewrite Etop in Hr.
      exact (sorted_app_le _ _ Ho r r' Hr Hr').
  - intros r.
    destruct (SlotRanker.b_clientId body) as [cid |];
      [| intros E; injection E as <-; right; reflexivity].
    destruct (SlotRanker.b_therapistId body) as [tid |];
      [| intros E; injection E as <-; right; reflexivity].
    destruct (SlotRanker.b_from body) as [from |];
      [| destruct (Mongo.findClientById _ _);
         [destruct (Mongo.findTherapistById _ _) |];
         intros E; injection E as <-; right; reflexivity].
    destruct (SlotRanker.b_to body) as [to |];
      [| destruct (Mongo.findClientById _ _);
         [destruct (Mongo.findTherapistById _ _) |];
         intros E; injection E as <-; right; reflexivity].
    destruct (SchedulingService.findSlots _ _ _ _) as [[| client therapist slots] |];
      [intros E; injection E as <-; right; reflexivity | | discriminate].
    cbv zeta. intros E. injection E as <-. left. do 2 eexists. reflexivity.
  - intros cid tid -> -> Hmiss.
    assert (Hnot : match Mongo.findClientById cid (clients db),
                         Mongo.findTherapistById tid (therapists db) with
                   | Some _, Some _ => False
                   | _, _ => True
                   end).
    { destruct Hmiss as [-> | ->]; [exact I |].
      destruct (Mongo.findClientById cid (clients db)); exact I. }
    unfold SchedulingService.findSlots.
    cbn [SchedulingService.a_clientId SchedulingService.a_therapistId].
    destruct (SlotRanker.b_from body) as [from |]; [destruct (SlotRanker.b_to body) as [to |] |];
      (destruct (Mongo.findClientById cid (clients db));
       [destruct (Mongo.findTherapistById tid (therapists db));
        [destruct Hnot | reflexivity]
       | reflexivity]).
Qed.

(** [sooner_slots_rank_first] on two slots of Monday 2026-02-09 given in
    the other order. *)
Lemma sooner_slots_rank_first_witness :
  Slot.start Scenario.nineToTen <= Slot.start Scenario.tenToEleven.
Proof.
  refine (sooner_slots_rank_first
            (now Scenario.env) [Scenario.tenToEleven; Scenario.nineToTen] Examples.picky
            []
            (SlotRanker.mkRanked
               Scenario.nineToTen
               (SlotRanker.scoreOf (now Scenario.env) Examples.picky Scenario.nineToTen))
            []
            (SlotRanker.mkRanked
               Scenario.tenToEleven
               (SlotRanker.scoreOf (now Scenario.env) Examples.picky Scenario.tenToEleven))
            [] _ _ _).
  - vm_compute. reflexivity.
  - reflexivity.
  - vm_compute. reflexivity.
Defined.

(** [suggestSlots_top_twenty] on a request without [sessionMinutes]: three
    slots of 60 minutes are found on Monday 2026-02-09 and all three are
    returned. *)
Lemma suggestSlots_top_twenty_witness :
  exists clientId therapistId from to client therapist slots,
    SlotRanker.b_clientId Examples.mondayBody = Some clientId
    /\ SlotRanker.b_therapistId Examples.mondayBody = Some therapistId
    /\ SlotRanker.b_from Examples.mondayBody = Some from
    /\ SlotRanker.b_to Examples.mondayBody = Some to
    /\ SchedulingService.findSlots
         10 0
         (SchedulingService.mkArgs
            clientId therapistId from to
            (SlotRanker.sessionMinutesOr60 (SlotRanker.b_sessionMinutes Examples.mondayBody)))
         Scenario.db0
       = Some (SchedulingService.Slots client therapist slots)
    /\ 3%nat = List.length slots
    /\ SlotRanker.rankSlots (now Scenario.env) Examples.mondaySlots
                            (Client.mk Scenario.clientC2 None None)
       = firstn 20 (SlotRanker.rankSlots (now Scenario.env) slots client)
    /\ List.length (SlotRanker.rankSlots (now Scenario.env) Examples.mondaySlots
                                         (Client.mk Scenario.clientC2 None None))
       = Nat.min 20 3
    /\ (forall r, In r (SlotRanker.rankSlots (now Scenario.env) Examples.mondaySlots
                                             (Client.mk Scenario.clientC2 None None)) ->
                  In (SlotRanker.r_slot r) slots)
    /\ (forall r r',
           In r (SlotRanker.rankSlots (now Scenario.env) Examples.mondaySlots
                                      (Client.mk Scenario.clientC2 None None)) ->
           In r' (skipn 20 (SlotRanker.rankSlots (now Scenario.env) slots client)) ->
           (SlotRanker.r_score r' <= SlotRanker.r_score r)%Q).
Proof.
  refine (proj1 (suggestSlots_top_twenty 10 0 Scenario.env Examples.mondayBody Scenario.db0)
                3%nat
                (SlotRanker.rankSlots (now Scenario.env) Examples.mondaySlots
                                      (Client.mk Scenario.clientC2 None None))
                _).
  vm_compute. reflexivity.
Defined.

Section TimeTextFacts.

Import TimeText.

Lemma isDigit_value c : isDigit c = true -> 0 <= digitValue c <= 9.
Proof.
  unfold isDigit, PublicController.isDigit, digitValue. cbv zeta.
  rewrite andb_true_iff, !Nat.leb_le. lia.
Qed.

Lemma inClass_value lo hi c :
  inClass lo hi c = true ->
  Z.of_nat lo - 48 <= digitValue c <= Z.of_nat hi - 48.
Proof.
  unfold inClass, digitValue. cbv zeta. rewrite andb_true_iff, !Nat.leb_le. lia.
Qed.

Lemma inClass_digit lo hi c :
  (48 <= lo)%nat -> (hi <= 57)%nat -> inClass lo hi c = true -> isDigit c = true.
Proof.
  unfold inClass, isDigit, PublicController.isDigit. cbv zeta.
  rewrite !andb_true_iff, !Nat.leb_le. lia.
Qed.

Lemma colon_not_digit c : isColon c = true -> isDigit c = false.
Proof.
  unfold isColon, isDigit, PublicController.isDigit. cbv zeta.
  rewrite Nat.eqb_eq. intros ->. reflexivity.
Qed.

Lemma digit_not_colon c : isDigit c = true -> isColon c = false.
Proof.
  intros H. destruct (isColon c) eqn:E; [| reflexivity].
  rewrite (colon_not_digit _ E) in H. discriminate.
Qed.

Lemma digit_not_space c : isDigit c = true -> isSpace c = false.
Proof.
  unfold isDigit, PublicController.isDigit, isSpace, Js.isSpace. cbv zeta.
  rewrite andb_true_iff, !Nat.leb_le. intros [H1 H2].
  apply orb_false_iff. split.
  - apply andb_false_iff. right. apply Nat.leb_gt. lia.
  - apply Nat.eqb_neq. lia.
Qed.

Lemma digit_not_sign c :
  isDigit c = true ->
  (nat_of_ascii c =? 45)%nat = false /\ (nat_of_ascii c =? 43)%nat = false.
Proof.
  unfold isDigit, PublicController.isDigit. cbv zeta.
  rewrite andb_true_iff, !Nat.leb_le, !Nat.eqb_neq. lia.
Qed.

(** The shapes [HHMM_REGEX] accepts. *)
Lemma matchesHHMM_shape s :
  matchesHHMM s = true ->
  (exists h m1 m2 c,
      list_ascii_of_string s = [h; c; m1; m2]
      /\ isDigit h = true /\ isColon c = true
      /\ inClass 48 53 m1 = true /\ isDigit m2 = true)
  \/ (exists h1 h2 m1 m2 c,
         list_ascii_of_string s = [h1; h2; c; m1; m2]
         /\ isDigit h1 = true /\ isDigit h2 = true
         /\ digitValue h1 * 10 + digitValue h2 <= 23
         /\ isColon c = true
         /\ inClass 48 53 m1 = true /\ isDigit m2 = true).
Proof.
  unfold matchesHHMM.
  destruct (list_ascii_of_string s) as [| a [| b [| c [| d [| e [| f l]]]]]];
    try discriminate.
  - rewrite !andb_true_iff. intros [[[H1 H2] H3] H4]. left. exists a, c, d, b. auto.
  - rewrite !andb_true_iff, orb_true_iff, !andb_true_iff.
    intros [[[[[Ha Hb] | [Ha Hb]] Hc] Hd] He]; right; exists a, b, d, e, c.
    + pose proof (inClass_value _ _ _ Ha). pose proof (isDigit_value _ Hb).
      repeat split; try assumption; [| simpl in *; lia].
      apply (inClass_digit 48 49); [lia | lia | exact Ha].
    + pose proof (inClass_value _ _ _ Ha). pose proof (inClass_value _ _ _ Hb).
      repeat split; try assumption; [| | simpl in *; lia].
      * apply (inClass_digit 50 50); [lia | lia | exact Ha].
      * apply (inClass_digit 48 51); [lia | lia | exact Hb].
Qed.

Lemma length_list_ascii s : List.length (list_ascii_of_string s) = String.length s.
Proof. induction s as [| c s IH]; [reflexivity | simpl; rewrite IH; reflexivity]. Qed.

End TimeTextFacts.

(** X22. On zero-padded text the readings agree.  A string that [isValidTime]
    accepts and whose trimmed text has five characters ("09:30") denotes
    a time of the day with hours in 0..23 and minutes in 0..59, and
    [timeToMinutes] of the availability controller and the [slice] and
    [parseInt] reading of [isWithinAvailability] give the same minutes. *)
Theorem padded_time_readings_agree s :
  TimeText.isValidTime (JStr s) = true ->
  TimeText.isPadded (Js.trim s) = true ->
  exists h m,
    TimeText.fields s = Some (HHmm.mk h m)
    /\ 0 <= h <= 23 /\ 0 <= m <= 59
    /\ TimeText.timeToMinutes s = Some (h * 60 + m)
    /\ TimeText.sliceMinutes (Js.trim s) = Some (h * 60 + m).
Proof.
  unfold TimeText.isValidTime, TimeText.isPadded. intros Hvalid Hpad.
  apply Nat.eqb_eq in Hpad.
  destruct (matchesHHMM_shape _ Hvalid)
    as [(h & m1 & m2 & c & E & _) | (h1 & h2 & m1 & m2 & c & E & Hh1 & Hh2 & H23 & Hc & Hm1 & Hm2)].
  { rewrite <- length_list_ascii, E in Hpad. discriminate. }
  pose proof (inClass_value _ _ _ Hm1) as Vm1.
  pose proof (inClass_digit 48 53 _ ltac:(lia) ltac:(lia) Hm1) as Dm1.
  pose proof (isDigit_value _ Hh1). pose proof (isDigit_value _ Hh2).
  pose proof (isDigit_value _ Hm2).
  exists (TimeText.digitValue h1 * 10 + TimeText.digitValue h2),
         (TimeText.digitValue m1 * 10 + TimeText.digitValue m2).
  assert (Hf : TimeText.fields s
               = Some (HHmm.mk (TimeText.digitValue h1 * 10 + TimeText.digitValue h2)
                               (TimeText.digitValue m1 * 10 + TimeText.digitValue m2))).
  { unfold TimeText.fields. rewrite E.
    cbn [TimeText.splitColon]. rewrite (digit_not_colon _ Hh1), (digit_not_colon _ Hh2), Hc.
    rewrite (digit_not_colon _ Dm1), (digit_not_colon _ Hm2).
    cbn [rev app TimeText.numberOfDigits TimeText.decimal].
    rewrite Hh1, Hh2, Dm1, Hm2. reflexivity. }
  split; [exact Hf |]. split; [lia |]. split; [simpl in Vm1; lia |].
  split; [unfold TimeText.timeToMinutes; rewrite Hf; reflexivity |].
  unfold TimeText.sliceMinutes. rewrite E. cbn [firstn skipn].
  unfold TimeText.parseInt10. cbn [TimeText.skipSpaces].
  rewrite (digit_not_space _ Hh1), (digit_not_space _ Dm1).
  destruct (digit_not_sign _ Hh1) as [-> ->]. destruct (digit_not_sign _ Dm1) as [-> ->].
  cbn [TimeText.digitsPrefix]. rewrite Hh1, Hh2, Dm1, Hm2. reflexivity.
Qed.

(** X23. On text that is not zero-padded they differ.  A string that
    [isValidTime] accepts and whose trimmed text has four characters
    ("9:30") is read by [timeToMinutes] as hour and minutes, but by the
    [slice] and [parseInt] reading of [isWithinAvailability] as the hour
    and the last digit of the minutes: the tens of the minutes are lost. *)
Theorem unpadded_time_read_differently s :
  TimeText.isValidTime (JStr s) = true ->
  TimeText.isPadded (Js.trim s) = false ->
  exists h m1 m2,
    0 <= h <= 9 /\ 0 <= m1 <= 5 /\ 0 <= m2 <= 9
    /\ TimeText.timeToMinutes s = Some (h * 60 + (m1 * 10 + m2))
    /\ TimeText.sliceMinutes (Js.trim s) = Some (h * 60 + m2).
Proof.
  unfold TimeText.isValidTime, TimeText.isPadded. intros Hvalid Hpad.
  apply Nat.eqb_neq in Hpad.
  destruct (matchesHHMM_shape _ Hvalid)
    as [(h & m1 & m2 & c & E & Hh & Hc & Hm1 & Hm2) | (h1 & h2 & m1 & m2 & c & E & _)].
  2: { rewrite <- length_list_ascii, E in Hpad. exfalso. apply Hpad. reflexivity. }
  pose proof (inClass_value _ _ _ Hm1) as Vm1.
  pose proof (inClass_digit 48 53 _ ltac:(lia) ltac:(lia) Hm1) as Dm1.
  pose proof (isDigit_value _ Hh). pose proof (isDigit_value _ Hm2).
  exists (TimeText.digitValue h), (TimeText.digitValue m1), (TimeText.digitValue m2).
  split; [lia |]. split; [simpl in Vm1; lia |]. split; [lia |]. split.
  - unfold TimeText.timeToMinutes, TimeText.fields. rewrite E.
    cbn [TimeText.splitColon]. rewrite (digit_not_colon _ Hh), Hc.
    rewrite (digit_not_colon _ Dm1), (digit_not_colon _ Hm2).
    cbn [rev app TimeText.numberOfDigits TimeText.decimal].
    rewrite Hh, Dm1, Hm2. reflexivity.
  - unfold TimeText.sliceMinutes. rewrite E. cbn [firstn skipn].
    unfold TimeText.parseInt10. cbn [TimeText.skipSpaces].
    rewrite (digit_not_space _ Hh), (digit_not_space _ Hm2).
    destruct (digit_not_sign _ Hh) as [-> ->]. destruct (digit_not_sign _ Hm2) as [-> ->].
    cbn [TimeText.digitsPrefix]. rewrite Hh, (colon_not_digit _ Hc), Hm2. reflexivity.
Qed.

(** [padded_time_readings_agree] on [" 09:30 "]: both readings give 570
    minutes. *)
Lemma padded_time_readings_agree_witness :
  exists h m,
    TimeText.fields " 09:30 " = Some (HHmm.mk h m)
    /\ 0 <= h <= 23 /\ 0 <= m <= 59
    /\ TimeText.timeToMinutes " 09:30 " = Some (h * 60 + m)
    /\ TimeText.sliceMinutes (Js.trim " 09:30 ") = Some (h * 60 + m).
Proof.
  refine (padded_time_readings_agree " 09:30 " _ _).
  - vm_compute. reflexivity.
  - vm_compute. reflexivity.
Defined.

(** [unpadded_time_read_differently] on ["9:30"]: 570 minutes for the
    availability controller, 540 for [isWithinAvailability]. *)
Lemma unpadded_time_read_differently_witness :
  exists h m1 m2,
    0 <= h <= 9 /\ 0 <= m1 <= 5 /\ 0 <= m2 <= 9
    /\ TimeText.timeToMinutes "9:30" = Some (h * 60 + (m1 * 10 + m2))
    /\ TimeText.sliceMinutes (Js.trim "9:30") = Some (h * 60 + m2).
Proof.
  refine (unpadded_time_read_differently "9:30" _ _).
  - vm_compute. reflexivity.
  - vm_compute. reflexivity.
Defined.

Section AvailabilityCreateFacts.

Import TimeText AvailabilityController.

(** What [split] and [Number] read from a time that [isValidTime]
    accepts. *)
Lemma valid_fields v :
  isValidTime v = true ->
  exists s h m, v = JStr s /\ fields s = Some (HHmm.mk h m)
                /\ 0 <= h <= 23 /\ 0 <= m <= 59.
Proof.
  intros Hv. destruct v as [| s |]; try discriminate.
  unfold isValidTime in Hv.
  destruct (matchesHHMM_shape _ Hv)
    as [(h & m1 & m2 & c & E & Hh & Hc & Hm1 & Hm2)
       | (h1 & h2 & m1 & m2 & c & E & Hh1 & Hh2 & H23 & Hc & Hm1 & Hm2)];
    pose proof (inClass_value _ _ _ Hm1) as Vm1;
    pose proof (inClass_digit 48 53 _ ltac:(lia) ltac:(lia) Hm1) as Dm1;
    pose proof (isDigit_value _ Hm2).
  - pose proof (isDigit_value _ Hh).
    exists s, (digitValue h), (digitValue m1 * 10 + digitValue m2).
    split; [reflexivity |]. split; [| simpl in Vm1; lia].
    unfold fields. rewrite E.
    cbn [splitColon]. rewrite (digit_not_colon _ Hh), Hc.
    rewrite (digit_not_colon _ Dm1), (digit_not_colon _ Hm2).
    cbn [rev app numberOfDigits decimal].
    rewrite Hh, Dm1, Hm2. reflexivity.
  - pose proof (isDigit_value _ Hh1). pose proof (isDigit_value _ Hh2).
    exists s, (digitValue h1 * 10 + digitValue h2), (digitValue m1 * 10 + digitValue m2).
    split; [reflexivity |]. split; [| simpl in Vm1; lia].
    unfold fields. rewrite E.
    cbn [splitColon]. rewrite (digit_not_colon _ Hh1), (digit_not_colon _ Hh2), Hc.
    rewrite (digit_not_colon _ Dm1), (digit_not_colon _ Hm2).
    cbn [rev app numberOfDigits decimal].
    rewrite Hh1, Hh2, Dm1, Hm2. reflexivity.
Qed.

Lemma colon_not_space c : isColon c = true -> isSpace c = false.
Proof.
  unfold isColon, isSpace, Js.isSpace. cbv zeta. rewrite Nat.eqb_eq. intros ->. reflexivity.
Qed.

Lemma string_of_chars s l : list_ascii_of_string s = l -> s = string_of_list_ascii l.
Proof. intros <-. symmetry. apply string_of_list_ascii_of_string. Qed.

(** A text that matches [HHMM_REGEX] has nothing to trim. *)
Lemma valid_trim t : matchesHHMM t = true -> Js.trim t = t.
Proof.
  intros Hv.
  destruct (matchesHHMM_shape _ Hv)
    as [(h & m1 & m2 & c & E & Hh & Hc & Hm1 & Hm2)
       | (h1 & h2 & m1 & m2 & c & E & Hh1 & Hh2 & H23 & Hc & Hm1 & Hm2)];
    pose proof (inClass_digit 48 53 _ ltac:(lia) ltac:(lia) Hm1) as Dm1;
    apply string_of_chars in E; subst t;
    cbn [string_of_list_ascii]; unfold Js.trim; cbn [Js.trimStart Js.trimEnd].
  - pose proof (digit_not_space _ Hh) as S1. pose proof (digit_not_space _ Hm2) as S2.
    unfold isSpace in S1, S2. rewrite S1. cbn [Js.trimEnd]. rewrite S2. reflexivity.
  - pose proof (digit_not_space _ Hh1) as S1. pose proof (digit_not_space _ Hm2) as S2.
    unfold isSpace in S1, S2. rewrite S1. cbn [Js.trimEnd]. rewrite S2. reflexivity.
Qed.

Lemma fields_trim s : matchesHHMM (Js.trim s) = true -> fields (Js.trim s) = fields s.
Proof. intros Hv. unfold fields. rewrite (valid_trim _ Hv). reflexivity. Qed.

(** What the two readings give of a stored text. *)
Lemma stored_fields t :
  matchesHHMM t = true ->
  exists h m, fields t = Some (HHmm.mk h m) /\ 0 <= h <= 23 /\ 0 <= m <= 59.
Proof.
  intros Hv.
  destruct (valid_fields (JStr t)) as (s & h & m & E & Hf & Hh & Hm).
  { unfold isValidTime. rewrite (valid_trim _ Hv). exact Hv. }
  injection E as <-. exists h, m. auto.
Qed.

Lemma stored_padded_slice t p :
  matchesHHMM t = true -> isPadded t = true -> fields t = Some p ->
  sliceMinutes t = Some (SessionController.minutesOf p).
Proof.
  intros Hv Hpad Hf. unfold isPadded in Hpad. apply Nat.eqb_eq in Hpad.
  unfold fields in Hf. rewrite (valid_trim _ Hv) in Hf.
  destruct (matchesHHMM_shape _ Hv)
    as [(h & m1 & m2 & c & E & _) | (h1 & h2 & m1 & m2 & c & E & Hh1 & Hh2 & H23 & Hc & Hm1 & Hm2)].
  { rewrite <- length_list_ascii, E in Hpad. discriminate. }
  pose proof (inClass_digit 48 53 _ ltac:(lia) ltac:(lia) Hm1) as Dm1.
  rewrite E in Hf. cbn [splitColon] in Hf.
  rewrite (digit_not_colon _ Hh1), (digit_not_colon _ Hh2), Hc in Hf.
  rewrite (digit_not_colon _ Dm1), (digit_not_colon _ Hm2) in Hf.
  cbn [rev app numberOfDigits decimal] in Hf.
  rewrite Hh1, Hh2, Dm1, Hm2 in Hf. injection Hf as <-.
  unfold sliceMinutes. rewrite E. cbn [firstn skipn].
  unfold parseInt10. cbn [skipSpaces].
  rewrite (digit_not_space _ Hh1), (digit_not_space _ Dm1).
  destruct (digit_not_sign _ Hh1) as [-> ->]. destruct (digit_not_sign _ Dm1) as [-> ->].
  cbn [digitsPrefix]. rewrite Hh1, Hh2, Dm1, Hm2. reflexivity.
Qed.

(** The cases of [createAvailability]. *)
Lemma createAvailability_cases castId user body db docs r docs' :
  createAvailability castId user body db docs = (r, docs') ->
  (docs' = docs /\ forall code doc, r <> Created code doc)
  \/ exists tid day s e st en,
      therapistFor castId user body db = inr tid
      /\ normalizeDayOfWeek (c_dayOfWeek body) = Some day
      /\ c_startTime body = JStr s /\ c_endTime body = JStr e
      /\ matchesHHMM (Js.trim s) = true /\ matchesHHMM (Js.trim e) = true
      /\ fields (Js.trim s) = Some st
      /\ fields (Js.trim e) = Some en
      /\ (0 <= HHmm.hh st <= 23 /\ 0 <= HHmm.mm st <= 59)
      /\ (0 <= HHmm.hh en <= 23 /\ 0 <= HHmm.mm en <= 59)
      /\ HHmm.timeToMinutes st < HHmm.timeToMinutes en
      /\ findOverlappingSlots tid day (Js.trim s) (Js.trim e) docs = []
      /\ r = Created 201 (AvailabilityDoc.mk tid day (Js.trim s) (Js.trim e))
      /\ docs' = docs ++ [AvailabilityDoc.mk tid day (Js.trim s) (Js.trim e)].
Proof.
  unfold createAvailability.
  destruct (therapistFor castId user body db) as [r0 | tid] eqn:Ht.
  { intros E. injection E as <- <-. left. split; [reflexivity |].
    unfold therapistFor in Ht.
    destruct (u_role user) as [[| |] |]; try (injection Ht as <-; discriminate).
    - destruct (blank _); [injection Ht as <-; discriminate |].
      destruct (castId _); [| injection Ht as <-; discriminate].
      destruct (Mongo.findTherapistById _ _); [discriminate |].
      injection Ht as <-. discriminate.
    - destruct (getTherapistIdForUser user); [discriminate |].
      injection Ht as <-. discriminate. }
  destruct (normalizeDayOfWeek (c_dayOfWeek body)) as [day |] eqn:Hd;
    [| intros E; injection E as <- <-; left; split; [reflexivity | discriminate]].
  destruct (isValidTime (c_startTime body)) eqn:Hs; cbn [negb];
    [| intros E; injection E as <- <-; left; split; [reflexivity | discriminate]].
  destruct (isValidTime (c_endTime body)) eqn:He; cbn [negb];
    [| intros E; injection E as <- <-; left; split; [reflexivity | discriminate]].
  destruct (valid_fields _ Hs) as (s & hs & ms & Es & Fs & Hhs & Hms).
  destruct (valid_fields _ He) as (e & he & me & Ee & Fe & Hhe & Hme).
  rewrite Es, Ee in *. unfold isValidTime in Hs, He.
  unfold timeToMinutes at 1 2. rewrite Fs, Fe.
  cbn [option_map AvailabilityDoc.compareNumbers]. cbv zeta.
  unfold HHmm.timeToMinutes. cbn [HHmm.hh HHmm.mm].
  destruct (Z.leb_spec (he * 60 + me) (hs * 60 + ms)) as [Hle | Hlt];
    [intros E; injection E as <- <-; left; split; [reflexivity | discriminate] |].
  destruct (findOverlappingSlots tid day (Js.trim s) (Js.trim e) docs) eqn:Ho;
    [| intros E; injection E as <- <-; left; split; [reflexivity | discriminate]].
  intros E. injection E as <- <-. right.
  exists tid, day, s, e, (HHmm.mk hs ms), (HHmm.mk he me).
  split; [reflexivity |]. split; [reflexivity |]. split; [reflexivity |].
  split; [reflexivity |]. split; [exact Hs |]. split; [exact He |].
  split; [rewrite (fields_trim _ Hs); exact Fs |].
  split; [rewrite (fields_trim _ He); exact Fe |].
  split; [cbn [HHmm.hh HHmm.mm]; tauto |].
  split; [cbn [HHmm.hh HHmm.mm]; tauto |].
  split; [unfold HHmm.timeToMinutes; cbn [HHmm.hh HHmm.mm]; lia |].
  split; [exact Ho |]. split; reflexivity.
Qed.



End AvailabilityCreateFacts.


(** X25. A slot cannot be created twice: after a 201, the same request on the
    new store is answered 409 and stores nothing. *)
Theorem slot_cannot_be_created_twice castId user body db docs doc docs' :
  AvailabilityController.createAvailability castId user body db docs
  = (AvailabilityController.Created 201 doc, docs') ->
  AvailabilityController.createAvailability castId user body db docs'
  = (AvailabilityController.Message
       409 "This slot overlaps with an existing slot for the same day", docs').
Proof.
  intros Hc.
  destruct (createAvailability_cases _ _ _ _ _ _ _ Hc)
    as [[_ Hr] | (tid & day & s & e & st & en & Ht & Hd & Es & Ee & Vs & Ve
                  & Fs & Fe & _ & _ & Hlt & Ho & Er & ->)].
  { exfalso. exact (Hr 201 doc eq_refl). }
  unfold AvailabilityController.createAvailability.
  rewrite Ht, Hd, Es, Ee. unfold TimeText.isValidTime. rewrite Vs, Ve. cbn [negb].
  assert (Ms : TimeText.timeToMinutes s = Some (HHmm.timeToMinutes st)).
  { unfold TimeText.timeToMinutes. rewrite <- (fields_trim _ Vs), Fs. reflexivity. }
  assert (Me : TimeText.timeToMinutes e = Some (HHmm.timeToMinutes en)).
  { unfold TimeText.timeToMinutes. rewrite <- (fields_trim _ Ve), Fe. reflexivity. }
  rewrite Ms, Me. cbn [AvailabilityDoc.compareNumbers]. cbv zeta.
  destruct (Z.leb_spec (HHmm.timeToMinutes en) (HHmm.timeToMinutes st)); [lia |].
  unfold AvailabilityController.findOverlappingSlots.
  rewrite !filter_app. fold (AvailabilityController.findOverlappingSlots
                               tid day (Js.trim s) (Js.trim e) docs).
  rewrite Ho. cbn [filter AvailabilityDoc.therapist AvailabilityDoc.dayOfWeek app].
  unfold Oid.eqb. rewrite N.eqb_refl, Day_eqb_refl. cbn [andb filter].
  cbn [AvailabilityDoc.startTime AvailabilityDoc.endTime].
  assert (Hself : AvailabilityController.timesOverlap
                    (Js.trim s) (Js.trim e) (Js.trim s) (Js.trim e) = true).
  { unfold AvailabilityController.timesOverlap, TimeText.timeToMinutes. cbv zeta.
    rewrite Fs, Fe. cbn [option_map AvailabilityDoc.compareNumbers].
    apply andb_true_iff. rewrite Z.ltb_lt, Z.gtb_lt. lia. }
  rewrite Hself. reflexivity.
Qed.

Section StoredReadings.

Import TimeText SessionController.

(** Reading the documents with [slice] and [parseInt], as
    [isWithinAvailability] does, is reading their records when every time
    is zero-padded. *)
Lemma record_padded d :
  AvailabilityDoc.valid d = true -> AvailabilityDoc.zeroPadded d = true ->
  exists a,
    AvailabilityDoc.record d = Some a
    /\ Availability.therapist a = AvailabilityDoc.therapist d
    /\ Availability.dayOfWeek a = AvailabilityDoc.dayOfWeek d
    /\ sliceMinutes (AvailabilityDoc.startTime d) = Some (minutesOf (Availability.startTime a))
    /\ sliceMinutes (AvailabilityDoc.endTime d) = Some (minutesOf (Availability.endTime a)).
Proof.
  unfold AvailabilityDoc.valid, AvailabilityDoc.zeroPadded, AvailabilityDoc.record.
  rewrite !andb_true_iff. intros [Vs Ve] [Ps Pe].
  destruct (stored_fields _ Vs) as (hs & ms & Fs & _).
  destruct (stored_fields _ Ve) as (he & me & Fe & _).
  rewrite Fs, Fe. eexists. split; [reflexivity |].
  cbn [Availability.therapist Availability.dayOfWeek Availability.startTime
       Availability.endTime].
  split; [reflexivity |]. split; [reflexivity |].
  split; [exact (stored_padded_slice _ _ Vs Ps Fs) | exact (stored_padded_slice _ _ Ve Pe Fe)].
Qed.

Lemma record_times_of_day d a :
  AvailabilityDoc.valid d = true -> AvailabilityDoc.record d = Some a ->
  0 <= HHmm.timeToMinutes (Availability.startTime a)
  /\ HHmm.timeToMinutes (Availability.endTime a) < 1440.
Proof.
  unfold AvailabilityDoc.valid, AvailabilityDoc.record.
  rewrite andb_true_iff. intros [Vs Ve].
  destruct (stored_fields _ Vs) as (hs & ms & Fs & Hhs & Hms).
  destruct (stored_fields _ Ve) as (he & me & Fe & Hhe & Hme).
  rewrite Fs, Fe. intros E. injection E as <-.
  unfold HHmm.timeToMinutes. cbn. lia.
Qed.

Lemma records_In docs a :
  In a (AvailabilityDoc.records docs) ->
  exists d, In d docs /\ AvailabilityDoc.record d = Some a.
Proof.
  induction docs as [| d docs IH]; cbn [AvailabilityDoc.records]; [intros [] |].
  destruct (AvailabilityDoc.record d) as [a' |] eqn:E.
  - intros [<- | Hin]; [exists d; split; [left; reflexivity | exact E] |].
    destruct (IH Hin) as (d' & Hd' & Hr). exists d'. split; [right; exact Hd' | exact Hr].
  - intros Hin. destruct (IH Hin) as (d' & Hd' & Hr).
    exists d'. split; [right; exact Hd' | exact Hr].
Qed.

Lemma isWithinAvailability_as_existsb docs therapistId start end_ :
  AvailabilityDoc.isWithinAvailability docs therapistId start end_
  = existsb (fun s =>
               AvailabilityDoc.compareNumbers
                 Z.geb (Some (minutesOf (dateToHHmmUTC start)))
                 (sliceMinutes (AvailabilityDoc.startTime s))
               && AvailabilityDoc.compareNumbers
                    Z.leb (Some (minutesOf (dateToHHmmUTC end_)))
                    (sliceMinutes (AvailabilityDoc.endTime s)))
            (filter (fun a => refIs (AvailabilityDoc.therapist a) therapistId
                              && Day_eqb (AvailabilityDoc.dayOfWeek a)
                                         (dateToDayOfWeekUTC start)) docs).
Proof.
  unfold AvailabilityDoc.isWithinAvailability. cbv zeta.
  destruct (filter _ docs); reflexivity.
Qed.

Lemma isWithinAvailability_pairs db therapistId start end_ :
  isWithinAvailability db therapistId start end_
  = existsb (fun s => (minutesOf (dateToHHmmUTC start) >=? minutesOf (Availability.startTime s))
                      && (minutesOf (dateToHHmmUTC end_) <=? minutesOf (Availability.endTime s)))
            (filter (fun a => refIs (Availability.therapist a) therapistId
                              && Day_eqb (Availability.dayOfWeek a) (dateToDayOfWeekUTC start))
                    (availability db)).
Proof.
  unfold isWithinAvailability. cbv zeta.
  destruct (filter _ (availability db)); reflexivity.
Qed.

(** On zero-padded documents the availability test of the store is the
    test of the code. *)
Lemma isWithinAvailability_on_padded docs db :
  Forall (fun d => AvailabilityDoc.valid d = true) docs ->
  Forall (fun d => AvailabilityDoc.zeroPadded d = true) docs ->
  availability db = AvailabilityDoc.records docs ->
  forall therapistId start end_,
    AvailabilityDoc.isWithinAvailability docs therapistId start end_
    = isWithinAvailability db therapistId start end_.
Proof.
  intros Hv Hp Hav therapistId start end_.
  rewrite isWithinAvailability_as_existsb, isWithinAvailability_pairs, Hav.
  clear Hav. induction docs as [| d docs IH]; [reflexivity |].
  inversion Hv as [| ? ? Vd Vrest]; inversion Hp as [| ? ? Pd Prest]; subst.
  destruct (record_padded d Vd Pd) as (a & Er & Et & Ed & Es & Ee).
  cbn [AvailabilityDoc.records filter]. rewrite Er. cbn [filter].
  rewrite Et, Ed.
  destruct (refIs (AvailabilityDoc.therapist d) therapistId
            && Day_eqb (AvailabilityDoc.dayOfWeek d) (dateToDayOfWeekUTC start)).
  - cbn [existsb]. rewrite Es, Ee. cbn [AvailabilityDoc.compareNumbers].
    f_equal. exact (IH Vrest Prest).
  - exact (IH Vrest Prest).
Qed.

End StoredReadings.

(** X26. A created slot with zero-padded times opens its hours, and no slot
    closes any.  After a 201 of [createAvailability] for times written
    with two digits for the hour, [isWithinAvailability] accepts for the
    slot's therapist every interval that starts on the slot's weekday
    (UTC) and whose minutes of the day lie between the slot's times.
    Whatever the times, every interval that was accepted before is
    still accepted. *)
Theorem created_slot_admits_bookings castId user body db docs doc docs' :
  AvailabilityController.createAvailability castId user body db docs
  = (AvailabilityController.Created 201 doc, docs') ->
  (AvailabilityDoc.zeroPadded doc = true ->
   forall startMin endMin start end_,
     TimeText.timeToMinutes (AvailabilityDoc.startTime doc) = Some startMin ->
     TimeText.timeToMinutes (AvailabilityDoc.endTime doc) = Some endMin ->
     SessionController.dateToDayOfWeekUTC start = AvailabilityDoc.dayOfWeek doc ->
     startMin <= SessionController.minutesOf (SessionController.dateToHHmmUTC start) ->
     SessionController.minutesOf (SessionController.dateToHHmmUTC end_) <= endMin ->
     AvailabilityDoc.isWithinAvailability docs' (Some (AvailabilityDoc.therapist doc))
                                          start end_ = true)
  /\ (forall therapistId start end_,
         AvailabilityDoc.isWithinAvailability docs therapistId start end_ = true ->
         AvailabilityDoc.isWithinAvailability docs' therapistId start end_ = true).
Proof.
  intros Hc.
  destruct (createAvailability_cases _ _ _ _ _ _ _ Hc)
    as [[_ Hr] | (tid & day & s & e & st & en & _ & _ & _ & _ & Vs & Ve
                  & _ & _ & _ & _ & _ & _ & Er & ->)].
  { exfalso. exact (Hr 201 doc eq_refl). }
  injection Er as ->. split.
  - intros Hpad startMin endMin start end_ Hs He Hday Hlo Hhi.
    rewrite isWithinAvailability_as_existsb, filter_app, existsb_app.
    cbn [AvailabilityDoc.therapist AvailabilityDoc.dayOfWeek AvailabilityDoc.startTime
         AvailabilityDoc.endTime filter SessionController.refIs] in *.
    unfold Oid.eqb. rewrite N.eqb_refl, Hday, Day_eqb_refl. cbn [andb existsb].
    cbn [AvailabilityDoc.startTime AvailabilityDoc.endTime].
    unfold AvailabilityDoc.zeroPadded in Hpad.
    cbn [AvailabilityDoc.startTime AvailabilityDoc.endTime] in Hpad.
    apply andb_true_iff in Hpad. destruct Hpad as [Ps Pe].
    unfold TimeText.timeToMinutes in Hs, He.
    destruct (TimeText.fields (Js.trim s)) as [ps |] eqn:Fs; [| discriminate].
    destruct (TimeText.fields (Js.trim e)) as [pe |] eqn:Fe; [| discriminate].
    cbn [option_map] in Hs, He. injection Hs as <-. injection He as <-.
    rewrite (stored_padded_slice _ _ Vs Ps Fs), (stored_padded_slice _ _ Ve Pe Fe).
    cbn [AvailabilityDoc.compareNumbers].
    apply orb_true_iff. right. rewrite orb_false_r.
    apply andb_true_iff. rewrite Z.geb_le, Z.leb_le.
    unfold SessionController.minutesOf, HHmm.timeToMinutes in *. lia.
  - intros therapistId start end_ H.
    rewrite isWithinAvailability_as_existsb in *.
    rewrite filter_app, existsb_app, H. reflexivity.
Qed.

(** The same slot written without the zero ("9:00" to "9:30") is created
    all the same, and does not admit its own half hour: the test reads its
    end as 9:00. *)
Lemma unpadded_slot_refuses_its_hours :
  AvailabilityController.createAvailability
    Examples.hexId Examples.userB Examples.earlyBody Scenario.db0 Examples.docs0
  = (AvailabilityController.Created 201 Examples.earlySlot,
     Examples.docs0 ++ [Examples.earlySlot])
  /\ AvailabilityDoc.isWithinAvailability
       (Examples.docs0 ++ [Examples.earlySlot]) (Some (Oid.cast Scenario.therapistB))
       1770627600000 1770629400000 = false.
Proof. split; vm_compute; reflexivity. Qed.

(** X16. A listed slot can be booked, on a store whose Availability times
    are zero-padded.  Take a start time that [getAvailableSlots] lists
    for a therapist on a date (the platform reading the date at noon
    UTC).  A booking of exactly that slot, for that therapist, by a
    client of the store who has no session of their own at that time, is
    accepted by [bookSession] when the therapist has a profile: the
    availability test and the therapist conflict query agree with the
    listing. *)
Theorem listed_slot_is_bookable
        docs fuel env query db result ts timeStr dateStr dateObj req c therapistIdStr :
  Forall (fun d => AvailabilityDoc.valid d = true) docs ->
  Forall (fun d => AvailabilityDoc.zeroPadded d = true) docs ->
  availability db = AvailabilityDoc.records docs ->
  PublicController.getAvailableSlots fuel env query db
  = Some (PublicController.SlotsJson result) ->
  In ts result ->
  In timeStr (PublicController.ts_slots ts) ->
  PublicController.q_date query = Some dateStr ->
  newDate env (dateStr ++ "T12:00:00.000Z") = Some dateObj ->
  dateObj mod DateTime.MS_PER_DAY = 12 * DateTime.MS_PER_HOUR ->
  SessionController.bookParse env req
  = inr (c, therapistIdStr,
         PublicController.slotStart dateObj timeStr,
         PublicController.slotEnd
           dateObj timeStr
           (PublicController.durationMinutes (PublicController.q_durationMinutes query))) ->
  Oid.cast therapistIdStr = PublicController.ts_therapistId ts ->
  Invariant.therapistStored db (PublicController.ts_therapistId ts) = true ->
  Invariant.clientStored db c = true ->
  SessionController.findClientConflict
    None (Some c)
    (PublicController.slotStart dateObj timeStr)
    (PublicController.slotEnd
       dateObj timeStr
       (PublicController.durationMinutes (PublicController.q_durationMinutes query)))
    (sessions db) = None ->
  AvailabilityDoc.isWithinAvailability
    docs (Some (PublicController.ts_therapistId ts))
    (PublicController.slotStart dateObj timeStr)
    (PublicController.slotEnd
       dateObj timeStr
       (PublicController.durationMinutes (PublicController.q_durationMinutes query)))
  = true
  /\ exists created,
      SessionController.bookSession env req db
      = (SessionReply 201 created, withSessions db (sessions db ++ [created])).
Proof.
  intros Hv Hp Hav Hget Hts Hslot Hq Hdate Hnoon Hparse Hcast Hst Hsc Hclient.
  assert (Htimes : forall a, In a (availability db) ->
                             0 <= HHmm.timeToMinutes (Availability.startTime a)
                             /\ HHmm.timeToMinutes (Availability.endTime a) < 1440).
  { intros a Ha. rewrite Hav in Ha.
    destruct (records_In _ _ Ha) as (d & Hd & Hr).
    apply (record_times_of_day d a); [| exact Hr].
    exact (proj1 (Forall_forall _ _) Hv d Hd). }
  pose proof (listed_slot_bookable_on_records
                fuel env query db result ts timeStr dateStr dateObj req c therapistIdStr
                Hget Hts Hslot Hq Hdate Hnoon Htimes Hparse Hcast Hst Hsc Hclient)
    as [created Hbook].
  split; [| exists created; exact Hbook].
  rewrite (isWithinAvailability_on_padded docs db Hv Hp Hav).
  unfold SessionController.bookSession in Hbook. rewrite Hparse in Hbook.
  unfold SessionController.bookLookups in Hbook. rewrite Hcast in Hbook.
  destruct (Mongo.findTherapistById _ _); [| discriminate].
  destruct (Mongo.findClientById _ _); [| discriminate].
  destruct (SessionController.isWithinAvailability _ _ _ _); [reflexivity | discriminate].
Qed.

(** On a store that is not zero-padded the listing and the booking part:
    with therapist B's slot "9:00" to "9:30", 09:00 is listed for a
    duration of 30 minutes, and the availability test refuses
    09:00-09:30. *)
Lemma unpadded_slot_listed_and_refused :
  PublicController.getAvailableSlots
    10 Scenario.env (PublicController.mkQuery (Some "2026-02-09"%string) (Some 30))
    (mkDb [] (therapists Scenario.dbOrphaned) (clients Scenario.db0)
          (AvailabilityDoc.records [Examples.earlySlot]))
  = Some (PublicController.SlotsJson
            [PublicController.mkTherapistSlots (Oid.cast Scenario.therapistB) "Dr B"
                                               [HHmm.mk 9 0]])
  /\ AvailabilityDoc.isWithinAvailability
       [Examples.earlySlot] (Some (Oid.cast Scenario.therapistB))
       1770627600000 1770629400000 = false.
Proof. split; vm_compute; reflexivity. Qed.


(** [slot_cannot_be_created_twice] on the same request of therapist A. *)
Lemma slot_cannot_be_created_twice_witness :
  AvailabilityController.createAvailability
    Examples.hexId Examples.userA Examples.mondayAfternoon Scenario.db0
    (Examples.docs0 ++ [Examples.afternoonSlot])
  = (AvailabilityController.Message
       409 "This slot overlaps with an existing slot for the same day",
     Examples.docs0 ++ [Examples.afternoonSlot]).
Proof.
  refine (slot_cannot_be_created_twice
            Examples.hexId Examples.userA Examples.mondayAfternoon Scenario.db0
            Examples.docs0 Examples.afternoonSlot _ _).
  vm_compute. reflexivity.
Defined.

(** [created_slot_admits_bookings]: Monday 2026-02-09 13:00-14:00 lies
    within the availability of therapist A once the afternoon is open. *)
Lemma created_slot_admits_bookings_witness :
  AvailabilityDoc.isWithinAvailability
    Examples.docs0 (Some (Oid.cast Scenario.therapistA)) 1770642000000 1770645600000 = false
  /\ AvailabilityDoc.isWithinAvailability
       (Examples.docs0 ++ [Examples.afternoonSlot]) (Some (Oid.cast Scenario.therapistA))
       1770642000000 1770645600000 = true.
Proof.
  split; [vm_compute; reflexivity |].
  refine (proj1 (created_slot_admits_bookings
                   Examples.hexId Examples.userA Examples.mondayAfternoon Scenario.db0
                   Examples.docs0 Examples.afternoonSlot _ _)
                _ 780 900 1770642000000 1770645600000 _ _ _ _ _).
  - vm_compute. reflexivity.
  - vm_compute. reflexivity.
  - vm_compute. reflexivity.
  - vm_compute. reflexivity.
  - vm_compute. reflexivity.
  - apply Z.leb_le. vm_compute. reflexivity.
  - apply Z.leb_le. vm_compute. reflexivity.
Defined.

(** [listed_slot_is_bookable] on Monday 2026-02-09: 09:00 is listed for
    therapist A in slots of 60 minutes, and C1 books 09:00-10:00. *)
Lemma listed_slot_is_bookable_witness :
  AvailabilityDoc.isWithinAvailability
    Examples.docs0 (Some (Oid.cast Scenario.therapistA))
    (PublicController.slotStart 1770638400000 (HHmm.mk 9 0))
    (PublicController.slotEnd
       1770638400000 (HHmm.mk 9 0)
       (PublicController.durationMinutes
          (PublicController.q_durationMinutes Scenario.mondayQuery))) = true
  /\ exists created,
      SessionController.bookSession Scenario.env Scenario.hourAtNine Scenario.db0
      = (SessionReply 201 created,
         withSessions Scenario.db0 (sessions Scenario.db0 ++ [created])).
Proof.
  refine (listed_slot_is_bookable
            Examples.docs0
            10 Scenario.env Scenario.mondayQuery Scenario.db0
            [PublicController.mkTherapistSlots
               (Oid.cast Scenario.therapistA) "Dr A"
               [HHmm.mk 9 0; HHmm.mk 10 0; HHmm.mk 11 0]]
            (PublicController.mkTherapistSlots
               (Oid.cast Scenario.therapistA) "Dr A"
               [HHmm.mk 9 0; HHmm.mk 10 0; HHmm.mk 11 0])
            (HHmm.mk 9 0) "2026-02-09" 1770638400000
            Scenario.hourAtNine Scenario.clientC1 Scenario.therapistA
            _ _ _ _ _ _ _ _ _ _ _ _ _ _).
  - constructor; [vm_compute; reflexivity | constructor].
  - constructor; [vm_compute; reflexivity | constructor].
  - vm_compute. reflexivity.
  - vm_compute. reflexivity.
  - left. reflexivity.
  - left. reflexivity.
  - reflexivity.
  - vm_compute. reflexivity.
  - vm_compute. reflexivity.
  - vm_compute. reflexivity.
  - reflexivity.
  - vm_compute. reflexivity.
  - vm_compute. reflexivity.
  - vm_compute. reflexivity.
Defined.

Section TimeOffFacts.

Import DateTime SchedulingService TherapistController Reference.

Lemma find_saveTherapist t l id :
  Mongo.findTherapistById (Therapist._id t) l <> None ->
  Mongo.findTherapistById id (saveTherapist t l)
  = if Oid.eqb (Therapist._id t) id then Some t else Mongo.findTherapistById id l.
Proof.
  unfold Mongo.findTherapistById.
  induction l as [| x l IH]; intros Hf; [exfalso; apply Hf; reflexivity |].
  cbn [saveTherapist find] in *. unfold Oid.eqb in *.
  destruct (N.eqb_spec (Therapist._id x) (Therapist._id t)) as [E | NE].
  - cbn [find]. rewrite E. destruct (N.eqb (Therapist._id t) id); reflexivity.
  - cbn [find].
    destruct (N.eqb_spec (Therapist._id x) id) as [E' | NE'].
    + destruct (N.eqb_spec (Therapist._id t) id) as [E'' | _]; [congruence | reflexivity].
    + apply IH. exact Hf.
Qed.

Lemma find_therapist_id id l t :
  Mongo.findTherapistById id l = Some t -> Therapist._id t = id.
Proof.
  unfold Mongo.findTherapistById. intros H. apply find_some in H.
  apply N.eqb_eq. exact (proj2 H).
Qed.

(** What [addTimeOff] leaves of the store: sessions, clients and
    availability records as they were, and a therapist under each id that
    had one, with the same weekly blocks. *)
Lemma addTimeOff_store req db :
  let db' := snd (addTimeOff req db) in
  sessions db' = sessions db /\ clients db' = clients db
  /\ availability db' = availability db
  /\ forall id,
      match Mongo.findTherapistById id (therapists db) with
      | None => Mongo.findTherapistById id (therapists db') = None
      | Some t =>
          Mongo.findTherapistById id (therapists db') = Some t
          \/ exists start end_,
              t_params req = Some id /\ t_start req = Some start /\ t_end req = Some end_
              /\ Mongo.findTherapistById id (therapists db')
                 = Some (pushTimeOff t start end_)
      end.
Proof.
  unfold addTimeOff.
  destruct (t_params req) as [pid |] eqn:Ep;
    [| cbn; repeat split; intros id; destruct (Mongo.findTherapistById id _); auto].
  destruct (Mongo.findTherapistById pid (therapists db)) as [th |] eqn:Ef;
    [| cbn; repeat split; intros id; destruct (Mongo.findTherapistById id _); auto].
  destruct (t_start req) as [start |] eqn:Es;
    [| cbn; repeat split; intros id; destruct (Mongo.findTherapistById id _); auto].
  destruct (t_end req) as [end_ |] eqn:Ee;
    [| cbn; repeat split; intros id; destruct (Mongo.findTherapistById id _); auto].
  cbn [snd sessions clients availability therapists withTherapists].
  repeat split. intros id.
  pose proof (find_therapist_id _ _ _ Ef) as Hid.
  rewrite find_saveTherapist
    by (cbn [pushTimeOff Therapist._id]; rewrite Hid, Ef; discriminate).
  cbn [pushTimeOff Therapist._id]. rewrite Hid. unfold Oid.eqb.
  destruct (N.eqb_spec pid id) as [<- | NE].
  - rewrite Ef. right. exists start, end_. repeat split.
  - destruct (Mongo.findTherapistById id (therapists db)); auto.
Qed.

(** The slicing loop appends to what was collected. *)
Lemma slice_appends fuel tz tid sm w :
  forall cur slots r,
    slice fuel tz tid sm w cur slots = Some r ->
    exists ext, r = slots ++ ext
                /\ forall slots2, slice fuel tz tid sm w cur slots2 = Some (slots2 ++ ext).
Proof.
  induction fuel as [| fuel IH]; intros cur slots r; [discriminate |].
  cbn [slice]. destruct (Qle_bool _ _).
  - intros H. destruct (IH _ _ _ H) as (ext & -> & Hall).
    eexists. split; [rewrite <- app_assoc; reflexivity |].
    intros slots2. rewrite Hall, <- app_assoc. reflexivity.
  - intros H. injection H as <-. exists []. split; [rewrite app_nil_r; reflexivity |].
    intros slots2. rewrite app_nil_r. reflexivity.
Qed.

Lemma window_more_off tz day pref timeOff off sessions bs be tr :
  window tz day pref (timeOff ++ [off]) sessions bs be tr = None
  \/ window tz day pref (timeOff ++ [off]) sessions bs be tr
     = window tz day pref timeOff sessions bs be tr.
Proof.
  unfold window.
  destruct (IntervalMath.overlapInterval _ _) as [i |]; [| left; reflexivity].
  destruct (applyHardConstraints _ _ _ _) as [i' |]; [| left; reflexivity].
  rewrite existsb_app. cbn [existsb]. rewrite orb_false_r.
  destruct (existsb _ timeOff); [left; reflexivity |].
  cbn [orb]. destruct (fullyBlocked i' (Therapist.offInterval off));
    [left; reflexivity | right; reflexivity].
Qed.

Lemma overRanges_more_off fuel tz day tid sm pref timeOff off sessions bs be ranges :
  forall slots slots2 r,
    incl slots2 slots ->
    overRanges fuel tz day tid sm pref timeOff sessions bs be ranges slots = Some r ->
    exists r2,
      overRanges fuel tz day tid sm pref (timeOff ++ [off]) sessions bs be ranges slots2
      = Some r2
      /\ incl r2 r.
Proof.
  induction ranges as [| tr rest IH]; intros slots slots2 r Hincl; cbn [overRanges].
  - intros H. injection H as <-. exists slots2. split; [reflexivity | exact Hincl].
  - destruct (window_more_off tz day pref timeOff off sessions bs be tr) as [-> | ->].
    + destruct (window tz day pref timeOff sessions bs be tr) as [w |]; [| apply IH; exact Hincl].
      destruct (slice fuel tz tid sm w (Interval.start w) slots) as [s1 |] eqn:Es;
        [| discriminate].
      destruct (slice_appends _ _ _ _ _ _ _ _ Es) as (ext & -> & _).
      apply IH. apply incl_appl. exact Hincl.
    + destruct (window tz day pref timeOff sessions bs be tr) as [w |]; [| apply IH; exact Hincl].
      destruct (slice fuel tz tid sm w (Interval.start w) slots) as [s1 |] eqn:Es;
        [| discriminate].
      destruct (slice_appends _ _ _ _ _ _ _ _ Es) as (ext & -> & Hall).
      rewrite Hall. apply IH. apply incl_app_app; [exact Hincl | apply incl_refl].
Qed.

Lemma overBlocks_more_off fuel tz day tid sm pref timeOff off sessions blocks :
  forall slots slots2 r,
    incl slots2 slots ->
    overBlocks fuel tz day tid sm pref timeOff sessions blocks slots = Some r ->
    exists r2,
      overBlocks fuel tz day tid sm pref (timeOff ++ [off]) sessions blocks slots2 = Some r2
      /\ incl r2 r.
Proof.
  induction blocks as [| b rest IH]; intros slots slots2 r Hincl; cbn [overBlocks].
  - intros H. injection H as <-. exists slots2. split; [reflexivity | exact Hincl].
  - destruct (overRanges fuel tz day tid sm pref timeOff sessions _ _ _ slots)
      as [s1 |] eqn:E1; [| discriminate].
    destruct (overRanges_more_off _ _ _ _ _ _ _ off _ _ _ _ _ _ _ Hincl E1)
      as (s2 & -> & Hincl2).
    apply IH. exact Hincl2.
Qed.

Lemma overDays_more_off fuel tz th start end_ tid sm pref sessions to :
  forall dayFuel day slots slots2 r,
    incl slots2 slots ->
    overDays fuel dayFuel tz th tid sm pref sessions to day slots = Some r ->
    exists r2,
      overDays fuel dayFuel tz (pushTimeOff th start end_) tid sm pref sessions to day slots2
      = Some r2
      /\ incl r2 r.
Proof.
  induction dayFuel as [| dayFuel IH]; intros day slots slots2 r Hincl; [discriminate |].
  cbn [overDays]. destruct (day <? to).
  - destruct (skipDay pref (getDay tz day)); [apply IH; exact Hincl |].
    cbn [pushTimeOff Therapist.weeklyAvailability Therapist.timeOff].
    destruct (overBlocks fuel tz day tid sm pref (Therapist.timeOff th) sessions _ slots)
      as [s1 |] eqn:E1; [| discriminate].
    destruct (overBlocks_more_off _ _ _ _ _ _ _ (Therapist.mkOff start end_) _ _ _ _ _
                                  Hincl E1) as (s2 & -> & Hincl2).
    apply IH. exact Hincl2.
  - intros H. injection H as <-. exists slots2. split; [reflexivity | exact Hincl].
Qed.

End TimeOffFacts.

(** X27. Time off only removes suggestions.  Whatever [addTimeOff] answered,
    a search of [findSlots] that ended before still ends, for the same
    client, and suggests no slot it did not suggest before.  When the
    time off was added to the therapist of the search, every slot still
    suggested was cut from one of the windows of the search before (the
    window of a visited day, a weekly block of the therapist for that
    day and a time range of the client), and the new time off does not
    cover that window whole. *)
Theorem addTimeOff_only_removes_suggestions fuel tz args req db client therapist slots :
  (0 <= SchedulingService.a_sessionMinutes args)%Q ->
  SchedulingService.findSlots fuel tz args db
  = Some (SchedulingService.Slots client therapist slots) ->
  exists therapist' slots',
    SchedulingService.findSlots fuel tz args (snd (TherapistController.addTimeOff req db))
    = Some (SchedulingService.Slots client therapist' slots')
    /\ incl slots' slots
    /\ forall start end_,
        TherapistController.t_params req = Some (SchedulingService.a_therapistId args) ->
        TherapistController.t_start req = Some start ->
        TherapistController.t_end req = Some end_ ->
        forall x, In x slots' ->
          exists day block tr w,
            SchedulingService.a_from args <= day < SchedulingService.a_to args
            /\ In block (Therapist.weeklyAvailability therapist)
            /\ Therapist.dayOfWeek block = DateTime.getDay tz day
            /\ In tr (SchedulingService.timeRangesFor
                        (match Client.preferences client with
                         | Some p => p
                         | None => Client.noPreferences
                         end) block)
            /\ SchedulingService.window
                 tz day
                 (match Client.preferences client with
                  | Some p => p
                  | None => Client.noPreferences
                  end)
                 (Therapist.timeOff therapist)
                 (SchedulingService.sessionsInRange
                    (SchedulingService.a_therapistId args) (SchedulingService.a_from args)
                    (SchedulingService.a_to args) (sessions db))
                 (SchedulingService.atTime tz day (Therapist.startTime block))
                 (SchedulingService.atTime tz day (Therapist.endTime block)) tr
               = Some w
            /\ Reference.slicedFrom (SchedulingService.a_sessionMinutes args) w x
            /\ IntervalMath.contains (Interval.mk start end_) w = false.
Proof.
  intros Hsm Hfind.
  destruct (addTimeOff_store req db) as (Hs & Hc & _ & Ht).
  set (db' := snd (TherapistController.addTimeOff req db)) in *.
  unfold SchedulingService.findSlots in Hfind |- *.
  rewrite Hs, Hc.
  destruct (Mongo.findClientById _ (clients db)) as [c |] eqn:Ec; [| discriminate].
  specialize (Ht (SchedulingService.a_therapistId args)).
  destruct (Mongo.findTherapistById _ (therapists db)) as [th |] eqn:Eth; [| discriminate].
  destruct (SchedulingService.overDays _ _ _ _ _ _ _ _ _ _ _) as [r |] eqn:Eo;
    [| discriminate].
  injection Hfind as <- <- <-.
  destruct Ht as [Hsame | (start & end_ & Hp & Hst & Hen & Hnew)].
  - rewrite Hsame, Eo. exists th, r. split; [reflexivity |]. split; [apply incl_refl |].
    intros start end_ Hp Hst Hen x Hx.
    (* the profile is as before only if the push changed nothing: it did *)
    exfalso. subst db'. unfold TherapistController.addTimeOff in Hsame.
    rewrite Hp, Eth, Hst, Hen in Hsame.
    cbn [snd therapists TherapistController.withTherapists] in Hsame.
    rewrite find_saveTherapist in Hsame
      by (cbn [TherapistController.pushTimeOff Therapist._id];
          rewrite (find_therapist_id _ _ _ Eth), Eth; discriminate).
    cbn [TherapistController.pushTimeOff Therapist._id] in Hsame.
    rewrite (find_therapist_id _ _ _ Eth) in Hsame.
    unfold Oid.eqb in Hsame. rewrite N.eqb_refl in Hsame.
    injection Hsame as Hsame.
    assert (Hlen : List.length (Therapist.timeOff th ++ [Therapist.mkOff start end_])
                   = List.length (Therapist.timeOff th))
      by (rewrite <- Hsame at 2; reflexivity).
    rewrite length_app in Hlen. cbn in Hlen. lia.
  - rewrite Hnew.
    destruct (overDays_more_off _ _ _ start end_ _ _ _ _ _ _ _ _ _ _ (incl_refl []) Eo)
      as (r2 & Er2 & Hincl).
    rewrite Er2. exists (TherapistController.pushTimeOff th start end_), r2.
    split; [reflexivity |]. split; [exact Hincl |].
    intros start' end_' Hp' Hst' Hen' x Hx.
    rewrite Hst in Hst'. rewrite Hen in Hen'. injection Hst' as <-. injection Hen' as <-.
    destruct (overDays_prov _ _ _ _ _ _ _ _ Hsm _ _ _ _ Er2 x Hx)
      as [[] | (d & block & tr & w & Hd & _ & Hb & Hdow & Htr & Hw & Hsl)].
    cbn [TherapistController.pushTimeOff Therapist.weeklyAvailability
         Therapist.timeOff] in Hb, Hw.
    exists d, block, tr, w.
    split; [exact Hd |]. split; [exact Hb |]. split; [exact Hdow |]. split; [exact Htr |].
    pose proof (window_open _ _ _ _ _ _ _ _ _ Hw) as [_ (_ & Hoff & _)].
    split; [| split; [exact Hsl |]].
    + destruct (window_more_off tz d
                  (match Client.preferences c with
                   | Some p => p
                   | None => Client.noPreferences
                   end)
                  (Therapist.timeOff th) (Therapist.mkOff start end_)
                  (SchedulingService.sessionsInRange
                     (SchedulingService.a_therapistId args) (SchedulingService.a_from args)
                     (SchedulingService.a_to args) (sessions db))
                  (SchedulingService.atTime tz d (Therapist.startTime block))
                  (SchedulingService.atTime tz d (Therapist.endTime block)) tr)
        as [Hnone | Heq].
      * rewrite Hnone in Hw. discriminate.
      * rewrite <- Heq. exact Hw.
    + apply (Hoff (Therapist.mkOff start end_)).
      apply in_or_app. right. left. reflexivity.
Qed.

(** X28. Time off never blocks a booking.  After [addTimeOff], whatever it
    answered, [bookSession] and [rescheduleSession] answer what they
    answered before and store the sessions they stored before. *)
Theorem time_off_never_blocks_booking env off db book move :
  let db' := snd (TherapistController.addTimeOff off db) in
  SessionController.bookSession env book db'
  = (fst (SessionController.bookSession env book db),
     TherapistController.withTherapists
       (snd (SessionController.bookSession env book db)) (therapists db'))
  /\ SessionController.rescheduleSession env move db'
     = (fst (SessionController.rescheduleSession env move db),
        TherapistController.withTherapists
          (snd (SessionController.rescheduleSession env move db)) (therapists db')).
Proof.
  cbv zeta.
  destruct (addTimeOff_store off db) as (Hs & Hc & Ha & Ht).
  set (db' := snd (TherapistController.addTimeOff off db)) in *.
  assert (Hdb : db' = TherapistController.withTherapists db (therapists db')).
  { destruct db' as [s t c a]. cbn in *. subst. reflexivity. }
  assert (Hsome : forall id,
             option_map Therapist._id (Mongo.findTherapistById id (therapists db'))
             = option_map Therapist._id (Mongo.findTherapistById id (therapists db))).
  { intros id. specialize (Ht id).
    destruct (Mongo.findTherapistById id (therapists db)) as [t |].
    - destruct Ht as [-> | (s & e & _ & _ & _ & ->)]; reflexivity.
    - rewrite Ht. reflexivity. }
  assert (Hwithin : forall t s e,
             SessionController.isWithinAvailability db' t s e
             = SessionController.isWithinAvailability db t s e).
  { intros t s e. unfold SessionController.isWithinAvailability. rewrite Ha. reflexivity. }
  split.
  - unfold SessionController.bookSession.
    destruct (SessionController.bookParse env book) as [r | [[[c t] s] e]];
      [cbn [fst snd]; f_equal; exact Hdb |].
    unfold SessionController.bookLookups. rewrite Hwithin, Hc.
    pose proof (Hsome (Oid.cast t)) as Hst.
    destruct (Mongo.findTherapistById (Oid.cast t) (therapists db')) as [th' |],
             (Mongo.findTherapistById (Oid.cast t) (therapists db)) as [th |];
      try discriminate; [| cbn [fst snd]; f_equal; exact Hdb].
    destruct (Mongo.findClientById c (clients db));
      [| cbn [fst snd]; f_equal; exact Hdb].
    destruct (SessionController.isWithinAvailability db (Some (Oid.cast t)) s e);
      cbn [negb returnIf]; [| cbn [fst snd]; f_equal; exact Hdb].
    unfold SessionController.bookInTransaction, SessionController.bookDirect.
    rewrite Hs.
    destruct (production env);
      (destruct (SessionController.findTherapistConflict _ _ _ _ _);
       [cbn [fst snd]; f_equal; exact Hdb |];
       destruct (SessionController.findClientConflict _ _ _ _ _);
       [cbn [fst snd]; f_equal; exact Hdb |];
       destruct (Mongo.create _ _ _ _ _ _) as [[|] | [cr l]];
       cbn [fst snd]; f_equal; try exact Hdb;
       rewrite Hdb at 1; reflexivity).
  - unfold SessionController.rescheduleSession.
    destruct (SessionController.rescheduleParse env move) as [r | [s e]];
      [cbn [fst snd]; f_equal; exact Hdb |].
    unfold SessionController.findExisting. rewrite Hs.
    destruct (SessionController.params_id move) as [id |]; [| cbn [fst snd]; f_equal; exact Hdb].
    destruct (Mongo.findSessionById id (sessions db)) as [x |];
      cbn [option_map]; [| cbn [fst snd]; f_equal; exact Hdb].
    assert (Hpop : SessionController.populate db' x = SessionController.populate db x).
    { unfold SessionController.populate. rewrite Hsome, Hc. reflexivity. }
    rewrite Hpop, Hwithin. cbv zeta.
    repeat match goal with
           | |- context [if ?b then _ else _] =>
               destruct b; [cbn [fst snd]; f_equal; exact Hdb |]
           end.
    destruct (Mongo.save _ _) as [err | l]; cbn [fst snd]; f_equal; try exact Hdb.
    rewrite Hdb at 1. reflexivity.
Qed.

(** [addTimeOff_only_removes_suggestions] on Monday 2026-02-09, once
    therapist A is away from 09:00 to 10:00: the window 09:00-12:00 is not
    covered whole, and the three hours are suggested as before, the hour
    of the time off among them. *)
Lemma addTimeOff_only_removes_suggestions_witness :
  SchedulingService.findSlots
    10 0 Scenario.mondayArgs
    (snd (TherapistController.addTimeOff Examples.nineOff Scenario.db0))
  = Some (SchedulingService.Slots
            (Client.mk Scenario.clientC2 None None)
            (Therapist.mk (Oid.cast Scenario.therapistA) "Dr A"
                          [Therapist.mkBlock 1 (HHmm.mk 9 0) (HHmm.mk 12 0)]
                          [Therapist.mkOff 1770627600000 1770631200000])
            Examples.mondaySlots)
  /\ exists therapist' slots',
      SchedulingService.findSlots
        10 0 Scenario.mondayArgs
        (snd (TherapistController.addTimeOff Examples.nineOff Scenario.db0))
      = Some (SchedulingService.Slots (Client.mk Scenario.clientC2 None None)
                                      therapist' slots')
      /\ incl slots' Examples.mondaySlots
      /\ forall x, In x slots' ->
          exists day block tr w,
            SchedulingService.a_from Scenario.mondayArgs <= day
            < SchedulingService.a_to Scenario.mondayArgs
            /\ In block [Therapist.mkBlock 1 (HHmm.mk 9 0) (HHmm.mk 12 0)]
            /\ Therapist.dayOfWeek block = DateTime.getDay 0 day
            /\ In tr (SchedulingService.timeRangesFor Client.noPreferences block)
            /\ SchedulingService.window
                 0 day Client.noPreferences []
                 (SchedulingService.sessionsInRange
                    (SchedulingService.a_therapistId Scenario.mondayArgs)
                    (SchedulingService.a_from Scenario.mondayArgs)
                    (SchedulingService.a_to Scenario.mondayArgs) (sessions Scenario.db0))
                 (SchedulingService.atTime 0 day (Therapist.startTime block))
                 (SchedulingService.atTime 0 day (Therapist.endTime block)) tr
               = Some w
            /\ Reference.slicedFrom
                 (SchedulingService.a_sessionMinutes Scenario.mondayArgs) w x
            /\ IntervalMath.contains (Interval.mk 1770627600000 1770631200000) w = false.
Proof.
  split; [vm_compute; reflexivity |].
  assert (Hfind : SchedulingService.findSlots 10 0 Scenario.mondayArgs Scenario.db0
                  = Some (SchedulingService.Slots
                            (Client.mk Scenario.clientC2 None None)
                            (Therapist.mk (Oid.cast Scenario.therapistA) "Dr A"
                                          [Therapist.mkBlock 1 (HHmm.mk 9 0) (HHmm.mk 12 0)] [])
                            Examples.mondaySlots)).
  { vm_compute. reflexivity. }
  assert (Hsm : (0 <= SchedulingService.a_sessionMinutes Scenario.mondayArgs)%Q).
  { vm_compute. discriminate. }
  destruct (addTimeOff_only_removes_suggestions
              10 0 Scenario.mondayArgs Examples.nineOff Scenario.db0 _ _ _ Hsm Hfind)
    as (therapist' & slots' & Hafter & Hincl & Hopen).
  exists therapist', slots'. split; [exact Hafter |]. split; [exact Hincl |].
  intros x Hx.
  exact (Hopen 1770627600000 1770631200000 eq_refl eq_refl eq_refl x Hx).
Defined.

Section ProfileDeletionFacts.

Import AdminController.

Lemma cancelScheduled_In mine l s' :
  In s' (cancelScheduled mine l) ->
  exists s, In s l
            /\ (s' = s /\ (mine s = false \/ Session.status s <> scheduled)
                \/ s' = SessionLifecycle.withStatus s cancelled
                   /\ mine s = true /\ Session.status s = scheduled).
Proof.
  unfold cancelScheduled. intros H. apply in_map_iff in H.
  destruct H as (s & E & Hin). exists s. split; [exact Hin |].
  destruct (mine s) eqn:Em; cbn [andb] in E.
  - destruct (Session.status s) eqn:Es; cbn in E; subst s'.
    + right. repeat split.
    + left. split; [reflexivity | right; congruence].
    + left. split; [reflexivity | right; congruence].
  - subst s'. left. split; [reflexivity | left; reflexivity].
Qed.

Lemma cancelScheduled_ids mine l :
  map Session._id (cancelScheduled mine l) = map Session._id l.
Proof.
  unfold cancelScheduled. rewrite map_map. apply map_ext. intros s.
  destruct (mine s && Status_eqb (Session.status s) scheduled); reflexivity.
Qed.

Lemma find_deleteOne_other {A} (key : A -> Oid.t) id gone l :
  id <> gone ->
  find (fun x => Oid.eqb (key x) id) (deleteOne (fun x => Oid.eqb (key x) gone) l)
  = find (fun x => Oid.eqb (key x) id) l.
Proof.
  intros Hne. unfold Oid.eqb.
  induction l as [| x l IH]; [reflexivity |]. cbn [deleteOne find].
  destruct (N.eqb_spec (key x) gone) as [E | NE].
  - destruct (N.eqb_spec (key x) id); [congruence | reflexivity].
  - cbn [find]. rewrite IH. reflexivity.
Qed.

Lemma find_deleteOne_some {A} (key : A -> Oid.t) id gone l x :
  find (fun x => Oid.eqb (key x) id) (deleteOne (fun x => Oid.eqb (key x) gone) l) = Some x ->
  find (fun x => Oid.eqb (key x) id) l <> None.
Proof.
  unfold Oid.eqb. induction l as [| y l IH]; [discriminate |]. cbn [deleteOne find].
  destruct (N.eqb_spec (key y) gone) as [E | NE].
  - intros H. destruct (N.eqb (key y) id); [discriminate |]. rewrite H. discriminate.
  - cbn [find]. destruct (N.eqb (key y) id); [discriminate | exact IH].
Qed.

Lemma find_deleteOne_gone {A} (key : A -> Oid.t) gone l :
  NoDup (map key l) ->
  find (fun x => Oid.eqb (key x) gone) (deleteOne (fun x => Oid.eqb (key x) gone) l) = None.
Proof.
  unfold Oid.eqb. induction l as [| y l IH]; intros Hnd; [reflexivity |].
  cbn [deleteOne map] in *. inversion Hnd as [| ? ? Hnotin Hrest]; subst.
  destruct (N.eqb_spec (key y) gone) as [E | NE].
  - destruct (find _ l) as [z |] eqn:Ez; [| reflexivity].
    apply find_some in Ez. destruct Ez as [Hz Hk]. apply N.eqb_eq in Hk.
    exfalso. apply Hnotin. rewrite E, <- Hk. apply in_map. exact Hz.
  - cbn [find]. destruct (N.eqb_spec (key y) gone); [contradiction |].
    apply IH. exact Hrest.
Qed.

(** Cancelling sessions and removing profiles breaks no invariant: a
    pair that conflicts afterwards conflicted before. *)
Lemma coreInvariant_shrinks db db' :
  (forall s', In s' (sessions db') ->
              Session.active s' = true -> In s' (sessions db)) ->
  (forall id, Invariant.therapistStored db' id = true ->
              Invariant.therapistStored db id = true) ->
  (forall id, Invariant.clientStored db' id = true ->
              Invariant.clientStored db id = true) ->
  Invariant.coreInvariant db -> Invariant.coreInvariant db'.
Proof.
  intros Hs Ht Hc Hinv a b Ha Hb Hne.
  destruct (Invariant.conflicting db' a b) eqn:E; [| reflexivity].
  unfold Invariant.conflicting in E.
  rewrite !andb_true_iff in E. destruct E as [[[Aa Ab] Hp] Ho].
  specialize (Hinv a b (Hs a Ha Aa) (Hs b Hb Ab) Hne).
  unfold Invariant.conflicting in Hinv. rewrite Aa, Ab, Ho in Hinv.
  cbn [andb] in Hinv. rewrite andb_true_r in Hinv.
  unfold Invariant.sameParty in *. apply orb_true_iff in Hp.
  apply orb_false_iff in Hinv. destruct Hinv as [H1 H2].
  destruct Hp as [Hp | Hp]; apply andb_true_iff in Hp; destruct Hp as [Hp1 Hp2].
  - rewrite Hp1, (Ht _ Hp2) in H1. discriminate.
  - rewrite Hp1, (Hc _ Hp2) in H2. discriminate.
Qed.

End ProfileDeletionFacts.

(** X29. Deleting a client profile keeps the history and, by default, leaves
    no scheduled session behind.  When [deleteClientProfile] answers that
    the profile was deleted: no session is removed and none changes but
    in its status; unless the query said otherwise, every session of that
    client that was scheduled is cancelled, so that scheduled sessions
    name stored profiles as before and the core invariant holds as
    before; with [cancelSessions] off the sessions stay as they were.
    With unique client ids the profile is gone from the store. *)
Theorem deleteClientProfile_cancels_sessions req users db message id ud sc users' db' :
  AdminController.deleteClientProfile req users db
  = (AdminController.Deleted message id ud sc, users', db') ->
  AdminController.d_params req = Some id
  /\ sc = AdminController.flag (AdminController.d_cancelSessions req) "true"
  /\ Invariant.clientStored db id = true
  /\ therapists db' = therapists db
  /\ availability db' = availability db
  /\ map Session._id (sessions db') = map Session._id (sessions db)
  /\ (forall s', In s' (sessions db') ->
        In s' (sessions db)
        \/ exists s, In s (sessions db) /\ Session.client s = id
                     /\ Session.status s = scheduled
                     /\ s' = SessionLifecycle.withStatus s cancelled)
  /\ (sc = false -> sessions db' = sessions db)
  /\ (sc = true ->
      (forall s', In s' (sessions db') -> Session.client s' = id ->
                  Session.status s' <> scheduled)
      /\ (AdminController.scheduledResolve db -> AdminController.scheduledResolve db'))
  /\ (Invariant.coreInvariant db -> Invariant.coreInvariant db')
  /\ (NoDup (map Client._id (clients db)) -> Invariant.clientStored db' id = false).
Proof.
  unfold AdminController.deleteClientProfile.
  destruct (AdminController.d_params req) as [pid |]; [| discriminate].
  destruct (Mongo.findClientById pid (clients db)) as [c |] eqn:Ec; [| discriminate].
  cbv zeta. intros H. injection H as _ Hid _ Hsc _ Hdb.
  assert (Hcid : Client._id c = pid).
  { unfold Mongo.findClientById in Ec. apply find_some in Ec.
    apply N.eqb_eq. exact (proj2 Ec). }
  rewrite Hcid in *. subst id.
  set (flagOn := AdminController.flag (AdminController.d_cancelSessions req) "true") in *.
  assert (Hfrom : forall s', In s' (sessions db') ->
             In s' (sessions db)
             \/ exists s, In s (sessions db) /\ Session.client s = pid
                          /\ Session.status s = scheduled
                          /\ s' = SessionLifecycle.withStatus s cancelled).
  { intros s' Hin. subst db'. cbn [sessions] in Hin.
    destruct flagOn; [| left; exact Hin].
    destruct (cancelScheduled_In _ _ _ Hin) as (s & Hs & [[-> _] | (-> & Hm & Hst)]);
      [left; exact Hs | right].
    exists s. repeat split; try assumption. apply N.eqb_eq. exact Hm. }
  assert (Hclients : forall x, Invariant.clientStored db' x = true ->
                               Invariant.clientStored db x = true).
  { intros x. subst db'. unfold Invariant.clientStored, Mongo.findClientById.
    cbn [clients].
    destruct (find _ (AdminController.deleteOne _ _)) as [y |] eqn:Ey; [| discriminate].
    intros _. pose proof (find_deleteOne_some Client._id x pid (clients db) y Ey) as Hn.
    destruct (find _ (clients db)); [reflexivity | contradiction]. }
  split; [reflexivity |]. split; [symmetry; exact Hsc |].
  split; [unfold Invariant.clientStored; rewrite Ec; reflexivity |].
  split; [subst db'; reflexivity |]. split; [subst db'; reflexivity |].
  split; [subst db'; cbn [sessions]; destruct flagOn;
          [apply cancelScheduled_ids | reflexivity] |].
  split; [exact Hfrom |].
  split; [intros Hoff; rewrite <- Hsc in Hoff; subst db'; cbn [sessions];
          rewrite Hoff; reflexivity |].
  split; [| split].
  - intros Hon. rewrite <- Hsc in Hon. split.
    + intros s' Hin Hcl Hst. subst db'. cbn [sessions] in Hin. rewrite Hon in Hin.
      destruct (cancelScheduled_In _ _ _ Hin) as (s & Hs & [[-> [Hm | Hn]] | (-> & _ & _)]).
      * unfold Oid.eqb in Hm. rewrite Hcl, N.eqb_refl in Hm. discriminate.
      * contradiction.
      * discriminate.
    + intros Hres s' Hin Hst.
      assert (Hold : In s' (sessions db) /\ Session.client s' <> pid).
      { subst db'. cbn [sessions] in Hin. rewrite Hon in Hin.
        destruct (cancelScheduled_In _ _ _ Hin) as (s & Hs & [[-> [Hm | Hn]] | (-> & _ & _)]).
        - split; [exact Hs |]. intros E. unfold Oid.eqb in Hm.
          rewrite E, N.eqb_refl in Hm. discriminate.
        - contradiction.
        - discriminate. }
      destruct Hold as [Hold Hne].
      destruct (Hres s' Hold Hst) as [Ht Hc]. subst db'. split.
      * exact Ht.
      * unfold Invariant.clientStored, Mongo.findClientById in *. cbn [clients].
        rewrite (find_deleteOne_other Client._id _ pid (clients db) Hne). exact Hc.
  - apply coreInvariant_shrinks.
    + intros s' Hin Hact. destruct (Hfrom s' Hin) as [Hold | (s & _ & _ & _ & ->)];
        [exact Hold | discriminate].
    + intros x. subst db'. exact (fun H => H).
    + exact Hclients.
  - intros Hnd. subst db'. unfold Invariant.clientStored, Mongo.findClientById.
    cbn [clients]. rewrite (find_deleteOne_gone Client._id pid (clients db) Hnd).
    reflexivity.
Qed.

(** X30. Deleting a therapist profile, as for a client: the history stays;
    by default every scheduled session of that therapist is cancelled,
    so that scheduled sessions name stored profiles as before, and the
    core invariant holds as before; with [cancelSessions] off the
    sessions stay as they were. *)
Theorem deleteTherapistProfile_cancels_sessions
        userOf req users db message id ud sc users' db' :
  AdminController.deleteTherapistProfile userOf req users db
  = (AdminController.Deleted message id ud sc, users', db') ->
  AdminController.d_params req = Some id
  /\ sc = AdminController.flag (AdminController.d_cancelSessions req) "true"
  /\ Invariant.therapistStored db id = true
  /\ clients db' = clients db
  /\ availability db' = availability db
  /\ map Session._id (sessions db') = map Session._id (sessions db)
  /\ (forall s', In s' (sessions db') ->
        In s' (sessions db)
        \/ exists s, In s (sessions db) /\ Session.therapist s = id
                     /\ Session.status s = scheduled
                     /\ s' = SessionLifecycle.withStatus s cancelled)
  /\ (sc = false -> sessions db' = sessions db)
  /\ (sc = true ->
      (forall s', In s' (sessions db') -> Session.therapist s' = id ->
                  Session.status s' <> scheduled)
      /\ (AdminController.scheduledResolve db -> AdminController.scheduledResolve db'))
  /\ (Invariant.coreInvariant db -> Invariant.coreInvariant db')
  /\ (NoDup (map Therapist._id (therapists db)) -> Invariant.therapistStored db' id = false).
Proof.
  unfold AdminController.deleteTherapistProfile.
  destruct (AdminController.d_params req) as [pid |]; [| discriminate].
  destruct (Mongo.findTherapistById pid (therapists db)) as [t |] eqn:Et; [| discriminate].
  cbv zeta. intros H. injection H as _ Hid _ Hsc _ Hdb.
  assert (Htid : Therapist._id t = pid).
  { unfold Mongo.findTherapistById in Et. apply find_some in Et.
    apply N.eqb_eq. exact (proj2 Et). }
  rewrite Htid in *. subst id.
  set (flagOn := AdminController.flag (AdminController.d_cancelSessions req) "true") in *.
  assert (Hfrom : forall s', In s' (sessions db') ->
             In s' (sessions db)
             \/ exists s, In s (sessions db) /\ Session.therapist s = pid
                          /\ Session.status s = scheduled
                          /\ s' = SessionLifecycle.withStatus s cancelled).
  { intros s' Hin. subst db'. cbn [sessions] in Hin.
    destruct flagOn; [| left; exact Hin].
    destruct (cancelScheduled_In _ _ _ Hin) as (s & Hs & [[-> _] | (-> & Hm & Hst)]);
      [left; exact Hs | right].
    exists s. repeat split; try assumption. apply N.eqb_eq. exact Hm. }
  assert (Htherapists : forall x, Invariant.therapistStored db' x = true ->
                                  Invariant.therapistStored db x = true).
  { intros x. subst db'. unfold Invariant.therapistStored, Mongo.findTherapistById.
    cbn [therapists].
    destruct (find _ (AdminController.deleteOne _ _)) as [y |] eqn:Ey; [| discriminate].
    intros _. pose proof (find_deleteOne_some Therapist._id x pid (therapists db) y Ey) as Hn.
    destruct (find _ (therapists db)); [reflexivity | contradiction]. }
  split; [reflexivity |]. split; [symmetry; exact Hsc |].
  split; [unfold Invariant.therapistStored; rewrite Et; reflexivity |].
  split; [subst db'; reflexivity |]. split; [subst db'; reflexivity |].
  split; [subst db'; cbn [sessions]; destruct flagOn;
          [apply cancelScheduled_ids | reflexivity] |].
  split; [exact Hfrom |].
  split; [intros Hoff; rewrite <- Hsc in Hoff; subst db'; cbn [sessions];
          rewrite Hoff; reflexivity |].
  split; [| split].
  - intros Hon. rewrite <- Hsc in Hon. split.
    + intros s' Hin Hth Hst. subst db'. cbn [sessions] in Hin. rewrite Hon in Hin.
      destruct (cancelScheduled_In _ _ _ Hin) as (s & Hs & [[-> [Hm | Hn]] | (-> & _ & _)]).
      * unfold Oid.eqb in Hm. rewrite Hth, N.eqb_refl in Hm. discriminate.
      * contradiction.
      * discriminate.
    + intros Hres s' Hin Hst.
      assert (Hold : In s' (sessions db) /\ Session.therapist s' <> pid).
      { subst db'. cbn [sessions] in Hin. rewrite Hon in Hin.
        destruct (cancelScheduled_In _ _ _ Hin) as (s & Hs & [[-> [Hm | Hn]] | (-> & _ & _)]).
        - split; [exact Hs |]. intros E. unfold Oid.eqb in Hm.
          rewrite E, N.eqb_refl in Hm. discriminate.
        - contradiction.
        - discriminate. }
      destruct Hold as [Hold Hne].
      destruct (Hres s' Hold Hst) as [Ht Hc]. subst db'. split.
      * unfold Invariant.therapistStored, Mongo.findTherapistById in *. cbn [therapists].
        rewrite (find_deleteOne_other Therapist._id _ pid (therapists db) Hne). exact Ht.
      * exact Hc.
  - apply coreInvariant_shrinks.
    + intros s' Hin Hact. destruct (Hfrom s' Hin) as [Hold | (s & _ & _ & _ & ->)];
        [exact Hold | discriminate].
    + exact Htherapists.
    + intros x. subst db'. exact (fun H => H).
  - intros Hnd. subst db'. unfold Invariant.therapistStored, Mongo.findTherapistById.
    cbn [therapists]. rewrite (find_deleteOne_gone Therapist._id pid (therapists db) Hnd).
    reflexivity.
Qed.

(** [deleteClientProfile_cancels_sessions] when the profile of C1 is
    deleted after C1 booked Monday 09:00-10:00: the booking is kept,
    cancelled, and the profile is gone. *)
Lemma deleteClientProfile_cancels_sessions_witness :
  map Session._id
      (sessions (snd (AdminController.deleteClientProfile
                        Examples.deleteC1 Examples.accounts Scenario.db1)))
  = map Session._id (sessions Scenario.db1)
  /\ (forall s',
         In s' (sessions (snd (AdminController.deleteClientProfile
                                 Examples.deleteC1 Examples.accounts Scenario.db1))) ->
         Session.client s' = Scenario.clientC1 -> Session.status s' <> scheduled)
  /\ Invariant.clientStored
       (snd (AdminController.deleteClientProfile
               Examples.deleteC1 Examples.accounts Scenario.db1))
       Scenario.clientC1 = false.
Proof.
  assert (E : AdminController.deleteClientProfile
                Examples.deleteC1 Examples.accounts Scenario.db1
              = (AdminController.Deleted "Client profile deleted" Scenario.clientC1
                                         false true,
                 snd (fst (AdminController.deleteClientProfile
                             Examples.deleteC1 Examples.accounts Scenario.db1)),
                 snd (AdminController.deleteClientProfile
                        Examples.deleteC1 Examples.accounts Scenario.db1))).
  { vm_compute. reflexivity. }
  destruct (deleteClientProfile_cancels_sessions _ _ _ _ _ _ _ _ _ E)
    as (_ & _ & _ & _ & _ & Hids & _ & _ & Hon & _ & Hgone).
  split; [exact Hids |]. split.
  - exact (proj1 (Hon eq_refl)).
  - apply Hgone. vm_compute.
    constructor; [intros [H | []]; discriminate H |].
    constructor; [intros [] | constructor].
Defined.

(** [deleteTherapistProfile_cancels_sessions] when the profile of
    therapist A is deleted after C1 booked with A: the booking is kept,
    cancelled. *)
Lemma deleteTherapistProfile_cancels_sessions_witness :
  map Session._id
      (sessions (snd (AdminController.deleteTherapistProfile
                        Examples.noUserField Examples.deleteA Examples.accounts
                        Scenario.db1)))
  = map Session._id (sessions Scenario.db1)
  /\ (forall s',
         In s' (sessions (snd (AdminController.deleteTherapistProfile
                                 Examples.noUserField Examples.deleteA Examples.accounts
                                 Scenario.db1))) ->
         Session.therapist s' = Oid.cast Scenario.therapistA ->
         Session.status s' <> scheduled)
  /\ Invariant.therapistStored
       (snd (AdminController.deleteTherapistProfile
               Examples.noUserField Examples.deleteA Examples.accounts Scenario.db1))
       (Oid.cast Scenario.therapistA) = false.
Proof.
  assert (E : AdminController.deleteTherapistProfile
                Examples.noUserField Examples.deleteA Examples.accounts Scenario.db1
              = (AdminController.Deleted "Therapist profile deleted"
                                         (Oid.cast Scenario.therapistA) true true,
                 snd (fst (AdminController.deleteTherapistProfile
                             Examples.noUserField Examples.deleteA Examples.accounts
                             Scenario.db1)),
                 snd (AdminController.deleteTherapistProfile
                        Examples.noUserField Examples.deleteA Examples.accounts
                        Scenario.db1))).
  { vm_compute. reflexivity. }
  destruct (deleteTherapistProfile_cancels_sessions _ _ _ _ _ _ _ _ _ _ E)
    as (_ & _ & _ & _ & _ & Hids & _ & _ & Hon & _ & Hgone).
  split; [exact Hids |]. split.
  - exact (proj1 (Hon eq_refl)).
  - apply Hgone. vm_compute. constructor; [intros [] | constructor].
Defined.
